(** * Patient care system: a shallow embedding of the server and its checked properties

    The development follows the layout of the server sources:
    - [JS]            the few JavaScript string and number primitives the routes rely on;
    - [Number]        JavaScript numbers that need not be integers (IEEE 754 doubles);
    - [Database]      lib/database.ts (schema, [DatabaseService]);
    - [Auth]          lib/auth.ts ([AuthService], [authenticateToken], [requireRole]);
    - [AuthRoutes]    routes/auth.ts;
    - [Conversations] routes/conversations.ts;
    - [Attachments]   routes/attachments.ts;
    - [Analytics]     the range aggregate of lib/database.ts ([getAnalytics]);
    - [RocketChat]    lib/rocketchat-exporter.ts ([getAllMessagesFromRoom]);
    - [ImportRoutes]  routes/import.ts ([importConversations], [mapRole]);
    - [Sample]        a small store and a few requests to run the routes on.

    Promises are modelled by their outcome: a lookup returns its row (or
    [None] for [null]); a statement that can violate a constraint returns
    [None] when the promise rejects.  Everything the process obtains from
    outside (the bcrypt hash, the token library, the clock, the chat and blob
    services) is an explicit argument. *)

From Stdlib Require Import ZArith List String Ascii Bool Lia.
From Stdlib Require Import DecimalString Permutation Sorted.
From Stdlib Require Decimal DecimalPos DecimalZ SpecFloat.
Import ListNotations.

Open Scope string_scope.
Open Scope Z_scope.

(* ===================================================================== *)
(** * JavaScript primitives *)
(* ===================================================================== *)

Module JS.

(** [!s] for a value that is a string or [undefined]. *)
Definition falsy (s : option string) : bool :=
  match s with
  | None => true
  | Some s => String.eqb s ""
  end.

(** [!n] for a value that is a number or [undefined] (NaN does not occur:
    the ids come from JSON bodies or from the store). *)
Definition falsy_num (n : option Z) : bool :=
  match n with
  | None => true
  | Some n => n =? 0
  end.

Definition code (c : ascii) : N := N_of_ascii c.

(** [Number.prototype.toString] on an integer. *)
Definition toString (n : Z) : string := NilZero.string_of_int (Z.to_int n).

(** [String.prototype.includes]. *)
Fixpoint includes (hay needle : string) : bool :=
  String.prefix needle hay ||
  match hay with
  | EmptyString => false
  | String _ rest => includes rest needle
  end.

(** [String.prototype.toLowerCase] on code units below 256: the Basic
    Latin capitals and the Latin-1 capitals (all but the multiplication
    sign) move up by 32. *)
Definition lower_char (c : ascii) : ascii :=
  let n := code c in
  if ((65 <=? n) && (n <=? 90))%N then ascii_of_N (n + 32)
  else if ((192 <=? n) && (n <=? 222) && negb (n =? 215))%N then ascii_of_N (n + 32)
  else c.

Fixpoint toLowerCase (s : string) : string :=
  match s with
  | EmptyString => EmptyString
  | String c rest => String (lower_char c) (toLowerCase rest)
  end.

(** [s.split(sep)] for a one-character separator. *)
Fixpoint split (sep : ascii) (s : string) : list string :=
  match s with
  | EmptyString => [EmptyString]
  | String c rest =>
      if Ascii.eqb c sep then EmptyString :: split sep rest
      else match split sep rest with
           | [] => [String c EmptyString]
           | w :: ws => String c w :: ws
           end
  end.

(** No space in [s]: the shape of a compact token, which is made of
    base64url characters and dots. *)
Fixpoint no_space (s : string) : bool :=
  match s with
  | EmptyString => true
  | String c rest => negb (Ascii.eqb c " ") && no_space rest
  end.

(** The class [\s] on code units below 256. *)
Definition is_space (c : ascii) : bool :=
  let n := code c in
  ((9 <=? n) && (n <=? 13) || (n =? 32) || (n =? 160))%N.

(** ** Regular expressions, matched by derivatives.  Only what
    [/^...$/.test] needs: the whole input has to match. *)
Inductive regex : Type :=
| Empty                                   (* matches nothing *)
| Eps                                     (* matches the empty string *)
| Class (p : ascii -> bool)               (* one character of a class *)
| Seq (r1 r2 : regex)
| Alt (r1 r2 : regex)
| Star (r : regex).

Definition Plus (r : regex) : regex := Seq r (Star r).
Definition Lit (c : ascii) : regex := Class (Ascii.eqb c).

Fixpoint nullable (r : regex) : bool :=
  match r with
  | Empty => false
  | Eps => true
  | Class _ => false
  | Seq r1 r2 => nullable r1 && nullable r2
  | Alt r1 r2 => nullable r1 || nullable r2
  | Star _ => true
  end.

Fixpoint deriv (c : ascii) (r : regex) : regex :=
  match r with
  | Empty => Empty
  | Eps => Empty
  | Class p => if p c then Eps else Empty
  | Seq r1 r2 =>
      if nullable r1 then Alt (Seq (deriv c r1) r2) (deriv c r2)
      else Seq (deriv c r1) r2
  | Alt r1 r2 => Alt (deriv c r1) (deriv c r2)
  | Star r1 => Seq (deriv c r1) (Star r1)
  end.

Fixpoint test (r : regex) (s : string) : bool :=
  match s with
  | EmptyString => nullable r
  | String c rest => test (deriv c r) rest
  end.

(** What it is for a string to match a regular expression. *)
Inductive matches : regex -> string -> Prop :=
| matches_eps : matches Eps ""
| matches_class (p : ascii -> bool) (c : ascii) :
    p c = true -> matches (Class p) (String c "")
| matches_seq (r1 r2 : regex) (s1 s2 : string) :
    matches r1 s1 -> matches r2 s2 -> matches (Seq r1 r2) (s1 ++ s2)
| matches_alt_l (r1 r2 : regex) (s : string) : matches r1 s -> matches (Alt r1 r2) s
| matches_alt_r (r1 r2 : regex) (s : string) : matches r2 s -> matches (Alt r1 r2) s
| matches_star_nil (r : regex) : matches (Star r) ""
| matches_star_cons (r : regex) (s1 s2 : string) :
    matches r s1 -> matches (Star r) s2 -> matches (Star r) (s1 ++ s2).

(** Every character of [s] is in the class [p]. *)
Fixpoint all_chars (p : ascii -> bool) (s : string) : bool :=
  match s with
  | EmptyString => true
  | String c rest => p c && all_chars p rest
  end.

End JS.

(** ** Numbers that need not be integers: the IEEE 754 binary64 values,
    with the operations of the standard library's specification of
    floating-point arithmetic (rounding to nearest, ties to even). *)
Module Number.

Definition t : Type := SpecFloat.spec_float.

Definition prec : Z := 53.
Definition emax : Z := 1024.

(** An integer as a number: the nearest double. *)
Definition of_int (n : Z) : t := SpecFloat.binary_normalize prec emax n 0 false.

Definition add (x y : t) : t := SpecFloat.SFadd prec emax x y.
Definition mul (x y : t) : t := SpecFloat.SFmul prec emax x y.
Definition div (x y : t) : t := SpecFloat.SFdiv prec emax x y.

(** [Math.round]: the nearest integer, a half going up; a number that is
    an integer, a zero, an infinity or NaN is returned as it is, and a
    negative number that rounds to zero gives [-0]. *)
Definition round (x : t) : t :=
  match x with
  | SpecFloat.S754_finite s m e =>
      if 0 <=? e then x
      else
        let n := (2 * SpecFloat.cond_Zopp s (Zpos m) + 2 ^ (- e)) / (2 * 2 ^ (- e)) in
        if n =? 0 then SpecFloat.S754_zero s else of_int n
  | _ => x
  end.

End Number.

(* ===================================================================== *)
(** * lib/database.ts *)
(* ===================================================================== *)

Inductive UserRole : Type := PATIENT | DOCTOR | ADMIN | QUALITY.

Inductive ConversationType : Type := ONE_TO_ONE | ONE_TO_MANY.

Inductive ConversationStatus : Type := ACTIVE | READ_ONLY | ARCHIVED.

Module UserRole_.
Definition eqb (a b : UserRole) : bool :=
  match a, b with
  | PATIENT, PATIENT | DOCTOR, DOCTOR | ADMIN, ADMIN | QUALITY, QUALITY => true
  | _, _ => false
  end.

(** The string value of each member of the enum. *)
Definition value (r : UserRole) : string :=
  match r with
  | PATIENT => "patient"
  | DOCTOR => "doctor"
  | ADMIN => "admin"
  | QUALITY => "quality"
  end.

(** [Object.values(UserRole)]. *)
Definition values : list UserRole := [PATIENT; DOCTOR; ADMIN; QUALITY].

(** The member a string denotes, when [Object.values(UserRole).includes]
    accepts it. *)
Definition of_string (s : string) : option UserRole :=
  find (fun r => String.eqb (value r) s) values.
End UserRole_.

Module ConversationType_.
Definition eqb (a b : ConversationType) : bool :=
  match a, b with
  | ONE_TO_ONE, ONE_TO_ONE | ONE_TO_MANY, ONE_TO_MANY => true
  | _, _ => false
  end.

Definition value (t : ConversationType) : string :=
  match t with
  | ONE_TO_ONE => "1to1"
  | ONE_TO_MANY => "1toN"
  end.

Definition values : list ConversationType := [ONE_TO_ONE; ONE_TO_MANY].

Definition of_string (s : string) : option ConversationType :=
  find (fun t => String.eqb (value t) s) values.
End ConversationType_.

Module ConversationStatus_.
Definition eqb (a b : ConversationStatus) : bool :=
  match a, b with
  | ACTIVE, ACTIVE | READ_ONLY, READ_ONLY | ARCHIVED, ARCHIVED => true
  | _, _ => false
  end.

Definition value (s : ConversationStatus) : string :=
  match s with
  | ACTIVE => "active"
  | READ_ONLY => "readonly"
  | ARCHIVED => "archived"
  end.

Definition values : list ConversationStatus := [ACTIVE; READ_ONLY; ARCHIVED].

Definition of_string (s : string) : option ConversationStatus :=
  find (fun t => String.eqb (value t) s) values.
End ConversationStatus_.

Module User.
Record t : Type := mk {
  id : Z;
  email : string;
  password_hash : string;
  role : UserRole;
  display_name : string;
  created_at : string
}.
End User.

Module Conversation.
Record t : Type := mk {
  id : Z;
  title : string;
  type : ConversationType;
  creator_id : Z;
  status : ConversationStatus;
  thread_id : string;
  created_at : string;
  assigned_doctor_id : option Z
}.
End Conversation.

(** A row of [conversation_participants]. *)
Module Participant.
Record t : Type := mk {
  id : Z;
  conversation_id : Z;
  user_id : Z;
  joined_at : string
}.
End Participant.

(** A row of [conversation_metadata]. *)
Module Metadata.
Record t : Type := mk {
  id : Z;
  conversation_id : Z;
  key : string;
  value : string
}.
End Metadata.

Module Attachment.
Record t : Type := mk {
  id : Z;
  conversation_id : Z;
  uploader_id : Z;
  original_filename : string;
  stored_filename : string;
  file_size : Z;
  file_type : string;
  blob_url : string;
  container_name : string;
  created_at : string
}.
End Attachment.

(** The five tables, each in row order, and the [sqlite_sequence] entry that
    [AUTOINCREMENT] keeps per table (the largest row id ever handed out). *)
Module DB.
Record t : Type := mk {
  users : list User.t;
  conversations : list Conversation.t;
  conversation_participants : list Participant.t;
  conversation_metadata : list Metadata.t;
  attachments : list Attachment.t;
  seq_users : Z;
  seq_conversations : Z;
  seq_participants : Z;
  seq_metadata : Z;
  seq_attachments : Z
}.

Definition empty : t := mk [] [] [] [] [] 0 0 0 0 0.
End DB.

Module Database.

Definition max_id {A : Type} (id : A -> Z) (rows : list A) : Z :=
  fold_right (fun r m => Z.max (id r) m) 0 rows.

(** The row id [AUTOINCREMENT] picks: one more than the largest id the
    table has ever held. *)
Definition next_rowid {A : Type} (id : A -> Z) (seq : Z) (rows : list A) : Z :=
  Z.max seq (max_id id rows) + 1.

(** ** Users *)

Definition getUserByEmail (db : DB.t) (email : option string) : option User.t :=
  match email with
  | None => None   (* [email = NULL] selects no row *)
  | Some e => find (fun u => String.eqb (User.email u) e) (DB.users db)
  end.

Definition getUserById (db : DB.t) (id : Z) : option User.t :=
  find (fun u => User.id u =? id) (DB.users db).

(** [INSERT INTO users]: rejected when [email] or [display_name] is NULL or
    the email is already there ([email TEXT UNIQUE NOT NULL]).  [hashSync]
    stands for [bcrypt.hashSync(_, 10)], [now] for [CURRENT_TIMESTAMP]. *)
Definition createUser (hashSync : string -> string) (now : string) (db : DB.t)
    (email : option string) (password : string) (role : UserRole)
    (displayName : option string) : option (Z * DB.t) :=
  match email, displayName with
  | Some e, Some d =>
      match getUserByEmail db (Some e) with
      | Some _ => None
      | None =>
          let id := next_rowid User.id (DB.seq_users db) (DB.users db) in
          let row := User.mk id e (hashSync password) role d now in
          Some (id,
                DB.mk (DB.users db ++ [row]) (DB.conversations db)
                      (DB.conversation_participants db) (DB.conversation_metadata db)
                      (DB.attachments db)
                      id (DB.seq_conversations db) (DB.seq_participants db)
                      (DB.seq_metadata db) (DB.seq_attachments db))
      end
  | _, _ => None
  end.

(** ** Conversations *)

Definition getConversationById (db : DB.t) (id : Z) : option Conversation.t :=
  find (fun c => Conversation.id c =? id) (DB.conversations db).

(** [INSERT INTO conversations]: rejected when the thread id is already
    used ([thread_id TEXT UNIQUE NOT NULL]); the status takes its default. *)
Definition createConversation (now : string) (db : DB.t) (title : string)
    (type : ConversationType) (creatorId : Z) (threadId : string)
    (assignedDoctorId : option Z) : option (Z * DB.t) :=
  if existsb (fun c => String.eqb (Conversation.thread_id c) threadId) (DB.conversations db)
  then None
  else
    let id := next_rowid Conversation.id (DB.seq_conversations db) (DB.conversations db) in
    let row := Conversation.mk id title type creatorId ACTIVE threadId now assignedDoctorId in
    Some (id,
          DB.mk (DB.users db) (DB.conversations db ++ [row])
                (DB.conversation_participants db) (DB.conversation_metadata db)
                (DB.attachments db)
                (DB.seq_users db) id (DB.seq_participants db)
                (DB.seq_metadata db) (DB.seq_attachments db)).

Definition is_participant (db : DB.t) (conversationId userId : Z) : bool :=
  existsb (fun p => (Participant.conversation_id p =? conversationId)
                    && (Participant.user_id p =? userId))
          (DB.conversation_participants db).

Definition insert_participant (now : string) (db : DB.t) (conversationId userId : Z) : DB.t :=
  let id := next_rowid Participant.id (DB.seq_participants db)
                       (DB.conversation_participants db) in
  DB.mk (DB.users db) (DB.conversations db)
        (DB.conversation_participants db ++ [Participant.mk id conversationId userId now])
        (DB.conversation_metadata db) (DB.attachments db)
        (DB.seq_users db) (DB.seq_conversations db) id
        (DB.seq_metadata db) (DB.seq_attachments db).

(** [INSERT OR IGNORE]: a pair that is already there is left alone. *)
Definition addParticipantToConversation (now : string) (db : DB.t)
    (conversationId userId : Z) : DB.t :=
  if is_participant db conversationId userId then db
  else insert_participant now db conversationId userId.

(** Plain [INSERT]: rejected on [UNIQUE(conversation_id, user_id)]. *)
Definition addConversationParticipant (now : string) (db : DB.t)
    (conversationId userId : Z) : option DB.t :=
  if is_participant db conversationId userId then None
  else Some (insert_participant now db conversationId userId).

(** [SELECT u.* FROM users u JOIN conversation_participants cp ON u.id =
    cp.user_id WHERE cp.conversation_id = ?]. *)
Definition getConversationParticipants (db : DB.t) (conversationId : Z) : list User.t :=
  flat_map
    (fun u =>
       map (fun _ => u)
           (filter (fun p => (Participant.user_id p =? User.id u)
                             && (Participant.conversation_id p =? conversationId))
                   (DB.conversation_participants db)))
    (DB.users db).

Definition addConversationMetadata (db : DB.t) (conversationId : Z)
    (key value : string) : DB.t :=
  let id := next_rowid Metadata.id (DB.seq_metadata db) (DB.conversation_metadata db) in
  DB.mk (DB.users db) (DB.conversations db) (DB.conversation_participants db)
        (DB.conversation_metadata db ++ [Metadata.mk id conversationId key value])
        (DB.attachments db)
        (DB.seq_users db) (DB.seq_conversations db) (DB.seq_participants db)
        id (DB.seq_attachments db).

Definition createAttachment (now : string) (db : DB.t) (conversationId uploaderId : Z)
    (originalFilename storedFilename : string) (fileSize : Z)
    (fileType blobUrl containerName : string) : Z * DB.t :=
  let id := next_rowid Attachment.id (DB.seq_attachments db) (DB.attachments db) in
  let row := Attachment.mk id conversationId uploaderId originalFilename storedFilename
                           fileSize fileType blobUrl containerName now in
  (id,
   DB.mk (DB.users db) (DB.conversations db) (DB.conversation_participants db)
         (DB.conversation_metadata db) (DB.attachments db ++ [row])
         (DB.seq_users db) (DB.seq_conversations db) (DB.seq_participants db)
         (DB.seq_metadata db) id).

(** ** Listings *)

(** [ORDER BY ... DESC] on a text column; rows with equal keys, whose order
    SQLite does not fix, are kept in their table order. *)
Fixpoint insert_desc {A : Type} (key : A -> string) (x : A) (l : list A) : list A :=
  match l with
  | [] => [x]
  | y :: l' => if String.leb (key y) (key x) then x :: l else y :: insert_desc key x l'
  end.

Definition order_by_desc {A : Type} (key : A -> string) (rows : list A) : list A :=
  fold_right (insert_desc key) [] rows.

Definition has_participant_row (db : DB.t) (c : Conversation.t) (userId : Z) : bool :=
  is_participant db (Conversation.id c) userId.

(** [SELECT DISTINCT c.* FROM conversations c LEFT JOIN
    conversation_participants cp ON c.id = cp.conversation_id WHERE
    c.creator_id = ? OR cp.user_id = ? ORDER BY c.created_at DESC]. *)
Definition getConversationsByUserId (db : DB.t) (userId : Z) : list Conversation.t :=
  order_by_desc Conversation.created_at
    (filter (fun c => (Conversation.creator_id c =? userId) || has_participant_row db c userId)
            (DB.conversations db)).

Definition opt_eqb (o : option Z) (n : Z) : bool :=
  match o with
  | Some m => m =? n
  | None => false
  end.

Definition is_null {A : Type} (o : option A) : bool :=
  match o with
  | Some _ => false
  | None => true
  end.

(** [... WHERE (c.type = '1toN' AND c.assigned_doctor_id IS NULL) OR
    c.assigned_doctor_id = ? OR cp.user_id = ? ORDER BY c.created_at DESC]. *)
Definition getConversationsForDoctor (db : DB.t) (doctorId : Z) : list Conversation.t :=
  order_by_desc Conversation.created_at
    (filter (fun c =>
               (ConversationType_.eqb (Conversation.type c) ONE_TO_MANY
                && is_null (Conversation.assigned_doctor_id c))
               || opt_eqb (Conversation.assigned_doctor_id c) doctorId
               || has_participant_row db c doctorId)
            (DB.conversations db)).

Definition getAllConversations (db : DB.t) : list Conversation.t :=
  order_by_desc Conversation.created_at (DB.conversations db).

(** ** Deleting a conversation: the four statements of
    [deleteConversation], which [db.serialize] runs one after the other. *)
Inductive Statement : Type :=
| DELETE_conversation_participants (conversation_id : Z)
| DELETE_conversation_metadata (conversation_id : Z)
| DELETE_attachments (conversation_id : Z)
| DELETE_conversations (id : Z).

Definition run (db : DB.t) (s : Statement) : DB.t :=
  match s with
  | DELETE_conversation_participants cid =>
      DB.mk (DB.users db) (DB.conversations db)
            (filter (fun p => negb (Participant.conversation_id p =? cid))
                    (DB.conversation_participants db))
            (DB.conversation_metadata db) (DB.attachments db)
            (DB.seq_users db) (DB.seq_conversations db) (DB.seq_participants db)
            (DB.seq_metadata db) (DB.seq_attachments db)
  | DELETE_conversation_metadata cid =>
      DB.mk (DB.users db) (DB.conversations db) (DB.conversation_participants db)
            (filter (fun m => negb (Metadata.conversation_id m =? cid))
                    (DB.conversation_metadata db))
            (DB.attachments db)
            (DB.seq_users db) (DB.seq_conversations db) (DB.seq_participants db)
            (DB.seq_metadata db) (DB.seq_attachments db)
  | DELETE_attachments cid =>
      DB.mk (DB.users db) (DB.conversations db) (DB.conversation_participants db)
            (DB.conversation_metadata db)
            (filter (fun a => negb (Attachment.conversation_id a =? cid))
                    (DB.attachments db))
            (DB.seq_users db) (DB.seq_conversations db) (DB.seq_participants db)
            (DB.seq_metadata db) (DB.seq_attachments db)
  | DELETE_conversations id =>
      DB.mk (DB.users db)
            (filter (fun c => negb (Conversation.id c =? id)) (DB.conversations db))
            (DB.conversation_participants db) (DB.conversation_metadata db)
            (DB.attachments db)
            (DB.seq_users db) (DB.seq_conversations db) (DB.seq_participants db)
            (DB.seq_metadata db) (DB.seq_attachments db)
  end.

Definition deleteConversation_statements (id : Z) : list Statement :=
  [ DELETE_conversation_participants id;
    DELETE_conversation_metadata id;
    DELETE_attachments id;
    DELETE_conversations id ].

Definition deleteConversation (db : DB.t) (id : Z) : DB.t :=
  fold_left run (deleteConversation_statements id) db.

(** ** The other statements of [DatabaseService] *)

(** [ORDER BY ... ASC] on a text column; rows with equal keys are kept in
    their table order. *)
Fixpoint insert_asc {A : Type} (key : A -> string) (x : A) (l : list A) : list A :=
  match l with
  | [] => [x]
  | y :: l' => if String.leb (key x) (key y) then x :: l else y :: insert_asc key x l'
  end.

Definition order_by_asc {A : Type} (key : A -> string) (rows : list A) : list A :=
  fold_right (insert_asc key) [] rows.

(** [SELECT * FROM users WHERE role = ? ORDER BY display_name]. *)
Definition getUsersByRole (db : DB.t) (role : UserRole) : list User.t :=
  order_by_asc User.display_name
    (filter (fun u => UserRole_.eqb (User.role u) role) (DB.users db)).

(** [bcrypt.compareSync] is an argument. *)
Definition validatePassword (compareSync : string -> string -> bool)
    (plainPassword hashedPassword : string) : bool :=
  compareSync plainPassword hashedPassword.

(** [UPDATE conversations SET status = ? WHERE id = ?]. *)
Definition updateConversationStatus (db : DB.t) (id : Z) (status : ConversationStatus) : DB.t :=
  DB.mk (DB.users db)
        (map (fun c =>
                if Conversation.id c =? id
                then Conversation.mk (Conversation.id c) (Conversation.title c)
                       (Conversation.type c) (Conversation.creator_id c) status
                       (Conversation.thread_id c) (Conversation.created_at c)
                       (Conversation.assigned_doctor_id c)
                else c)
             (DB.conversations db))
        (DB.conversation_participants db) (DB.conversation_metadata db)
        (DB.attachments db)
        (DB.seq_users db) (DB.seq_conversations db) (DB.seq_participants db)
        (DB.seq_metadata db) (DB.seq_attachments db).

(** [SELECT a.*, u.display_name as uploader_name FROM attachments a JOIN
    users u ON a.uploader_id = u.id WHERE a.conversation_id = ? ORDER BY
    a.created_at ASC]: each row with the name of its uploader. *)
Definition getAttachmentsByConversationId (db : DB.t) (conversationId : Z)
  : list (Attachment.t * string) :=
  order_by_asc (fun row => Attachment.created_at (fst row))
    (flat_map
       (fun a =>
          map (fun u => (a, User.display_name u))
              (filter (fun u => User.id u =? Attachment.uploader_id a) (DB.users db)))
       (filter (fun a => Attachment.conversation_id a =? conversationId)
               (DB.attachments db))).

Definition getAttachmentById (db : DB.t) (id : Z) : option Attachment.t :=
  find (fun a => Attachment.id a =? id) (DB.attachments db).

(** [DELETE FROM attachments WHERE id = ?]. *)
Definition deleteAttachment (db : DB.t) (id : Z) : DB.t :=
  DB.mk (DB.users db) (DB.conversations db) (DB.conversation_participants db)
        (DB.conversation_metadata db)
        (filter (fun a => negb (Attachment.id a =? id)) (DB.attachments db))
        (DB.seq_users db) (DB.seq_conversations db) (DB.seq_participants db)
        (DB.seq_metadata db) (DB.seq_attachments db).

(** The two default accounts of [initializeDatabase], on a store whose
    tables exist.  Each is looked up by email and inserted when it is
    missing, the quality account after the administrator; [None] is
    [reject(err)].  The [INSERT] is the one of [createUser], with the
    hash of the default password. *)
Definition ensure_user (hashSync : string -> string) (now : string) (db : DB.t)
    (email password : string) (role : UserRole) (displayName : string) : option DB.t :=
  match getUserByEmail db (Some email) with
  | Some _ => Some db
  | None =>
      match createUser hashSync now db (Some email) password role (Some displayName) with
      | Some (_, db') => Some db'
      | None => None
      end
  end.

Definition initializeDatabase (hashSync : string -> string) (nowAdmin nowQuality : string)
    (db : DB.t) : option DB.t :=
  match ensure_user hashSync nowAdmin db "admin@example.com" "admin123" ADMIN
          "System Administrator" with
  | None => None
  | Some db1 =>
      ensure_user hashSync nowQuality db1 "quality@example.com" "quality123" QUALITY
        "Quality Assurance"
  end.

(** ** The constraints of the schema that the properties below rely on:
    the primary keys of users and conversations. *)
Definition unique_user_ids (db : DB.t) : Prop := NoDup (map User.id (DB.users db)).

Definition unique_conversation_ids (db : DB.t) : Prop :=
  NoDup (map Conversation.id (DB.conversations db)).

(** [UNIQUE(conversation_id, user_id)] on [conversation_participants]. *)
Definition unique_participants (db : DB.t) : Prop :=
  NoDup (map (fun p => (Participant.conversation_id p, Participant.user_id p))
             (DB.conversation_participants db)).

End Database.

(* ===================================================================== *)
(** * HTTP responses *)
(* ===================================================================== *)

(** The JSON bodies the routes send: the bare [{ message }] of the
    middlewares, [{ success: false, message }], and [{ success: true, ... }]
    with the payload of the route; and the HTML page with which Express
    answers an error that no middleware has taken (its text is not
    modelled). *)
Inductive Body (A : Type) : Type :=
| Message (message : string)
| Failure (message : string)
| Success (payload : A)
| ErrorPage.

Arguments Message {A} message.
Arguments Failure {A} message.
Arguments Success {A} payload.
Arguments ErrorPage {A}.

Record Response (A : Type) : Type := respond {
  status : Z;
  body : Body A
}.

Arguments respond {A} status body.
Arguments status {A} r.
Arguments body {A} r.

(** The answer to an error that a middleware passes to [next]: neither
    the routers nor app.ts install an error middleware, so the final handler
    of Express answers, with the status the error carries and 500 for an
    error that carries none. *)
Definition unhandled {A : Type} : Response A := respond 500 ErrorPage.

(* ===================================================================== *)
(** * lib/auth.ts *)
(* ===================================================================== *)

(** The payload [generateToken] signs and [verifyToken] gives back. *)
Module Claims.
Record t : Type := mk {
  id : Z;
  email : string;
  role : UserRole;
  display_name : string
}.
End Claims.

(** The public fields of a user, as login and registration return them. *)
Module PublicUser.
Record t : Type := mk {
  id : Z;
  email : string;
  role : UserRole;
  display_name : string
}.

Definition of_user (u : User.t) : t :=
  mk (User.id u) (User.email u) (User.role u) (User.display_name u).
End PublicUser.

Module Auth.

(** [jwt.verify(token, JWT_SECRET)]: the claims of a token with a good
    signature that has not expired, [None] when the library throws. *)
Definition Verifier : Type := string -> option Claims.t.

Definition verifyToken (jwt_verify : Verifier) (token : string) : option Claims.t :=
  jwt_verify token.

(** [authHeader && authHeader.split(' ')[1]]. *)
Definition bearer_token (authHeader : option string) : option string :=
  match authHeader with
  | None => None
  | Some h => if String.eqb h "" then Some "" else nth_error (JS.split " " h) 1
  end.

(** [AuthService.register]. *)
Definition register (hashSync : string -> string) (now : string) (db : DB.t)
    (email password : string) (role : UserRole) (displayName : string)
  : Body PublicUser.t * DB.t :=
  match Database.getUserByEmail db (Some email) with
  | Some _ => (Failure "User already exists", db)
  | None =>
      match Database.createUser hashSync now db (Some email) password role (Some displayName) with
      | None => (Failure "Registration failed", db)
      | Some (userId, db') =>
          match Database.getUserById db' userId with
          | None => (Failure "Failed to create user", db')
          | Some user => (Success (PublicUser.of_user user), db')
          end
      end
  end.

(** What a middleware sends when it does not call [next()]:
    [res.status(status).json({ message })]. *)
Record Refusal : Type := refuse {
  refusal_status : Z;
  refusal_message : string
}.

Definition send {A : Type} (r : Refusal) : Response A :=
  respond (refusal_status r) (Message (refusal_message r)).

(** The middleware either answers itself or calls [next()] with
    [req.user] set. *)
Definition authenticateToken (jwt_verify : Verifier) (db : DB.t)
    (authHeader : option string) : User.t + Refusal :=
  let token := bearer_token authHeader in
  if JS.falsy token then inr (refuse 401 "Access token required")
  else
    match token with
    | None => inr (refuse 401 "Access token required")
    | Some token =>
        match verifyToken jwt_verify token with
        | None => inr (refuse 403 "Invalid token")
        | Some decoded =>
            match Database.getUserById db (Claims.id decoded) with
            | None => inr (refuse 401 "User not found")
            | Some user => inl user
            end
        end
    end.

(** [requireRole(roles)]: [None] is [next()]. *)
Definition requireRole (roles : list UserRole) (reqUser : option User.t) : option Refusal :=
  match reqUser with
  | None => Some (refuse 401 "Authentication required")
  | Some user =>
      if existsb (UserRole_.eqb (User.role user)) roles then None
      else Some (refuse 403 "Insufficient permissions")
  end.

Definition requirePatient := requireRole [PATIENT].
Definition requireDoctorOrAdmin := requireRole [DOCTOR; ADMIN].
Definition requireAnyRole := requireRole [PATIENT; DOCTOR; ADMIN; QUALITY].

(** [router.method(path, authenticateToken, gate, handler)]: the state of
    the store changes only in the handler. *)
Definition guarded {A : Type} (jwt_verify : Verifier)
    (gate : option User.t -> option Refusal) (db : DB.t)
    (authHeader : option string) (handler : User.t -> Response A * DB.t)
  : Response A * DB.t :=
  match authenticateToken jwt_verify db authHeader with
  | inr r => (send r, db)
  | inl user =>
      match gate (Some user) with
      | Some r => (send r, db)
      | None => handler user
      end
  end.

(** ** Logging in *)

(** [jwt.sign(payload, JWT_SECRET, { expiresIn })] at the moment of the
    call. *)
Definition Signer : Type := Claims.t -> string.

Definition generateToken (jwt_sign : Signer) (user : User.t) : string :=
  jwt_sign (Claims.mk (User.id user) (User.email user) (User.role user)
                      (User.display_name user)).

(** [AuthService.login]: the token and the public fields of the user. *)
Definition login (compareSync : string -> string -> bool) (jwt_sign : Signer) (db : DB.t)
    (email password : string) : Body (string * PublicUser.t) :=
  match Database.getUserByEmail db (Some email) with
  | None => Failure "User not found"
  | Some user =>
      if negb (Database.validatePassword compareSync password (User.password_hash user))
      then Failure "Invalid password"
      else Success (generateToken jwt_sign user, PublicUser.of_user user)
  end.

Definition requireDoctor := requireRole [DOCTOR].
Definition requireAdmin := requireRole [ADMIN].
Definition requireQuality := requireRole [QUALITY].
Definition requireAdminOrQuality := requireRole [ADMIN; QUALITY].

End Auth.

(* ===================================================================== *)
(** * routes/auth.ts *)
(* ===================================================================== *)

Module RegisterRequest.
Record t : Type := mk {
  email : option string;
  password : option string;
  role : option string;
  display_name : option string
}.
End RegisterRequest.

Module AuthRoutes.

Definition str (s : option string) : string :=
  match s with
  | Some s => s
  | None => ""
  end.

(** [[^\s@]]. *)
Definition not_space_or_at : JS.regex :=
  JS.Class (fun c => negb (JS.is_space c || Ascii.eqb c "@")).

(** [/^[^\s@]+@[^\s@]+\.[^\s@]+$/]. *)
Definition emailRegex : JS.regex :=
  JS.Seq (JS.Plus not_space_or_at)
    (JS.Seq (JS.Lit "@")
       (JS.Seq (JS.Plus not_space_or_at)
          (JS.Seq (JS.Lit ".") (JS.Plus not_space_or_at)))).

(** The strings the pattern describes: [local@domain.tld], each of the
three parts non-empty and free of white space and of [@]. *)
Definition plain (w : string) : Prop :=
  w <> "" /\ JS.all_chars (fun c => negb (JS.is_space c || Ascii.eqb c "@")) w = true.

Definition email_shaped (s : string) : Prop :=
  exists local domain tld : string,
    s = local ++ "@" ++ domain ++ "." ++ tld
    /\ plain local /\ plain domain /\ plain tld.

(** [POST /auth/register]. *)
Definition POST_register (hashSync : string -> string) (now : string) (db : DB.t)
    (req : RegisterRequest.t) : Response PublicUser.t * DB.t :=
  let email := RegisterRequest.email req in
  let password := RegisterRequest.password req in
  let role := RegisterRequest.role req in
  let display_name := RegisterRequest.display_name req in
  if JS.falsy email || JS.falsy password || JS.falsy role || JS.falsy display_name
  then (respond 400 (Failure "All fields are required"), db)
  else
    match UserRole_.of_string (str role) with
    | None => (respond 400 (Failure "Invalid role"), db)
    | Some role =>
        if negb (JS.test emailRegex (str email))
        then (respond 400 (Failure "Invalid email format"), db)
        else if Z.of_nat (String.length (str password)) <? 6
        then (respond 400 (Failure "Password must be at least 6 characters long"), db)
        else
          let (result, db') :=
            Auth.register hashSync now db (str email) (str password) role (str display_name) in
          match result with
          | Success _ => (respond 201 result, db')
          | _ => (respond 400 result, db')
          end
    end.

(** [GET /auth/verify]: the store is not an argument. *)
Definition GET_verify (jwt_verify : Auth.Verifier) (authHeader : option string)
  : Response Claims.t :=
  let token := Auth.bearer_token authHeader in
  if JS.falsy token then respond 401 (Failure "No token provided")
  else
    match Auth.verifyToken jwt_verify (str token) with
    | None => respond 401 (Failure "Invalid token")
    | Some decoded =>
        respond 200
          (Success (Claims.mk (Claims.id decoded) (Claims.email decoded)
                              (Claims.role decoded) (Claims.display_name decoded)))
    end.

(** [POST /auth/login]. *)
Definition POST_login (compareSync : string -> string -> bool) (jwt_sign : Auth.Signer)
    (db : DB.t) (email password : option string) : Response (string * PublicUser.t) :=
  if JS.falsy email || JS.falsy password
  then respond 400 (Failure "Email and password are required")
  else
    let result := Auth.login compareSync jwt_sign db (str email) (str password) in
    match result with
    | Success _ => respond 200 result
    | _ => respond 401 result
    end.

End AuthRoutes.

(* ===================================================================== *)
(** * routes/conversations.ts *)
(* ===================================================================== *)

Module CreateConversationRequest.
Record t : Type := mk {
  title : option string;
  type : option string;
  assigned_doctor_id : option Z
}.
End CreateConversationRequest.

Module Conversations.

(** One entry of the list [GET /conversations] returns. *)
Record Details : Type := mkDetails {
  conv : Conversation.t;
  creator : option (Z * string * string);             (* id, display_name, email *)
  assigned_doctor : option (Z * string);              (* id, display_name *)
  participants : list (Z * string * UserRole)         (* id, display_name, role *)
}.

Definition details (db : DB.t) (conv : Conversation.t) : Details :=
  let participants := Database.getConversationParticipants db (Conversation.id conv) in
  let creator := Database.getUserById db (Conversation.creator_id conv) in
  let assignedDoctor :=
    if JS.falsy_num (Conversation.assigned_doctor_id conv) then None
    else match Conversation.assigned_doctor_id conv with
         | Some d => Database.getUserById db d
         | None => None
         end in
  mkDetails conv
    (option_map (fun c => (User.id c, User.display_name c, User.email c)) creator)
    (option_map (fun d => (User.id d, User.display_name d)) assignedDoctor)
    (map (fun p => (User.id p, User.display_name p, User.role p)) participants).

(** The handler of [GET /conversations].  [conversations] stays
    [undefined] ([None]) when none of the three branches is taken; mapping
    over it then throws, and the [catch] answers 500. *)
Definition list_handler (db : DB.t) (user : User.t) : Response (list Details) :=
  let conversations : option (list Conversation.t) :=
    if UserRole_.eqb (User.role user) PATIENT
    then Some (Database.getConversationsByUserId db (User.id user))
    else if UserRole_.eqb (User.role user) DOCTOR
    then Some (Database.getConversationsForDoctor db (User.id user))
    else if UserRole_.eqb (User.role user) ADMIN
    then Some (Database.getAllConversations db)
    else None in
  match conversations with
  | Some conversations => respond 200 (Success (map (details db) conversations))
  | None => respond 500 (Failure "Failed to get conversations")
  end.

(** [GET /conversations]. *)
Definition GET_conversations (jwt_verify : Auth.Verifier) (db : DB.t)
    (authHeader : option string) : Response (list Details) :=
  fst (Auth.guarded jwt_verify Auth.requireAnyRole db authHeader
         (fun user => (list_handler db user, db))).

(** The handler of [POST /conversations].  [threadId] is what
    [createThread()] resolved to. *)
Definition create_handler (now : string) (threadId : option string) (db : DB.t)
    (user : User.t) (req : CreateConversationRequest.t)
  : Response (option Conversation.t * string) * DB.t :=
  let title := CreateConversationRequest.title req in
  let type := CreateConversationRequest.type req in
  let assigned_doctor_id := CreateConversationRequest.assigned_doctor_id req in
  if JS.falsy title || JS.falsy type
  then (respond 400 (Failure "Title and type are required"), db)
  else
    match ConversationType_.of_string (AuthRoutes.str type) with
    | None => (respond 400 (Failure "Invalid conversation type"), db)
    | Some type =>
        let doctor_check : option string :=
          if ConversationType_.eqb type ONE_TO_ONE then
            if JS.falsy_num assigned_doctor_id
            then Some "Doctor assignment required for 1:1 conversations"
            else
              match match assigned_doctor_id with
                    | Some d => Database.getUserById db d
                    | None => None
                    end with
              | None => Some "Invalid doctor assignment"
              | Some doctor =>
                  if negb (UserRole_.eqb (User.role doctor) DOCTOR)
                  then Some "Invalid doctor assignment"
                  else None
              end
          else None in
        match doctor_check with
        | Some message => (respond 400 (Failure message), db)
        | None =>
            if JS.falsy threadId
            then (respond 500 (Failure "Failed to create chat thread"), db)
            else
              match Database.createConversation now db (AuthRoutes.str title) type
                      (User.id user) (AuthRoutes.str threadId) assigned_doctor_id with
              | None => (respond 500 (Failure "Failed to create conversation"), db)
              | Some (conversationId, db1) =>
                  let db2 :=
                    Database.addParticipantToConversation now db1 conversationId (User.id user) in
                  let db3 :=
                    match assigned_doctor_id with
                    | Some d =>
                        if ConversationType_.eqb type ONE_TO_ONE
                           && negb (JS.falsy_num assigned_doctor_id)
                        then Database.addParticipantToConversation now db2 conversationId d
                        else db2
                    | None => db2
                    end in
                  (respond 201
                     (Success (Database.getConversationById db3 conversationId,
                               AuthRoutes.str threadId)),
                   db3)
              end
        end
    end.

(** [POST /conversations]. *)
Definition POST_conversations (jwt_verify : Auth.Verifier) (now : string) (threadId : option string)
    (db : DB.t) (authHeader : option string) (req : CreateConversationRequest.t)
  : Response (option Conversation.t * string) * DB.t :=
  Auth.guarded jwt_verify Auth.requirePatient db authHeader
    (fun user => create_handler now threadId db user req).

(** The handler of [DELETE /conversations/:id]; [conversationId] is
    [parseInt(req.params.id)], [None] for NaN. *)
Definition delete_handler (db : DB.t) (conversationId : option Z)
  : Response string * DB.t :=
  match conversationId with
  | None => (respond 400 (Failure "Invalid conversation ID"), db)
  | Some conversationId =>
      match Database.getConversationById db conversationId with
      | None => (respond 404 (Failure "Conversation not found"), db)
      | Some _ =>
          (respond 200 (Success "Conversation deleted successfully"),
           Database.deleteConversation db conversationId)
      end
  end.

(** [DELETE /conversations/:id]. *)
Definition DELETE_conversation (jwt_verify : Auth.Verifier) (db : DB.t) (authHeader : option string)
    (conversationId : option Z) : Response string * DB.t :=
  Auth.guarded jwt_verify Auth.requireDoctorOrAdmin db authHeader
    (fun _ => delete_handler db conversationId).

(** ** One conversation *)

(** The [hasAccess] of [GET /conversations/:id]. *)
Definition hasAccess (db : DB.t) (user : User.t) (conversation : Conversation.t)
    (conversationId : Z) : bool :=
  let participants := Database.getConversationParticipants db conversationId in
  UserRole_.eqb (User.role user) ADMIN
  || existsb (fun p => User.id p =? User.id user) participants
  || (Conversation.creator_id conversation =? User.id user)
  || (UserRole_.eqb (User.role user) DOCTOR
      && (ConversationType_.eqb (Conversation.type conversation) ONE_TO_MANY
          || Database.opt_eqb (Conversation.assigned_doctor_id conversation) (User.id user))).

(** The handler of [GET /conversations/:id]. *)
Definition get_handler (db : DB.t) (user : User.t) (conversationId : option Z)
  : Response Details :=
  match conversationId with
  | None => respond 400 (Failure "Invalid conversation ID")
  | Some conversationId =>
      match Database.getConversationById db conversationId with
      | None => respond 404 (Failure "Conversation not found")
      | Some conversation =>
          let participants := Database.getConversationParticipants db conversationId in
          if negb (hasAccess db user conversation conversationId)
          then respond 403 (Failure "Access denied")
          else
            let creator := Database.getUserById db (Conversation.creator_id conversation) in
            let assignedDoctor :=
              if JS.falsy_num (Conversation.assigned_doctor_id conversation) then None
              else match Conversation.assigned_doctor_id conversation with
                   | Some d => Database.getUserById db d
                   | None => None
                   end in
            respond 200
              (Success
                 (mkDetails conversation
                    (option_map (fun c => (User.id c, User.display_name c, User.email c))
                                creator)
                    (option_map (fun d => (User.id d, User.display_name d)) assignedDoctor)
                    (map (fun p => (User.id p, User.display_name p, User.role p))
                         participants)))
      end
  end.

(** [GET /conversations/:id]. *)
Definition GET_conversation (jwt_verify : Auth.Verifier) (db : DB.t)
    (authHeader : option string) (conversationId : option Z) : Response Details :=
  fst (Auth.guarded jwt_verify Auth.requireAnyRole db authHeader
         (fun user => (get_handler db user conversationId, db))).

(** The [hasAccess] of [PATCH /conversations/:id], which is computed for
    responders only. *)
Definition may_update (db : DB.t) (user : User.t) (conversation : Conversation.t)
    (conversationId : Z) : bool :=
  if UserRole_.eqb (User.role user) DOCTOR
  then
    let participants := Database.getConversationParticipants db conversationId in
    existsb (fun p => User.id p =? User.id user) participants
    || Database.opt_eqb (Conversation.assigned_doctor_id conversation) (User.id user)
    || ConversationType_.eqb (Conversation.type conversation) ONE_TO_MANY
  else true.

(** The handler of [PATCH /conversations/:id]; [status] is the field of
    the body. *)
Definition update_handler (db : DB.t) (user : User.t) (conversationId : option Z)
    (status : option string) : Response (option Conversation.t) * DB.t :=
  match conversationId with
  | None => (respond 400 (Failure "Invalid conversation ID"), db)
  | Some conversationId =>
      match Database.getConversationById db conversationId with
      | None => (respond 404 (Failure "Conversation not found"), db)
      | Some conversation =>
          if negb (may_update db user conversation conversationId)
          then (respond 403 (Failure "Access denied"), db)
          else if JS.falsy status
          then (respond 200 (Success (Database.getConversationById db conversationId)), db)
          else
            match ConversationStatus_.of_string (AuthRoutes.str status) with
            | None => (respond 400 (Failure "Invalid status"), db)
            | Some status =>
                let db' := Database.updateConversationStatus db conversationId status in
                (respond 200 (Success (Database.getConversationById db' conversationId)), db')
            end
      end
  end.

(** [PATCH /conversations/:id]. *)
Definition PATCH_conversation (jwt_verify : Auth.Verifier) (db : DB.t)
    (authHeader : option string) (conversationId : option Z) (status : option string)
  : Response (option Conversation.t) * DB.t :=
  Auth.guarded jwt_verify Auth.requireDoctorOrAdmin db authHeader
    (fun user => update_handler db user conversationId status).

(** The handler of [POST /conversations/:id/join]. *)
Definition join_handler (now : string) (db : DB.t) (user : User.t)
    (conversationId : option Z) : Response string * DB.t :=
  match conversationId with
  | None => (respond 400 (Failure "Invalid conversation ID"), db)
  | Some conversationId =>
      match Database.getConversationById db conversationId with
      | None => (respond 404 (Failure "Conversation not found"), db)
      | Some conversation =>
          if UserRole_.eqb (User.role user) DOCTOR
             && negb (ConversationType_.eqb (Conversation.type conversation) ONE_TO_MANY)
          then (respond 403 (Failure "Cannot join this type of conversation"), db)
          else
            (respond 200 (Success "Successfully joined conversation"),
             Database.addParticipantToConversation now db conversationId (User.id user))
      end
  end.

(** [POST /conversations/:id/join]. *)
Definition POST_join (jwt_verify : Auth.Verifier) (now : string) (db : DB.t)
    (authHeader : option string) (conversationId : option Z) : Response string * DB.t :=
  Auth.guarded jwt_verify Auth.requireDoctorOrAdmin db authHeader
    (fun user => join_handler now db user conversationId).

End Conversations.

(* ===================================================================== *)
(** * routes/attachments.ts *)
(* ===================================================================== *)

(** The file part of a multipart body, and [req.file] as the multipart
    middleware hands it over; [size] is the number of its bytes. *)
Module UploadedFile.
Record t : Type := mk {
  originalname : string;
  mimetype : string;
  size : Z
}.
End UploadedFile.

(** What the object storage does during one upload:
    [connectionString] is [None] when the configuration getter throws,
    [sasUrl] is [None] when one of the blob calls throws. *)
Module BlobStorage.
Record t : Type := mk {
  connectionString : option string;
  sasUrl : option string
}.
End BlobStorage.

(** An entry of an attachment list, as the routes send it. *)
Module ListedAttachment.
Record t : Type := mk {
  id : Z;
  original_filename : string;
  file_size : Z;
  file_type : string;
  uploader_name : string;
  created_at : string
}.

Definition of_row (row : Attachment.t * string) : t :=
  let (att, uploader_name) := row in
  mk (Attachment.id att) (Attachment.original_filename att) (Attachment.file_size att)
     (Attachment.file_type att) uploader_name (Attachment.created_at att).
End ListedAttachment.

(** The answer of the download route. *)
Module Download.
Record t : Type := mk {
  download_url : string;
  filename : string;
  expires_at : string
}.
End Download.

Module Attachments.

Definition ALLOWED_FILE_TYPES : list string :=
  [ "image/jpeg";
    "image/jpg";
    "image/png";
    "image/gif";
    "application/pdf";
    "application/msword";
    "application/vnd.openxmlformats-officedocument.wordprocessingml.document";
    "text/plain";
    "text/csv";
    "application/vnd.ms-excel";
    "application/vnd.openxmlformats-officedocument.spreadsheetml.sheet";
    "audio/mpeg";
    "audio/wav";
    "audio/ogg";
    "audio/mp3";
    "audio/webm";
    "audio/mp4" ].

Definition MAX_FILE_SIZE : Z := 50 * 1024 * 1024.

Definition allowed (mimetype : string) : bool :=
  existsb (String.eqb mimetype) ALLOWED_FILE_TYPES.

(** The [hasAccess] of the upload route. *)
Definition hasAccess (db : DB.t) (user : User.t) (conversation : Conversation.t)
    (conversationId : Z) : bool :=
  let participants := Database.getConversationParticipants db conversationId in
  UserRole_.eqb (User.role user) ADMIN
  || existsb (fun p => User.id p =? User.id user) participants
  || (Conversation.creator_id conversation =? User.id user)
  || (UserRole_.eqb (User.role user) DOCTOR
      && Database.opt_eqb (Conversation.assigned_doctor_id conversation) (User.id user)).

(** [`conversation-${conversationId}`]. *)
Definition containerName (conversationId : Z) : string :=
  "conversation-" ++ JS.toString conversationId.

(** The attachment summary of the 201 answer. *)
Record Summary : Type := mkSummary {
  id : Z;
  conversation_id : Z;
  original_filename : string;
  file_size : Z;
  file_type : string;
  uploader_name : string;
  created_at : string
}.

(** What the handler reads from the process besides the store:
    [storedFilename] is the generated name, [now] the time stamp of the
    record and [isoNow] that of the answer. *)
Record Env : Type := mkEnv {
  storage : BlobStorage.t;
  storedFilename : string;
  now : string;
  isoNow : string
}.

(** The handler of [POST /attachments/upload/:conversationId]. *)
Definition upload_handler (env : Env) (db : DB.t) (user : User.t)
    (conversationId : option Z) (fileData : option UploadedFile.t)
  : Response Summary * DB.t :=
  match conversationId with
  | None => (respond 400 (Failure "Invalid conversation ID"), db)
  | Some conversationId =>
      match fileData with
      | None => (respond 400 (Failure "No file provided"), db)
      | Some fileData =>
          if UploadedFile.size fileData >? MAX_FILE_SIZE
          then (respond 400 (Failure "File size exceeds 50MB limit"), db)
          else if negb (allowed (UploadedFile.mimetype fileData))
          then (respond 400 (Failure "File type not allowed"), db)
          else
            match Database.getConversationById db conversationId with
            | None => (respond 404 (Failure "Conversation not found"), db)
            | Some conversation =>
                if negb (hasAccess db user conversation conversationId)
                then (respond 403 (Failure "Access denied"), db)
                else
                  match BlobStorage.connectionString (storage env) with
                  | None => (respond 500 (Failure "Azure Blob Storage not configured"), db)
                  | Some _ =>
                      match BlobStorage.sasUrl (storage env) with
                      | None => (respond 500 (Failure "Failed to upload file"), db)
                      | Some sasUrl =>
                          let (attachmentId, db') :=
                            Database.createAttachment (now env) db conversationId (User.id user)
                              (UploadedFile.originalname fileData) (storedFilename env)
                              (UploadedFile.size fileData) (UploadedFile.mimetype fileData)
                              sasUrl (containerName conversationId) in
                          (respond 201
                             (Success (mkSummary attachmentId conversationId
                                         (UploadedFile.originalname fileData)
                                         (UploadedFile.size fileData)
                                         (UploadedFile.mimetype fileData)
                                         (User.display_name user) (isoNow env))),
                           db')
                      end
                  end
            end
      end
  end.

(** [limits.fileSize] of the multer instance of the router. *)
Definition fileSize : Z := 50 * 1024 * 1024.

(** [upload.single('file')]: the file part of the body, when there is one,
    becomes [req.file].  [limits.fileSize] is, as multer documents it, the
    largest size in bytes of a file it takes: a part of more bytes is not
    handed over, multer passes a [MulterError], which carries no status, to
    [next] ([None]), and the handler is not run. *)
Definition upload_single (part : option UploadedFile.t) : option (option UploadedFile.t) :=
  match part with
  | Some file => if UploadedFile.size file >? fileSize then None else Some (Some file)
  | None => Some None
  end.

(** [POST /attachments/upload/:conversationId]: [authenticateToken],
    [requireAnyRole], [upload.single('file')] and the handler. *)
Definition POST_upload (jwt_verify : Auth.Verifier) (env : Env) (db : DB.t)
    (authHeader : option string) (conversationId : option Z)
    (part : option UploadedFile.t) : Response Summary * DB.t :=
  Auth.guarded jwt_verify Auth.requireAnyRole db authHeader
    (fun user =>
       match upload_single part with
       | None => (unhandled, db)
       | Some fileData => upload_handler env db user conversationId fileData
       end).

(** ** Listing, downloading and deleting *)

(** The handler of [GET /attachments/:conversationId]; its [hasAccess] is
    the expression of the upload route. *)
Definition list_handler (db : DB.t) (user : User.t) (conversationId : option Z)
  : Response (list ListedAttachment.t) :=
  match conversationId with
  | None => respond 400 (Failure "Invalid conversation ID")
  | Some conversationId =>
      match Database.getConversationById db conversationId with
      | None => respond 404 (Failure "Conversation not found")
      | Some conversation =>
          if negb (hasAccess db user conversation conversationId)
          then respond 403 (Failure "Access denied")
          else
            respond 200
              (Success (map ListedAttachment.of_row
                            (Database.getAttachmentsByConversationId db conversationId)))
      end
  end.

(** [GET /attachments/:conversationId]. *)
Definition GET_attachments (jwt_verify : Auth.Verifier) (db : DB.t)
    (authHeader : option string) (conversationId : option Z)
  : Response (list ListedAttachment.t) :=
  fst (Auth.guarded jwt_verify Auth.requireAnyRole db authHeader
         (fun user => (list_handler db user conversationId, db))).

(** The handler of [GET /attachments/download/:attachmentId].  In
    [storage], [sasUrl] is what [generateSasUrl] resolves to; [expiresOn] is
    the ISO form of the expiry. *)
Definition download_handler (storage : BlobStorage.t) (expiresOn : string) (db : DB.t)
    (user : User.t) (attachmentId : option Z) : Response Download.t :=
  match attachmentId with
  | None => respond 400 (Failure "Invalid attachment ID")
  | Some attachmentId =>
      match Database.getAttachmentById db attachmentId with
      | None => respond 404 (Failure "Attachment not found")
      | Some attachment =>
          match Database.getConversationById db (Attachment.conversation_id attachment) with
          | None => respond 404 (Failure "Conversation not found")
          | Some conversation =>
              if negb (hasAccess db user conversation (Attachment.conversation_id attachment))
              then respond 403 (Failure "Access denied")
              else
                match BlobStorage.connectionString storage, BlobStorage.sasUrl storage with
                | Some _, Some downloadUrl =>
                    respond 200
                      (Success (Download.mk downloadUrl
                                            (Attachment.original_filename attachment)
                                            expiresOn))
                | _, _ => respond 500 (Failure "Failed to generate download URL")
                end
          end
      end
  end.

(** The handler of [DELETE /attachments/:attachmentId].  What the blob
    service does is not an argument: a failure there is logged and the row
    is deleted all the same. *)
Definition delete_handler (db : DB.t) (user : User.t) (attachmentId : option Z)
  : Response string * DB.t :=
  match attachmentId with
  | None => (respond 400 (Failure "Invalid attachment ID"), db)
  | Some attachmentId =>
      match Database.getAttachmentById db attachmentId with
      | None => (respond 404 (Failure "Attachment not found"), db)
      | Some attachment =>
          if negb (UserRole_.eqb (User.role user) ADMIN)
             && negb (Attachment.uploader_id attachment =? User.id user)
          then (respond 403 (Failure "Only the uploader or admin can delete this attachment"),
                db)
          else
            (respond 200 (Success "Attachment deleted successfully"),
             Database.deleteAttachment db attachmentId)
      end
  end.

(** [DELETE /attachments/:attachmentId]. *)
Definition DELETE_attachment (jwt_verify : Auth.Verifier) (db : DB.t)
    (authHeader : option string) (attachmentId : option Z) : Response string * DB.t :=
  Auth.guarded jwt_verify Auth.requireAnyRole db authHeader
    (fun user => delete_handler db user attachmentId).

End Attachments.

(* ===================================================================== *)
(** * routes/conversations.ts: the export *)
(* ===================================================================== *)

(** A message of a chat thread, as [getThreadMessages] returns it:
    [sender] is the user id when the sender is of kind
    ['communicationUser'], [createdOn] the ISO form of the date. *)
Module ChatMessage.
Record t : Type := mk {
  id : string;
  type : string;
  content_message : option string;
  senderDisplayName : option string;
  sender : option string;
  createdOn : option string;
  sequenceId : option string
}.
End ChatMessage.

Module ConversationExport.

Record Message : Type := mkMessage {
  message_id : string;
  message_type : string;
  content : string;
  sender_display_name : string;
  sender_id : option string;
  created_on : option string;
  sequence_id : option string
}.

Definition format (message : ChatMessage.t) : Message :=
  mkMessage (ChatMessage.id message) (ChatMessage.type message)
    (if JS.falsy (ChatMessage.content_message message) then ""
     else AuthRoutes.str (ChatMessage.content_message message))
    (if JS.falsy (ChatMessage.senderDisplayName message) then "Unknown"
     else AuthRoutes.str (ChatMessage.senderDisplayName message))
    (ChatMessage.sender message)
    (if JS.falsy (ChatMessage.createdOn message) then None else ChatMessage.createdOn message)
    (if JS.falsy (ChatMessage.sequenceId message) then None else ChatMessage.sequenceId message).

Record t : Type := mk {
  conversation : Z * string * ConversationType * ConversationStatus * string * string;
                                      (* id, title, type, status, created_at, thread_id *)
  creator : option (Z * string * string);             (* id, display_name, email *)
  participants : list (Z * string * UserRole);        (* id, display_name, role *)
  attachments : list ListedAttachment.t;
  messages : list Message;
  exported_at : string;
  exported_by : Z * string                            (* id, display_name *)
}.

(** The handler of [GET /conversations/:id/export]; [getThreadMessages]
    is the call to the chat service, which always resolves, and [isoNow] the
    time stamp of the export.  The body of the 200 answer is the export
    itself, sent as a file: it has no [success] field, and is written
    [Success] here for a body that is not a failure. *)
Definition export_handler (getThreadMessages : string -> list ChatMessage.t)
    (isoNow : string) (db : DB.t) (user : User.t) (conversationId : option Z)
  : Response t :=
  match conversationId with
  | None => respond 400 (Failure "Invalid conversation ID")
  | Some conversationId =>
      match Database.getConversationById db conversationId with
      | None => respond 404 (Failure "Conversation not found")
      | Some conversation =>
          let participants := Database.getConversationParticipants db conversationId in
          let creator := Database.getUserById db (Conversation.creator_id conversation) in
          let attachments := Database.getAttachmentsByConversationId db conversationId in
          let messages := getThreadMessages (Conversation.thread_id conversation) in
          respond 200
            (Success
               (mk (Conversation.id conversation, Conversation.title conversation,
                    Conversation.type conversation, Conversation.status conversation,
                    Conversation.created_at conversation,
                    Conversation.thread_id conversation)
                   (option_map (fun c => (User.id c, User.display_name c, User.email c))
                               creator)
                   (map (fun p => (User.id p, User.display_name p, User.role p)) participants)
                   (map ListedAttachment.of_row attachments)
                   (map format messages)
                   isoNow
                   (User.id user, User.display_name user)))
      end
  end.

(** [GET /conversations/:id/export]. *)
Definition GET_export (jwt_verify : Auth.Verifier)
    (getThreadMessages : string -> list ChatMessage.t) (isoNow : string) (db : DB.t)
    (authHeader : option string) (conversationId : option Z) : Response t :=
  fst (Auth.guarded jwt_verify Auth.requireDoctorOrAdmin db authHeader
         (fun user => (export_handler getThreadMessages isoNow db user conversationId, db))).

End ConversationExport.

(* ===================================================================== *)
(** * routes/users.ts *)
(* ===================================================================== *)

Module Users.

(** The handler of [GET /users/doctors]: id, display name and email of
    every responder. *)
Definition doctors_handler (db : DB.t) : Response (list (Z * string * string)) :=
  let doctors := Database.getUsersByRole db DOCTOR in
  respond 200
    (Success (map (fun doctor => (User.id doctor, User.display_name doctor, User.email doctor))
                  doctors)).

(** [GET /users/doctors]. *)
Definition GET_doctors (jwt_verify : Auth.Verifier) (db : DB.t) (authHeader : option string)
  : Response (list (Z * string * string)) :=
  fst (Auth.guarded jwt_verify Auth.requireAnyRole db authHeader
         (fun _ => (doctors_handler db, db))).

(** [GET /users/profile]: id, email, role, display name and creation
    time of the caller. *)
Definition GET_profile (jwt_verify : Auth.Verifier) (db : DB.t) (authHeader : option string)
  : Response (Z * string * UserRole * string * string) :=
  fst (Auth.guarded jwt_verify Auth.requireAnyRole db authHeader
         (fun user =>
            (respond 200
               (Success (User.id user, User.email user, User.role user,
                         User.display_name user, User.created_at user)),
             db))).

End Users.

(* ===================================================================== *)
(** * lib/seedDatabase.ts *)
(* ===================================================================== *)

Module Seed.

(** [if (!existing) { await DatabaseService.createUser(...) }]: [None]
    when the insert is rejected, which the [catch] of [createDemoUsers]
    ends the routine on. *)
Definition create_unless (existing : option User.t) (hashSync : string -> string)
    (now : string) (db : DB.t) (email password : string) (role : UserRole)
    (displayName : string) : option DB.t :=
  match existing with
  | Some _ => Some db
  | None =>
      match Database.createUser hashSync now db (Some email) password role
              (Some displayName) with
      | Some (_, db') => Some db'
      | None => None
      end
  end.

(** [createDemoUsers]; [now] gives the time stamp of each of the four
    inserts.  The first two lookups are both made before the first
    insert. *)
Definition createDemoUsers (hashSync : string -> string) (now : nat -> string) (db : DB.t)
  : DB.t :=
  let existingDoctor := Database.getUserByEmail db (Some "doctor@example.com") in
  let existingPatient := Database.getUserByEmail db (Some "patient@example.com") in
  match create_unless existingDoctor hashSync (now 0%nat) db
          "doctor@example.com" "doctor123" DOCTOR "Dr. Sarah Johnson" with
  | None => db
  | Some db1 =>
      match create_unless existingPatient hashSync (now 1%nat) db1
              "patient@example.com" "patient123" PATIENT "John Smith" with
      | None => db1
      | Some db2 =>
          let existingDoctor2 := Database.getUserByEmail db2 (Some "doctor2@example.com") in
          match create_unless existingDoctor2 hashSync (now 2%nat) db2
                  "doctor2@example.com" "doctor123" DOCTOR "Dr. Michael Brown" with
          | None => db2
          | Some db3 =>
              let existingPatient2 :=
                Database.getUserByEmail db3 (Some "patient2@example.com") in
              match create_unless existingPatient2 hashSync (now 3%nat) db3
                      "patient2@example.com" "patient123" PATIENT "Emily Davis" with
              | None => db3
              | Some db4 => db4
              end
          end
      end
  end.

End Seed.

(* ===================================================================== *)
(** * lib/database.ts: the range aggregate *)
(* ===================================================================== *)

Module Analytics.

(** A row of [SELECT DATE(created_at) as date, COUNT( * ) as count ...
    GROUP BY DATE(created_at)]; [date] is [None] for NULL. *)
Record DayCount : Type := mkDayCount {
  date : option string;
  count : Z
}.

(** The fields of the aggregate the properties below are about. *)
Record t : Type := mk {
  totalConversations : Z;
  openConversations : Z;
  totalVisitors : Z;
  conversationsPerDay : list DayCount;
  avgConversationsPerDay : Number.t
}.

Definition is_digit (c : ascii) : bool :=
  ((48 <=? JS.code c) && (JS.code c <=? 57))%N.

(** [s] starts with [YYYY-MM-DD]. *)
Definition starts_with_date (s : string) : bool :=
  match s with
  | String y1 (String y2 (String y3 (String y4 (String dash1
      (String m1 (String m2 (String dash2 (String d1 (String d2 _))))))))) =>
      is_digit y1 && is_digit y2 && is_digit y3 && is_digit y4
      && Ascii.eqb dash1 "-" && is_digit m1 && is_digit m2
      && Ascii.eqb dash2 "-" && is_digit d1 && is_digit d2
  | _ => false
  end.

(** The bounds the embedding of [dateFilter] covers: a date, with or
without a time of day after it, and no apostrophe.  Such a bound is the
text between the quotes of the interpolated literal, and SQLite compares it
with the stored time stamps as text. *)
Definition valid_bound (s : string) : bool :=
  starts_with_date s && negb (JS.includes s "'").

(** [dateFilter]: present when both bounds are truthy.  The source puts
    the two bounds between quotes into the text of each query; the pair
    stands for that text on bounds that satisfy [valid_bound], and the
    properties that run the aggregate with both bounds assume it of both. *)
Definition dateFilter (startDate endDate : option string) : option (string * string) :=
  if JS.falsy startDate || JS.falsy endDate then None
  else Some (AuthRoutes.str startDate, AuthRoutes.str endDate).

(** [created_at BETWEEN 'startDate' AND 'endDate'] on text values: both
    comparisons are byte-wise and include the bound. *)
Definition between (lo hi x : string) : bool :=
  String.leb lo x && String.leb x hi.

(** The [WHERE] (or [AND]) clause [dateFilter] adds to a query. *)
Definition passes (filter : option (string * string)) (created_at : string) : bool :=
  match filter with
  | None => true
  | Some (lo, hi) => between lo hi created_at
  end.

Definition key_eqb (a b : option string) : bool :=
  match a, b with
  | None, None => true
  | Some x, Some y => String.eqb x y
  | _, _ => false
  end.

(** [GROUP BY]: one more row for the group of [k]. *)
Fixpoint bump (k : option string) (groups : list DayCount) : list DayCount :=
  match groups with
  | [] => [mkDayCount k 1]
  | g :: groups' =>
      if key_eqb (date g) k then mkDayCount k (count g + 1) :: groups'
      else g :: bump k groups'
  end.

Definition group_by (keys : list (option string)) : list DayCount :=
  fold_left (fun groups k => bump k groups) keys [].

(** [ORDER BY date DESC]: NULL sorts below every text. *)
Definition key_ltb (a b : option string) : bool :=
  match a, b with
  | None, None => false
  | None, Some _ => true
  | Some _, None => false
  | Some x, Some y => String.ltb x y
  end.

Fixpoint insert_desc (g : DayCount) (l : list DayCount) : list DayCount :=
  match l with
  | [] => [g]
  | h :: l' => if key_ltb (date h) (date g) then g :: l else h :: insert_desc g l'
  end.

Definition order_by_date_desc (rows : list DayCount) : list DayCount :=
  fold_right insert_desc [] rows.

(** [Math.round], on doubles. *)
Definition Math_round (x : Number.t) : Number.t := Number.round x.

(** [rows.reduce((sum, row) => sum + row.count, 0)]. *)
Definition sum_counts (rows : list DayCount) : Number.t :=
  fold_left (fun sum row => Number.add sum (Number.of_int (count row))) rows
            (Number.of_int 0).

(** [rows.length > 0 ? sum / rows.length : 0]. *)
Definition average (rows : list DayCount) : Number.t :=
  if (0 <? Z.of_nat (List.length rows))%Z
  then Number.div (sum_counts rows) (Number.of_int (Z.of_nat (List.length rows)))
  else Number.of_int 0.

(** [Math.round(avg * 100) / 100]. *)
Definition round2 (avg : Number.t) : Number.t :=
  Number.div (Math_round (Number.mul avg (Number.of_int 100))) (Number.of_int 100).

(** [DatabaseService.getAnalytics]; [DATE] is SQLite's [DATE()] on the
    stored time stamps. *)
Definition getAnalytics (DATE : string -> option string) (db : DB.t)
    (startDate endDate : option string) : t :=
  let filter_ := dateFilter startDate endDate in
  let selected :=
    filter (fun c => passes filter_ (Conversation.created_at c)) (DB.conversations db) in
  let rows :=
    order_by_date_desc (group_by (map (fun c => DATE (Conversation.created_at c)) selected)) in
  mk (Z.of_nat (List.length selected))
     (Z.of_nat (List.length
        (filter (fun c => match Conversation.status c with ACTIVE => true | _ => false end)
                selected)))
     (Z.of_nat (List.length
        (filter (fun u => UserRole_.eqb (User.role u) PATIENT
                          && passes filter_ (User.created_at u))
                (DB.users db))))
     rows
     (round2 (average rows)).

(** ** What the aggregate is measured against *)

(** [n] is the number of members of [l] that satisfy [P]. *)
Inductive counts {A : Type} (P : A -> Prop) : list A -> nat -> Prop :=
| counts_nil : counts P [] 0
| counts_in (x : A) (l : list A) (n : nat) :
    P x -> counts P l n -> counts P (x :: l) (S n)
| counts_out (x : A) (l : list A) (n : nat) :
    ~ P x -> counts P l n -> counts P (x :: l) n.

(** The order of text values: byte by byte, a prefix first. *)
Definition text_le (a b : string) : Prop := (a ?= b)%string <> Gt.

(** [x] lies in the closed interval from [lo] to [hi]. *)
Definition within (lo hi x : string) : Prop := text_le lo x /\ text_le x hi.

(** The sum of the counts of some buckets. *)
Definition total_count (rows : list DayCount) : Z :=
  fold_right Z.add 0%Z (map count rows).

End Analytics.

(* ===================================================================== *)
(** * lib/rocketchat-exporter.ts *)
(* ===================================================================== *)

Module RocketChatMessage.
Record t : Type := mk {
  _id : string;
  rid : string;
  msg : string;
  ts : option string;
  u_id : string;
  u_username : string
}.
End RocketChatMessage.

Module RocketChat.

(** What a loop written with [while (true)] has done when observed after
    a bounded number of rounds. *)
Inductive Outcome (A : Type) : Type :=
| Returned (a : A)
| Threw
| Running.

Arguments Returned {A} a.
Arguments Threw {A}.
Arguments Running {A}.

(** The server seen from [getMessagesFromRoom(roomId, oldest)]: the
    answer to the [n]-th request of a run, [None] when the request fails
    and the method throws. *)
Definition Backend : Type := nat -> option string -> option (list RocketChatMessage.t).

Definition MAX_BATCH : nat := 1000.

(** The [while (true)] loop of [getAllMessagesFromRoom], from its [n]-th
    round on; [fuel] bounds the number of rounds. *)
Fixpoint fetch_loop (backend : Backend) (fuel n : nat) (oldest : option string)
    (allMessages : list RocketChatMessage.t) : Outcome (list RocketChatMessage.t) :=
  match fuel with
  | O => Running
  | S fuel' =>
      match backend n oldest with
      | None => Threw
      | Some messages =>
          if Nat.eqb (List.length messages) 0 then Returned allMessages
          else
            let allMessages := (allMessages ++ messages)%list in
            match nth_error messages (List.length messages - 1) with
            | None => Returned allMessages
            | Some oldestMessage =>
                if JS.falsy (RocketChatMessage.ts oldestMessage) then Returned allMessages
                else
                  let oldest := RocketChatMessage.ts oldestMessage in
                  if Nat.ltb (List.length messages) MAX_BATCH then Returned allMessages
                  else fetch_loop backend fuel' (S n) oldest allMessages
            end
      end
  end.

(** [new Date(a.ts).getTime() - new Date(b.ts).getTime() < 0], where
    [getTime] gives [None] for NaN: a comparison with NaN is not below
    zero. *)
Definition before (getTime : option string -> option Z) (a b : RocketChatMessage.t) : bool :=
  match getTime (RocketChatMessage.ts a), getTime (RocketChatMessage.ts b) with
  | Some x, Some y => x - y <? 0
  | _, _ => false
  end.

(** [Array.prototype.sort] with that comparator: a stable sort. *)
Fixpoint insert (getTime : option string -> option Z) (x : RocketChatMessage.t)
    (l : list RocketChatMessage.t) : list RocketChatMessage.t :=
  match l with
  | [] => [x]
  | y :: l' => if before getTime y x then y :: insert getTime x l' else x :: l
  end.

Definition sort (getTime : option string -> option Z) (l : list RocketChatMessage.t)
  : list RocketChatMessage.t :=
  fold_right (insert getTime) [] l.

Definition getAllMessagesFromRoom (getTime : option string -> option Z) (backend : Backend)
    (fuel : nat) : Outcome (list RocketChatMessage.t) :=
  match fetch_loop backend fuel 0 None [] with
  | Returned allMessages => Returned (sort getTime allMessages)
  | Threw => Threw
  | Running => Running
  end.

(** ** The run of the loop, round by round *)

Definition last_ts (messages : list RocketChatMessage.t) : option string :=
  match nth_error messages (List.length messages - 1) with
  | Some oldestMessage => RocketChatMessage.ts oldestMessage
  | None => None
  end.

(** The value of [oldest] at the start of round [n], for a loop that gets
    that far. *)
Fixpoint cursor (backend : Backend) (n : nat) : option string :=
  match n with
  | O => None
  | S n' =>
      match backend n' (cursor backend n') with
      | Some messages => last_ts messages
      | None => None
      end
  end.

(** The batch round [n] receives. *)
Definition batch (backend : Backend) (n : nat) : list RocketChatMessage.t :=
  match backend n (cursor backend n) with
  | Some messages => messages
  | None => []
  end.

(** All the messages of rounds [0] to [k]. *)
Definition fetched (backend : Backend) (k : nat) : list RocketChatMessage.t :=
  List.concat (map (batch backend) (seq 0 (S k))).

(** [a] is not later than [b], both carrying a time stamp that is a date. *)
Definition not_after (getTime : option string -> option Z) (a b : RocketChatMessage.t)
  : Prop :=
  match getTime (RocketChatMessage.ts a), getTime (RocketChatMessage.ts b) with
  | Some x, Some y => x <= y
  | _, _ => False
  end.

End RocketChat.

(* ===================================================================== *)
(** * routes/import.ts *)
(* ===================================================================== *)

(** An entry of [participants] in a bundle; a field a JSON file may leave
    out is optional. *)
Module ImportParticipant.
Record t : Type := mk {
  id : string;
  username : string;
  display_name : option string;
  email : option string;
  role : option string
}.
End ImportParticipant.

Module ImportMessage.
Record t : Type := mk {
  id : string;
  content : string;
  sender_id : string;
  created_on : string
}.
End ImportMessage.

Module ImportConversationData.
Record t : Type := mk {
  source : option string;
  source_id : option string;
  title : option string;
  type : option string;
  participants : option (list ImportParticipant.t);
  messages : option (list ImportMessage.t);
  message_count : option Z
}.
End ImportConversationData.

Module ImportRoutes.

(** What the routine draws from outside the store.  Each draw is indexed
    by the number of draws made before it, so that two calls may well give
    different values. *)
Record Env : Type := mkEnv {
  hashSync : string -> string;
  generateTempPassword : nat -> string;
  CURRENT_TIMESTAMP : nat -> string;
  createThread : nat -> option string;
  toISOString : nat -> string
}.

(** The [results] object. *)
Record Results : Type := mkResults {
  successful : Z;
  failed : Z;
  errors : list (string * string);                 (* conversation, error *)
  createdUsers : list (option string * UserRole);  (* email, role *)
  skippedUsers : list (option string * string)     (* email, reason *)
}.

Definition no_results : Results := mkResults 0 0 [] [] [].

(** The store, the number of draws made so far, and [results]. *)
Record State : Type := mkState {
  db : DB.t;
  tick : nat;
  results : Results
}.

Definition mapRole (role : string) : UserRole :=
  let roleStr := JS.toLowerCase role in
  if JS.includes roleStr "admin" then ADMIN
  else if JS.includes roleStr "doctor" || JS.includes roleStr "dr" then DOCTOR
  else if JS.includes roleStr "quality" then QUALITY
  else PATIENT.

Definition push_created (r : Results) (email : option string) (role : UserRole) : Results :=
  mkResults (successful r) (failed r) (errors r)
            (createdUsers r ++ [(email, role)]) (skippedUsers r).

Definition push_skipped (r : Results) (email : option string) (reason : string) : Results :=
  mkResults (successful r) (failed r) (errors r)
            (createdUsers r) (skippedUsers r ++ [(email, reason)]).

Definition push_failed (r : Results) (conversation error : string) : Results :=
  mkResults (successful r) (failed r + 1) (errors r ++ [(conversation, error)])
            (createdUsers r) (skippedUsers r).

Definition succeeded (r : Results) : Results :=
  mkResults (successful r + 1) (failed r) (errors r) (createdUsers r) (skippedUsers r).

(** The body of the inner [try] up to [if (existingUser)]: the value of
    [existingUser] there, [None] also when the [catch] is taken. *)
Definition find_or_create (env : Env) (st : State) (participant : ImportParticipant.t)
  : State * option User.t :=
  let email := ImportParticipant.email participant in
  match Database.getUserByEmail (db st) email with
  | Some existingUser =>
      (mkState (db st) (tick st)
               (push_skipped (results st) email "User already exists"),
       Some existingUser)
  | None =>
      let tempPassword := generateTempPassword env (tick st) in
      match ImportParticipant.role participant with
      | None =>
          (* [role.toLowerCase()] throws *)
          (mkState (db st) (S (tick st))
                   (push_skipped (results st) email "Failed to create/find user"),
           None)
      | Some role =>
          let role := mapRole role in
          match Database.createUser (hashSync env) (CURRENT_TIMESTAMP env (S (tick st)))
                  (db st) email tempPassword role
                  (ImportParticipant.display_name participant) with
          | None =>
              (mkState (db st) (S (S (tick st)))
                       (push_skipped (results st) email "Failed to create/find user"),
               None)
          | Some (userId, db') =>
              (mkState db' (S (S (tick st))) (push_created (results st) email role),
               Database.getUserById db' userId)
          end
      end
  end.

(** The local variables of one bundle: [participantUserIds] and
    [doctorId]. *)
Record Locals : Type := mkLocals {
  participantUserIds : list Z;
  doctorId : option Z
}.

(** One round of [for (const participant of convData.participants)]. *)
Definition participant_step (env : Env) (acc : State * Locals)
    (participant : ImportParticipant.t) : State * Locals :=
  let (st, locals) := acc in
  let (st', existingUser) := find_or_create env st participant in
  match existingUser with
  | Some existingUser =>
      (st',
       mkLocals (participantUserIds locals ++ [User.id existingUser])
                (if UserRole_.eqb (User.role existingUser) DOCTOR
                 then Some (User.id existingUser)
                 else doctorId locals))
  | None => (st', locals)
  end.

Definition participants_loop (env : Env) (st : State)
    (participants : list ImportParticipant.t) : State * Locals :=
  fold_left (participant_step env) participants (st, mkLocals [] None).

(** One round of [for (const participantId of participantUserIds)]: a
    rejected insert is logged and skipped. *)
Definition add_participant (now : string) (conversationId : Z) (db : DB.t)
    (participantId : Z) : DB.t :=
  match Database.addConversationParticipant now db conversationId participantId with
  | Some db' => db'
  | None => db
  end.

Definition or_else (s : option string) (default : string) : string :=
  if JS.falsy s then default else AuthRoutes.str s.

(** The five metadata rows. *)
Definition add_import_metadata (db : DB.t) (conversationId : Z)
    (convData : ImportConversationData.t) (messages : list ImportMessage.t)
    (imported_at : string) (importerId : Z) : DB.t :=
  let db := Database.addConversationMetadata db conversationId "imported_from"
              (or_else (ImportConversationData.source convData) "unknown") in
  let db := Database.addConversationMetadata db conversationId "source_id"
              (or_else (ImportConversationData.source_id convData) "") in
  let db := Database.addConversationMetadata db conversationId "original_message_count"
              (match ImportConversationData.message_count convData with
               | Some n => JS.toString n
               | None => JS.toString (Z.of_nat (List.length messages))
               end) in
  let db := Database.addConversationMetadata db conversationId "imported_at" imported_at in
  Database.addConversationMetadata db conversationId "imported_by" (JS.toString importerId).

(** One round of [for (const convData of conversations)]. *)
Definition import_one (env : Env) (importerId : Z) (st : State)
    (convData : ImportConversationData.t) : State :=
  match ImportConversationData.participants convData,
        ImportConversationData.messages convData with
  | Some participants, Some messages =>
      if JS.falsy (ImportConversationData.title convData)
      then mkState (db st) (tick st)
             (push_failed (results st)
                (or_else (ImportConversationData.title convData)
                   (or_else (ImportConversationData.source_id convData) "Unknown"))
                "Missing required fields (title, participants, or messages)")
      else
        let title := AuthRoutes.str (ImportConversationData.title convData) in
        let (st1, locals) := participants_loop env st participants in
        match participantUserIds locals with
        | [] =>
            mkState (db st1) (tick st1)
              (push_failed (results st1) title "No valid participants found")
        | creatorId :: _ =>
            let threadId := createThread env (tick st1) in
            if JS.falsy threadId
            then mkState (db st1) (S (tick st1))
                   (push_failed (results st1) title "Failed to create chat thread")
            else
              let conversationType :=
                match ImportConversationData.type convData with
                | Some t => if String.eqb t "1to1" then ONE_TO_ONE else ONE_TO_MANY
                | None => ONE_TO_MANY
                end in
              let now := CURRENT_TIMESTAMP env (S (tick st1)) in
              match Database.createConversation now (db st1) title conversationType
                      creatorId (AuthRoutes.str threadId) (doctorId locals) with
              | None =>
                  mkState (db st1) (S (S (tick st1)))
                    (push_failed (results st1) title
                       "SQLITE_CONSTRAINT: UNIQUE constraint failed: conversations.thread_id")
              | Some (conversationId, db2) =>
                  let db3 :=
                    fold_left (add_participant now conversationId)
                              (participantUserIds locals) db2 in
                  let db4 :=
                    add_import_metadata db3 conversationId convData messages
                      (toISOString env (S (S (tick st1)))) importerId in
                  mkState db4 (S (S (S (tick st1)))) (succeeded (results st1))
              end
        end
  | _, _ =>
      mkState (db st) (tick st)
        (push_failed (results st)
           (or_else (ImportConversationData.title convData)
              (or_else (ImportConversationData.source_id convData) "Unknown"))
           "Missing required fields (title, participants, or messages)")
  end.

(** [importConversations]: the run starts from the store [db0] with
    [tick0] draws already made, and ends with [results] and the store it
    leaves behind. *)
Definition importConversations (env : Env) (importerId : Z) (db0 : DB.t) (tick0 : nat)
    (conversations : list ImportConversationData.t) : State :=
  fold_left (import_one env importerId) conversations (mkState db0 tick0 no_results).

(** ** What the properties of the routine are stated with *)

(** The users the participants of a bundle resolve to, in the order of
the bundle: the values of [existingUser] that are not null. *)
Fixpoint resolved (env : Env) (st : State) (participants : list ImportParticipant.t)
  : list User.t :=
  match participants with
  | [] => []
  | participant :: rest =>
      let (st', existingUser) := find_or_create env st participant in
      match existingUser with
      | Some u => u :: resolved env st' rest
      | None => resolved env st' rest
      end
  end.

Definition is_responder (u : User.t) : bool := UserRole_.eqb (User.role u) DOCTOR.

(** The id of the first, and of the last, responder of a list of users. *)
Definition first_responder (users : list User.t) : option Z :=
  option_map User.id (find is_responder users).

Definition last_responder (users : list User.t) : option Z :=
  option_map User.id (find is_responder (rev users)).

(** The number of rows of [users] with a given email. *)
Definition rows_with_email (db : DB.t) (email : string) : nat :=
  List.length (filter (fun u => String.eqb (User.email u) email) (DB.users db)).

(** The participants the routine looks at: those of the bundles that pass
the check of the required fields. *)
Definition checked_participants (convData : ImportConversationData.t)
  : list ImportParticipant.t :=
  match ImportConversationData.participants convData,
        ImportConversationData.messages convData with
  | Some participants, Some _ =>
      if JS.falsy (ImportConversationData.title convData) then [] else participants
  | _, _ => []
  end.

(** The three ways a participant is dealt with: found, given up, created. *)
Inductive Dealt (st : State) (participant : ImportParticipant.t)
  : State -> option User.t -> Prop :=
| Found (existing : User.t) (st' : State) :
    Database.getUserByEmail (db st) (ImportParticipant.email participant)
    = Some existing ->
    db st' = db st ->
    createdUsers (results st')
    = createdUsers (results st) ->
    skippedUsers (results st')
    = (skippedUsers (results st)
       ++ [(ImportParticipant.email participant, "User already exists")])%list ->
    Dealt st participant st' (Some existing)
| Given_up (st' : State) :
    Database.getUserByEmail (db st) (ImportParticipant.email participant) = None ->
    db st' = db st ->
    createdUsers (results st')
    = createdUsers (results st) ->
    skippedUsers (results st')
    = (skippedUsers (results st)
       ++ [(ImportParticipant.email participant, "Failed to create/find user")])%list ->
    Dealt st participant st' None
| Created (e : string) (row : User.t) (st' : State) :
    ImportParticipant.email participant = Some e ->
    Database.getUserByEmail (db st) (Some e) = None ->
    DB.users (db st') = (DB.users (db st) ++ [row])%list ->
    DB.conversations (db st') = DB.conversations (db st) ->
    User.email row = e ->
    createdUsers (results st')
    = (createdUsers (results st) ++ [(Some e, User.role row)])%list ->
    skippedUsers (results st')
    = skippedUsers (results st) ->
    Dealt st participant st' (Some row).

(** Two states that agree on the users and on the two lists of users in
[results]. *)
Definition same_view (st st' : State) : Prop :=
  DB.users (db st') = DB.users (db st)
  /\ createdUsers (results st') = createdUsers (results st)
  /\ skippedUsers (results st') = skippedUsers (results st).


(** A property of the state that only looks at the users and at the two
lists of users. *)
Definition respects_view (I : State -> Prop) : Prop :=
  forall st st', same_view st st' -> I st -> I st'.

(** The second run reports [e] as skipped because the user exists. *)
Definition already_exists (e : string) (st : State) : Prop :=
  In (Some e, "User already exists") (skippedUsers (results st)).

(** Every entry of [createdUsers] carries an email that has exactly one row
and that a checked participant of the run brought. *)
Definition created_once (emails : list (option string)) (st : State) : Prop :=
  forall email role,
    In (email, role) (createdUsers (results st)) ->
    exists e, email = Some e
              /\ rows_with_email (db st) e = 1%nat
              /\ In (Some e) emails.

(** What the loop over the participants leaves alone: the counters and
the errors of [results], and every table but [users]. *)
Definition same_rest (st st' : State) : Prop :=
  successful (results st') = successful (results st)
  /\ failed (results st') = failed (results st)
  /\ errors (results st') = errors (results st)
  /\ DB.conversations (db st') = DB.conversations (db st)
  /\ DB.conversation_participants (db st') = DB.conversation_participants (db st)
  /\ DB.conversation_metadata (db st') = DB.conversation_metadata (db st)
  /\ DB.attachments (db st') = DB.attachments (db st).

(** The rows of [users] are those of [users0] followed by the rows that
[createdUsers] reports, in the order of the report. *)
Definition created_are_appended (users0 : list User.t)
    (created0 : list (option string * UserRole)) (st : State) : Prop :=
  exists added : list User.t,
    DB.users (db st) = (users0 ++ added)%list
    /\ createdUsers (results st)
       = (created0 ++ map (fun u => (Some (User.email u), User.role u)) added)%list.

(** A bundle that the routine gives up on before it creates anything: a
required field is missing, or the list of participants is empty. *)
Definition incomplete (convData : ImportConversationData.t) : Prop :=
  JS.falsy (ImportConversationData.title convData) = true
  \/ ImportConversationData.participants convData = None
  \/ ImportConversationData.messages convData = None
  \/ ImportConversationData.participants convData = Some [].

End ImportRoutes.

(* ===================================================================== *)
(** * lib/rocketchat-exporter.ts: the export of the direct rooms *)
(* ===================================================================== *)

(** A room of [im.list]; [t_] is its field [t], the room type. *)
Module RocketChatRoom.
Record t : Type := mk {
  _id : string;
  name : option string;
  fname : option string;
  t_ : string;
  ts : option string
}.
End RocketChatRoom.

(** A user of [users.info]; [emails] holds the address of each entry. *)
Module RocketChatUser.
Record t : Type := mk {
  _id : string;
  username : string;
  name : option string;
  emails : option (list string);
  roles : list string
}.
End RocketChatUser.

(** A conversation in the format of the export. *)
Module ExportedConversation.
Record t : Type := mk {
  source : string;
  source_id : string;
  title : string;
  type : string;
  participants : list ImportParticipant.t;
  messages : list ImportMessage.t;
  created_at : string;
  exported_at : string;
  message_count : Z
}.

(** The object as [importConversations] reads it. *)
Definition as_import (c : t) : ImportConversationData.t :=
  ImportConversationData.mk (Some (source c)) (Some (source_id c)) (Some (title c))
    (Some (type c)) (Some (participants c)) (Some (messages c)) (Some (message_count c)).
End ExportedConversation.

Module RocketChatExporter.

(** The server and the clock as one export sees them: what
    [authenticate()] resolves to; the rooms of [im.list] ([None] when the
    call fails); the message history of each room; [users.info] ([None]
    when the call fails or finds nobody); [new Date(ts).getTime()];
    [new Date(ts).toISOString()] ([None] for the RangeError of an invalid
    date); the time of the export. *)
Record World : Type := mkWorld {
  authenticate : bool;
  im_list : option (list RocketChatRoom.t);
  room_messages : string -> RocketChat.Backend;
  getUserInfo : string -> option RocketChatUser.t;
  getTime : option string -> option Z;
  toISOString : option string -> option string;
  exported_at : string
}.

(** [getDirectMessageRooms]: the rooms of type ['d']. *)
Definition getDirectMessageRooms (w : World) : option (list RocketChatRoom.t) :=
  match im_list w with
  | Some ims => Some (filter (fun room => String.eqb (RocketChatRoom.t_ room) "d") ims)
  | None => None
  end.

Definition determineUserRole (user : RocketChatUser.t) : string :=
  if existsb (String.eqb "admin") (RocketChatUser.roles user) then "admin"
  else if existsb (String.eqb "doctor") (RocketChatUser.roles user)
          || JS.includes (JS.toLowerCase (RocketChatUser.username user)) "doctor"
          || JS.includes (JS.toLowerCase (RocketChatUser.username user)) "dr"
  then "doctor"
  else "patient".

(** [[...new Set(ids)]]: the first occurrence of each id, in order. *)
Fixpoint dedupe (seen ids : list string) : list string :=
  match ids with
  | [] => []
  | id :: rest =>
      if existsb (String.eqb id) seen then dedupe seen rest
      else id :: dedupe (id :: seen) rest
  end.

(** The entry pushed to [participants] for a user that was found. *)
Definition participant_of (user : RocketChatUser.t) : ImportParticipant.t :=
  ImportParticipant.mk
    (RocketChatUser._id user)
    (RocketChatUser.username user)
    (Some (ImportRoutes.or_else (RocketChatUser.name user) (RocketChatUser.username user)))
    (Some (match RocketChatUser.emails user with
           | Some (address :: _) =>
               if String.eqb address ""
               then RocketChatUser.username user ++ "@rocketchat.local"
               else address
           | _ => RocketChatUser.username user ++ "@rocketchat.local"
           end))
    (Some (determineUserRole user)).

(** [messages.map(...)] with a callback that may throw. *)
Fixpoint map_or_throw {A B : Type} (f : A -> option B) (l : list A) : option (list B) :=
  match l with
  | [] => Some []
  | x :: l' =>
      match f x with
      | None => None
      | Some y =>
          match map_or_throw f l' with
          | None => None
          | Some ys => Some (y :: ys)
          end
      end
  end.

(** The body of the loop over the rooms: the conversation pushed, nothing
    for an empty room or after the [catch], or a loop over the pages that
    is still running after [fuel] rounds. *)
Inductive RoomOutcome : Type :=
| Exported (conversation : ExportedConversation.t)
| Skipped
| Unfinished.

Definition export_room (w : World) (fuel : nat) (room : RocketChatRoom.t) : RoomOutcome :=
  match RocketChat.getAllMessagesFromRoom (getTime w)
          (room_messages w (RocketChatRoom._id room)) fuel with
  | RocketChat.Running => Unfinished
  | RocketChat.Threw => Skipped
  | RocketChat.Returned messages =>
      if Nat.eqb (List.length messages) 0 then Skipped
      else
        let participantIds := dedupe [] (map RocketChatMessage.u_id messages) in
        let participants :=
          flat_map (fun participantId =>
                      match getUserInfo w participantId with
                      | Some user => [participant_of user]
                      | None => []
                      end)
                   participantIds in
        match map_or_throw
                (fun msg =>
                   match toISOString w (RocketChatMessage.ts msg) with
                   | Some created_on =>
                       Some (ImportMessage.mk (RocketChatMessage._id msg)
                               (RocketChatMessage.msg msg) (RocketChatMessage.u_id msg)
                               created_on)
                   | None => None
                   end)
                messages,
              toISOString w (RocketChatRoom.ts room) with
        | Some exported, Some created_at =>
            Exported
              (ExportedConversation.mk "rocketchat" (RocketChatRoom._id room)
                 (ImportRoutes.or_else (RocketChatRoom.fname room)
                    (ImportRoutes.or_else (RocketChatRoom.name room)
                       ("Conversation " ++ RocketChatRoom._id room)))
                 "1to1" participants exported created_at (exported_at w)
                 (Z.of_nat (List.length messages)))
        | _, _ => Skipped
        end
  end.

Fixpoint export_rooms (w : World) (fuel : nat) (rooms : list RocketChatRoom.t)
    (exportedConversations : list ExportedConversation.t)
  : RocketChat.Outcome (list ExportedConversation.t) :=
  match rooms with
  | [] => RocketChat.Returned exportedConversations
  | room :: rest =>
      match export_room w fuel room with
      | Unfinished => RocketChat.Running
      | Skipped => export_rooms w fuel rest exportedConversations
      | Exported conversation =>
          export_rooms w fuel rest (exportedConversations ++ [conversation])%list
      end
  end.

(** [exportDirectMessages]; [fuel] bounds the rounds of the paging loop of
    each room. *)
Definition exportDirectMessages (w : World) (fuel : nat)
  : RocketChat.Outcome (list ExportedConversation.t) :=
  if negb (authenticate w) then RocketChat.Threw
  else
    match getDirectMessageRooms w with
    | None => RocketChat.Threw
    | Some rooms => export_rooms w fuel rooms []
    end.

End RocketChatExporter.

(* ===================================================================== *)
(** * Sample data *)
(* ===================================================================== *)

(** A small store, a token verifier and an import bundle, used to run the
routes on concrete requests. *)
Module Sample.

Definition hashSync (password : string) : string := "$2a$10$" ++ password.

Definition admin : User.t :=
  User.mk 1 "admin@example.com" (hashSync "admin123") ADMIN "System Administrator"
          "2024-03-01 08:00:00".
Definition quality : User.t :=
  User.mk 2 "quality@example.com" (hashSync "quality123") QUALITY "Quality Assurance"
          "2024-03-01 08:00:00".
Definition patient : User.t :=
  User.mk 3 "patient@example.com" (hashSync "patient123") PATIENT "John Doe"
          "2024-03-01 08:00:01".
Definition doctor : User.t :=
  User.mk 4 "doctor@example.com" (hashSync "doctor123") DOCTOR "Dr. Smith"
          "2024-03-01 08:00:01".

Definition knee : Conversation.t :=
  Conversation.mk 1 "Knee pain" ONE_TO_ONE 3 ACTIVE "thread-knee" "2024-03-02 10:15:00"
                  (Some 4).
Definition cough : Conversation.t :=
  Conversation.mk 2 "Cough" ONE_TO_MANY 3 ACTIVE "thread-cough" "2024-03-02 17:40:00" None.
Definition rash : Conversation.t :=
  Conversation.mk 3 "Rash" ONE_TO_MANY 3 ARCHIVED "thread-rash" "2024-03-04 09:05:00" None.

Definition db : DB.t :=
  DB.mk [admin; quality; patient; doctor]
        [knee; cough; rash]
        [ Participant.mk 1 1 3 "2024-03-02 10:15:00";
          Participant.mk 2 1 4 "2024-03-02 10:15:00";
          Participant.mk 3 2 3 "2024-03-02 17:40:00";
          Participant.mk 4 3 3 "2024-03-04 09:05:00" ]
        [ Metadata.mk 1 1 "imported_from" "rocketchat";
          Metadata.mk 2 2 "imported_from" "unknown" ]
        [ Attachment.mk 1 1 3 "knee.png" "1709374500000_ab12cd.png" 2048 "image/png"
                        "https://blob.example/knee" "conversation-1" "2024-03-02 10:16:00";
          Attachment.mk 2 2 3 "cough.wav" "1709401200000_ef34gh.wav" 4096 "audio/wav"
                        "https://blob.example/cough" "conversation-2" "2024-03-02 17:41:00" ]
        4 3 4 2 2.

(** The tokens of the four users, and one whose user is not in the store. *)
Definition jwt_verify : Auth.Verifier :=
  fun token =>
    if String.eqb token "admin.token"
    then Some (Claims.mk 1 "admin@example.com" ADMIN "System Administrator")
    else if String.eqb token "quality.token"
    then Some (Claims.mk 2 "quality@example.com" QUALITY "Quality Assurance")
    else if String.eqb token "patient.token"
    then Some (Claims.mk 3 "patient@example.com" PATIENT "John Doe")
    else if String.eqb token "doctor.token"
    then Some (Claims.mk 4 "doctor@example.com" DOCTOR "Dr. Smith")
    else if String.eqb token "former.token"
    then Some (Claims.mk 9 "former@example.com" DOCTOR "Dr. Former")
    else None.

Definition pdf : UploadedFile.t := UploadedFile.mk "report.pdf" "application/pdf" 2048.

(** An upload environment whose object storage is not configured, and one
in which it works; the upload of the PDF to conversation 1 by the
administrator in the first. *)
Definition no_storage : Attachments.Env :=
  Attachments.mkEnv (BlobStorage.mk None None) "1709374500000_zz99.pdf"
                    "2024-03-05 12:00:00" "2024-03-05T12:00:00.000Z".

Definition storage : Attachments.Env :=
  Attachments.mkEnv (BlobStorage.mk (Some "UseDevelopmentStorage=true")
                                    (Some "https://blob.example/report?sig=1"))
                    "1709374500000_zz99.pdf"
                    "2024-03-05 12:00:00" "2024-03-05T12:00:00.000Z".

Definition upload_without_storage : Response Attachments.Summary * DB.t :=
  Attachments.POST_upload jwt_verify no_storage db (Some "Bearer admin.token") (Some 1)
    (Some pdf).

(** A PDF of one byte more than 50 MiB, and its upload to conversation 1
by the administrator with a working storage. *)
Definition scan : UploadedFile.t :=
  UploadedFile.mk "scan.pdf" "application/pdf" (50 * 1024 * 1024 + 1).

Definition upload_too_large : Response Attachments.Summary * DB.t :=
  Attachments.POST_upload jwt_verify storage db (Some "Bearer admin.token") (Some 1)
    (Some scan).

Definition import_env : ImportRoutes.Env :=
  ImportRoutes.mkEnv hashSync
    (fun n => "tmp" ++ JS.toString (Z.of_nat n))
    (fun _ => "2024-03-05 12:00:00")
    (fun n => Some ("thread-" ++ JS.toString (Z.of_nat n)))
    (fun _ => "2024-03-05T12:00:00.000Z").

(** A bundle with one care-seeker and two responders. *)
Definition bundle_participants : list ImportParticipant.t :=
  [ ImportParticipant.mk "patient-1" "patient1" (Some "Jane Roe")
                         (Some "jane@example.com") (Some "patient");
    ImportParticipant.mk "doctor-1" "doctor1" (Some "Dr. Jones")
                         (Some "dr.jones@example.com") (Some "doctor");
    ImportParticipant.mk "doctor-2" "doctor2" (Some "Dr. Brown")
                         (Some "dr.brown@example.com") (Some "doctor") ].

Definition bundle : ImportConversationData.t :=
  ImportConversationData.mk (Some "rocketchat") (Some "rc-room-1")
    (Some "Patient - Doctor Chat") (Some "1to1")
    (Some bundle_participants)
    (Some [ ImportMessage.mk "msg-1" "Hello doctor" "patient-1" "2023-01-01T10:00:00Z" ])
    (Some 1).

(** The state before the bundle is imported by administrator 1, the state
after, and the users its participants resolve to. *)
Definition before_import : ImportRoutes.State :=
  ImportRoutes.mkState db 0 ImportRoutes.no_results.

Definition after_import : ImportRoutes.State :=
  ImportRoutes.import_one import_env 1 before_import bundle.

Definition bundle_users : list User.t :=
  ImportRoutes.resolved import_env before_import bundle_participants.

(** Two runs of the routine on the bundle, one after the other. *)
Definition first_run : ImportRoutes.State :=
  ImportRoutes.importConversations import_env 1 db 0 [bundle].

Definition second_run : ImportRoutes.State :=
  ImportRoutes.importConversations import_env 1
    (ImportRoutes.db first_run) (ImportRoutes.tick first_run) [bundle].

Definition message (id ts : string) : RocketChatMessage.t :=
  RocketChatMessage.mk id "room-1" "hello" (Some ts) "u1" "patient1".

(** A room with two messages, served newest first in one batch, then
nothing. *)
Definition backend : RocketChat.Backend :=
  fun n _ =>
    match n with
    | O => Some [message "m2" "2024-03-02T10:00:00Z"; message "m1" "2024-03-01T10:00:00Z"]
    | _ => Some []
    end.

(** A stand-in for [new Date(ts).getTime()] that tells the two sample
time stamps apart. *)
Definition getTime (ts : option string) : option Z :=
  match ts with
  | Some "2024-03-01T10:00:00Z" => Some 1709287200000
  | Some "2024-03-02T10:00:00Z" => Some 1709373600000
  | _ => None
  end.

(** A stand-in for SQLite's [DATE()]: the first ten characters. *)
Definition DATE (created_at : string) : option string :=
  Some (String.substring 0 10 created_at).

(** A stand-in for [bcrypt.compareSync] that goes with [hashSync], and a
signer that goes with [jwt_verify]. *)
Definition compareSync (password hash : string) : bool :=
  String.eqb hash (hashSync password).

Definition jwt_sign : Auth.Signer :=
  fun claims =>
    if Claims.id claims =? 1 then "admin.token"
    else if Claims.id claims =? 2 then "quality.token"
    else if Claims.id claims =? 3 then "patient.token"
    else if Claims.id claims =? 4 then "doctor.token"
    else "former.token".

Definition reviewer_request : RegisterRequest.t :=
  RegisterRequest.mk (Some "reviewer@example.com") (Some "secret1") (Some "quality")
                     (Some "Reviewer").

Definition reviewer : PublicUser.t :=
  PublicUser.mk 5 "reviewer@example.com" QUALITY "Reviewer".

(** What the responder is shown by [GET /conversations]. *)
Definition doctor_list : list Conversations.Details :=
  map (Conversations.details db) (Database.getConversationsForDoctor db 4).

(** The first attachment of the store. *)
Definition knee_png : Attachment.t :=
  Attachment.mk 1 1 3 "knee.png" "1709374500000_ab12cd.png" 2048 "image/png"
                "https://blob.example/knee" "conversation-1" "2024-03-02 10:16:00".

(** The upload of the PDF to conversation 1 by the care-seeker, with a
working storage: the answer and the store it leaves. *)
Definition upload : Response Attachments.Summary * DB.t :=
  Attachments.POST_upload jwt_verify storage db (Some "Bearer patient.token") (Some 1)
    (Some pdf).

Definition uploaded : Attachments.Summary :=
  Attachments.mkSummary 3 1 "report.pdf" 2048 "application/pdf" "John Doe"
                        "2024-03-05T12:00:00.000Z".

(** The chat service in demo mode. *)
Definition getThreadMessages (threadId : string) : list ChatMessage.t :=
  [ ChatMessage.mk "demo_message_1" "text"
      (Some "Hello Doctor, I need medical consultation.") (Some "John Smith")
      (Some "demo_user_patient") (Some "2025-07-22T23:21:35.000Z") (Some "1") ].

(** A conversation created on the store, deleted, and one created after
it. *)
Definition first_created : option (Z * DB.t) :=
  Database.createConversation "2024-03-05 12:00:00" db "Back pain" ONE_TO_MANY 3
    "thread-back" None.

Definition after_first : DB.t :=
  match first_created with
  | Some (_, db1) => db1
  | None => db
  end.

Definition second_created : option (Z * DB.t) :=
  Database.createConversation "2024-03-05 13:00:00"
    (fold_left Database.deleteConversation [4] after_first) "Headache" ONE_TO_MANY 3
    "thread-head" None.

Definition after_second : DB.t :=
  match second_created with
  | Some (_, db2) => db2
  | None => db
  end.

(** A RocketChat server with one direct room and one channel; the direct
room holds the two sample messages of user [u1]. *)
Definition rocketchat_user : RocketChatUser.t :=
  RocketChatUser.mk "u1" "patient1" (Some "Patient One") None ["user"].

Definition world : RocketChatExporter.World :=
  RocketChatExporter.mkWorld true
    (Some [ RocketChatRoom.mk "room-1" None None "d" (Some "2024-03-01T09:00:00Z");
            RocketChatRoom.mk "general" (Some "general") None "c"
                              (Some "2024-01-01T00:00:00Z") ])
    (fun _ => backend)
    (fun userId => if String.eqb userId "u1" then Some rocketchat_user else None)
    getTime
    (fun ts => ts)
    "2024-03-05T12:00:00.000Z".

Definition exported_room : ExportedConversation.t :=
  ExportedConversation.mk "rocketchat" "room-1" "Conversation room-1" "1to1"
    [ ImportParticipant.mk "u1" "patient1" (Some "Patient One")
                           (Some "patient1@rocketchat.local") (Some "patient") ]
    [ ImportMessage.mk "m1" "hello" "u1" "2024-03-01T10:00:00Z";
      ImportMessage.mk "m2" "hello" "u1" "2024-03-02T10:00:00Z" ]
    "2024-03-01T09:00:00Z" "2024-03-05T12:00:00.000Z" 2.

(** A page of a thousand messages sent in one burst, [p0] to [p999]. *)
Definition full_page : list RocketChatMessage.t :=
  map (fun i => message ("p" ++ JS.toString (Z.of_nat i)) "2024-03-02T10:00:00Z")
      (seq 0 1000).

(** A room of 1001 messages: the full page first, then, for the request
that goes on from the time stamp of its last message, the one older
message. *)
Definition paged : RocketChat.Backend :=
  fun _ oldest =>
    match oldest with
    | None => Some full_page
    | Some "2024-03-02T10:00:00Z" => Some [message "m1" "2024-03-01T10:00:00Z"]
    | Some _ => Some []
    end.

(** The same server, answering the first request only. *)
Definition breaks_after_first_page : RocketChat.Backend :=
  fun _ oldest =>
    match oldest with
    | None => Some full_page
    | Some _ => None
    end.

End Sample.

(* ===================================================================== *)
(** * Properties *)
(* ===================================================================== *)

(** ** Row ids *)

Lemma max_id_bound {A : Type} (id : A -> Z) (rows : list A) (r : A) :
  In r rows -> id r <= Database.max_id id rows.
Proof.
  induction rows as [|x rows IH]; simpl; [tauto|].
  intros [->|Hin]; [lia|]. specialize (IH Hin). lia.
Qed.

Lemma next_rowid_fresh {A : Type} (id : A -> Z) (seq : Z) (rows : list A) :
  find (fun r => id r =? Database.next_rowid id seq rows) rows = None.
Proof.
  destruct (find _ rows) as [r|] eqn:E; [|reflexivity].
  apply find_some in E as [Hin Heq].
  apply Z.eqb_eq in Heq. apply (max_id_bound id) in Hin.
  unfold Database.next_rowid in Heq. lia.
Qed.

Lemma find_app_fresh {A : Type} (p : A -> bool) (l : list A) (x : A) :
  find p l = None -> p x = true -> find p (l ++ [x]) = Some x.
Proof.
  induction l as [|y l IH]; simpl; intros Hnone Hx.
  - now rewrite Hx.
  - destruct (p y); [discriminate|]. now apply IH.
Qed.

(** A user that has just been inserted is found under the id the insert
    returned, with the fields that were given. *)
Lemma createUser_then_getUserById hashSync now db e password role d userId db' :
  Database.createUser hashSync now db (Some e) password role (Some d) = Some (userId, db') ->
  Database.getUserById db' userId
  = Some (User.mk userId e (hashSync password) role d now).
Proof.
  unfold Database.createUser.
  destruct (Database.getUserByEmail db (Some e)); [discriminate|].
  intros H. injection H as <- <-.
  unfold Database.getUserById. simpl.
  apply find_app_fresh.
  - apply (next_rowid_fresh User.id).
  - simpl. apply Z.eqb_refl.
Qed.

Lemma createUser_unused hashSync now db e password role d :
  Database.getUserByEmail db (Some e) = None ->
  exists userId db',
    Database.createUser hashSync now db (Some e) password role (Some d) = Some (userId, db').
Proof.
  intros H. unfold Database.createUser. rewrite H. eauto.
Qed.

(** ** Strings *)

Lemma falsy_Some_false (s : string) : s <> "" -> JS.falsy (Some s) = false.
Proof.
  intros H. simpl. now apply String.eqb_neq.
Qed.

Lemma of_string_value (r : UserRole) : UserRole_.of_string (UserRole_.value r) = Some r.
Proof. destruct r; reflexivity. Qed.

Lemma of_string_Some (s : string) (r : UserRole) :
  UserRole_.of_string s = Some r -> s = UserRole_.value r.
Proof.
  unfold UserRole_.of_string. intros H.
  apply find_some in H as [_ H]. apply String.eqb_eq in H. now symmetry.
Qed.

Lemma of_string_None (s : string) :
  ~ In s (map UserRole_.value UserRole_.values) -> UserRole_.of_string s = None.
Proof.
  intros Hnot. destruct (UserRole_.of_string s) as [r|] eqn:E; [|reflexivity].
  apply of_string_Some in E. subst s. exfalso. apply Hnot.
  destruct r; simpl; tauto.
Qed.

(** ** Regular expressions *)

Lemma append_empty (s1 s2 : string) : s1 ++ s2 = "" -> s1 = "" /\ s2 = "".
Proof. destruct s1; cbn; [tauto | discriminate]. Qed.

Lemma seq_inv (r1 r2 : JS.regex) (s : string) :
  JS.matches (JS.Seq r1 r2) s ->
  exists s1 s2, s = s1 ++ s2 /\ JS.matches r1 s1 /\ JS.matches r2 s2.
Proof. intros H. inversion H; subst. eauto. Qed.

Lemma alt_inv (r1 r2 : JS.regex) (s : string) :
  JS.matches (JS.Alt r1 r2) s -> JS.matches r1 s \/ JS.matches r2 s.
Proof. intros H. inversion H; subst; tauto. Qed.

Lemma class_inv (p : ascii -> bool) (s : string) :
  JS.matches (JS.Class p) s -> exists c, s = String c "" /\ p c = true.
Proof. intros H. inversion H; subst. eauto. Qed.

Lemma eps_inv (s : string) : JS.matches JS.Eps s -> s = "".
Proof. intros H. now inversion H. Qed.

Lemma empty_inv (s : string) : ~ JS.matches JS.Empty s.
Proof. intros H. inversion H. Qed.

Lemma nullable_matches (r : JS.regex) : JS.nullable r = true <-> JS.matches r "".
Proof.
  induction r as [| | p | r1 IH1 r2 IH2 | r1 IH1 r2 IH2 | r IH]; cbn.
  - split; [discriminate | intros H; now apply empty_inv in H].
  - split; [constructor | reflexivity].
  - split; [discriminate|]. intros H. apply class_inv in H as (c & E & _). discriminate.
  - rewrite andb_true_iff, IH1, IH2. split.
    + intros [H1 H2]. exact (JS.matches_seq r1 r2 "" "" H1 H2).
    + intros H. apply seq_inv in H as (s1 & s2 & E & H1 & H2).
      symmetry in E. apply append_empty in E as [-> ->]. now split.
  - rewrite orb_true_iff, IH1, IH2. split.
    + intros [H|H]; [now apply JS.matches_alt_l | now apply JS.matches_alt_r].
    + apply alt_inv.
  - split; [constructor | reflexivity].
Qed.

(** A non-empty match of a star starts with a non-empty match of its body. *)
Lemma star_cons_inv (r : JS.regex) (c : ascii) (s : string) :
  JS.matches (JS.Star r) (String c s) ->
  exists s1 s2, s = s1 ++ s2 /\ JS.matches r (String c s1) /\ JS.matches (JS.Star r) s2.
Proof.
  intros H. remember (JS.Star r) as r' eqn:Er. remember (String c s) as s' eqn:Es.
  revert s Es. induction H as [| | | | | |r0 s1 s2 H1 _ H2 IH2]; intros t Et;
    try discriminate.
  injection Er as ->. destruct s1 as [|c1 s1]; cbn in Et.
  - now apply IH2.
  - injection Et as -> <-. exists s1, s2. now repeat split.
Qed.

Lemma deriv_matches (r : JS.regex) :
  forall (c : ascii) (s : string), JS.matches (JS.deriv c r) s <-> JS.matches r (String c s).
Proof.
  induction r as [| | p | r1 IH1 r2 IH2 | r1 IH1 r2 IH2 | r IH]; intros c s; cbn.
  - split; intros H; now apply empty_inv in H.
  - split; intros H; [now apply empty_inv in H | apply eps_inv in H; discriminate].
  - split.
    + destruct (p c) eqn:E; intros H; [|now apply empty_inv in H].
      apply eps_inv in H. subst. now constructor.
    + intros H. apply class_inv in H as (c' & E & Hc). injection E as <- ->.
      rewrite Hc. constructor.
  - assert (Hhead : forall s, JS.matches (JS.Seq (JS.deriv c r1) r2) s ->
                              JS.matches (JS.Seq r1 r2) (String c s)).
    { intros s0 H. apply seq_inv in H as (s1 & s2 & -> & H1 & H2).
      apply IH1 in H1. exact (JS.matches_seq r1 r2 (String c s1) s2 H1 H2). }
    assert (Hsplit : JS.matches (JS.Seq r1 r2) (String c s) ->
                     JS.matches (JS.Seq (JS.deriv c r1) r2) s
                     \/ (JS.nullable r1 = true /\ JS.matches (JS.deriv c r2) s)).
    { intros H. apply seq_inv in H as (s1 & s2 & E & H1 & H2).
      destruct s1 as [|c1 s1]; cbn in E.
      - right. subst s2. split; [now apply nullable_matches | now apply IH2].
      - injection E as -> ->. left. apply JS.matches_seq; [now apply IH1 | assumption]. }
    destruct (JS.nullable r1) eqn:En; split.
    + intros H. apply alt_inv in H as [H|H]; [now apply Hhead|].
      apply (JS.matches_seq r1 r2 "" (String c s)); [now apply nullable_matches|].
      now apply IH2.
    + intros H. destruct (Hsplit H) as [H'|[_ H']];
        [now apply JS.matches_alt_l | now apply JS.matches_alt_r].
    + apply Hhead.
    + intros H. destruct (Hsplit H) as [H'|[H' _]]; [assumption | discriminate].
  - split; intros H; apply alt_inv in H as [H|H].
    + apply JS.matches_alt_l. now apply IH1.
    + apply JS.matches_alt_r. now apply IH2.
    + apply JS.matches_alt_l. now apply IH1.
    + apply JS.matches_alt_r. now apply IH2.
  - split.
    + intros H. apply seq_inv in H as (s1 & s2 & -> & H1 & H2).
      apply IH in H1. exact (JS.matches_star_cons r (String c s1) s2 H1 H2).
    + intros H. apply star_cons_inv in H as (s1 & s2 & -> & H1 & H2).
      apply JS.matches_seq; [now apply IH | assumption].
Qed.

(** The matcher decides the relation. *)
Lemma test_matches (s : string) :
  forall r : JS.regex, JS.test r s = true <-> JS.matches r s.
Proof.
  induction s as [|c s IH]; intros r; cbn.
  - apply nullable_matches.
  - rewrite IH. apply deriv_matches.
Qed.

Lemma star_class (p : ascii -> bool) (w : string) :
  JS.matches (JS.Star (JS.Class p)) w <-> JS.all_chars p w = true.
Proof.
  split.
  - intros H. remember (JS.Star (JS.Class p)) as r eqn:Er.
    induction H as [| | | | | |r0 s1 s2 H1 _ H2 IH2]; try discriminate; [reflexivity|].
    injection Er as ->. apply class_inv in H1 as (c & -> & Hc). cbn.
    apply andb_true_iff. split; [assumption | now apply IH2].
  - induction w as [|c w IH]; cbn; intros H; [constructor|].
    apply andb_true_iff in H as [Hc Hw].
    apply (JS.matches_star_cons (JS.Class p) (String c "") w);
      [now constructor | now apply IH].
Qed.

Lemma plus_class (p : ascii -> bool) (w : string) :
  JS.matches (JS.Plus (JS.Class p)) w <-> w <> "" /\ JS.all_chars p w = true.
Proof.
  unfold JS.Plus. split.
  - intros H. apply seq_inv in H as (s1 & s2 & -> & H1 & H2).
    apply class_inv in H1 as (c & -> & Hc). cbn. split; [discriminate|].
    apply andb_true_iff. split; [assumption | now apply star_class].
  - intros [Hne H]. destruct w as [|c w]; [congruence|]. cbn in H.
    apply andb_true_iff in H as [Hc Hw].
    apply (JS.matches_seq (JS.Class p) _ (String c "") w);
      [now constructor | now apply star_class].
Qed.

Lemma lit_matches (c : ascii) (s : string) :
  JS.matches (JS.Lit c) s <-> s = String c "".
Proof.
  unfold JS.Lit. split.
  - intros H. apply class_inv in H as (c' & -> & Hc).
    apply Ascii.eqb_eq in Hc. now subst.
  - intros ->. constructor. apply Ascii.eqb_refl.
Qed.

(** The pattern of the register route accepts exactly the strings
[local@domain.tld]. *)
Lemma emailRegex_shape (s : string) :
  JS.test AuthRoutes.emailRegex s = true <-> AuthRoutes.email_shaped s.
Proof.
  rewrite test_matches. unfold AuthRoutes.emailRegex, AuthRoutes.email_shaped,
    AuthRoutes.plain, AuthRoutes.not_space_or_at.
  split.
  - intros H.
    apply seq_inv in H as (local & s1 & -> & Hlocal & H).
    apply seq_inv in H as (at_ & s2 & -> & Hat & H).
    apply seq_inv in H as (domain & s3 & -> & Hdomain & H).
    apply seq_inv in H as (dot & tld & -> & Hdot & Htld).
    apply lit_matches in Hat, Hdot. subst.
    apply plus_class in Hlocal, Hdomain, Htld.
    exists local, domain, tld. now repeat split.
  - intros (local & domain & tld & -> & Hlocal & Hdomain & Htld).
    apply plus_class in Hlocal, Hdomain, Htld.
    apply JS.matches_seq; [assumption|].
    apply (JS.matches_seq _ _ "@"); [now apply lit_matches|].
    apply JS.matches_seq; [assumption|].
    apply (JS.matches_seq _ _ "."); [now apply lit_matches | assumption].
Qed.

(** ** Registration *)

Lemma register_rejects hashSync now db (e p r d : option string) :
  JS.falsy e = true \/ JS.falsy p = true \/ JS.falsy r = true \/ JS.falsy d = true
  \/ ~ In (AuthRoutes.str r) (map UserRole_.value UserRole_.values)
  \/ JS.test AuthRoutes.emailRegex (AuthRoutes.str e) = false
  \/ (String.length (AuthRoutes.str p) < 6)%nat ->
  let answer := AuthRoutes.POST_register hashSync now db (RegisterRequest.mk e p r d) in
  status (fst answer) = 400 /\ snd answer = db.
Proof.
  intros H. unfold AuthRoutes.POST_register. cbn [RegisterRequest.email
    RegisterRequest.password RegisterRequest.role RegisterRequest.display_name].
  destruct (JS.falsy e || JS.falsy p || JS.falsy r || JS.falsy d) eqn:Emissing;
    [now split|].
  apply orb_false_elim in Emissing as [Emissing Hd].
  apply orb_false_elim in Emissing as [Emissing Hr].
  apply orb_false_elim in Emissing as [He Hp].
  destruct (UserRole_.of_string (AuthRoutes.str r)) as [role|] eqn:Erole; [|now split].
  destruct (JS.test AuthRoutes.emailRegex (AuthRoutes.str e)) eqn:Eemail; [|now split].
  cbn [negb].
  destruct (Z.of_nat (String.length (AuthRoutes.str p)) <? 6) eqn:Elen; [now split|].
  exfalso. apply Z.ltb_ge in Elen.
  destruct H as [H|[H|[H|[H|[H|[H|H]]]]]]; try congruence; try lia.
  apply of_string_None in H. congruence.
Qed.

Lemma register_accepts hashSync now db (e p d : string) (role : UserRole) :
  d <> "" ->
  JS.test AuthRoutes.emailRegex e = true ->
  (6 <= String.length p)%nat ->
  Database.getUserByEmail db (Some e) = None ->
  exists id,
    fst (AuthRoutes.POST_register hashSync now db
           (RegisterRequest.mk (Some e) (Some p) (Some (UserRole_.value role)) (Some d)))
    = respond 201 (Success (PublicUser.mk id e role d)).
Proof.
  intros Hd He Hp Hunused.
  assert (He' : e <> "") by (intros ->; discriminate He).
  assert (Hp' : p <> "") by (intros ->; simpl in Hp; lia).
  unfold AuthRoutes.POST_register. cbn [RegisterRequest.email
    RegisterRequest.password RegisterRequest.role RegisterRequest.display_name].
  rewrite (falsy_Some_false e He'), (falsy_Some_false p Hp'), (falsy_Some_false d Hd).
  assert (Hr : JS.falsy (Some (UserRole_.value role)) = false) by (destruct role; reflexivity).
  rewrite Hr. cbn [orb AuthRoutes.str]. rewrite of_string_value, He. cbn [negb].
  assert (Hlen : (Z.of_nat (String.length p) <? 6) = false) by (apply Z.ltb_ge; lia).
  rewrite Hlen. unfold Auth.register. rewrite Hunused.
  destruct (createUser_unused hashSync now db e p role d Hunused) as (userId & db' & Hcreate).
  rewrite Hcreate, (createUser_then_getUserById _ _ _ _ _ _ _ _ _ Hcreate).
  exists userId. reflexivity.
Qed.

(** C3.  [POST /auth/register] answers 400 whenever one of the four fields
    is missing, the role is not one of the four role values, the email is
    not of the shape [local@domain.tld] or the password has fewer than 6
    characters (and then leaves the store alone); a well-formed request whose email is not
    in the store yet, for any of the four roles and so for ["quality"], is
    answered 201 with a user object that carries the requested role. *)
Theorem register_validates_request hashSync now db :
  (forall e p r d : option string,
      JS.falsy e = true \/ JS.falsy p = true \/ JS.falsy r = true \/ JS.falsy d = true
      \/ ~ In (AuthRoutes.str r) ["patient"; "doctor"; "admin"; "quality"]
      \/ ~ AuthRoutes.email_shaped (AuthRoutes.str e)
      \/ (String.length (AuthRoutes.str p) < 6)%nat ->
      let answer := AuthRoutes.POST_register hashSync now db (RegisterRequest.mk e p r d) in
      status (fst answer) = 400 /\ snd answer = db)
  /\
  (forall (e p d : string) (role : UserRole),
      d <> "" ->
      AuthRoutes.email_shaped e ->
      (6 <= String.length p)%nat ->
      Database.getUserByEmail db (Some e) = None ->
      exists user,
        fst (AuthRoutes.POST_register hashSync now db
               (RegisterRequest.mk (Some e) (Some p) (Some (UserRole_.value role)) (Some d)))
        = respond 201 (Success user)
        /\ PublicUser.role user = role
        /\ PublicUser.email user = e
        /\ PublicUser.display_name user = d).
Proof.
  split.
  - intros e p r d H. apply register_rejects.
    destruct H as [H|[H|[H|[H|[H|[H|H]]]]]]; try tauto.
    do 5 right. left.
    destruct (JS.test AuthRoutes.emailRegex (AuthRoutes.str e)) eqn:E; [|reflexivity].
    apply emailRegex_shape in E. contradiction.
  - intros e p d role Hd He Hp Hunused. apply emailRegex_shape in He.
    destruct (register_accepts hashSync now db e p d role Hd He Hp Hunused) as [id Hid].
    exists (PublicUser.mk id e role d). now rewrite Hid.
Qed.

(** ** Bearer tokens *)

Lemma split_no_space (s : string) : JS.no_space s = true -> JS.split " " s = [s].
Proof.
  induction s as [|c s IH]; simpl; [reflexivity|].
  intros H. apply andb_true_iff in H as [Hc Hs].
  apply negb_true_iff in Hc. rewrite Hc, (IH Hs). reflexivity.
Qed.

Lemma bearer_token_Bearer (token : string) :
  JS.no_space token = true -> Auth.bearer_token (Some ("Bearer " ++ token)) = Some token.
Proof.
  intros H. unfold Auth.bearer_token. cbn. now rewrite (split_no_space token H).
Qed.

(** C10.  For a request that carries [Bearer <token>] with a token the
    library accepts (good signature, not expired), [GET /auth/verify] answers
    200 with the claims of the token; the handler never reads the store, so
    the answer is the same whatever the store holds.  On the same request
    the [authenticateToken] middleware reads the store: it answers 401 when
    no user has the id of the token, and otherwise goes on with the stored
    row, not with the claims. *)
Theorem verify_ignores_store (jwt_verify : Auth.Verifier)
    (token : string) (decoded : Claims.t) :
  token <> "" ->
  JS.no_space token = true ->
  jwt_verify token = Some decoded ->
  AuthRoutes.GET_verify jwt_verify (Some ("Bearer " ++ token)) = respond 200 (Success decoded)
  /\ (forall db : DB.t,
         Database.getUserById db (Claims.id decoded) = None ->
         Auth.authenticateToken jwt_verify db (Some ("Bearer " ++ token))
         = inr (Auth.refuse 401 "User not found"))
  /\ (forall (db : DB.t) (user : User.t),
         Database.getUserById db (Claims.id decoded) = Some user ->
         Auth.authenticateToken jwt_verify db (Some ("Bearer " ++ token)) = inl user).
Proof.
  intros Hne Hsp Hok.
  pose proof (bearer_token_Bearer token Hsp) as Hb.
  pose proof (falsy_Some_false token Hne) as Hf.
  repeat split.
  - unfold AuthRoutes.GET_verify. rewrite Hb, Hf. cbn [AuthRoutes.str].
    unfold Auth.verifyToken. rewrite Hok. now destruct decoded.
  - intros db Hmissing. unfold Auth.authenticateToken. rewrite Hb, Hf.
    unfold Auth.verifyToken. now rewrite Hok, Hmissing.
  - intros db user Hfound. unfold Auth.authenticateToken. rewrite Hb, Hf.
    unfold Auth.verifyToken. now rewrite Hok, Hfound.
Qed.

(** ** The conversation routes *)

Lemma guarded_next {A : Type} jwt_verify (gate : option User.t -> option Auth.Refusal)
    db authHeader handler (user : User.t) :
  Auth.authenticateToken jwt_verify db authHeader = inl user ->
  gate (Some user) = None ->
  @Auth.guarded A jwt_verify gate db authHeader handler = handler user.
Proof.
  intros Hauth Hgate. unfold Auth.guarded. now rewrite Hauth, Hgate.
Qed.

Lemma guarded_refused {A : Type} jwt_verify (gate : option User.t -> option Auth.Refusal)
    db authHeader handler (user : User.t) (r : Auth.Refusal) :
  Auth.authenticateToken jwt_verify db authHeader = inl user ->
  gate (Some user) = Some r ->
  @Auth.guarded A jwt_verify gate db authHeader handler = (Auth.send r, db).
Proof.
  intros Hauth Hgate. unfold Auth.guarded. now rewrite Hauth, Hgate.
Qed.

Lemma requireAnyRole_next (user : User.t) : Auth.requireAnyRole (Some user) = None.
Proof.
  unfold Auth.requireAnyRole, Auth.requireRole. now destruct (User.role user).
Qed.

(** C9.  A quality reviewer who asks for [GET /conversations] passes both
    middlewares, and the handler then always answers 500 with the message
    ["Failed to get conversations"]: none of the three branches gives the
    list a value for that role. *)
Theorem quality_cannot_list_conversations (jwt_verify : Auth.Verifier) (db : DB.t)
    (authHeader : option string) (user : User.t) :
  Auth.authenticateToken jwt_verify db authHeader = inl user ->
  User.role user = QUALITY ->
  Auth.requireAnyRole (Some user) = None
  /\ Conversations.GET_conversations jwt_verify db authHeader
     = respond 500 (Failure "Failed to get conversations").
Proof.
  intros Hauth Hrole. split; [apply requireAnyRole_next|].
  unfold Conversations.GET_conversations.
  rewrite (guarded_next _ _ _ _ _ user Hauth (requireAnyRole_next user)).
  unfold Conversations.list_handler. now rewrite Hrole.
Qed.

Lemma create_handler_rejects_1to1 now threadId db user title assigned :
  JS.falsy_num assigned = true
  \/ (exists d, assigned = Some d /\ Database.getUserById db d = None)
  \/ (exists d doctor, assigned = Some d /\ Database.getUserById db d = Some doctor
                       /\ User.role doctor <> DOCTOR) ->
  let answer :=
    Conversations.create_handler now threadId db user
      (CreateConversationRequest.mk title (Some "1to1") assigned) in
  status (fst answer) = 400 /\ snd answer = db.
Proof.
  intros H. unfold Conversations.create_handler.
  cbn [CreateConversationRequest.title CreateConversationRequest.type
       CreateConversationRequest.assigned_doctor_id].
  destruct (JS.falsy title); [now split|]. cbn.
  destruct (JS.falsy_num assigned) eqn:Efalsy; [now split|].
  destruct H as [H|[(d & -> & Hnone)|(d & doctor & -> & Hsome & Hrole)]].
  - discriminate.
  - rewrite Hnone. now split.
  - rewrite Hsome. destruct (User.role doctor); now split.
Qed.

(** C2.  When a care-seeker posts a conversation of type ['1to1'] whose
    [assigned_doctor_id] is absent, names no user, or names a user who is
    not a responder, the answer is 400 and the store, and so the
    conversations table, is as it was. *)
Theorem one_to_one_needs_a_doctor (jwt_verify : Auth.Verifier) (now : string)
    (threadId : option string) (db : DB.t) (authHeader : option string) (user : User.t)
    (title : option string) (assigned : option Z) :
  Auth.authenticateToken jwt_verify db authHeader = inl user ->
  User.role user = PATIENT ->
  assigned = None
  \/ (exists d, assigned = Some d /\ Database.getUserById db d = None)
  \/ (exists d doctor, assigned = Some d /\ Database.getUserById db d = Some doctor
                       /\ User.role doctor <> DOCTOR) ->
  let answer :=
    Conversations.POST_conversations jwt_verify now threadId db authHeader
      (CreateConversationRequest.mk title (Some "1to1") assigned) in
  status (fst answer) = 400
  /\ DB.conversations (snd answer) = DB.conversations db
  /\ snd answer = db.
Proof.
  intros Hauth Hrole H. unfold Conversations.POST_conversations.
  rewrite (guarded_next _ _ _ _ _ user Hauth).
  - destruct (create_handler_rejects_1to1 now threadId db user title assigned) as [Hs Hdb].
    + destruct H as [->|[H|H]]; [now left | now right; left | now right; right].
    + cbv zeta in Hs, Hdb. cbv zeta. rewrite Hdb. now repeat split.
  - unfold Auth.requirePatient, Auth.requireRole. now rewrite Hrole.
Qed.

Lemma delete_handler_existing db id conversation :
  Database.getConversationById db id = Some conversation ->
  Conversations.delete_handler db (Some id)
  = (respond 200 (Success "Conversation deleted successfully"),
     Database.deleteConversation db id).
Proof.
  intros Hfound. unfold Conversations.delete_handler. now rewrite Hfound.
Qed.

(** C8.  [DELETE /conversations/:id] lets only responders and
    administrators through: a care-seeker or a quality reviewer gets 403 and
    nothing changes, and an answer of 200 implies one of the two roles.  For
    an existing conversation the store after the answer is the store after
    the four deletions run in the order participants, metadata, attachments,
    conversation row; each of the four tables has lost the rows of that
    conversation and kept, in place, the rows of the others, and the users
    are as they were. *)
Theorem delete_conversation_cascade (jwt_verify : Auth.Verifier) (db : DB.t)
    (authHeader : option string) (user : User.t) :
  Auth.authenticateToken jwt_verify db authHeader = inl user ->
  (forall conversationId,
      User.role user = PATIENT \/ User.role user = QUALITY ->
      Conversations.DELETE_conversation jwt_verify db authHeader conversationId
      = (respond 403 (Message "Insufficient permissions"), db))
  /\ (forall conversationId,
         status (fst (Conversations.DELETE_conversation jwt_verify db authHeader conversationId))
         = 200 ->
         User.role user = DOCTOR \/ User.role user = ADMIN)
  /\ (forall id conversation,
         User.role user = DOCTOR \/ User.role user = ADMIN ->
         Database.getConversationById db id = Some conversation ->
         let answer := Conversations.DELETE_conversation jwt_verify db authHeader (Some id) in
         let db' := snd answer in
         fst answer = respond 200 (Success "Conversation deleted successfully")
         /\ db' = Database.run
                    (Database.run
                       (Database.run
                          (Database.run db (Database.DELETE_conversation_participants id))
                          (Database.DELETE_conversation_metadata id))
                       (Database.DELETE_attachments id))
                    (Database.DELETE_conversations id)
         /\ DB.conversation_participants db'
            = filter (fun p => negb (Participant.conversation_id p =? id))
                     (DB.conversation_participants db)
         /\ DB.conversation_metadata db'
            = filter (fun m => negb (Metadata.conversation_id m =? id))
                     (DB.conversation_metadata db)
         /\ DB.attachments db'
            = filter (fun a => negb (Attachment.conversation_id a =? id)) (DB.attachments db)
         /\ DB.conversations db'
            = filter (fun c => negb (Conversation.id c =? id)) (DB.conversations db)
         /\ DB.users db' = DB.users db).
Proof.
  intros Hauth. unfold Conversations.DELETE_conversation.
  split; [|split].
  - intros conversationId Hrole.
    apply (guarded_refused _ _ _ _ _ user (Auth.refuse 403 "Insufficient permissions") Hauth).
    unfold Auth.requireDoctorOrAdmin, Auth.requireRole.
    destruct Hrole as [-> | ->]; reflexivity.
  - intros conversationId.
    destruct (User.role user) eqn:Hrole; try tauto;
      rewrite (guarded_refused _ _ _ _ _ user (Auth.refuse 403 "Insufficient permissions") Hauth);
      try (unfold Auth.requireDoctorOrAdmin, Auth.requireRole; now rewrite Hrole);
      discriminate.
  - intros id conversation Hrole Hfound.
    rewrite (guarded_next _ _ _ _ _ user Hauth).
    + cbv zeta. rewrite (delete_handler_existing db id conversation Hfound).
      repeat split.
    + unfold Auth.requireDoctorOrAdmin, Auth.requireRole.
      destruct Hrole as [-> | ->]; reflexivity.
Qed.

(** ** Uploads *)

Lemma authenticateToken_inl jwt_verify db authHeader user :
  Auth.authenticateToken jwt_verify db authHeader = inl user ->
  Database.getUserById db (User.id user) = Some user.
Proof.
  unfold Auth.authenticateToken.
  destruct (JS.falsy _); [discriminate|].
  destruct (Auth.bearer_token authHeader); [|discriminate].
  destruct (Auth.verifyToken jwt_verify s) as [decoded|]; [|discriminate].
  destruct (Database.getUserById db (Claims.id decoded)) as [u|] eqn:E; [|discriminate].
  intros H. injection H as ->.
  pose proof E as E'. unfold Database.getUserById in E'.
  apply find_some in E' as [_ Hid]. apply Z.eqb_eq in Hid. now rewrite Hid.
Qed.

(** A stored user is among the joined participants of a conversation
    exactly when the participants table pairs them. *)
Lemma joined_participant db user conversationId :
  Database.getUserById db (User.id user) = Some user ->
  existsb (fun p => User.id p =? User.id user)
          (Database.getConversationParticipants db conversationId)
  = Database.is_participant db conversationId (User.id user).
Proof.
  intros Hstored. unfold Database.getUserById in Hstored.
  apply find_some in Hstored as [Hin _].
  unfold Database.getConversationParticipants, Database.is_participant.
  apply eq_true_iff_eq. rewrite !existsb_exists. split.
  - intros (p & Hp & Hid). apply in_flat_map in Hp as (u & Hu & Hp).
    apply in_map_iff in Hp as (row & -> & Hrow).
    apply filter_In in Hrow as [Hrow Hmatch].
    apply andb_true_iff in Hmatch as [Huid Hcid].
    exists row. split; [assumption|].
    apply Z.eqb_eq in Hid, Huid. rewrite Hcid. cbn. apply Z.eqb_eq. congruence.
  - intros (row & Hrow & Hmatch). apply andb_true_iff in Hmatch as [Hcid Huid].
    exists user. split; [|apply Z.eqb_refl].
    apply in_flat_map. exists user. split; [assumption|].
    apply in_map_iff. exists row. split; [reflexivity|].
    apply filter_In. split; [assumption|]. now rewrite Huid, Hcid.
Qed.

Lemma UserRole_eqb_eq (a b : UserRole) : UserRole_.eqb a b = true <-> a = b.
Proof. destruct a, b; cbn; split; congruence. Qed.

Lemma opt_eqb_eq (o : option Z) (n : Z) : Database.opt_eqb o n = true <-> o = Some n.
Proof.
  destruct o as [m|]; cbn; [|split; discriminate].
  rewrite Z.eqb_eq. split; congruence.
Qed.

(** The callers [hasAccess] lets through: the administrators, the
    participants, the creator and the assigned responder. *)
Lemma hasAccess_iff db user conversation conversationId :
  Database.getUserById db (User.id user) = Some user ->
  Attachments.hasAccess db user conversation conversationId = true
  <-> (User.role user = ADMIN
       \/ Database.is_participant db conversationId (User.id user) = true
       \/ Conversation.creator_id conversation = User.id user
       \/ (User.role user = DOCTOR
           /\ Conversation.assigned_doctor_id conversation = Some (User.id user))).
Proof.
  intros Hstored. unfold Attachments.hasAccess.
  rewrite (joined_participant db user conversationId Hstored).
  rewrite !orb_true_iff, andb_true_iff, !UserRole_eqb_eq, Z.eqb_eq, opt_eqb_eq.
  tauto.
Qed.

Lemma upload_handler_201 env db user conversationId conversation fileData :
  Database.getConversationById db conversationId = Some conversation ->
  status (fst (Attachments.upload_handler env db user (Some conversationId) (Some fileData)))
  = 201
  <-> (Attachments.allowed (UploadedFile.mimetype fileData) = true
       /\ UploadedFile.size fileData <= Attachments.MAX_FILE_SIZE
       /\ Attachments.hasAccess db user conversation conversationId = true
       /\ BlobStorage.connectionString (Attachments.storage env) <> None
       /\ BlobStorage.sasUrl (Attachments.storage env) <> None).
Proof.
  intros Hfound. unfold Attachments.upload_handler. rewrite Hfound.
  destruct (UploadedFile.size fileData >? Attachments.MAX_FILE_SIZE) eqn:Esize.
  - cbn [fst status]. apply Z.gtb_lt in Esize. split; [discriminate|].
    intros (_ & Hle & _). lia.
  - assert (Hsize : UploadedFile.size fileData <= Attachments.MAX_FILE_SIZE).
    { destruct (Z.gtb_spec (UploadedFile.size fileData) Attachments.MAX_FILE_SIZE);
        [discriminate | assumption]. }
    destruct (Attachments.allowed (UploadedFile.mimetype fileData)); cbn [negb];
      [|cbn [fst status]; split; [discriminate | intros (? & _); discriminate]].
    destruct (Attachments.hasAccess db user conversation conversationId); cbn [negb];
      [|cbn [fst status]; split; [discriminate | intros (_ & _ & ? & _); discriminate]].
    destruct (BlobStorage.connectionString (Attachments.storage env));
      [|cbn [fst status]; split; [discriminate | intros (_ & _ & _ & ? & _); congruence]].
    destruct (BlobStorage.sasUrl (Attachments.storage env));
      [|cbn [fst status]; split; [discriminate | intros (_ & _ & _ & _ & ?); congruence]].
    destruct (Database.createAttachment _ _ _ _ _ _ _ _ _ _) as [attachmentId db'].
    cbn [fst status]. split; [|reflexivity].
    intros _. repeat split; try assumption; discriminate.
Qed.

(** An upload that the handler does not answer with 201 leaves the store
    as it was. *)
Lemma upload_handler_refused env db user conversationId fileData :
  status (fst (Attachments.upload_handler env db user conversationId fileData)) <> 201 ->
  snd (Attachments.upload_handler env db user conversationId fileData) = db.
Proof.
  unfold Attachments.upload_handler.
  destruct conversationId as [conversationId|]; [|reflexivity].
  destruct fileData as [fileData|]; [|reflexivity].
  destruct (UploadedFile.size fileData >? Attachments.MAX_FILE_SIZE); [reflexivity|].
  destruct (negb (Attachments.allowed (UploadedFile.mimetype fileData))); [reflexivity|].
  destruct (Database.getConversationById db conversationId) as [conversation|];
    [|reflexivity].
  destruct (negb (Attachments.hasAccess db user conversation conversationId));
    [reflexivity|].
  destruct (BlobStorage.connectionString (Attachments.storage env)); [|reflexivity].
  destruct (BlobStorage.sasUrl (Attachments.storage env)); [|reflexivity].
  destruct (Database.createAttachment _ _ _ _ _ _ _ _ _ _) as [attachmentId db'].
  cbn [fst snd status]. congruence.
Qed.

(** The handler is reached with a file that the object storage does not
    take: the answer is 500. *)
Lemma upload_handler_500 env db user conversationId conversation fileData :
  Database.getConversationById db conversationId = Some conversation ->
  Attachments.allowed (UploadedFile.mimetype fileData) = true ->
  UploadedFile.size fileData <= Attachments.MAX_FILE_SIZE ->
  Attachments.hasAccess db user conversation conversationId = true ->
  BlobStorage.connectionString (Attachments.storage env) = None
  \/ BlobStorage.sasUrl (Attachments.storage env) = None ->
  status (fst (Attachments.upload_handler env db user (Some conversationId) (Some fileData)))
  = 500.
Proof.
  intros Hfound Hallowed Hsize Haccess Hstorage. unfold Attachments.upload_handler.
  destruct (Z.gtb_spec (UploadedFile.size fileData) Attachments.MAX_FILE_SIZE); [lia|].
  rewrite Hallowed, Hfound, Haccess. cbn [negb].
  destruct (BlobStorage.connectionString (Attachments.storage env)); [|reflexivity].
  destruct Hstorage as [Hno | ->]; [discriminate Hno | reflexivity].
Qed.

(** What the multipart middleware does with a file part. *)
Lemma upload_single_cases (fileData : UploadedFile.t) :
  (UploadedFile.size fileData <= 50 * 1024 * 1024
   /\ Attachments.upload_single (Some fileData) = Some (Some fileData))
  \/ (UploadedFile.size fileData > 50 * 1024 * 1024
      /\ Attachments.upload_single (Some fileData) = None).
Proof.
  unfold Attachments.upload_single, Attachments.fileSize.
  destruct (Z.gtb_spec (UploadedFile.size fileData) (50 * 1024 * 1024)).
  - right. split; [lia | reflexivity].
  - left. split; [lia | reflexivity].
Qed.

(** C1, as the route does it.  For an authenticated request that names an
    existing conversation and carries a file, the answer is 201 exactly when
    the MIME type is on the allow-list, the size is at most 50 MiB, the
    caller is an administrator, a participant, the creator or the assigned
    responder, and the object storage is configured and takes the file.
    When the type, the size and the caller are as required and the storage
    is not configured or does not take the file, the answer is 500 and no
    record is stored.  A file of more than 50 MiB is never accepted, whatever
    its type, and no record of it is stored; nor is any record stored by an
    upload that is not answered with 201. *)
Theorem upload_accepts_iff (jwt_verify : Auth.Verifier) (env : Attachments.Env) (db : DB.t)
    (authHeader : option string) (user : User.t) (conversationId : Z)
    (conversation : Conversation.t) (fileData : UploadedFile.t) :
  Auth.authenticateToken jwt_verify db authHeader = inl user ->
  Database.getConversationById db conversationId = Some conversation ->
  let answer :=
    Attachments.POST_upload jwt_verify env db authHeader (Some conversationId) (Some fileData) in
  let allowed := In (UploadedFile.mimetype fileData) Attachments.ALLOWED_FILE_TYPES in
  let small := UploadedFile.size fileData <= 50 * 1024 * 1024 in
  let access :=
    User.role user = ADMIN
    \/ Database.is_participant db conversationId (User.id user) = true
    \/ Conversation.creator_id conversation = User.id user
    \/ (User.role user = DOCTOR
        /\ Conversation.assigned_doctor_id conversation = Some (User.id user)) in
  (status (fst answer) = 201
   <-> (allowed /\ small /\ access
        /\ BlobStorage.connectionString (Attachments.storage env) <> None
        /\ BlobStorage.sasUrl (Attachments.storage env) <> None))
  /\ (allowed -> small -> access ->
      BlobStorage.connectionString (Attachments.storage env) = None
      \/ BlobStorage.sasUrl (Attachments.storage env) = None ->
      status (fst answer) = 500 /\ snd answer = db)
  /\ (UploadedFile.size fileData > 50 * 1024 * 1024 ->
      status (fst answer) <> 201 /\ snd answer = db)
  /\ (status (fst answer) <> 201 -> snd answer = db).
Proof.
  intros Hauth Hfound. cbv zeta. unfold Attachments.POST_upload.
  rewrite (guarded_next _ _ _ _ _ user Hauth (requireAnyRole_next user)).
  pose proof (hasAccess_iff db user conversation conversationId
                (authenticateToken_inl _ _ _ _ Hauth)) as Haccess.
  assert (Hallowed : Attachments.allowed (UploadedFile.mimetype fileData) = true
                     <-> In (UploadedFile.mimetype fileData) Attachments.ALLOWED_FILE_TYPES).
  { unfold Attachments.allowed. rewrite existsb_exists. split.
    - intros (x & Hin & Heq). apply String.eqb_eq in Heq. now subst x.
    - intros Hin. exists (UploadedFile.mimetype fileData).
      split; [assumption | apply String.eqb_refl]. }
  destruct (upload_single_cases fileData) as [[Hsmall ->] | [Hbig ->]].
  - pose proof (upload_handler_201 env db user conversationId conversation fileData Hfound)
      as H201.
    change Attachments.MAX_FILE_SIZE with (50 * 1024 * 1024) in H201.
    split; [rewrite H201; tauto|]. split.
    { intros Ha _ Hc Hstorage. split.
      - apply (upload_handler_500 env db user conversationId conversation fileData);
          try tauto; exact Hsmall.
      - apply upload_handler_refused. rewrite H201. intros (_ & _ & _ & H1 & H2).
        destruct Hstorage; contradiction. }
    split; [intros Hbig; lia|]. apply upload_handler_refused.
  - unfold unhandled. cbn [fst snd status].
    split; [split; [discriminate | intros (_ & Hsmall & _); lia]|].
    split; [intros _ Hsmall; lia|].
    split; [intros _; split; [discriminate | reflexivity] | reflexivity].
Qed.

(** ** The range aggregate *)

Lemma leb_text_le (a b : string) : String.leb a b = true <-> Analytics.text_le a b.
Proof.
  unfold String.leb, Analytics.text_le.
  destruct (a ?= b)%string; split; congruence.
Qed.

Lemma dateFilter_both (startDate endDate : string) :
  startDate <> "" -> endDate <> "" ->
  Analytics.dateFilter (Some startDate) (Some endDate) = Some (startDate, endDate).
Proof.
  intros Hs He. unfold Analytics.dateFilter.
  now rewrite (falsy_Some_false _ Hs), (falsy_Some_false _ He).
Qed.

Lemma total_count_bump (k : option string) (groups : list Analytics.DayCount) :
  Analytics.total_count (Analytics.bump k groups) = Analytics.total_count groups + 1.
Proof.
  unfold Analytics.total_count.
  induction groups as [|g groups IH]; cbn; [reflexivity|].
  destruct (Analytics.key_eqb (Analytics.date g) k); cbn; lia.
Qed.

Lemma total_count_group_from (keys : list (option string)) (groups : list Analytics.DayCount) :
  Analytics.total_count (fold_left (fun groups k => Analytics.bump k groups) keys groups)
  = Analytics.total_count groups + Z.of_nat (List.length keys).
Proof.
  revert groups. induction keys as [|k keys IH]; intros groups; cbn [fold_left List.length].
  - lia.
  - rewrite IH, total_count_bump. lia.
Qed.

Lemma total_count_insert_desc (g : Analytics.DayCount) (l : list Analytics.DayCount) :
  Analytics.total_count (Analytics.insert_desc g l)
  = Analytics.count g + Analytics.total_count l.
Proof.
  unfold Analytics.total_count.
  induction l as [|h l IH]; cbn; [reflexivity|].
  destruct (Analytics.key_ltb (Analytics.date h) (Analytics.date g)); cbn; lia.
Qed.

Lemma total_count_order_by (rows : list Analytics.DayCount) :
  Analytics.total_count (Analytics.order_by_date_desc rows) = Analytics.total_count rows.
Proof.
  induction rows as [|g rows IH]; [reflexivity|].
  cbn [Analytics.order_by_date_desc fold_right].
  fold (Analytics.order_by_date_desc rows).
  rewrite total_count_insert_desc, IH. reflexivity.
Qed.

(** The buckets of [conversationsPerDay] split the conversations that
    [totalConversations] counts: their counts add up to it, with or without
    a date filter. *)
Lemma per_day_counts_add_up DATE db startDate endDate :
  let a := Analytics.getAnalytics DATE db startDate endDate in
  Analytics.total_count (Analytics.conversationsPerDay a) = Analytics.totalConversations a.
Proof.
  cbv zeta. unfold Analytics.getAnalytics.
  cbn [Analytics.totalConversations Analytics.conversationsPerDay].
  rewrite total_count_order_by. unfold Analytics.group_by.
  rewrite total_count_group_from, length_map. reflexivity.
Qed.

(** A text that goes on after the text of a bound is above the bound: a
time stamp on the day of a bare end date does not pass the filter. *)
Lemma longer_text_is_above (e suffix : string) :
  suffix <> "" -> String.leb (e ++ suffix) e = false.
Proof.
  intros Hne. unfold String.leb.
  assert (H : ((e ++ suffix) ?= e)%string = Gt).
  { induction e as [|c e IH]; cbn.
    - destruct suffix; [congruence | reflexivity].
    - unfold Ascii.compare. now rewrite N.compare_refl. }
  now rewrite H.
Qed.

Lemma valid_bound_not_empty (s : string) : Analytics.valid_bound s = true -> s <> "".
Proof. intros H ->. discriminate H. Qed.

Lemma end_day_does_not_pass (startDate endDate time : string) :
  Analytics.valid_bound startDate = true -> Analytics.valid_bound endDate = true ->
  time <> "" ->
  Analytics.passes (Analytics.dateFilter (Some startDate) (Some endDate)) (endDate ++ time)
  = false.
Proof.
  intros Hs He Ht. apply valid_bound_not_empty in Hs, He.
  rewrite (dateFilter_both _ _ Hs He).
  cbn [Analytics.passes]. unfold Analytics.between.
  rewrite (longer_text_is_above endDate time Ht). apply andb_false_r.
Qed.

(** [Math.round(avg * 100) / 100] is computed on doubles: for 41
conversations over 40 days it is the double of 1.02, since the product of
the double of 1.025 and 100 is below 102.5. *)
Lemma round2_of_41_over_40 :
  Analytics.round2 (Number.div (Number.of_int 41) (Number.of_int 40))
  = Number.div (Number.of_int 102) (Number.of_int 100).
Proof. vm_compute. reflexivity. Qed.

(** C4, on bounds of the documented form [YYYY-MM-DD].  The sample store
holds three conversations, created on 2, 2 and 4 March 2024: three rows
fall on the days from 2024-03-02 to 2024-03-04, both included.  The range
aggregate for [startDate = 2024-03-02] and [endDate = 2024-03-04] reports
[totalConversations = 2] and the one bucket of 2 March, with the average 2:
the row of 4 March, 09:05, is left out.  So is, in every store and for
every pair of bounds that are dates, a row whose time stamp is the end
bound followed by a time of day.  With the bounds padded to the first and
the last second of their days the three rows are counted. *)
Theorem range_aggregate_leaves_out_the_end_day :
  let a :=
    Analytics.getAnalytics Sample.DATE Sample.db (Some "2024-03-02") (Some "2024-03-04") in
  let padded :=
    Analytics.getAnalytics Sample.DATE Sample.db (Some "2024-03-02 00:00:00")
      (Some "2024-03-04 23:59:59") in
  Analytics.valid_bound "2024-03-02" = true
  /\ Analytics.valid_bound "2024-03-04" = true
  /\ Analytics.counts
       (fun c => exists day : string,
            Sample.DATE (Conversation.created_at c) = Some day
            /\ Analytics.within "2024-03-02" "2024-03-04" day)
       (DB.conversations Sample.db) 3
  /\ Analytics.totalConversations a = 2
  /\ Analytics.conversationsPerDay a = [Analytics.mkDayCount (Some "2024-03-02") 2]
  /\ Analytics.avgConversationsPerDay a = Number.of_int 2
  /\ Analytics.totalConversations padded = 3
  /\ (forall (DATE : string -> option string) (db : DB.t) (startDate endDate time : string)
             (c : Conversation.t),
         Analytics.valid_bound startDate = true ->
         Analytics.valid_bound endDate = true ->
         time <> "" ->
         Conversation.created_at c = endDate ++ time ->
         Analytics.totalConversations
           (Analytics.getAnalytics DATE
              (DB.mk (DB.users db) (c :: DB.conversations db)
                     (DB.conversation_participants db) (DB.conversation_metadata db)
                     (DB.attachments db) (DB.seq_users db) (DB.seq_conversations db)
                     (DB.seq_participants db) (DB.seq_metadata db) (DB.seq_attachments db))
              (Some startDate) (Some endDate))
         = Analytics.totalConversations
             (Analytics.getAnalytics DATE db (Some startDate) (Some endDate))).
Proof.
  cbv zeta. split; [reflexivity|]. split; [reflexivity|]. split.
  { repeat (apply Analytics.counts_in;
            [eexists; split; [reflexivity | split; vm_compute; discriminate]|]).
    constructor. }
  split; [reflexivity|]. split; [reflexivity|]. split; [vm_compute; reflexivity|].
  split; [reflexivity|].
  intros DATE db startDate endDate time c Hs He Ht Hc.
  unfold Analytics.getAnalytics. cbn [Analytics.totalConversations DB.conversations filter].
  now rewrite Hc, (end_day_does_not_pass _ _ _ Hs He Ht).
Qed.

(** ** Paging through a room *)

Section Paging.

Variable getTime : option string -> option Z.
Variable backend : RocketChat.Backend.

Local Abbreviation Msg := RocketChatMessage.t.
Let time (m : Msg) : option Z := getTime (RocketChatMessage.ts m).

Lemma insert_permutation (x : Msg) (l : list Msg) :
  Permutation (RocketChat.insert getTime x l) (x :: l).
Proof.
  induction l as [|y l IH]; cbn; [apply Permutation_refl|].
  destruct (RocketChat.before getTime y x); [|apply Permutation_refl].
  eapply Permutation_trans; [apply perm_skip, IH | apply perm_swap].
Qed.

Lemma sort_permutation (l : list Msg) : Permutation (RocketChat.sort getTime l) l.
Proof.
  induction l as [|x l IH]; cbn; [constructor|].
  eapply Permutation_trans; [apply insert_permutation | now apply perm_skip].
Qed.

Lemma before_not_after (a b : Msg) :
  RocketChat.before getTime a b = true -> RocketChat.not_after getTime a b.
Proof.
  unfold RocketChat.before, RocketChat.not_after.
  destruct (getTime (RocketChatMessage.ts a)), (getTime (RocketChatMessage.ts b));
    try discriminate.
  intros H. apply Z.ltb_lt in H. lia.
Qed.

Lemma not_before_not_after (a b : Msg) :
  time a <> None -> time b <> None ->
  RocketChat.before getTime a b = false -> RocketChat.not_after getTime b a.
Proof.
  unfold time, RocketChat.before, RocketChat.not_after.
  destruct (getTime (RocketChatMessage.ts a)), (getTime (RocketChatMessage.ts b));
    try congruence.
  intros _ _ H. apply Z.ltb_ge in H. lia.
Qed.

Lemma not_after_trans (a b c : Msg) :
  RocketChat.not_after getTime a b -> RocketChat.not_after getTime b c ->
  RocketChat.not_after getTime a c.
Proof.
  unfold RocketChat.not_after.
  destruct (getTime (RocketChatMessage.ts a)), (getTime (RocketChatMessage.ts b)),
    (getTime (RocketChatMessage.ts c)); try tauto.
  lia.
Qed.

Lemma insert_sorted (x : Msg) (l : list Msg) :
  time x <> None ->
  Forall (fun m => time m <> None) l ->
  StronglySorted (RocketChat.not_after getTime) l ->
  StronglySorted (RocketChat.not_after getTime) (RocketChat.insert getTime x l).
Proof.
  intros Hx Hall Hsorted. induction Hsorted as [|y l Hsorted IH Hy]; cbn.
  - repeat constructor.
  - inversion Hall as [|? ? Hty Hall']; subst.
    destruct (RocketChat.before getTime y x) eqn:E.
    + constructor; [now apply IH|].
      apply (Permutation_Forall (Permutation_sym (insert_permutation x l))).
      constructor; [now apply before_not_after | assumption].
    + apply not_before_not_after in E; try assumption.
      constructor; [now constructor|].
      constructor; [assumption|].
      eapply Forall_impl; [|exact Hy].
      intros m Hm. now apply (not_after_trans x y m).
Qed.

Lemma sort_sorted (l : list Msg) :
  Forall (fun m => time m <> None) l ->
  StronglySorted (RocketChat.not_after getTime) (RocketChat.sort getTime l).
Proof.
  induction l as [|x l IH]; cbn; intros Hall; [constructor|].
  inversion Hall as [|? ? Hx Hall']; subst.
  apply insert_sorted; [assumption| |now apply IH].
  apply (Permutation_Forall (Permutation_sym (sort_permutation l))). assumption.
Qed.

(** One round: either the batch is short or ends without a time stamp,
    and the loop returns what it has and the batch; or the batch is full,
    and the loop goes on from the time stamp of its last message. *)
Lemma fetch_round (n : nat) (acc messages : list Msg) :
  backend n (RocketChat.cursor backend n) = Some messages ->
  (((List.length messages < RocketChat.MAX_BATCH)%nat
    \/ JS.falsy (RocketChat.last_ts messages) = true)
   /\ forall fuel,
       RocketChat.fetch_loop backend (S fuel) n (RocketChat.cursor backend n) acc
       = RocketChat.Returned (acc ++ messages)%list)
  \/ (((RocketChat.MAX_BATCH <= List.length messages)%nat
       /\ JS.falsy (RocketChat.last_ts messages) = false)
      /\ forall fuel,
          RocketChat.fetch_loop backend (S fuel) n (RocketChat.cursor backend n) acc
          = RocketChat.fetch_loop backend fuel (S n) (RocketChat.cursor backend (S n))
              (acc ++ messages)%list).
Proof.
  intros E.
  destruct (Nat.eqb (List.length messages) 0) eqn:Eempty.
  { left. apply Nat.eqb_eq in Eempty. split.
    - left. rewrite Eempty. unfold RocketChat.MAX_BATCH. lia.
    - intros fuel. cbn [RocketChat.fetch_loop]. rewrite E, Eempty.
      apply length_zero_iff_nil in Eempty. subst. now rewrite app_nil_r. }
  unfold RocketChat.last_ts.
  destruct (nth_error messages (List.length messages - 1)) as [oldestMessage|] eqn:Elast.
  2:{ left. split; [now right|].
      intros fuel. cbn [RocketChat.fetch_loop]. now rewrite E, Eempty, Elast. }
  destruct (JS.falsy (RocketChatMessage.ts oldestMessage)) eqn:Ets.
  { left. split; [now right|].
    intros fuel. cbn [RocketChat.fetch_loop]. now rewrite E, Eempty, Elast, Ets. }
  destruct (Nat.ltb (List.length messages) RocketChat.MAX_BATCH) eqn:Efull.
  { left. split; [left; now apply Nat.ltb_lt|].
    intros fuel. cbn [RocketChat.fetch_loop].
    now rewrite E, Eempty, Elast, Ets, Efull. }
  right. split; [split; [now apply Nat.ltb_ge | reflexivity]|].
  intros fuel. cbn [RocketChat.fetch_loop RocketChat.cursor].
  rewrite E, Eempty, Elast, Ets, Efull. unfold RocketChat.last_ts. now rewrite Elast.
Qed.

(** A loop that is at the start of round [n] and meets a short batch [d]
    rounds later, every request up to there being answered, returns in the
    first round [k] on the way whose batch is short or ends without a time
    stamp: it is still running before, and it returns what it had and the
    batches of rounds [n] to [k]. *)
Lemma fetch_loop_returns (d : nat) :
  forall (n : nat) (acc : list Msg),
    (forall m, (n <= m <= n + d)%nat ->
               backend m (RocketChat.cursor backend m) <> None) ->
    (List.length (RocketChat.batch backend (n + d)) < RocketChat.MAX_BATCH)%nat ->
    exists k : nat,
      (n <= k <= n + d)%nat
      /\ (forall m, (n <= m < k)%nat ->
            (RocketChat.MAX_BATCH <= List.length (RocketChat.batch backend m))%nat
            /\ JS.falsy (RocketChat.last_ts (RocketChat.batch backend m)) = false)
      /\ ((List.length (RocketChat.batch backend k) < RocketChat.MAX_BATCH)%nat
          \/ JS.falsy (RocketChat.last_ts (RocketChat.batch backend k)) = true)
      /\ (forall fuel, (fuel <= k - n)%nat ->
            RocketChat.fetch_loop backend fuel n (RocketChat.cursor backend n) acc
            = RocketChat.Running)
      /\ forall fuel, (k - n < fuel)%nat ->
           RocketChat.fetch_loop backend fuel n (RocketChat.cursor backend n) acc
           = RocketChat.Returned
               (acc ++ List.concat (map (RocketChat.batch backend) (seq n (S (k - n)))))%list.
Proof.
  induction d as [|d IH]; intros n acc Hanswered Hshort;
    (assert (Hn : backend n (RocketChat.cursor backend n) <> None)
       by (apply Hanswered; lia));
    (destruct (backend n (RocketChat.cursor backend n)) as [messages|] eqn:E;
       [clear Hn | congruence]);
    (assert (Hbatch : RocketChat.batch backend n = messages)
       by (unfold RocketChat.batch; now rewrite E));
    (destruct (fetch_round n acc messages E) as [[Hwhy Hstop] | [[Hfull Hts] Hnext]]).
  1, 3: exists n; (split; [lia|]); (split; [intros m Hm; lia|]);
    (split; [now rewrite Hbatch|]);
    (split; [intros fuel Hfuel; assert (fuel = 0)%nat as -> by lia; reflexivity|]);
    intros [|fuel] Hfuel; [lia|];
    rewrite Hstop; replace (n - n)%nat with 0%nat by lia;
    cbn [seq map List.concat]; now rewrite Hbatch, app_nil_r.
  - exfalso. rewrite Nat.add_0_r, Hbatch in Hshort. lia.
  - destruct (IH (S n) (acc ++ messages)%list) as (k & Hk & Hfullk & Hlast & Hwait & Hrun).
    { intros m Hm. apply Hanswered. lia. }
    { replace (S n + d)%nat with (n + S d)%nat by lia. exact Hshort. }
    exists k. split; [lia|]. split.
    { intros m Hm. destruct (Nat.eq_dec m n) as [->|Hne].
      - now rewrite Hbatch.
      - apply Hfullk. lia. }
    split; [exact Hlast|]. split.
    { intros [|fuel] Hfuel; [reflexivity|]. rewrite Hnext. apply Hwait. lia. }
    intros [|fuel] Hfuel; [lia|].
    rewrite Hnext, Hrun by lia.
    replace (k - n)%nat with (S (k - S n)) by lia.
    cbn [seq map List.concat]. rewrite Hbatch, <- app_assoc. reflexivity.
Qed.

(** C7.  Against a backend that answers every request and whose [N]-th
    batch is empty or has fewer than 1000 messages, [getAllMessagesFromRoom]
    returns.  It returns in round [k], the first round whose batch has fewer
    than 1000 messages or ends in a message without a time stamp: every
    batch before it is full, the request after a full batch carries the time
    stamp of the last message of that batch, the loop is still running
    after [k] rounds and has returned after [k + 1], whatever the bound on
    the rounds above [k].  [k] is [N] when the batches before [N] are full
    and end in a time stamp.  What is returned is the messages of the
    batches of rounds 0 to [k], all of them and no others, put in ascending
    order of time stamp when every one of them has a time stamp that is a
    date.  When the first batch is empty, the result is the empty list. *)
Theorem getAllMessagesFromRoom_terminates (N : nat) :
  (forall n, (n <= N)%nat -> backend n (RocketChat.cursor backend n) <> None) ->
  (List.length (RocketChat.batch backend N) < 1000)%nat ->
  exists (k : nat) (result : list Msg),
    (k <= N)%nat
    /\ (forall m, (m < k)%nat ->
          (1000 <= List.length (RocketChat.batch backend m))%nat
          /\ JS.falsy (RocketChat.last_ts (RocketChat.batch backend m)) = false
          /\ RocketChat.cursor backend (S m)
             = RocketChat.last_ts (RocketChat.batch backend m))
    /\ ((List.length (RocketChat.batch backend k) < 1000)%nat
        \/ JS.falsy (RocketChat.last_ts (RocketChat.batch backend k)) = true)
    /\ ((forall m, (m < N)%nat ->
           (1000 <= List.length (RocketChat.batch backend m))%nat
           /\ JS.falsy (RocketChat.last_ts (RocketChat.batch backend m)) = false) ->
        k = N)
    /\ (forall fuel, (fuel <= k)%nat ->
          RocketChat.getAllMessagesFromRoom getTime backend fuel = RocketChat.Running)
    /\ (forall fuel, (k < fuel)%nat ->
          RocketChat.getAllMessagesFromRoom getTime backend fuel
          = RocketChat.Returned result)
    /\ result = RocketChat.sort getTime (RocketChat.fetched backend k)
    /\ Permutation result (RocketChat.fetched backend k)
    /\ (Forall (fun m => getTime (RocketChatMessage.ts m) <> None)
               (RocketChat.fetched backend k) ->
        StronglySorted (RocketChat.not_after getTime) result)
    /\ (RocketChat.batch backend 0 = [] -> result = []).
Proof.
  intros Hanswered Hshort.
  destruct (fetch_loop_returns N 0 []) as (k & Hk & Hfull & Hlast & Hwait & Hrun).
  - intros m Hm. apply Hanswered. lia.
  - exact Hshort.
  - exists k, (RocketChat.sort getTime (RocketChat.fetched backend k)).
    split; [lia|]. split.
    { intros m Hm. destruct (Hfull m) as [Hlen Hts]; [lia|].
      split; [exact Hlen|]. split; [exact Hts|].
      cbn [RocketChat.cursor]. unfold RocketChat.batch.
      assert (Hm' : backend m (RocketChat.cursor backend m) <> None)
        by (apply Hanswered; lia).
      destruct (backend m (RocketChat.cursor backend m)); [reflexivity | congruence]. }
    split; [exact Hlast|]. split.
    { intros Hall. destruct (Nat.eq_dec k N) as [E|Hne]; [exact E | exfalso].
      destruct (Hall k) as [Hlen Hts]; [lia|].
      unfold RocketChat.MAX_BATCH in Hlast. destruct Hlast as [Hlt|Hno]; [lia | congruence]. }
    split.
    { intros fuel Hfuel. unfold RocketChat.getAllMessagesFromRoom.
      change None with (RocketChat.cursor backend 0).
      rewrite Hwait by lia. reflexivity. }
    split; [|split; [reflexivity|split; [|split]]].
    + intros fuel Hfuel. unfold RocketChat.getAllMessagesFromRoom.
      change None with (RocketChat.cursor backend 0).
      rewrite Hrun by lia. rewrite Nat.sub_0_r. reflexivity.
    + apply sort_permutation.
    + apply sort_sorted.
    + intros Hempty. destruct k as [|k].
      * unfold RocketChat.fetched. cbn [seq map List.concat]. now rewrite Hempty.
      * exfalso. assert (H0 : (0 <= 0 < S k)%nat) by lia.
        apply Hfull in H0 as [H0 _]. rewrite Hempty in H0.
        unfold RocketChat.MAX_BATCH in H0. cbn in H0. lia.
Qed.

End Paging.

(** ** Importing bundles *)

Section Importing.

Variable env : ImportRoutes.Env.
Variable importerId : Z.

Lemma getUserByEmail_rows (db : DB.t) (e : string) :
  Database.getUserByEmail db (Some e) = None <-> ImportRoutes.rows_with_email db e = 0%nat.
Proof.
  unfold Database.getUserByEmail, ImportRoutes.rows_with_email.
  induction (DB.users db) as [|u users IH]; cbn; [tauto|].
  destruct (String.eqb (User.email u) e); cbn; [split; discriminate | exact IH].
Qed.

(** What [createUser] does to the table when it goes through. *)
Lemma createUser_cases hashSync now db email password role displayName userId db' :
  Database.createUser hashSync now db email password role displayName = Some (userId, db') ->
  exists e d,
    email = Some e /\ displayName = Some d
    /\ Database.getUserByEmail db (Some e) = None
    /\ DB.users db' = (DB.users db ++ [User.mk userId e (hashSync password) role d now])%list
    /\ DB.conversations db' = DB.conversations db
    /\ Database.getUserById db' userId
       = Some (User.mk userId e (hashSync password) role d now).
Proof.
  intros H. pose proof H as H'. unfold Database.createUser in H'.
  destruct email as [e|]; [|discriminate]. destruct displayName as [d|]; [|discriminate].
  destruct (Database.getUserByEmail db (Some e)) eqn:E; [discriminate|].
  injection H' as <- <-. exists e, d. cbn [DB.users DB.conversations].
  split; [reflexivity|]. split; [reflexivity|]. split; [exact E|].
  split; [reflexivity|]. split; [reflexivity|].
  exact (createUser_then_getUserById _ _ _ _ _ _ _ _ _ H).
Qed.

Lemma find_or_create_dealt (st : ImportRoutes.State) (participant : ImportParticipant.t) :
  ImportRoutes.Dealt st participant
        (fst (ImportRoutes.find_or_create env st participant))
        (snd (ImportRoutes.find_or_create env st participant)).
Proof.
  unfold ImportRoutes.find_or_create.
  destruct (Database.getUserByEmail (ImportRoutes.db st)
              (ImportParticipant.email participant)) as [existing|] eqn:Elookup.
  { now apply ImportRoutes.Found. }
  destruct (ImportParticipant.role participant) as [role|].
  2:{ now apply ImportRoutes.Given_up. }
  destruct (Database.createUser _ _ _ _ _ _ _) as [[userId db']|] eqn:Ecreate.
  2:{ now apply ImportRoutes.Given_up. }
  destruct (createUser_cases _ _ _ _ _ _ _ _ _ Ecreate)
    as (e & d & He & Hd & Hunused & Husers & Hconvs & Hget).
  cbn [fst snd]. rewrite Hget.
  apply (ImportRoutes.Created st participant e); cbn; try assumption; try reflexivity.
  now rewrite He.
Qed.

Lemma find_or_create_successful (st : ImportRoutes.State) (participant : ImportParticipant.t) :
  ImportRoutes.successful
    (ImportRoutes.results (fst (ImportRoutes.find_or_create env st participant)))
  = ImportRoutes.successful (ImportRoutes.results st).
Proof.
  unfold ImportRoutes.find_or_create.
  destruct (Database.getUserByEmail _ _); [reflexivity|].
  destruct (ImportParticipant.role participant); [|reflexivity].
  destruct (Database.createUser _ _ _ _ _ _ _) as [[userId db']|]; reflexivity.
Qed.

Lemma find_or_create_conversations (st : ImportRoutes.State)
    (participant : ImportParticipant.t) :
  DB.conversations (ImportRoutes.db (fst (ImportRoutes.find_or_create env st participant)))
  = DB.conversations (ImportRoutes.db st).
Proof.
  pose proof (find_or_create_dealt st participant) as H.
  destruct (ImportRoutes.find_or_create env st participant) as [st' existingUser].
  cbn [fst snd] in *. destruct H; congruence.
Qed.

Lemma find_last {A : Type} (p : A -> bool) (l : list A) (x : A) :
  find p (l ++ [x]) = match find p l with
                      | Some y => Some y
                      | None => if p x then Some x else None
                      end.
Proof.
  induction l as [|y l IH]; cbn; [reflexivity|].
  destruct (p y); [reflexivity | exact IH].
Qed.

Lemma last_responder_cons (u : User.t) (users : list User.t) :
  ImportRoutes.last_responder (u :: users)
  = match ImportRoutes.last_responder users with
    | Some d => Some d
    | None => if ImportRoutes.is_responder u then Some (User.id u) else None
    end.
Proof.
  unfold ImportRoutes.last_responder. cbn [rev]. rewrite find_last.
  destruct (find ImportRoutes.is_responder (rev users)); [reflexivity|].
  now destruct (ImportRoutes.is_responder u).
Qed.

(** The participant loop, from any state and any values of its two local
variables: the ids it adds are those of the users the participants resolve
to, [doctorId] ends as the id of the last responder among them (and keeps
its value when there is none), and the conversations and the count of
successes are not touched. *)
Lemma participants_fold (participants : list ImportParticipant.t) :
  forall (st : ImportRoutes.State) (locals : ImportRoutes.Locals),
    let r := fold_left (ImportRoutes.participant_step env) participants (st, locals) in
    ImportRoutes.participantUserIds (snd r)
    = (ImportRoutes.participantUserIds locals
       ++ map User.id (ImportRoutes.resolved env st participants))%list
    /\ ImportRoutes.doctorId (snd r)
       = match ImportRoutes.last_responder (ImportRoutes.resolved env st participants) with
         | Some d => Some d
         | None => ImportRoutes.doctorId locals
         end
    /\ DB.conversations (ImportRoutes.db (fst r)) = DB.conversations (ImportRoutes.db st)
    /\ ImportRoutes.successful (ImportRoutes.results (fst r))
       = ImportRoutes.successful (ImportRoutes.results st).
Proof.
  induction participants as [|participant rest IH]; intros st locals.
  - cbn. rewrite app_nil_r. now repeat split.
  - cbn [fold_left ImportRoutes.resolved].
    pose proof (find_or_create_conversations st participant) as Hconvs.
    pose proof (find_or_create_successful st participant) as Hsucc.
    pose proof (eq_refl (ImportRoutes.participant_step env (st, locals) participant))
      as Estep.
    unfold ImportRoutes.participant_step at 2 in Estep.
    destruct (ImportRoutes.find_or_create env st participant) as [st' [u|]];
      cbn [fst snd] in Hconvs, Hsucc; rewrite Estep; clear Estep.
    + destruct (IH st' (ImportRoutes.mkLocals
                           (ImportRoutes.participantUserIds locals ++ [User.id u])
                           (if UserRole_.eqb (User.role u) DOCTOR
                            then Some (User.id u)
                            else ImportRoutes.doctorId locals)))
        as (Hids & Hdoctor & Hc & Hs).
      cbv beta iota zeta. rewrite Hids, Hdoctor, Hc, Hs, Hconvs, Hsucc, last_responder_cons.
      cbn [ImportRoutes.participantUserIds ImportRoutes.doctorId map].
      rewrite <- app_assoc. cbn [app]. unfold ImportRoutes.is_responder.
      repeat split.
      destruct (ImportRoutes.last_responder (ImportRoutes.resolved env st' rest));
        [reflexivity|].
      now destruct (UserRole_.eqb (User.role u) DOCTOR).
    + destruct (IH st' locals) as (Hids & Hdoctor & Hc & Hs).
      cbv beta iota zeta. rewrite Hids, Hdoctor, Hc, Hs, Hconvs, Hsucc. now repeat split.
Qed.

(** The statements that follow the participant loop leave the users alone,
and all but the insert of the conversation leave the conversations alone. *)
Lemma add_participants_frame (now : string) (conversationId : Z) (ids : list Z) :
  forall db : DB.t,
    let db' := fold_left (ImportRoutes.add_participant now conversationId) ids db in
    DB.users db' = DB.users db /\ DB.conversations db' = DB.conversations db.
Proof.
  induction ids as [|id ids IH]; intros db; cbn [fold_left]; [now split|].
  destruct (IH (ImportRoutes.add_participant now conversationId db id)) as [Hu Hc].
  cbv zeta. rewrite Hu, Hc. unfold ImportRoutes.add_participant,
    Database.addConversationParticipant.
  destruct (Database.is_participant db conversationId id); now split.
Qed.

Lemma add_import_metadata_frame db conversationId convData messages imported_at :
  let db' :=
    ImportRoutes.add_import_metadata db conversationId convData messages imported_at
      importerId in
  DB.users db' = DB.users db /\ DB.conversations db' = DB.conversations db.
Proof. now split. Qed.

Lemma createConversation_cases now db title type creatorId threadId assigned id db' :
  Database.createConversation now db title type creatorId threadId assigned = Some (id, db') ->
  DB.users db' = DB.users db
  /\ DB.conversations db'
     = (DB.conversations db
        ++ [Conversation.mk id title type creatorId ACTIVE threadId now assigned])%list.
Proof.
  unfold Database.createConversation.
  destruct (existsb _ _); [discriminate|].
  intros H. injection H as <- <-. now split.
Qed.

(** C5, as the routine does it.  When a bundle is imported (the count of
successes goes up by one), exactly one conversation row is added, and its
assigned-responder id is the id of the last participant of the bundle, in
the order of its list, that resolved to a user with the responder role;
it is null when no participant did. *)
Theorem import_assigns_last_responder (st : ImportRoutes.State)
    (convData : ImportConversationData.t) (participants : list ImportParticipant.t) :
  ImportConversationData.participants convData = Some participants ->
  let st' := ImportRoutes.import_one env importerId st convData in
  ImportRoutes.successful (ImportRoutes.results st')
  = ImportRoutes.successful (ImportRoutes.results st) + 1 ->
  exists conversation : Conversation.t,
    DB.conversations (ImportRoutes.db st')
    = (DB.conversations (ImportRoutes.db st) ++ [conversation])%list
    /\ Conversation.assigned_doctor_id conversation
       = ImportRoutes.last_responder (ImportRoutes.resolved env st participants).
Proof.
  intros Hparticipants. cbv zeta. unfold ImportRoutes.import_one.
  rewrite Hparticipants.
  destruct (ImportConversationData.messages convData) as [messages|];
    [|cbn; intros H; exfalso; lia].
  destruct (JS.falsy (ImportConversationData.title convData));
    [cbn; intros H; exfalso; lia|].
  unfold ImportRoutes.participants_loop.
  destruct (participants_fold participants st (ImportRoutes.mkLocals [] None))
    as (_ & Hdoctor & Hconvs & Hsucc).
  cbv zeta in Hdoctor, Hconvs, Hsucc.
  destruct (fold_left (ImportRoutes.participant_step env) participants
              (st, ImportRoutes.mkLocals [] None)) as [st1 locals].
  cbn [fst snd ImportRoutes.doctorId] in Hdoctor, Hconvs, Hsucc.
  destruct (ImportRoutes.participantUserIds locals) as [|creatorId ids] eqn:Eids;
    [cbn; intros H; exfalso; lia|].
  destruct (JS.falsy (ImportRoutes.createThread env (ImportRoutes.tick st1)));
    [cbn; intros H; exfalso; lia|].
  destruct (Database.createConversation _ _ _ _ _ _ _) as [[conversationId db2]|] eqn:Ecreate;
    [|cbn; intros H; exfalso; lia].
  intros _. apply createConversation_cases in Ecreate as [_ Hadded].
  eexists. cbn [ImportRoutes.db]. split.
  - rewrite (proj2 (add_import_metadata_frame _ _ _ _ _)).
    rewrite (proj2 (add_participants_frame _ _ _ _)).
    rewrite Hadded, Hconvs. reflexivity.
  - cbn [Conversation.assigned_doctor_id]. rewrite Hdoctor.
    now destruct (ImportRoutes.last_responder _).
Qed.

(** *** Invariants of a run *)

Lemma participant_step_fst st locals participant :
  fst (ImportRoutes.participant_step env (st, locals) participant)
  = fst (ImportRoutes.find_or_create env st participant).
Proof.
  unfold ImportRoutes.participant_step.
  now destruct (ImportRoutes.find_or_create env st participant) as [st' [u|]].
Qed.

(** A property of the state that every participant keeps is kept by the
participant loop. *)
Lemma participants_invariant (I : ImportRoutes.State -> Prop)
    (P : ImportParticipant.t -> Prop) :
  (forall st participant,
      P participant -> I st -> I (fst (ImportRoutes.find_or_create env st participant))) ->
  forall participants st locals,
    Forall P participants ->
    I st ->
    I (fst (fold_left (ImportRoutes.participant_step env) participants (st, locals))).
Proof.
  intros Hstep. induction participants as [|participant rest IH];
    intros st locals Hall Hst; cbn [fold_left]; [assumption|].
  inversion Hall as [|? ? Hp Hrest]; subst.
  pose proof (participant_step_fst st locals participant) as E.
  destruct (ImportRoutes.participant_step env (st, locals) participant) as [st' locals'].
  cbn [fst] in E. apply IH; [assumption|]. rewrite E. now apply Hstep.
Qed.

(** What a bundle does to the users and to the two lists of users is what
the loop over its checked participants does. *)
Lemma import_one_view (st : ImportRoutes.State) (convData : ImportConversationData.t) :
  ImportRoutes.same_view
    (fst (ImportRoutes.participants_loop env st (ImportRoutes.checked_participants convData)))
    (ImportRoutes.import_one env importerId st convData).
Proof.
  unfold ImportRoutes.import_one, ImportRoutes.checked_participants, ImportRoutes.same_view.
  destruct (ImportConversationData.participants convData) as [participants|];
    [|now repeat split].
  destruct (ImportConversationData.messages convData) as [messages|];
    [|now repeat split].
  destruct (JS.falsy (ImportConversationData.title convData)); [now repeat split|].
  destruct (ImportRoutes.participants_loop env st participants) as [st1 locals].
  cbn [fst].
  destruct (ImportRoutes.participantUserIds locals) as [|creatorId ids];
    [now repeat split|].
  destruct (JS.falsy (ImportRoutes.createThread env (ImportRoutes.tick st1)));
    [now repeat split|].
  destruct (Database.createConversation _ _ _ _ _ _ _) as [[conversationId db2]|] eqn:Ecreate;
    [|now repeat split].
  apply createConversation_cases in Ecreate as [Husers _].
  cbn [ImportRoutes.db ImportRoutes.results ImportRoutes.succeeded
       ImportRoutes.createdUsers ImportRoutes.skippedUsers].
  rewrite (proj1 (add_import_metadata_frame _ _ _ _ _)).
  rewrite (proj1 (add_participants_frame _ _ _ _)).
  now repeat split.
Qed.

Lemma import_one_invariant (I : ImportRoutes.State -> Prop)
    (P : ImportParticipant.t -> Prop) :
  ImportRoutes.respects_view I ->
  (forall st participant,
      P participant -> I st -> I (fst (ImportRoutes.find_or_create env st participant))) ->
  forall st convData,
    Forall P (ImportRoutes.checked_participants convData) ->
    I st ->
    I (ImportRoutes.import_one env importerId st convData).
Proof.
  intros Hview Hstep st convData Hall Hst.
  apply (Hview _ _ (import_one_view st convData)).
  now apply (participants_invariant I P).
Qed.

Lemma importConversations_invariant (I : ImportRoutes.State -> Prop)
    (P : ImportParticipant.t -> Prop) :
  ImportRoutes.respects_view I ->
  (forall st participant,
      P participant -> I st -> I (fst (ImportRoutes.find_or_create env st participant))) ->
  forall conversations st,
    Forall P (flat_map ImportRoutes.checked_participants conversations) ->
    I st ->
    I (fold_left (ImportRoutes.import_one env importerId) conversations st).
Proof.
  intros Hview Hstep. induction conversations as [|convData rest IH];
    intros st Hall Hst; cbn [fold_left]; [assumption|].
  cbn [flat_map] in Hall. apply Forall_app in Hall as [Hhere Hrest].
  apply IH; [assumption|]. now apply (import_one_invariant I P).
Qed.

(** *** Rows per email *)

Lemma rows_with_email_added (db db' : DB.t) (row : User.t) (e : string) :
  DB.users db' = (DB.users db ++ [row])%list ->
  ImportRoutes.rows_with_email db' e
  = (ImportRoutes.rows_with_email db e
     + if String.eqb (User.email row) e then 1 else 0)%nat.
Proof.
  intros H. unfold ImportRoutes.rows_with_email. rewrite H, filter_app, length_app.
  cbn [filter]. now destruct (String.eqb (User.email row) e).
Qed.

Lemma rows_with_email_same (db db' : DB.t) (e : string) :
  DB.users db' = DB.users db ->
  ImportRoutes.rows_with_email db' e = ImportRoutes.rows_with_email db e.
Proof.
  intros H. unfold ImportRoutes.rows_with_email. now rewrite H.
Qed.

(** An email that has exactly one row keeps exactly one row. *)
Lemma one_row_kept (e : string) (st : ImportRoutes.State)
    (participant : ImportParticipant.t) :
  ImportRoutes.rows_with_email (ImportRoutes.db st) e = 1%nat ->
  ImportRoutes.rows_with_email
    (ImportRoutes.db (fst (ImportRoutes.find_or_create env st participant))) e = 1%nat.
Proof.
  intros Hone.
  pose proof (find_or_create_dealt st participant) as H.
  destruct (ImportRoutes.find_or_create env st participant) as [st' existingUser].
  cbn [fst snd] in *.
  destruct H as [existing st' _ Hdb _ _ | st' _ Hdb _ _
                | e0 row st' _ Hunused Husers _ Hemail _ _].
  - now rewrite Hdb.
  - now rewrite Hdb.
  - rewrite (rows_with_email_added _ _ row e Husers), Hemail.
    destruct (String.eqb_spec e0 e) as [->|Hne]; [|lia].
    apply getUserByEmail_rows in Hunused. lia.
Qed.

Lemma one_row_respects_view (e : string) :
  ImportRoutes.respects_view
    (fun st => ImportRoutes.rows_with_email (ImportRoutes.db st) e = 1%nat).
Proof.
  intros st st' (Husers & _ & _) H. now rewrite (rows_with_email_same _ _ e Husers).
Qed.

(** *** Skipped users *)

Lemma already_exists_respects_view (e : string) :
  ImportRoutes.respects_view (ImportRoutes.already_exists e).
Proof.
  intros st st' (_ & _ & Hskipped) H. unfold ImportRoutes.already_exists. now rewrite Hskipped.
Qed.

Lemma already_exists_kept (e : string) (st : ImportRoutes.State)
    (participant : ImportParticipant.t) :
  ImportRoutes.already_exists e st ->
  ImportRoutes.already_exists e (fst (ImportRoutes.find_or_create env st participant)).
Proof.
  unfold ImportRoutes.already_exists. intros Hin.
  pose proof (find_or_create_dealt st participant) as H.
  destruct (ImportRoutes.find_or_create env st participant) as [st' existingUser].
  cbn [fst snd] in *.
  destruct H as [existing st' _ _ _ Hskipped | st' _ _ _ Hskipped
                | e0 row st' _ _ _ _ _ _ Hskipped];
    rewrite Hskipped; try assumption; apply in_or_app; now left.
Qed.

(** A participant whose email has a row is reported as skipped because the
user already exists. *)
Lemma existing_is_skipped (e : string) (st : ImportRoutes.State)
    (participant : ImportParticipant.t) :
  ImportParticipant.email participant = Some e ->
  ImportRoutes.rows_with_email (ImportRoutes.db st) e = 1%nat ->
  ImportRoutes.already_exists e (fst (ImportRoutes.find_or_create env st participant)).
Proof.
  unfold ImportRoutes.already_exists. intros Hemail Hone.
  pose proof (find_or_create_dealt st participant) as H.
  destruct (ImportRoutes.find_or_create env st participant) as [st' existingUser].
  cbn [fst snd] in *.
  destruct H as [existing st' _ _ _ Hskipped | st' Hunused _ _ _
                | e0 row st' Hemail0 Hunused _ _ _ _ _].
  - rewrite Hskipped, Hemail. apply in_or_app. right. now left.
  - rewrite Hemail in Hunused. apply getUserByEmail_rows in Hunused. lia.
  - assert (e0 = e) by congruence. subst e0.
    apply getUserByEmail_rows in Hunused. lia.
Qed.

Lemma existing_is_skipped_by_loop (e : string) (participant : ImportParticipant.t) :
  ImportParticipant.email participant = Some e ->
  forall participants st locals,
    In participant participants ->
    ImportRoutes.rows_with_email (ImportRoutes.db st) e = 1%nat ->
    ImportRoutes.already_exists e
      (fst (fold_left (ImportRoutes.participant_step env) participants (st, locals))).
Proof.
  intros Hemail. induction participants as [|p rest IH]; intros st locals Hin Hone;
    [contradiction|].
  cbn [fold_left].
  pose proof (participant_step_fst st locals p) as E.
  destruct (ImportRoutes.participant_step env (st, locals) p) as [st' locals'].
  cbn [fst] in E.
  destruct Hin as [->|Hin].
  - apply (participants_invariant (ImportRoutes.already_exists e) (fun _ => True)).
    + intros st0 p0 _. apply already_exists_kept.
    + apply Forall_forall. tauto.
    + rewrite E. now apply existing_is_skipped.
  - apply IH; [assumption|]. rewrite E. now apply one_row_kept.
Qed.

Lemma existing_is_skipped_by_bundle (e : string) (participant : ImportParticipant.t)
    (st : ImportRoutes.State) (convData : ImportConversationData.t) :
  ImportParticipant.email participant = Some e ->
  In participant (ImportRoutes.checked_participants convData) ->
  ImportRoutes.rows_with_email (ImportRoutes.db st) e = 1%nat ->
  ImportRoutes.already_exists e (ImportRoutes.import_one env importerId st convData).
Proof.
  intros Hemail Hin Hone.
  apply (already_exists_respects_view e _ _ (import_one_view st convData)).
  now apply (existing_is_skipped_by_loop e participant).
Qed.

Lemma existing_is_skipped_by_run (e : string) (participant : ImportParticipant.t) :
  ImportParticipant.email participant = Some e ->
  forall conversations st,
    In participant (flat_map ImportRoutes.checked_participants conversations) ->
    ImportRoutes.rows_with_email (ImportRoutes.db st) e = 1%nat ->
    ImportRoutes.already_exists e
      (fold_left (ImportRoutes.import_one env importerId) conversations st).
Proof.
  intros Hemail. induction conversations as [|convData rest IH]; intros st Hin Hone;
    [contradiction|].
  cbn [fold_left]. cbn [flat_map] in Hin. apply in_app_or in Hin as [Hin|Hin].
  - apply (importConversations_invariant (ImportRoutes.already_exists e) (fun _ => True)).
    + apply already_exists_respects_view.
    + intros st0 p0 _. apply already_exists_kept.
    + apply Forall_forall. tauto.
    + now apply (existing_is_skipped_by_bundle e participant).
  - apply IH; [assumption|].
    apply (import_one_invariant
             (fun st => ImportRoutes.rows_with_email (ImportRoutes.db st) e = 1%nat)
             (fun _ => True)).
    + apply one_row_respects_view.
    + intros st0 p0 _. apply one_row_kept.
    + apply Forall_forall. tauto.
    + assumption.
Qed.

(** *** Created users *)

Lemma created_once_respects_view emails :
  ImportRoutes.respects_view (ImportRoutes.created_once emails).
Proof.
  intros st st' (Husers & Hcreated & _) H email role Hin.
  rewrite Hcreated in Hin. destruct (H email role Hin) as (e & He & Hone & HE).
  exists e. now rewrite (rows_with_email_same _ _ e Husers).
Qed.

Lemma created_once_kept emails (st : ImportRoutes.State)
    (participant : ImportParticipant.t) :
  In (ImportParticipant.email participant) emails ->
  ImportRoutes.created_once emails st ->
  ImportRoutes.created_once emails (fst (ImportRoutes.find_or_create env st participant)).
Proof.
  intros Hmember Hst.
  pose proof (find_or_create_dealt st participant) as H.
  destruct (ImportRoutes.find_or_create env st participant) as [st' existingUser].
  cbn [fst snd] in *.
  destruct H as [existing st' _ Hdb Hcreated _ | st' _ Hdb Hcreated _
                | e0 row st' Hemail0 Hunused Husers _ Hemail Hcreated _];
    intros email role Hin; rewrite Hcreated in Hin.
  - rewrite Hdb. exact (Hst email role Hin).
  - rewrite Hdb. exact (Hst email role Hin).
  - apply getUserByEmail_rows in Hunused.
    apply in_app_or in Hin as [Hin|[Hin|[]]].
    + destruct (Hst email role Hin) as (e & He & Hone & HE).
      exists e. split; [assumption|]. split; [|assumption].
      rewrite (rows_with_email_added _ _ row e Husers), Hemail.
      destruct (String.eqb_spec e0 e) as [->|Hne]; lia.
    + injection Hin as <- <-. exists e0. split; [reflexivity|]. split.
      * rewrite (rows_with_email_added _ _ row e0 Husers), Hemail, String.eqb_refl. lia.
      * now rewrite <- Hemail0.
Qed.

(** C6.  Run the routine on a list of bundles, then run it again on the
same list from the store the first run left.  Every email the first run
reports in [createdUsers] is reported by the second run in [skippedUsers]
with the reason ["User already exists"], and after both runs the users
table has exactly one row with that email. *)
Theorem import_twice_skips_created_users (db0 : DB.t) (tick0 : nat)
    (conversations : list ImportConversationData.t) :
  let first := ImportRoutes.importConversations env importerId db0 tick0 conversations in
  let second :=
    ImportRoutes.importConversations env importerId
      (ImportRoutes.db first) (ImportRoutes.tick first) conversations in
  forall (email : option string) (role : UserRole),
    In (email, role) (ImportRoutes.createdUsers (ImportRoutes.results first)) ->
    In (email, "User already exists")
       (ImportRoutes.skippedUsers (ImportRoutes.results second))
    /\ exists e : string,
         email = Some e
         /\ ImportRoutes.rows_with_email (ImportRoutes.db second) e = 1%nat.
Proof.
  cbv zeta. unfold ImportRoutes.importConversations. intros email role Hcreated.
  set (emails := map ImportParticipant.email
                     (flat_map ImportRoutes.checked_participants conversations)).
  assert (Hfirst : ImportRoutes.created_once emails
                     (fold_left (ImportRoutes.import_one env importerId) conversations
                                (ImportRoutes.mkState db0 tick0 ImportRoutes.no_results))).
  { apply (importConversations_invariant (ImportRoutes.created_once emails)
             (fun p => In (ImportParticipant.email p) emails)).
    - apply created_once_respects_view.
    - intros st p. apply created_once_kept.
    - apply Forall_forall. intros p Hp. unfold emails. now apply in_map.
    - intros ? ? []. }
  destruct (Hfirst email role Hcreated) as (e & -> & Hone & Hmember).
  unfold emails in Hmember. apply in_map_iff in Hmember as (participant & Hemail & Hin).
  split.
  - now apply (existing_is_skipped_by_run e participant).
  - exists e. split; [reflexivity|].
    apply (importConversations_invariant
             (fun st => ImportRoutes.rows_with_email (ImportRoutes.db st) e = 1%nat)
             (fun _ => True)).
    + apply one_row_respects_view.
    + intros st0 p0 _. apply one_row_kept.
    + apply Forall_forall. tauto.
    + assumption.
Qed.

End Importing.

(* ===================================================================== *)
(** * More of the server *)
(* ===================================================================== *)

(** ** The order of text values and the sorted listings *)

Lemma ascii_compare_refl (c : ascii) : Ascii.compare c c = Eq.
Proof. unfold Ascii.compare. apply N.compare_refl. Qed.

Lemma ascii_compare_trans (a b c : ascii) :
  Ascii.compare a b <> Gt -> Ascii.compare b c <> Gt -> Ascii.compare a c <> Gt.
Proof.
  unfold Ascii.compare. rewrite !N.compare_le_iff. intros H1 H2.
  now transitivity (N_of_ascii b).
Qed.

Lemma ascii_compare_Eq (a b : ascii) : Ascii.compare a b = Eq -> a = b.
Proof.
  unfold Ascii.compare. intros H. apply N.compare_eq in H.
  rewrite <- (ascii_N_embedding a), <- (ascii_N_embedding b). now rewrite H.
Qed.

Lemma text_le_trans (a b c : string) :
  Analytics.text_le a b -> Analytics.text_le b c -> Analytics.text_le a c.
Proof.
  unfold Analytics.text_le. revert b c.
  induction a as [|x a IH]; intros [|y b] [|z c]; cbn; try congruence.
  destruct (Ascii.compare x y) eqn:Exy; try congruence.
  - apply ascii_compare_Eq in Exy. subst y.
    destruct (Ascii.compare x z) eqn:Exz; try congruence. apply IH.
  - destruct (Ascii.compare y z) eqn:Eyz; try congruence.
    + apply ascii_compare_Eq in Eyz. subst z. now rewrite Exy.
    + intros _ _.
      assert (H : Ascii.compare x z <> Gt).
      { apply (ascii_compare_trans x y z); congruence. }
      destruct (Ascii.compare x z) eqn:Exz; try congruence.
      apply ascii_compare_Eq in Exz. subst z.
      unfold Ascii.compare in Exy, Eyz.
      rewrite N.compare_lt_iff in Exy, Eyz. lia.
Qed.

Lemma text_le_total (a b : string) : String.leb a b = false -> Analytics.text_le b a.
Proof.
  intros H. apply leb_text_le.
  destruct (String.leb_total a b) as [H'|H']; congruence.
Qed.

(** The rows of a listing in descending order of a text column are the rows
    it was given, each as often, the later ones first. *)
Lemma insert_desc_permutation {A : Type} (key : A -> string) (x : A) (l : list A) :
  Permutation (Database.insert_desc key x l) (x :: l).
Proof.
  induction l as [|y l IH]; cbn; [reflexivity|].
  destruct (String.leb (key y) (key x)); [reflexivity|].
  rewrite IH. apply perm_swap.
Qed.

Lemma order_by_desc_permutation {A : Type} (key : A -> string) (l : list A) :
  Permutation (Database.order_by_desc key l) l.
Proof.
  induction l as [|x l IH]; cbn; [reflexivity|].
  rewrite insert_desc_permutation. now constructor.
Qed.

Lemma insert_desc_sorted {A : Type} (key : A -> string) (x : A) (l : list A) :
  StronglySorted (fun a b => Analytics.text_le (key b) (key a)) l ->
  StronglySorted (fun a b => Analytics.text_le (key b) (key a))
                 (Database.insert_desc key x l).
Proof.
  induction l as [|y l IH]; cbn; intros Hs.
  - constructor; constructor.
  - destruct (String.leb (key y) (key x)) eqn:E.
    + constructor; [assumption|].
      apply leb_text_le in E.
      inversion Hs as [|? ? _ Hall]; subst.
      constructor; [assumption|].
      eapply Forall_impl; [|exact Hall].
      intros b Hb. cbn in Hb. now apply (text_le_trans _ (key y)).
    + inversion Hs as [|? ? Hs' Hall]; subst.
      constructor; [now apply IH|].
      apply (Permutation_Forall (Permutation_sym (insert_desc_permutation key x l))).
      constructor; [now apply text_le_total | assumption].
Qed.

Lemma order_by_desc_sorted {A : Type} (key : A -> string) (l : list A) :
  StronglySorted (fun a b => Analytics.text_le (key b) (key a))
                 (Database.order_by_desc key l).
Proof.
  induction l as [|x l IH]; cbn; [constructor|]. now apply insert_desc_sorted.
Qed.

Lemma order_by_desc_In {A : Type} (key : A -> string) (l : list A) (x : A) :
  In x (Database.order_by_desc key l) <-> In x l.
Proof.
  split; apply Permutation_in;
    [apply order_by_desc_permutation | symmetry; apply order_by_desc_permutation].
Qed.

Lemma insert_asc_permutation {A : Type} (key : A -> string) (x : A) (l : list A) :
  Permutation (Database.insert_asc key x l) (x :: l).
Proof.
  induction l as [|y l IH]; cbn; [reflexivity|].
  destruct (String.leb (key x) (key y)); [reflexivity|].
  rewrite IH. apply perm_swap.
Qed.

Lemma order_by_asc_permutation {A : Type} (key : A -> string) (l : list A) :
  Permutation (Database.order_by_asc key l) l.
Proof.
  induction l as [|x l IH]; cbn; [reflexivity|].
  rewrite insert_asc_permutation. now constructor.
Qed.

Lemma insert_asc_sorted {A : Type} (key : A -> string) (x : A) (l : list A) :
  StronglySorted (fun a b => Analytics.text_le (key a) (key b)) l ->
  StronglySorted (fun a b => Analytics.text_le (key a) (key b))
                 (Database.insert_asc key x l).
Proof.
  induction l as [|y l IH]; cbn; intros Hs.
  - constructor; constructor.
  - destruct (String.leb (key x) (key y)) eqn:E.
    + constructor; [assumption|].
      apply leb_text_le in E.
      inversion Hs as [|? ? _ Hall]; subst.
      constructor; [assumption|].
      eapply Forall_impl; [|exact Hall].
      intros b Hb. cbn in Hb. now apply (text_le_trans _ (key y)).
    + inversion Hs as [|? ? Hs' Hall]; subst.
      constructor; [now apply IH|].
      apply (Permutation_Forall (Permutation_sym (insert_asc_permutation key x l))).
      constructor; [now apply text_le_total | assumption].
Qed.

Lemma order_by_asc_sorted {A : Type} (key : A -> string) (l : list A) :
  StronglySorted (fun a b => Analytics.text_le (key a) (key b))
                 (Database.order_by_asc key l).
Proof.
  induction l as [|x l IH]; cbn; [constructor|]. now apply insert_asc_sorted.
Qed.

Lemma order_by_asc_In {A : Type} (key : A -> string) (l : list A) (x : A) :
  In x (Database.order_by_asc key l) <-> In x l.
Proof.
  split; apply Permutation_in;
    [apply order_by_asc_permutation | symmetry; apply order_by_asc_permutation].
Qed.

(** A row is found by its key when the keys of the table are unique. *)
Lemma find_by_id {A : Type} (id : A -> Z) (l : list A) (x : A) :
  NoDup (map id l) -> In x l -> find (fun y => id y =? id x) l = Some x.
Proof.
  induction l as [|y l IH]; cbn; [tauto|].
  intros Hnd [->|Hin].
  - now rewrite Z.eqb_refl.
  - inversion Hnd as [|? ? Hnotin Hnd']; subst.
    destruct (Z.eqb_spec (id y) (id x)) as [E|E].
    + exfalso. apply Hnotin. rewrite E. now apply in_map.
    + now apply IH.
Qed.

Lemma find_id_eq {A : Type} (id : A -> Z) (l : list A) (n : Z) (x : A) :
  find (fun y => id y =? n) l = Some x -> In x l /\ id x = n.
Proof.
  intros H. apply find_some in H. destruct H as [Hin E].
  split; [assumption | now apply Z.eqb_eq].
Qed.

Lemma ConversationType_eqb_eq (a b : ConversationType) :
  ConversationType_.eqb a b = true <-> a = b.
Proof. destruct a, b; cbn; split; congruence. Qed.

Lemma is_null_eq {A : Type} (o : option A) : Database.is_null o = true <-> o = None.
Proof. destruct o; cbn; split; congruence. Qed.

(** ** The list of conversations *)

Lemma listing_of_filter (p : Conversation.t -> bool) (rows : list Conversation.t) :
  let listed := Database.order_by_desc Conversation.created_at (filter p rows) in
  StronglySorted
    (fun a b => Analytics.text_le (Conversation.created_at b) (Conversation.created_at a))
    listed
  /\ (NoDup rows -> NoDup listed)
  /\ forall c, In c listed <-> In c rows /\ p c = true.
Proof.
  cbn. split; [apply order_by_desc_sorted|]. split.
  - intros Hnd.
    apply (Permutation_NoDup (Permutation_sym (order_by_desc_permutation _ _))).
    now apply NoDup_filter.
  - intros c. rewrite order_by_desc_In. apply filter_In.
Qed.

(** The rows behind the answer of [GET /conversations]. *)
Lemma conversations_are_listed_by_role_aux (db : DB.t) (user : User.t) :
  User.role user <> QUALITY ->
  exists rows : list Conversation.t,
    Conversations.list_handler db user
    = respond 200 (Success (map (Conversations.details db) rows))
    /\ forall c : Conversation.t,
         In c rows ->
         In c (DB.conversations db)
         /\ match User.role user with
            | PATIENT =>
                Conversation.creator_id c = User.id user
                \/ Database.is_participant db (Conversation.id c) (User.id user) = true
            | DOCTOR =>
                (Conversation.type c = ONE_TO_MANY
                 /\ Conversation.assigned_doctor_id c = None)
                \/ Conversation.assigned_doctor_id c = Some (User.id user)
                \/ Database.is_participant db (Conversation.id c) (User.id user) = true
            | _ => True
            end.
Proof.
  intros Hrole. unfold Conversations.list_handler.
  destruct (User.role user) eqn:Erole; cbn [UserRole_.eqb]; try congruence.
  - eexists. split; [reflexivity|].
    intros c. unfold Database.getConversationsByUserId.
    rewrite order_by_desc_In, filter_In, orb_true_iff, Z.eqb_eq. tauto.
  - eexists. split; [reflexivity|].
    intros c. unfold Database.getConversationsForDoctor.
    rewrite order_by_desc_In, filter_In, !orb_true_iff, andb_true_iff,
      ConversationType_eqb_eq, is_null_eq, opt_eqb_eq.
    unfold Database.has_participant_row. tauto.
  - eexists. split; [reflexivity|].
    intros c. unfold Database.getAllConversations. rewrite order_by_desc_In. tauto.
Qed.

(** X1.  [GET /conversations] answers a care-seeker, a responder or an
    administrator with a list that is sorted by creation time, the newest
    first, holds no row twice, and holds exactly: for a care-seeker, the
    conversations they created or take part in; for a responder, the open
    [1toN] conversations without an assigned responder, those assigned to
    them and those they take part in; for an administrator, all of them. *)
Theorem conversations_are_listed_by_role (db : DB.t) (user : User.t) :
  User.role user <> QUALITY ->
  exists listed : list Conversation.t,
    Conversations.list_handler db user
    = respond 200 (Success (map (Conversations.details db) listed))
    /\ StronglySorted
         (fun a b =>
            Analytics.text_le (Conversation.created_at b) (Conversation.created_at a))
         listed
    /\ (NoDup (DB.conversations db) -> NoDup listed)
    /\ forall c : Conversation.t,
         In c listed
         <-> In c (DB.conversations db)
             /\ match User.role user with
                | PATIENT =>
                    Conversation.creator_id c = User.id user
                    \/ Database.is_participant db (Conversation.id c) (User.id user) = true
                | DOCTOR =>
                    (Conversation.type c = ONE_TO_MANY
                     /\ Conversation.assigned_doctor_id c = None)
                    \/ Conversation.assigned_doctor_id c = Some (User.id user)
                    \/ Database.is_participant db (Conversation.id c) (User.id user) = true
                | _ => True
                end.
Proof.
  intros Hrole. unfold Conversations.list_handler.
  destruct (User.role user) eqn:Erole; cbn [UserRole_.eqb]; try congruence.
  - eexists. split; [reflexivity|].
    unfold Database.getConversationsByUserId.
    destruct (listing_of_filter
                (fun c => (Conversation.creator_id c =? User.id user)
                          || Database.has_participant_row db c (User.id user))
                (DB.conversations db)) as (Hs & Hnd & Hin).
    split; [exact Hs|]. split; [exact Hnd|].
    intros c. rewrite Hin, orb_true_iff, Z.eqb_eq. reflexivity.
  - eexists. split; [reflexivity|].
    unfold Database.getConversationsForDoctor.
    destruct (listing_of_filter
                (fun c => (ConversationType_.eqb (Conversation.type c) ONE_TO_MANY
                           && Database.is_null (Conversation.assigned_doctor_id c))
                          || Database.opt_eqb (Conversation.assigned_doctor_id c) (User.id user)
                          || Database.has_participant_row db c (User.id user))
                (DB.conversations db)) as (Hs & Hnd & Hin).
    split; [exact Hs|]. split; [exact Hnd|].
    intros c. rewrite Hin, !orb_true_iff, andb_true_iff, ConversationType_eqb_eq,
      is_null_eq, opt_eqb_eq.
    unfold Database.has_participant_row. tauto.
  - eexists. split; [reflexivity|].
    unfold Database.getAllConversations.
    split; [apply order_by_desc_sorted|]. split.
    + intros Hnd.
      now apply (Permutation_NoDup (Permutation_sym (order_by_desc_permutation _ _))).
    + intros c. rewrite order_by_desc_In. tauto.
Qed.

Lemma getConversationById_unique (db : DB.t) (c : Conversation.t) :
  Database.unique_conversation_ids db ->
  In c (DB.conversations db) ->
  Database.getConversationById db (Conversation.id c) = Some c.
Proof. intros Hnd Hin. now apply (find_by_id Conversation.id). Qed.

(** X2.  Whatever [GET /conversations] lists for a caller,
    [GET /conversations/:id] opens for the same caller, with the same
    details: no listed conversation is answered with 403 or 404. *)
Theorem listed_conversation_can_be_opened (jwt_verify : Auth.Verifier) (db : DB.t)
    (authHeader : option string) (listed : list Conversations.Details) :
  Database.unique_conversation_ids db ->
  Conversations.GET_conversations jwt_verify db authHeader = respond 200 (Success listed) ->
  forall entry : Conversations.Details,
    In entry listed ->
    Conversations.GET_conversation jwt_verify db authHeader
      (Some (Conversation.id (Conversations.conv entry)))
    = respond 200 (Success entry).
Proof.
  intros Hnd Hlist entry Hentry.
  unfold Conversations.GET_conversations, Conversations.GET_conversation, Auth.guarded in *.
  destruct (Auth.authenticateToken jwt_verify db authHeader) as [user|r] eqn:Eauth;
    [|discriminate Hlist].
  rewrite requireAnyRole_next in *. cbn [fst] in *.
  pose proof (authenticateToken_inl _ _ _ _ Eauth) as Hself.
  assert (Hq : User.role user <> QUALITY).
  { intros Eq. unfold Conversations.list_handler in Hlist. rewrite Eq in Hlist.
    discriminate Hlist. }
  destruct (conversations_are_listed_by_role_aux db user Hq) as (rows & Hrows & Hin).
  rewrite Hrows in Hlist. injection Hlist as <-.
  apply in_map_iff in Hentry. destruct Hentry as (c & <- & Hc).
  apply Hin in Hc. destruct Hc as [Hc Hrule].
  cbn [Conversations.details Conversations.conv].
  unfold Conversations.get_handler.
  rewrite (getConversationById_unique db c Hnd Hc).
  assert (Haccess : Conversations.hasAccess db user c (Conversation.id c) = true).
  { unfold Conversations.hasAccess. rewrite (joined_participant db user _ Hself).
    destruct (User.role user) eqn:Erole; cbn [UserRole_.eqb]; try congruence.
    - destruct Hrule as [E|E]; [|now rewrite E].
      apply Z.eqb_eq in E. rewrite E. now rewrite orb_true_r.
    - destruct Hrule as [[Et _]|[E|E]].
      + rewrite Et. cbn. now rewrite !orb_true_r.
      + apply opt_eqb_eq in E. rewrite E. now rewrite !orb_true_r.
      + now rewrite E.
    - reflexivity. }
  rewrite Haccess. reflexivity.
Qed.

(** ** Logging in *)

Lemma falsy_false_inv (s : option string) :
  JS.falsy s = false -> exists t, s = Some t /\ t <> "".
Proof.
  destruct s as [t|]; cbn; [|discriminate].
  intros H. exists t. split; [reflexivity|]. intros ->. discriminate H.
Qed.

(** The body of a login that succeeds. *)
Lemma login_body (compareSync : string -> string -> bool) (jwt_sign : Auth.Signer)
    (db : DB.t) (email password : option string) (token : string) (public : PublicUser.t) :
  body (AuthRoutes.POST_login compareSync jwt_sign db email password)
  = Success (token, public) ->
  exists user : User.t,
    Database.getUserByEmail db email = Some user
    /\ token = Auth.generateToken jwt_sign user
    /\ public = PublicUser.of_user user.
Proof.
  unfold AuthRoutes.POST_login.
  destruct (JS.falsy email) eqn:Fe; [discriminate|].
  destruct (JS.falsy password) eqn:Fp; [discriminate|]. cbn [orb].
  destruct (falsy_false_inv email Fe) as (e & -> & _).
  destruct (falsy_false_inv password Fp) as (p & -> & _).
  cbn [AuthRoutes.str]. unfold Auth.login, Database.validatePassword.
  destruct (Database.getUserByEmail db (Some e)) as [user|]; [|discriminate].
  destruct (compareSync p (User.password_hash user)); cbn [negb body]; [|discriminate].
  intros H. injection H as <- <-. now exists user.
Qed.

(** X3.  [POST /auth/login] answers 200 exactly when both fields are
    present and not empty, the email is that of a stored user and bcrypt
    accepts the password against the stored hash of that user; the body then
    carries a token signed over the id, email, role and display name of that
    user, and the same four fields.  A missing or empty field is answered
    with 400, everything else with 401; the store is not an output of the
    route. *)
Theorem login_answers (compareSync : string -> string -> bool) (jwt_sign : Auth.Signer)
    (db : DB.t) (email password : option string) :
  let answer := AuthRoutes.POST_login compareSync jwt_sign db email password in
  (status answer = 200
   <-> exists (e p : string) (user : User.t),
         email = Some e /\ e <> "" /\ password = Some p /\ p <> ""
         /\ Database.getUserByEmail db (Some e) = Some user
         /\ compareSync p (User.password_hash user) = true)
  /\ (forall (token : string) (public : PublicUser.t),
         body answer = Success (token, public) ->
         exists user : User.t,
           Database.getUserByEmail db email = Some user
           /\ token = jwt_sign (Claims.mk (User.id user) (User.email user) (User.role user)
                                          (User.display_name user))
           /\ public = PublicUser.mk (User.id user) (User.email user) (User.role user)
                                     (User.display_name user))
  /\ (status answer = 400 <-> JS.falsy email = true \/ JS.falsy password = true)
  /\ (status answer = 200 \/ status answer = 400 \/ status answer = 401).
Proof.
  cbv zeta. unfold AuthRoutes.POST_login.
  destruct (JS.falsy email) eqn:Fe.
  { cbn [orb status body].
    split; [split|split; [|split; [split|]]]; try discriminate; try tauto.
    intros (e & p & user & -> & He & _). cbn in Fe.
    apply String.eqb_eq in Fe. contradiction. }
  destruct (JS.falsy password) eqn:Fp.
  { cbn [orb status body].
    split; [split|split; [|split; [split|]]]; try discriminate; try tauto.
    intros (e & p & user & _ & _ & -> & Hp & _). cbn in Fp.
    apply String.eqb_eq in Fp. contradiction. }
  cbn [orb].
  destruct (falsy_false_inv email Fe) as (e & -> & He).
  destruct (falsy_false_inv password Fp) as (p & -> & Hp).
  cbn [AuthRoutes.str]. unfold Auth.login, Database.validatePassword.
  destruct (Database.getUserByEmail db (Some e)) as [user|] eqn:Euser.
  - destruct (compareSync p (User.password_hash user)) eqn:Ecmp; cbn [negb status body].
    + split; [split|split; [|split; [split|]]]; try discriminate; try tauto.
      * intros _. exists e, p, user. tauto.
      * intros token public H. injection H as <- <-. exists user.
        split; [reflexivity|]. split; reflexivity.
      * intros [H|H]; discriminate H.
    + split; [split|split; [|split; [split|]]]; try discriminate; try tauto.
      * intros (e' & p' & user' & E1 & _ & E2 & _ & E3 & E4).
        injection E1 as <-. injection E2 as <-. congruence.
      * intros [H|H]; discriminate H.
  - cbn [status body].
    split; [split|split; [|split; [split|]]]; try discriminate; try tauto.
    + intros (e' & p' & user' & E1 & _ & E2 & _ & E3 & E4).
      injection E1 as <-. congruence.
    + intros [H|H]; discriminate H.
Qed.

(** X4.  A registration that is answered with 201, followed by a login
    with the same email and password on the store the registration left, is
    answered with 200, the user of the registration and a token over that
    user, provided bcrypt accepts the password against its own hash. *)
Theorem register_then_login (hashSync : string -> string)
    (compareSync : string -> string -> bool) (jwt_sign : Auth.Signer) (now : string)
    (db : DB.t) (req : RegisterRequest.t) (user : PublicUser.t) :
  compareSync (AuthRoutes.str (RegisterRequest.password req))
              (hashSync (AuthRoutes.str (RegisterRequest.password req))) = true ->
  fst (AuthRoutes.POST_register hashSync now db req) = respond 201 (Success user) ->
  AuthRoutes.POST_login compareSync jwt_sign
    (snd (AuthRoutes.POST_register hashSync now db req))
    (RegisterRequest.email req) (RegisterRequest.password req)
  = respond 200
      (Success (jwt_sign (Claims.mk (PublicUser.id user) (PublicUser.email user)
                                    (PublicUser.role user) (PublicUser.display_name user)),
                user)).
Proof.
  intros Hbcrypt. unfold AuthRoutes.POST_register.
  destruct req as [email password role display_name]. cbn [RegisterRequest.email
    RegisterRequest.password RegisterRequest.role RegisterRequest.display_name] in *.
  destruct (JS.falsy email) eqn:Fe; [discriminate|].
  destruct (JS.falsy password) eqn:Fp; [discriminate|].
  destruct (JS.falsy role) eqn:Fr; [discriminate|].
  destruct (JS.falsy display_name) eqn:Fd; [discriminate|].
  cbn [orb].
  destruct (UserRole_.of_string (AuthRoutes.str role)) as [r|]; [|discriminate].
  destruct (negb (JS.test AuthRoutes.emailRegex (AuthRoutes.str email))); [discriminate|].
  destruct (Z.of_nat (String.length (AuthRoutes.str password)) <? 6); [discriminate|].
  destruct (falsy_false_inv email Fe) as (e & -> & He).
  destruct (falsy_false_inv password Fp) as (p & -> & Hp).
  cbn [AuthRoutes.str] in *.
  unfold Auth.register.
  destruct (Database.getUserByEmail db (Some e)) eqn:Efree; [discriminate|].
  destruct (Database.createUser hashSync now db (Some e) p r
              (Some (AuthRoutes.str display_name))) as [[userId db']|] eqn:Ecreate;
    [|discriminate].
  destruct (createUser_cases _ _ _ _ _ _ _ _ _ Ecreate)
    as (e' & d' & Ee & Ed & _ & Husers & _ & Hfound).
  injection Ee as <-. injection Ed as <-.
  rewrite Hfound. cbn [fst snd]. intros H. injection H as <-.
  unfold AuthRoutes.POST_login. rewrite Fe, Fp. cbn [orb AuthRoutes.str].
  unfold Auth.login.
  assert (Hlook : Database.getUserByEmail db' (Some e)
                  = Some (User.mk userId e (hashSync p) r (AuthRoutes.str display_name) now)).
  { unfold Database.getUserByEmail in *. rewrite Husers.
    apply find_app_fresh; [assumption|]. cbn. apply String.eqb_refl. }
  rewrite Hlook. unfold Database.validatePassword. cbn [User.password_hash].
  rewrite Hbcrypt. reflexivity.
Qed.

Lemma getUserById_unique (db : DB.t) (u : User.t) :
  Database.unique_user_ids db ->
  In u (DB.users db) ->
  Database.getUserById db (User.id u) = Some u.
Proof. intros Hnd Hin. now apply (find_by_id User.id). Qed.

(** What the two readers of a bearer token do with one the library
    accepts. *)
Lemma verify_token_steps (jwt_verify : Auth.Verifier) (token : string) (decoded : Claims.t) :
  token <> "" ->
  JS.no_space token = true ->
  jwt_verify token = Some decoded ->
  AuthRoutes.GET_verify jwt_verify (Some ("Bearer " ++ token)) = respond 200 (Success decoded)
  /\ (forall (db : DB.t) (user : User.t),
         Database.getUserById db (Claims.id decoded) = Some user ->
         Auth.authenticateToken jwt_verify db (Some ("Bearer " ++ token)) = inl user).
Proof.
  intros Hne Hsp Hok.
  pose proof (bearer_token_Bearer token Hsp) as Hb.
  pose proof (falsy_Some_false token Hne) as Hf.
  split.
  - unfold AuthRoutes.GET_verify. rewrite Hb, Hf. cbn [AuthRoutes.str].
    unfold Auth.verifyToken. rewrite Hok. now destruct decoded.
  - intros db user Hfound. unfold Auth.authenticateToken. rewrite Hb, Hf.
    unfold Auth.verifyToken. now rewrite Hok, Hfound.
Qed.

(** X5.  The token of a successful login, sent back as [Bearer <token>],
    passes [authenticateToken] as the user who logged in and is answered by
    [GET /auth/verify] with that user's claims, provided the token library
    accepts the tokens it signs for the stored users and user ids are
    unique. *)
Theorem login_token_authenticates (compareSync : string -> string -> bool)
    (jwt_sign : Auth.Signer) (jwt_verify : Auth.Verifier) (db : DB.t)
    (email password : option string) (token : string) (public : PublicUser.t) :
  Database.unique_user_ids db ->
  (forall user : User.t,
      In user (DB.users db) ->
      jwt_verify (Auth.generateToken jwt_sign user)
      = Some (Claims.mk (User.id user) (User.email user) (User.role user)
                        (User.display_name user))) ->
  token <> "" ->
  JS.no_space token = true ->
  AuthRoutes.POST_login compareSync jwt_sign db email password
  = respond 200 (Success (token, public)) ->
  exists user : User.t,
    Auth.authenticateToken jwt_verify db (Some ("Bearer " ++ token)) = inl user
    /\ PublicUser.of_user user = public
    /\ Database.getUserByEmail db email = Some user
    /\ AuthRoutes.GET_verify jwt_verify (Some ("Bearer " ++ token))
       = respond 200
           (Success (Claims.mk (PublicUser.id public) (PublicUser.email public)
                               (PublicUser.role public) (PublicUser.display_name public))).
Proof.
  intros Hnd Hjwt Hne Hsp Hlogin.
  destruct (login_body compareSync jwt_sign db email password token public)
    as (user & Hfound & Htoken & Hpublic).
  { now rewrite Hlogin. }
  assert (Hin : In user (DB.users db)).
  { destruct email as [e|]; [|discriminate Hfound].
    unfold Database.getUserByEmail in Hfound. now apply find_some in Hfound. }
  pose proof (Hjwt user Hin) as Hverify. rewrite <- Htoken in Hverify.
  destruct (verify_token_steps jwt_verify token _ Hne Hsp Hverify) as (Hv & Ha).
  exists user. split.
  - apply Ha. cbn [Claims.id]. now apply getUserById_unique.
  - split; [now rewrite Hpublic|]. split; [assumption|].
    rewrite Hv, Hpublic. reflexivity.
Qed.

Lemma split_after_word (word rest : string) :
  JS.no_space word = true ->
  JS.split " " (word ++ " " ++ rest) = word :: JS.split " " rest.
Proof.
  induction word as [|c word IH]; intros H; [reflexivity|].
  cbn [JS.no_space] in H. apply andb_true_iff in H as [Hc Hw].
  apply negb_true_iff in Hc.
  change (String c word ++ " " ++ rest) with (String c (word ++ " " ++ rest)).
  cbn [JS.split]. rewrite Hc, (IH Hw). reflexivity.
Qed.

(** X6.  The scheme word of the [Authorization] header is not checked:
    the middleware takes what follows the first space as the token,
    whatever precedes it, and a header without a space is answered with
    401. *)
Theorem authorization_scheme_is_not_checked (jwt_verify : Auth.Verifier) (db : DB.t)
    (scheme rest : string) :
  JS.no_space scheme = true ->
  Auth.authenticateToken jwt_verify db (Some (scheme ++ " " ++ rest))
  = Auth.authenticateToken jwt_verify db (Some ("Bearer " ++ rest))
  /\ Auth.authenticateToken jwt_verify db (Some scheme)
     = inr (Auth.refuse 401 "Access token required").
Proof.
  intros Hsp. split.
  - unfold Auth.authenticateToken.
    replace (Auth.bearer_token (Some (scheme ++ " " ++ rest)))
      with (Auth.bearer_token (Some ("Bearer " ++ rest))); [reflexivity|].
    unfold Auth.bearer_token.
    change ("Bearer " ++ rest) with ("Bearer" ++ " " ++ rest).
    rewrite (split_after_word scheme rest Hsp).
    rewrite (split_after_word "Bearer" rest eq_refl).
    destruct (String.eqb_spec ("Bearer" ++ " " ++ rest) "") as [E|_]; [discriminate E|].
    destruct (String.eqb_spec (scheme ++ " " ++ rest) "") as [E|_]; [|reflexivity].
    destruct scheme; discriminate E.
  - unfold Auth.authenticateToken, Auth.bearer_token.
    destruct (String.eqb_spec scheme "") as [->|_]; [reflexivity|].
    now rewrite (split_no_space scheme Hsp).
Qed.

(** ** Joining, updating, creating and deleting a conversation *)

Lemma authenticateToken_users jwt_verify (db db' : DB.t) authHeader :
  DB.users db' = DB.users db ->
  Auth.authenticateToken jwt_verify db' authHeader
  = Auth.authenticateToken jwt_verify db authHeader.
Proof.
  intros H. unfold Auth.authenticateToken, Database.getUserById. now rewrite H.
Qed.

Lemma is_participant_insert now db c u c' u' :
  Database.is_participant (Database.insert_participant now db c u) c' u'
  = Database.is_participant db c' u' || ((c =? c') && (u =? u')).
Proof.
  unfold Database.is_participant, Database.insert_participant.
  cbn [DB.conversation_participants]. rewrite existsb_app. cbn.
  now rewrite orb_false_r.
Qed.

Lemma is_participant_add now db c u c' u' :
  Database.is_participant (Database.addParticipantToConversation now db c u) c' u'
  = Database.is_participant db c' u' || ((c =? c') && (u =? u')).
Proof.
  unfold Database.addParticipantToConversation.
  destruct (Database.is_participant db c u) eqn:E.
  - destruct ((c =? c') && (u =? u')) eqn:Esame; [|now rewrite orb_false_r].
    apply andb_true_iff in Esame as [Ec Eu]. apply Z.eqb_eq in Ec, Eu. subst.
    now rewrite E.
  - apply is_participant_insert.
Qed.

Lemma addParticipant_frame now db c u :
  let db' := Database.addParticipantToConversation now db c u in
  DB.users db' = DB.users db
  /\ DB.conversations db' = DB.conversations db
  /\ DB.conversation_metadata db' = DB.conversation_metadata db
  /\ DB.attachments db' = DB.attachments db.
Proof.
  cbn. unfold Database.addParticipantToConversation.
  destruct (Database.is_participant db c u); repeat split; reflexivity.
Qed.

Lemma addParticipant_again now now' db c u :
  let db' := Database.addParticipantToConversation now db c u in
  Database.addParticipantToConversation now' db' c u = db'.
Proof.
  cbn. unfold Database.addParticipantToConversation at 1.
  now rewrite is_participant_add, !Z.eqb_refl, orb_true_r.
Qed.

Lemma requireDoctorOrAdmin_next (user : User.t) :
  User.role user = DOCTOR \/ User.role user = ADMIN ->
  Auth.requireDoctorOrAdmin (Some user) = None.
Proof.
  unfold Auth.requireDoctorOrAdmin, Auth.requireRole. intros [E|E]; now rewrite E.
Qed.

(** X7.  A responder who joins a [1toN] conversation, or an administrator
    who joins any, is answered with 200 and is a participant afterwards;
    nothing else changes: users and conversations are as before, every
    earlier participant is still one, and the only new pair is the caller
    with this conversation.  The caller may then upload to the
    conversation, and joining once more leaves the store as it is.  A
    responder who asks to join a [1to1] conversation is answered with 403
    and the store is unchanged. *)
Theorem join_makes_participant (jwt_verify : Auth.Verifier) (now again : string)
    (db : DB.t) (authHeader : option string) (user : User.t) (id : Z)
    (conversation : Conversation.t) :
  Auth.authenticateToken jwt_verify db authHeader = inl user ->
  User.role user = DOCTOR \/ User.role user = ADMIN ->
  Database.getConversationById db id = Some conversation ->
  let answer := Conversations.POST_join jwt_verify now db authHeader (Some id) in
  let db' := snd answer in
  (User.role user = DOCTOR -> Conversation.type conversation = ONE_TO_ONE ->
   answer = (respond 403 (Failure "Cannot join this type of conversation"), db))
  /\ (User.role user = ADMIN \/ Conversation.type conversation = ONE_TO_MANY ->
      fst answer = respond 200 (Success "Successfully joined conversation")
      /\ Database.is_participant db' id (User.id user) = true
      /\ DB.users db' = DB.users db
      /\ DB.conversations db' = DB.conversations db
      /\ (forall c u,
             Database.is_participant db' c u = true
             <-> Database.is_participant db c u = true \/ (c = id /\ u = User.id user))
      /\ Attachments.hasAccess db' user conversation id = true
      /\ Conversations.POST_join jwt_verify again db' authHeader (Some id)
         = (respond 200 (Success "Successfully joined conversation"), db')).
Proof.
  intros Hauth Hrole Hconv. cbv zeta.
  unfold Conversations.POST_join.
  rewrite (guarded_next _ _ _ _ _ user Hauth (requireDoctorOrAdmin_next user Hrole)).
  unfold Conversations.join_handler. rewrite Hconv.
  split.
  - intros Ed Et. now rewrite Ed, Et.
  - intros Hok.
    assert (Hgo : UserRole_.eqb (User.role user) DOCTOR
                  && negb (ConversationType_.eqb (Conversation.type conversation) ONE_TO_MANY)
                  = false).
    { destruct Hok as [E|E]; rewrite E; [reflexivity|]. cbn. apply andb_false_r. }
    rewrite Hgo. cbn [fst snd].
    destruct (addParticipant_frame now db id (User.id user)) as (Hu & Hc & _).
    set (db' := Database.addParticipantToConversation now db id (User.id user)) in *.
    assert (Hpart : forall c u,
               Database.is_participant db' c u = true
               <-> Database.is_participant db c u = true \/ (c = id /\ u = User.id user)).
    { intros c u. unfold db'. rewrite is_participant_add, orb_true_iff, andb_true_iff,
        !Z.eqb_eq. intuition congruence. }
    assert (Hself : Database.getUserById db' (User.id user) = Some user).
    { unfold Database.getUserById. rewrite Hu. exact (authenticateToken_inl _ _ _ _ Hauth). }
    split; [reflexivity|]. split; [apply Hpart; now right|].
    split; [exact Hu|]. split; [exact Hc|]. split; [exact Hpart|]. split.
    + apply (hasAccess_iff db' user conversation id Hself). right. left.
      apply Hpart. now right.
    + rewrite (guarded_next _ _ _ _ _ user).
      * unfold Conversations.join_handler, Database.getConversationById.
        rewrite Hc. fold (Database.getConversationById db id). rewrite Hconv, Hgo.
        unfold db'. now rewrite addParticipant_again.
      * now rewrite (authenticateToken_users _ db db').
      * now apply requireDoctorOrAdmin_next.
Qed.

Lemma find_map_id {A : Type} (id : A -> Z) (f : A -> A) (n : Z) (l : list A) :
  (forall x, id (f x) = id x) ->
  find (fun x => id x =? n) (map f l) = option_map f (find (fun x => id x =? n) l).
Proof.
  intros Hid. induction l as [|x l IH]; cbn; [reflexivity|].
  rewrite Hid. destruct (id x =? n); [reflexivity | exact IH].
Qed.

Lemma updateConversationStatus_lookup db id status id' :
  Database.getConversationById (Database.updateConversationStatus db id status) id'
  = option_map
      (fun c =>
         if Conversation.id c =? id
         then Conversation.mk (Conversation.id c) (Conversation.title c)
                (Conversation.type c) (Conversation.creator_id c) status
                (Conversation.thread_id c) (Conversation.created_at c)
                (Conversation.assigned_doctor_id c)
         else c)
      (Database.getConversationById db id').
Proof.
  unfold Database.getConversationById, Database.updateConversationStatus.
  cbn [DB.conversations]. apply (find_map_id Conversation.id).
  intros c. now destruct (Conversation.id c =? id).
Qed.

Lemma getConversationById_id db id c :
  Database.getConversationById db id = Some c -> Conversation.id c = id.
Proof. intros H. now apply (find_id_eq Conversation.id) in H. Qed.

Lemma status_of_string_value (s : ConversationStatus) :
  ConversationStatus_.of_string (ConversationStatus_.value s) = Some s.
Proof. now destruct s. Qed.

Lemma status_of_string_None (s : string) :
  ~ In s (map ConversationStatus_.value ConversationStatus_.values) ->
  ConversationStatus_.of_string s = None.
Proof.
  intros Hnot. destruct (ConversationStatus_.of_string s) as [r|] eqn:E; [|reflexivity].
  unfold ConversationStatus_.of_string in E. apply find_some in E as [_ E].
  apply String.eqb_eq in E. subst s. exfalso. apply Hnot.
  destruct r; simpl; tauto.
Qed.

(** X8.  [PATCH /conversations/:id] with one of the three status values,
    sent by an administrator or by a responder the route lets through,
    is answered with 200 and the conversation carrying the new status;
    afterwards the conversation is stored with that status and all its other
    fields as before, every other conversation is as before, and so are the
    users, participants, metadata and attachments.  A status that is none of
    the three values is answered with 400 and a request without a status with
    200, both without changing the store. *)
Theorem update_changes_status_only (jwt_verify : Auth.Verifier) (db : DB.t)
    (authHeader : option string) (user : User.t) (id : Z) (conversation : Conversation.t) :
  Auth.authenticateToken jwt_verify db authHeader = inl user ->
  User.role user = DOCTOR \/ User.role user = ADMIN ->
  Database.getConversationById db id = Some conversation ->
  Conversations.may_update db user conversation id = true ->
  (forall status : ConversationStatus,
      let answer :=
        Conversations.PATCH_conversation jwt_verify db authHeader (Some id)
          (Some (ConversationStatus_.value status)) in
      let db' := snd answer in
      let updated :=
        Conversation.mk id (Conversation.title conversation) (Conversation.type conversation)
          (Conversation.creator_id conversation) status (Conversation.thread_id conversation)
          (Conversation.created_at conversation)
          (Conversation.assigned_doctor_id conversation) in
      fst answer = respond 200 (Success (Some updated))
      /\ Database.getConversationById db' id = Some updated
      /\ (forall id', id' <> id ->
             Database.getConversationById db' id' = Database.getConversationById db id')
      /\ map Conversation.id (DB.conversations db') = map Conversation.id (DB.conversations db)
      /\ DB.users db' = DB.users db
      /\ DB.conversation_participants db' = DB.conversation_participants db
      /\ DB.conversation_metadata db' = DB.conversation_metadata db
      /\ DB.attachments db' = DB.attachments db)
  /\ (forall status : string,
         status <> "" ->
         ~ In status ["active"; "readonly"; "archived"] ->
         Conversations.PATCH_conversation jwt_verify db authHeader (Some id) (Some status)
         = (respond 400 (Failure "Invalid status"), db))
  /\ (forall status : option string,
         JS.falsy status = true ->
         Conversations.PATCH_conversation jwt_verify db authHeader (Some id) status
         = (respond 200 (Success (Some conversation)), db)).
Proof.
  intros Hauth Hrole Hconv Hmay.
  assert (Hroute : forall status,
             Conversations.PATCH_conversation jwt_verify db authHeader (Some id) status
             = Conversations.update_handler db user (Some id) status).
  { intros status. unfold Conversations.PATCH_conversation.
    now rewrite (guarded_next _ _ _ _ _ user Hauth (requireDoctorOrAdmin_next user Hrole)). }
  pose proof (getConversationById_id db id conversation Hconv) as Hid.
  split; [|split].
  - intros status. cbv zeta. rewrite Hroute.
    unfold Conversations.update_handler. rewrite Hconv, Hmay. cbn [negb].
    assert (Hf : JS.falsy (Some (ConversationStatus_.value status)) = false)
      by now destruct status.
    rewrite Hf. cbn [AuthRoutes.str]. rewrite status_of_string_value. cbn [fst snd].
    assert (Hnew : Database.getConversationById
                     (Database.updateConversationStatus db id status) id
                   = Some (Conversation.mk id (Conversation.title conversation)
                             (Conversation.type conversation)
                             (Conversation.creator_id conversation) status
                             (Conversation.thread_id conversation)
                             (Conversation.created_at conversation)
                             (Conversation.assigned_doctor_id conversation))).
    { rewrite updateConversationStatus_lookup, Hconv. cbn [option_map].
      now rewrite Hid, Z.eqb_refl. }
    rewrite Hnew. split; [reflexivity|]. split; [reflexivity|]. split.
    + intros id' Hne. rewrite updateConversationStatus_lookup.
      destruct (Database.getConversationById db id') as [c|] eqn:Ec; [|reflexivity].
      cbn [option_map]. apply getConversationById_id in Ec. rewrite Ec.
      destruct (Z.eqb_spec id' id); [contradiction | reflexivity].
    + split.
      * unfold Database.updateConversationStatus. cbn [DB.conversations].
        rewrite map_map. apply map_ext. intros c.
        now destruct (Conversation.id c =? id).
      * repeat split; reflexivity.
  - intros status Hne Hnot. rewrite Hroute.
    unfold Conversations.update_handler. rewrite Hconv, Hmay. cbn [negb].
    rewrite (falsy_Some_false status Hne). cbn [AuthRoutes.str].
    now rewrite (status_of_string_None status Hnot).
  - intros status Hf. rewrite Hroute.
    unfold Conversations.update_handler. rewrite Hconv, Hmay. cbn [negb].
    now rewrite Hf.
Qed.

Lemma type_of_string_value (t : ConversationType) :
  ConversationType_.of_string (ConversationType_.value t) = Some t.
Proof. now destruct t. Qed.

Lemma requirePatient_next (user : User.t) :
  User.role user = PATIENT -> Auth.requirePatient (Some user) = None.
Proof. unfold Auth.requirePatient, Auth.requireRole. intros E. now rewrite E. Qed.

Lemma existsb_false_forall {A : Type} (p : A -> bool) (l : list A) :
  (forall x, In x l -> p x = false) -> existsb p l = false.
Proof.
  intros H. induction l as [|x l IH]; cbn; [reflexivity|].
  rewrite (H x (or_introl eq_refl)). apply IH. intros y Hy. apply H. now right.
Qed.

Lemma next_rowid_above {A : Type} (id : A -> Z) (seq : Z) (rows : list A) (r : A) :
  In r rows -> id r < Database.next_rowid id seq rows.
Proof.
  intros Hin. unfold Database.next_rowid. pose proof (max_id_bound id rows r Hin). lia.
Qed.

(** What a request to [POST /conversations] that passes the checks does. *)
Lemma created_conversation_step (jwt_verify : Auth.Verifier) (now : string)
    (db : DB.t) (authHeader : option string) (user : User.t) (title threadId : string)
    (type : ConversationType) (assigned : option Z) :
  Auth.authenticateToken jwt_verify db authHeader = inl user ->
  User.role user = PATIENT ->
  title <> "" ->
  threadId <> "" ->
  (forall c, In c (DB.conversations db) -> Conversation.thread_id c <> threadId) ->
  (type = ONE_TO_ONE ->
   exists (d : Z) (doctor : User.t),
     assigned = Some d /\ d <> 0
     /\ Database.getUserById db d = Some doctor /\ User.role doctor = DOCTOR) ->
  let answer :=
    Conversations.POST_conversations jwt_verify now (Some threadId) db authHeader
      (CreateConversationRequest.mk (Some title) (Some (ConversationType_.value type))
                                    assigned) in
  let db' := snd answer in
  let id :=
    Database.next_rowid Conversation.id (DB.seq_conversations db) (DB.conversations db) in
  let created :=
    Conversation.mk id title type (User.id user) ACTIVE threadId now assigned in
  fst answer = respond 201 (Success (Some created, threadId))
  /\ DB.conversations db' = (DB.conversations db ++ [created])%list
  /\ DB.users db' = DB.users db
  /\ (forall c u,
         Database.is_participant db' c u = true
         <-> Database.is_participant db c u = true
             \/ (c = id /\ (u = User.id user \/ (type = ONE_TO_ONE /\ assigned = Some u)))).
Proof.
  intros Hauth Hrole Htitle Hthread Hfresh Hdoctor. cbv zeta.
  unfold Conversations.POST_conversations.
  rewrite (guarded_next _ _ _ _ _ user Hauth (requirePatient_next user Hrole)).
  unfold Conversations.create_handler.
  cbn [CreateConversationRequest.title CreateConversationRequest.type
       CreateConversationRequest.assigned_doctor_id AuthRoutes.str].
  rewrite (falsy_Some_false title Htitle).
  assert (Hty : JS.falsy (Some (ConversationType_.value type)) = false) by now destruct type.
  rewrite Hty. cbn [orb]. rewrite type_of_string_value.
  assert (Hcheck :
            (if ConversationType_.eqb type ONE_TO_ONE
             then
               if JS.falsy_num assigned
               then Some "Doctor assignment required for 1:1 conversations"
               else
                 match match assigned with
                       | Some d => Database.getUserById db d
                       | None => None
                       end with
                 | None => Some "Invalid doctor assignment"
                 | Some doctor =>
                     if negb (UserRole_.eqb (User.role doctor) DOCTOR)
                     then Some "Invalid doctor assignment"
                     else None
                 end
             else None) = None).
  { destruct type; [|reflexivity]. cbn [ConversationType_.eqb].
    destruct (Hdoctor eq_refl) as (d & doctor & -> & Hd & Hfound & Hr).
    cbn [JS.falsy_num]. destruct (Z.eqb_spec d 0); [contradiction|].
    now rewrite Hfound, Hr. }
  rewrite Hcheck. rewrite (falsy_Some_false threadId Hthread).
  unfold Database.createConversation.
  rewrite (existsb_false_forall _ (DB.conversations db)).
  2:{ intros c Hc. apply String.eqb_neq. now apply Hfresh. }
  set (id := Database.next_rowid Conversation.id (DB.seq_conversations db)
               (DB.conversations db)).
  set (created := Conversation.mk id title type (User.id user) ACTIVE threadId now assigned).
  set (db1 := DB.mk (DB.users db) (DB.conversations db ++ [created])%list
                    (DB.conversation_participants db) (DB.conversation_metadata db)
                    (DB.attachments db) (DB.seq_users db) id (DB.seq_participants db)
                    (DB.seq_metadata db) (DB.seq_attachments db)).
  set (db2 := Database.addParticipantToConversation now db1 id (User.id user)).
  set (db3 := match assigned with
              | Some d =>
                  if ConversationType_.eqb type ONE_TO_ONE && negb (JS.falsy_num assigned)
                  then Database.addParticipantToConversation now db2 id d
                  else db2
              | None => db2
              end).
  cbn [fst snd].
  destruct (addParticipant_frame now db1 id (User.id user)) as (Hu2 & Hc2 & _).
  fold db2 in Hu2, Hc2.
  assert (Hframe : DB.users db3 = DB.users db
                   /\ DB.conversations db3 = (DB.conversations db ++ [created])%list).
  { unfold db3. destruct assigned as [d|]; [|now rewrite Hu2, Hc2].
    destruct (ConversationType_.eqb type ONE_TO_ONE && negb (JS.falsy_num (Some d)));
      [|now rewrite Hu2, Hc2].
    destruct (addParticipant_frame now db2 id d) as (Hu3 & Hc3 & _).
    now rewrite Hu3, Hc3, Hu2, Hc2. }
  destruct Hframe as [Hu3 Hc3].
  assert (Hpart : forall c u,
             Database.is_participant db3 c u = true
             <-> Database.is_participant db c u = true
                 \/ (c = id /\ (u = User.id user \/ (type = ONE_TO_ONE /\ assigned = Some u)))).
  { intros c u.
    assert (H2 : Database.is_participant db2 c u = true
                 <-> Database.is_participant db c u = true \/ (c = id /\ u = User.id user)).
    { unfold db2. rewrite is_participant_add, orb_true_iff, andb_true_iff, !Z.eqb_eq.
      change (Database.is_participant db1 c u) with (Database.is_participant db c u).
      intuition congruence. }
    unfold db3. destruct assigned as [d|].
    - destruct type; cbn [ConversationType_.eqb andb].
      + cbn [JS.falsy_num].
        destruct (Hdoctor eq_refl) as (d' & doctor & Ed & Hd & _). injection Ed as <-.
        destruct (Z.eqb_spec d 0); [contradiction|]. cbn [negb].
        rewrite is_participant_add, orb_true_iff, andb_true_iff, !Z.eqb_eq, H2.
        intuition congruence.
      + rewrite H2. intuition congruence.
    - rewrite H2. intuition congruence. }
  assert (Hget : Database.getConversationById db3 id = Some created).
  { unfold Database.getConversationById. rewrite Hc3.
    apply find_app_fresh; [apply next_rowid_fresh | apply Z.eqb_refl]. }
  rewrite Hget.
  split; [reflexivity|]. split; [exact Hc3|]. split; [exact Hu3 | exact Hpart].
Qed.

(** X9.  A request to [POST /conversations] that passes the checks, with a
    thread id that no conversation uses yet, is answered with 201 and the new
    conversation: it is appended to the table with an id above every id
    there, the status [active], the caller as creator and the thread id of
    the chat service.  Afterwards the caller, and for a [1to1] conversation
    the assigned responder, are participants of it; nobody else is added
    anywhere, the users are as before, and the conversation is in the
    caller's own list. *)
Theorem created_conversation_is_recorded (jwt_verify : Auth.Verifier) (now : string)
    (db : DB.t) (authHeader : option string) (user : User.t) (title threadId : string)
    (type : ConversationType) (assigned : option Z) :
  Auth.authenticateToken jwt_verify db authHeader = inl user ->
  User.role user = PATIENT ->
  title <> "" ->
  threadId <> "" ->
  (forall c, In c (DB.conversations db) -> Conversation.thread_id c <> threadId) ->
  (type = ONE_TO_ONE ->
   exists (d : Z) (doctor : User.t),
     assigned = Some d /\ d <> 0
     /\ Database.getUserById db d = Some doctor /\ User.role doctor = DOCTOR) ->
  let answer :=
    Conversations.POST_conversations jwt_verify now (Some threadId) db authHeader
      (CreateConversationRequest.mk (Some title) (Some (ConversationType_.value type))
                                    assigned) in
  let db' := snd answer in
  exists id : Z,
    let created :=
      Conversation.mk id title type (User.id user) ACTIVE threadId now assigned in
    fst answer = respond 201 (Success (Some created, threadId))
    /\ DB.conversations db' = (DB.conversations db ++ [created])%list
    /\ (forall c, In c (DB.conversations db) -> Conversation.id c < id)
    /\ DB.users db' = DB.users db
    /\ (forall c u,
           Database.is_participant db' c u = true
           <-> Database.is_participant db c u = true
               \/ (c = id /\ (u = User.id user \/ (type = ONE_TO_ONE /\ assigned = Some u))))
    /\ In created (Database.getConversationsByUserId db' (User.id user)).
Proof.
  intros Hauth Hrole Htitle Hthread Hfresh Hdoctor.
  destruct (created_conversation_step jwt_verify now db authHeader user title threadId
              type assigned Hauth Hrole Htitle Hthread Hfresh Hdoctor)
    as (Hanswer & Hrows & Husers & Hpart).
  cbv zeta.
  exists (Database.next_rowid Conversation.id (DB.seq_conversations db)
            (DB.conversations db)).
  split; [exact Hanswer|]. split; [exact Hrows|]. split.
  { intros c Hc. now apply next_rowid_above. }
  split; [exact Husers|]. split; [exact Hpart|].
  unfold Database.getConversationsByUserId. rewrite order_by_desc_In, filter_In.
  split.
  - rewrite Hrows. apply in_or_app. right. now left.
  - cbn [Conversation.creator_id]. now rewrite Z.eqb_refl.
Qed.

Lemma find_filter_implied {A : Type} (p q : A -> bool) (l : list A) :
  (forall x, p x = true -> q x = true) -> find p (filter q l) = find p l.
Proof.
  intros H. induction l as [|x l IH]; cbn; [reflexivity|].
  destruct (q x) eqn:Eq; cbn.
  - destruct (p x); [reflexivity | exact IH].
  - destruct (p x) eqn:Ep; [|exact IH]. rewrite (H x Ep) in Eq. discriminate.
Qed.

Lemma filter_filter_implied {A : Type} (p q : A -> bool) (l : list A) :
  (forall x, p x = true -> q x = true) -> filter p (filter q l) = filter p l.
Proof.
  intros H. induction l as [|x l IH]; cbn; [reflexivity|].
  destruct (q x) eqn:Eq; cbn.
  - destruct (p x); [now rewrite IH | exact IH].
  - destruct (p x) eqn:Ep; [|exact IH]. rewrite (H x Ep) in Eq. discriminate.
Qed.

Lemma find_filter_none {A : Type} (p q : A -> bool) (l : list A) :
  (forall x, p x = true -> q x = false) -> find p (filter q l) = None.
Proof.
  intros H. induction l as [|x l IH]; cbn; [reflexivity|].
  destruct (q x) eqn:Eq; [|exact IH]. cbn.
  destruct (p x) eqn:Ep; [|exact IH]. rewrite (H x Ep) in Eq. discriminate.
Qed.

(** X10.  After [DELETE /conversations/:id] has run, whatever it answered,
    no conversation has that id: opening it, listing its attachments and
    deleting it again are answered with 404.  Every other conversation is
    found as before, with the same participants and the same attachments,
    and the users are as before. *)
Theorem deleted_conversation_is_gone (db : DB.t) (id : Z) :
  let db' := snd (Conversations.delete_handler db (Some id)) in
  Database.getConversationById db' id = None
  /\ (forall user : User.t,
         Conversations.get_handler db' user (Some id)
         = respond 404 (Failure "Conversation not found"))
  /\ (forall user : User.t,
         Attachments.list_handler db' user (Some id)
         = respond 404 (Failure "Conversation not found"))
  /\ Conversations.delete_handler db' (Some id)
     = (respond 404 (Failure "Conversation not found"), db')
  /\ (forall id' : Z,
         id' <> id ->
         Database.getConversationById db' id' = Database.getConversationById db id'
         /\ Database.getConversationParticipants db' id'
            = Database.getConversationParticipants db id'
         /\ Database.getAttachmentsByConversationId db' id'
            = Database.getAttachmentsByConversationId db id')
  /\ DB.users db' = DB.users db.
Proof.
  cbv zeta.
  assert (Hdb' : snd (Conversations.delete_handler db (Some id))
                 = match Database.getConversationById db id with
                   | Some _ => Database.deleteConversation db id
                   | None => db
                   end).
  { unfold Conversations.delete_handler.
    now destruct (Database.getConversationById db id). }
  rewrite Hdb'. clear Hdb'.
  destruct (Database.getConversationById db id) as [conversation|] eqn:Econv.
  - assert (Hgone : Database.getConversationById (Database.deleteConversation db id) id = None).
    { unfold Database.getConversationById, Database.deleteConversation. cbn.
      apply find_filter_none. intros c Hc. now rewrite Hc. }
    split; [exact Hgone|].
    split; [intros user; unfold Conversations.get_handler; now rewrite Hgone|].
    split; [intros user; unfold Attachments.list_handler; now rewrite Hgone|].
    split; [unfold Conversations.delete_handler; now rewrite Hgone|].
    split; [|reflexivity].
    intros id' Hne.
    assert (Hother : forall n : Z, (n =? id') = true -> negb (n =? id) = true).
    { intros n Hn. apply Z.eqb_eq in Hn. subst n.
      apply negb_true_iff. now apply Z.eqb_neq. }
    split; [|split].
    + unfold Database.getConversationById, Database.deleteConversation. cbn.
      apply find_filter_implied. intros c. apply Hother.
    + unfold Database.getConversationParticipants, Database.deleteConversation. cbn.
      apply flat_map_ext. intros u. f_equal.
      apply filter_filter_implied. intros p Hp.
      apply andb_true_iff in Hp as [_ Hp]. now apply Hother.
    + unfold Database.getAttachmentsByConversationId, Database.deleteConversation.
      cbn [fold_left Database.deleteConversation_statements Database.run DB.users
           DB.attachments].
      rewrite (filter_filter_implied
                 (fun a => Attachment.conversation_id a =? id')
                 (fun a => negb (Attachment.conversation_id a =? id))); [reflexivity|].
      intros a. apply Hother.
  - split; [exact Econv|].
    split; [intros user; unfold Conversations.get_handler; now rewrite Econv|].
    split; [intros user; unfold Attachments.list_handler; now rewrite Econv|].
    split; [unfold Conversations.delete_handler; now rewrite Econv|].
    split; [|reflexivity]. intros id' _. repeat split; reflexivity.
Qed.

(** ** Attachments after the upload *)

Lemma guarded_inv {A : Type} jwt_verify (gate : option User.t -> option Auth.Refusal)
    db authHeader handler (payload : A) (db' : DB.t) (code : Z) :
  @Auth.guarded A jwt_verify gate db authHeader handler
  = (respond code (Success payload), db') ->
  exists user : User.t,
    Auth.authenticateToken jwt_verify db authHeader = inl user
    /\ gate (Some user) = None
    /\ handler user = (respond code (Success payload), db').
Proof.
  unfold Auth.guarded.
  destruct (Auth.authenticateToken jwt_verify db authHeader) as [user|r]; [|discriminate].
  destruct (gate (Some user)) as [r|] eqn:Egate; [discriminate|].
  intros H. exists user. repeat split; assumption.
Qed.

Lemma getUserById_In db id user :
  Database.getUserById db id = Some user -> In user (DB.users db) /\ User.id user = id.
Proof. intros H. now apply (find_id_eq User.id) in H. Qed.

(** X11.  An upload that is answered with 201 leaves exactly one new row,
    the last of the table, with the id of the answer, the conversation, the
    caller as uploader and the name, size and type of the file; the size is
    at most 50 MiB and the type is on the list.  On the store it leaves, the
    row is found by its id, the list of the conversation's attachments
    answers the caller with 200 and holds the attachment under the caller's
    display name, and the caller can open the conversation. *)
Theorem uploaded_attachment_is_listed (jwt_verify : Auth.Verifier) (env : Attachments.Env)
    (db db' : DB.t) (authHeader : option string) (conversationId : Z)
    (fileData : UploadedFile.t) (summary : Attachments.Summary) :
  Attachments.POST_upload jwt_verify env db authHeader (Some conversationId) (Some fileData)
  = (respond 201 (Success summary), db') ->
  exists (user : User.t) (attachment : Attachment.t) (listed : list ListedAttachment.t),
    Auth.authenticateToken jwt_verify db authHeader = inl user
    /\ DB.attachments db' = (DB.attachments db ++ [attachment])%list
    /\ Attachment.id attachment = Attachments.id summary
    /\ Attachment.conversation_id attachment = conversationId
    /\ Attachment.uploader_id attachment = User.id user
    /\ Attachment.original_filename attachment = UploadedFile.originalname fileData
    /\ Attachment.file_size attachment = UploadedFile.size fileData
    /\ Attachment.file_type attachment = UploadedFile.mimetype fileData
    /\ UploadedFile.size fileData <= 50 * 1024 * 1024
    /\ In (UploadedFile.mimetype fileData) Attachments.ALLOWED_FILE_TYPES
    /\ Database.getAttachmentById db' (Attachments.id summary) = Some attachment
    /\ Attachments.GET_attachments jwt_verify db' authHeader (Some conversationId)
       = respond 200 (Success listed)
    /\ In (ListedAttachment.mk (Attachments.id summary) (UploadedFile.originalname fileData)
             (UploadedFile.size fileData) (UploadedFile.mimetype fileData)
             (User.display_name user) (Attachments.now env))
          listed
    /\ status (Conversations.GET_conversation jwt_verify db' authHeader (Some conversationId))
       = 200.
Proof.
  intros Hup. unfold Attachments.POST_upload in Hup.
  apply guarded_inv in Hup as (user & Hauth & _ & Hup). cbv beta in Hup.
  destruct (upload_single_cases fileData) as [[_ Epart] | [_ Epart]];
    rewrite Epart in Hup; [|discriminate].
  unfold Attachments.upload_handler in Hup.
  destruct (UploadedFile.size fileData >? Attachments.MAX_FILE_SIZE) eqn:Esize;
    [discriminate|].
  destruct (Attachments.allowed (UploadedFile.mimetype fileData)) eqn:Etype;
    [|discriminate].
  cbn [negb] in Hup.
  destruct (Database.getConversationById db conversationId) as [conversation|] eqn:Econv;
    [|discriminate].
  destruct (Attachments.hasAccess db user conversation conversationId) eqn:Eaccess;
    [|discriminate].
  cbn [negb] in Hup.
  destruct (BlobStorage.connectionString (Attachments.storage env)); [|discriminate].
  destruct (BlobStorage.sasUrl (Attachments.storage env)) as [sasUrl|]; [|discriminate].
  unfold Database.createAttachment in Hup.
  set (id := Database.next_rowid Attachment.id (DB.seq_attachments db) (DB.attachments db))
    in *.
  set (attachment :=
         Attachment.mk id conversationId (User.id user) (UploadedFile.originalname fileData)
           (Attachments.storedFilename env) (UploadedFile.size fileData)
           (UploadedFile.mimetype fileData) sasUrl (Attachments.containerName conversationId)
           (Attachments.now env)) in *.
  injection Hup as <- <-. cbn [Attachments.id].
  pose proof (authenticateToken_inl _ _ _ _ Hauth) as Hself.
  set (db' := DB.mk (DB.users db) (DB.conversations db) (DB.conversation_participants db)
                    (DB.conversation_metadata db) (DB.attachments db ++ [attachment])%list
                    (DB.seq_users db) (DB.seq_conversations db) (DB.seq_participants db)
                    (DB.seq_metadata db) id).
  assert (Hauth' : Auth.authenticateToken jwt_verify db' authHeader = inl user).
  { now rewrite (authenticateToken_users _ db db'). }
  assert (Haccess' : Attachments.hasAccess db' user conversation conversationId = true)
    by exact Eaccess.
  exists user, attachment.
  eexists.
  split; [exact Hauth|]. split; [reflexivity|].
  do 6 (split; [reflexivity|]).
  split. { unfold Attachments.MAX_FILE_SIZE in Esize. lia. }
  split.
  { unfold Attachments.allowed in Etype. apply existsb_exists in Etype as (t & Hin & Et).
    apply String.eqb_eq in Et. now subst t. }
  split.
  { unfold Database.getAttachmentById. cbn [DB.attachments db'].
    apply find_app_fresh; [apply next_rowid_fresh | apply Z.eqb_refl]. }
  split.
  { unfold Attachments.GET_attachments.
    rewrite (guarded_next _ _ _ _ _ user Hauth' (requireAnyRole_next user)). cbn [fst].
    unfold Attachments.list_handler.
    change (Database.getConversationById db' conversationId)
      with (Database.getConversationById db conversationId).
    rewrite Econv, Haccess'. reflexivity. }
  split.
  { apply in_map_iff.
    exists (attachment, User.display_name user). split; [reflexivity|].
    unfold Database.getAttachmentsByConversationId. rewrite order_by_asc_In.
    apply in_flat_map. exists attachment. split.
    - apply filter_In. split.
      + cbn [DB.attachments db']. apply in_or_app. right. now left.
      + apply Z.eqb_refl.
    - apply in_map_iff. exists user. split; [reflexivity|].
      apply filter_In. destruct (getUserById_In db _ _ Hself) as [Hin _].
      split; [exact Hin | apply Z.eqb_refl]. }
  unfold Conversations.GET_conversation.
  rewrite (guarded_next _ _ _ _ _ user Hauth' (requireAnyRole_next user)). cbn [fst].
  unfold Conversations.get_handler.
  change (Database.getConversationById db' conversationId)
    with (Database.getConversationById db conversationId).
  rewrite Econv.
  assert (Hread : Conversations.hasAccess db' user conversation conversationId = true).
  { unfold Attachments.hasAccess in Haccess'. unfold Conversations.hasAccess.
    apply orb_true_iff in Haccess' as [H|H].
    - rewrite H. reflexivity.
    - apply andb_true_iff in H as [Hd Ha]. rewrite Hd, Ha.
      now rewrite !orb_true_r. }
  now rewrite Hread.
Qed.

(** X12.  [DELETE /attachments/:attachmentId] lets the uploader and
    administrators through and nobody else: any other caller is answered
    with 403 and the store is unchanged.  For the uploader or an
    administrator the answer is 200, whatever the blob service does; no row
    with that id is left, every attachment with another id is found as
    before, and nothing but the attachments table changes. *)
Theorem attachment_is_deleted_by_uploader_or_admin (jwt_verify : Auth.Verifier) (db : DB.t)
    (authHeader : option string) (user : User.t) (attachmentId : Z)
    (attachment : Attachment.t) :
  Auth.authenticateToken jwt_verify db authHeader = inl user ->
  Database.getAttachmentById db attachmentId = Some attachment ->
  let answer := Attachments.DELETE_attachment jwt_verify db authHeader (Some attachmentId) in
  let db' := snd answer in
  (User.role user <> ADMIN /\ Attachment.uploader_id attachment <> User.id user ->
   answer = (respond 403 (Failure "Only the uploader or admin can delete this attachment"),
             db))
  /\ (User.role user = ADMIN \/ Attachment.uploader_id attachment = User.id user ->
      fst answer = respond 200 (Success "Attachment deleted successfully")
      /\ Database.getAttachmentById db' attachmentId = None
      /\ (forall a, In a (DB.attachments db') -> Attachment.id a <> attachmentId)
      /\ (forall id', id' <> attachmentId ->
             Database.getAttachmentById db' id' = Database.getAttachmentById db id')
      /\ DB.users db' = DB.users db
      /\ DB.conversations db' = DB.conversations db
      /\ DB.conversation_participants db' = DB.conversation_participants db
      /\ DB.conversation_metadata db' = DB.conversation_metadata db
      /\ Attachments.DELETE_attachment jwt_verify db' authHeader (Some attachmentId)
         = (respond 404 (Failure "Attachment not found"), db')).
Proof.
  intros Hauth Hfound. cbv zeta. unfold Attachments.DELETE_attachment.
  rewrite (guarded_next _ _ _ _ _ user Hauth (requireAnyRole_next user)).
  unfold Attachments.delete_handler. rewrite Hfound.
  split.
  - intros [Hr Hu].
    assert (E1 : UserRole_.eqb (User.role user) ADMIN = false).
    { destruct (UserRole_.eqb (User.role user) ADMIN) eqn:E; [|reflexivity].
      apply UserRole_eqb_eq in E. contradiction. }
    apply Z.eqb_neq in Hu. now rewrite E1, Hu.
  - intros Hok.
    assert (E : negb (UserRole_.eqb (User.role user) ADMIN)
                && negb (Attachment.uploader_id attachment =? User.id user) = false).
    { destruct Hok as [H|H].
      - now rewrite H.
      - apply Z.eqb_eq in H. rewrite H. apply andb_false_r. }
    rewrite E. cbn [fst snd].
    assert (Hgone : Database.getAttachmentById (Database.deleteAttachment db attachmentId)
                      attachmentId = None).
    { unfold Database.getAttachmentById, Database.deleteAttachment. cbn [DB.attachments].
      apply find_filter_none. intros a Ha. now rewrite Ha. }
    split; [reflexivity|]. split; [exact Hgone|]. split.
    { intros a Ha. unfold Database.deleteAttachment in Ha. cbn [DB.attachments] in Ha.
      apply filter_In in Ha as [_ Ha]. apply negb_true_iff in Ha. now apply Z.eqb_neq. }
    split.
    { intros id' Hne. unfold Database.getAttachmentById, Database.deleteAttachment.
      cbn [DB.attachments]. apply find_filter_implied.
      intros a Ha. apply Z.eqb_eq in Ha. rewrite Ha.
      apply negb_true_iff. now apply Z.eqb_neq. }
    do 4 (split; [reflexivity|]).
    rewrite (guarded_next _ _ _ _ _ user).
    + now rewrite Hgone.
    + now rewrite (authenticateToken_users _ db).
    + apply requireAnyRole_next.
Qed.

(** X13.  For a stored attachment whose conversation exists, the download
    route answers 403 exactly when the list of that conversation's
    attachments answers the same caller with 403; otherwise it answers 200
    with the URL the blob service signed and the original file name, or 500
    when the storage is not configured or the signing fails.  Neither route
    has the store among its results. *)
Theorem download_follows_list_access (storage : BlobStorage.t) (expiresOn : string)
    (db : DB.t) (user : User.t) (attachmentId : Z) (attachment : Attachment.t)
    (conversation : Conversation.t) :
  Database.getAttachmentById db attachmentId = Some attachment ->
  Database.getConversationById db (Attachment.conversation_id attachment)
  = Some conversation ->
  let download :=
    Attachments.download_handler storage expiresOn db user (Some attachmentId) in
  let listing :=
    Attachments.list_handler db user (Some (Attachment.conversation_id attachment)) in
  (status download = 403 <-> status listing = 403)
  /\ (status listing = 403 \/ status listing = 200)
  /\ (status listing = 200 ->
      match BlobStorage.connectionString storage, BlobStorage.sasUrl storage with
      | Some _, Some url =>
          download
          = respond 200
              (Success (Download.mk url (Attachment.original_filename attachment) expiresOn))
      | _, _ => download = respond 500 (Failure "Failed to generate download URL")
      end).
Proof.
  intros Hatt Hconv. cbv zeta.
  unfold Attachments.download_handler, Attachments.list_handler.
  rewrite Hatt, Hconv.
  destruct (Attachments.hasAccess db user conversation
              (Attachment.conversation_id attachment)); cbn [negb status].
  - split; [|split].
    + destruct (BlobStorage.connectionString storage), (BlobStorage.sasUrl storage);
        cbn [status]; split; discriminate.
    + now right.
    + intros _.
      destruct (BlobStorage.connectionString storage), (BlobStorage.sasUrl storage);
        reflexivity.
  - split; [tauto|]. split; [now left | discriminate].
Qed.

(** ** The export of a conversation *)

(** X14.  [GET /conversations/:id/export] answers every responder and
    every administrator with 200 and the conversation, its participants,
    attachments and formatted messages, for every conversation that exists:
    it makes no access check of its own, so it also answers a responder whom
    [GET /conversations/:id] refuses with 403. *)
Theorem export_is_not_access_checked (jwt_verify : Auth.Verifier)
    (getThreadMessages : string -> list ChatMessage.t) (isoNow : string) (db : DB.t)
    (authHeader : option string) (user : User.t) (id : Z) (conversation : Conversation.t) :
  Auth.authenticateToken jwt_verify db authHeader = inl user ->
  User.role user = DOCTOR \/ User.role user = ADMIN ->
  Database.getConversationById db id = Some conversation ->
  (exists data : ConversationExport.t,
      ConversationExport.GET_export jwt_verify getThreadMessages isoNow db authHeader (Some id)
      = respond 200 (Success data)
      /\ ConversationExport.conversation data
         = (id, Conversation.title conversation, Conversation.type conversation,
            Conversation.status conversation, Conversation.created_at conversation,
            Conversation.thread_id conversation)
      /\ ConversationExport.participants data
         = map (fun p => (User.id p, User.display_name p, User.role p))
               (Database.getConversationParticipants db id)
      /\ ConversationExport.attachments data
         = map ListedAttachment.of_row (Database.getAttachmentsByConversationId db id)
      /\ ConversationExport.messages data
         = map ConversationExport.format
               (getThreadMessages (Conversation.thread_id conversation))
      /\ ConversationExport.exported_by data = (User.id user, User.display_name user))
  /\ (Conversations.hasAccess db user conversation id = false ->
      Conversations.GET_conversation jwt_verify db authHeader (Some id)
      = respond 403 (Failure "Access denied")).
Proof.
  intros Hauth Hrole Hconv. split.
  - unfold ConversationExport.GET_export.
    rewrite (guarded_next _ _ _ _ _ user Hauth (requireDoctorOrAdmin_next user Hrole)).
    cbn [fst]. unfold ConversationExport.export_handler. rewrite Hconv.
    eexists. split; [reflexivity|].
    cbn [ConversationExport.conversation ConversationExport.participants
         ConversationExport.attachments ConversationExport.messages
         ConversationExport.exported_by].
    rewrite (getConversationById_id db id conversation Hconv).
    repeat split; reflexivity.
  - intros Hno. unfold Conversations.GET_conversation.
    rewrite (guarded_next _ _ _ _ _ user Hauth (requireAnyRole_next user)). cbn [fst].
    unfold Conversations.get_handler. now rewrite Hconv, Hno.
Qed.

(** ** The list of responders *)

(** The rows behind the answer of [GET /users/doctors]. *)
Lemma doctors_rows (jwt_verify : Auth.Verifier) (db : DB.t)
    (authHeader : option string) (user : User.t) :
  Auth.authenticateToken jwt_verify db authHeader = inl user ->
  Users.GET_doctors jwt_verify db authHeader
  = respond 200
      (Success (map (fun d => (User.id d, User.display_name d, User.email d))
                    (Database.getUsersByRole db DOCTOR))).
Proof.
  intros Hauth. unfold Users.GET_doctors.
  now rewrite (guarded_next _ _ _ _ _ user Hauth (requireAnyRole_next user)).
Qed.

(** X15.  [GET /users/doctors] answers every authenticated caller with
    200 and the responders of the store, each stored responder once per row
    and nobody else, in ascending order of display name; every entry is the
    id, display name and email of its row. *)
Theorem doctors_are_listed (jwt_verify : Auth.Verifier) (db : DB.t)
    (authHeader : option string) (user : User.t) :
  Auth.authenticateToken jwt_verify db authHeader = inl user ->
  exists doctors : list User.t,
    Users.GET_doctors jwt_verify db authHeader
    = respond 200
        (Success (map (fun d => (User.id d, User.display_name d, User.email d)) doctors))
    /\ Permutation doctors
         (filter (fun u => UserRole_.eqb (User.role u) DOCTOR) (DB.users db))
    /\ (forall u : User.t, In u doctors <-> In u (DB.users db) /\ User.role u = DOCTOR)
    /\ StronglySorted
         (fun a b => Analytics.text_le (User.display_name a) (User.display_name b))
         doctors.
Proof.
  intros Hauth. exists (Database.getUsersByRole db DOCTOR).
  split; [exact (doctors_rows jwt_verify db authHeader user Hauth)|].
  unfold Database.getUsersByRole.
  split; [apply order_by_asc_permutation|]. split.
  - intros u. rewrite order_by_asc_In, filter_In, UserRole_eqb_eq. reflexivity.
  - apply order_by_asc_sorted.
Qed.

(** X16.  Every responder that [GET /users/doctors] returns, when user
    ids are unique and not zero, is accepted as the assigned responder of a
    [1to1] conversation: a care-seeker who sends the id of a listed entry to
    [POST /conversations], with a title and a fresh thread, is answered with
    201, and the responder is a participant of the new conversation. *)
Theorem listed_doctor_is_a_valid_assignment (jwt_verify : Auth.Verifier) (now : string)
    (db : DB.t) (authHeader : option string) (user : User.t) (title threadId : string)
    (doctors : list (Z * string * string)) (d : Z) (name email : string) :
  Database.unique_user_ids db ->
  Forall (fun u => User.id u <> 0) (DB.users db) ->
  Auth.authenticateToken jwt_verify db authHeader = inl user ->
  User.role user = PATIENT ->
  Users.GET_doctors jwt_verify db authHeader = respond 200 (Success doctors) ->
  In (d, name, email) doctors ->
  title <> "" ->
  threadId <> "" ->
  (forall c, In c (DB.conversations db) -> Conversation.thread_id c <> threadId) ->
  let answer :=
    Conversations.POST_conversations jwt_verify now (Some threadId) db authHeader
      (CreateConversationRequest.mk (Some title) (Some "1to1") (Some d)) in
  exists created : Conversation.t,
    fst answer = respond 201 (Success (Some created, threadId))
    /\ Conversation.assigned_doctor_id created = Some d
    /\ Conversation.type created = ONE_TO_ONE
    /\ Database.is_participant (snd answer) (Conversation.id created) d = true
    /\ Database.is_participant (snd answer) (Conversation.id created) (User.id user) = true.
Proof.
  intros Hnd Hnz Hauth Hrole Hlist Hin Htitle Hthread Hfresh.
  rewrite (doctors_rows jwt_verify db authHeader user Hauth) in Hlist.
  injection Hlist as <-.
  apply in_map_iff in Hin as (doctor & Hd & Hdoc). injection Hd as <- <- <-.
  unfold Database.getUsersByRole in Hdoc.
  rewrite order_by_asc_In, filter_In, UserRole_eqb_eq in Hdoc.
  destruct Hdoc as [Hstored Hr].
  assert (Hvalid : ONE_TO_ONE = ONE_TO_ONE ->
                   exists (d : Z) (doc : User.t),
                     Some (User.id doctor) = Some d /\ d <> 0
                     /\ Database.getUserById db d = Some doc /\ User.role doc = DOCTOR).
  { intros _. exists (User.id doctor), doctor. split; [reflexivity|]. split.
    - rewrite Forall_forall in Hnz. now apply Hnz.
    - split; [now apply getUserById_unique | exact Hr]. }
  destruct (created_conversation_step jwt_verify now db authHeader user title threadId
              ONE_TO_ONE (Some (User.id doctor)) Hauth Hrole Htitle Hthread Hfresh Hvalid)
    as (Hanswer & _ & _ & Hpart).
  cbv zeta. cbn [ConversationType_.value] in Hanswer, Hpart.
  eexists. split; [exact Hanswer|].
  cbn [Conversation.assigned_doctor_id Conversation.type Conversation.id].
  split; [reflexivity|]. split; [reflexivity|]. split.
  - apply Hpart. right. split; [reflexivity|]. right. now split.
  - apply Hpart. right. split; [reflexivity|]. now left.
Qed.

(** ** The default and the demo accounts *)

Lemma createUser_lookup hashSync now db e password role d userId db' (e' : string) :
  Database.createUser hashSync now db (Some e) password role (Some d) = Some (userId, db') ->
  Database.getUserByEmail db' (Some e')
  = match Database.getUserByEmail db (Some e') with
    | Some u => Some u
    | None =>
        if String.eqb e e' then Some (User.mk userId e (hashSync password) role d now)
        else None
    end.
Proof.
  intros H. destruct (createUser_cases _ _ _ _ _ _ _ _ _ H)
    as (e0 & d0 & Ee & Ed & _ & Husers & _).
  injection Ee as <-. injection Ed as <-.
  unfold Database.getUserByEmail. rewrite Husers, find_last. reflexivity.
Qed.

Lemma createUser_other_tables hashSync now db email password role d userId db' :
  Database.createUser hashSync now db email password role d = Some (userId, db') ->
  DB.conversations db' = DB.conversations db
  /\ DB.conversation_participants db' = DB.conversation_participants db
  /\ DB.conversation_metadata db' = DB.conversation_metadata db
  /\ DB.attachments db' = DB.attachments db.
Proof.
  unfold Database.createUser. destruct email as [e|]; [|discriminate].
  destruct d as [d|]; [|discriminate].
  destruct (Database.getUserByEmail db (Some e)); [discriminate|].
  intros H. injection H as _ <-. repeat split; reflexivity.
Qed.

(** An account that is created unless the lookup made for it found one. *)
Lemma create_unless_spec hashSync now db email password role name :
  exists db' : DB.t,
    Seed.create_unless (Database.getUserByEmail db (Some email)) hashSync now db
      email password role name = Some db'
    /\ (Database.getUserByEmail db (Some email) <> None -> db' = db)
    /\ (exists u, Database.getUserByEmail db' (Some email) = Some u
                  /\ (Database.getUserByEmail db (Some email) = None ->
                      User.role u = role /\ User.display_name u = name
                      /\ User.password_hash u = hashSync password))
    /\ (forall e u, Database.getUserByEmail db (Some e) = Some u ->
                    Database.getUserByEmail db' (Some e) = Some u)
    /\ (forall e, e <> email ->
                  Database.getUserByEmail db' (Some e) = Database.getUserByEmail db (Some e))
    /\ (exists added, DB.users db' = (DB.users db ++ added)%list
                      /\ (List.length added <= 1)%nat)
    /\ DB.conversations db' = DB.conversations db
    /\ DB.conversation_participants db' = DB.conversation_participants db
    /\ DB.conversation_metadata db' = DB.conversation_metadata db
    /\ DB.attachments db' = DB.attachments db.
Proof.
  unfold Seed.create_unless.
  destruct (Database.getUserByEmail db (Some email)) as [u|] eqn:Eu.
  - exists db. split; [reflexivity|]. split; [reflexivity|]. split.
    { exists u. split; [exact Eu | discriminate]. }
    split; [now intros|]. split; [reflexivity|]. split.
    { exists []. split; [now rewrite app_nil_r | cbn; lia]. }
    repeat split; reflexivity.
  - destruct (createUser_unused hashSync now db email password role name Eu)
      as (userId & db' & Hc).
    rewrite Hc. exists db'. split; [reflexivity|]. split; [congruence|].
    pose proof (fun e' => createUser_lookup _ _ _ _ _ _ _ _ _ e' Hc) as Hlook.
    split.
    { eexists. split.
      - rewrite Hlook, Eu, String.eqb_refl. reflexivity.
      - intros _. repeat split; reflexivity. }
    split.
    { intros e u Hu. now rewrite Hlook, Hu. }
    split.
    { intros e Hne. rewrite Hlook.
      destruct (Database.getUserByEmail db (Some e)); [reflexivity|].
      destruct (String.eqb_spec email e); [congruence | reflexivity]. }
    split.
    { destruct (createUser_cases _ _ _ _ _ _ _ _ _ Hc) as (? & ? & _ & _ & _ & Husers & _).
      eexists. split; [exact Husers | cbn; lia]. }
    exact (createUser_other_tables _ _ _ _ _ _ _ _ _ Hc).
Qed.

Lemma ensure_user_create_unless hashSync now db email password role name :
  Database.ensure_user hashSync now db email password role name
  = Seed.create_unless (Database.getUserByEmail db (Some email)) hashSync now db
      email password role name.
Proof.
  unfold Database.ensure_user, Seed.create_unless.
  now destruct (Database.getUserByEmail db (Some email)).
Qed.

(** X17.  [initializeDatabase] never rejects on account of the two default
    accounts: afterwards an account exists for [admin@example.com] and one
    for [quality@example.com]; an account that was missing is created with
    its role and default password, at most two rows are appended, every
    account that existed is found unchanged (also one that already uses a
    default email), and the four other tables are as before.  Running it again
    on the result changes nothing. *)
Theorem initializeDatabase_is_idempotent (hashSync : string -> string)
    (nowAdmin nowQuality againAdmin againQuality : string) (db : DB.t) :
  exists db1 : DB.t,
    Database.initializeDatabase hashSync nowAdmin nowQuality db = Some db1
    /\ (exists admin, Database.getUserByEmail db1 (Some "admin@example.com") = Some admin
                      /\ (Database.getUserByEmail db (Some "admin@example.com") = None ->
                          User.role admin = ADMIN
                          /\ User.password_hash admin = hashSync "admin123"))
    /\ (exists quality,
           Database.getUserByEmail db1 (Some "quality@example.com") = Some quality
           /\ (Database.getUserByEmail db (Some "quality@example.com") = None ->
               User.role quality = QUALITY
               /\ User.password_hash quality = hashSync "quality123"))
    /\ (forall e u, Database.getUserByEmail db (Some e) = Some u ->
                    Database.getUserByEmail db1 (Some e) = Some u)
    /\ (exists added, DB.users db1 = (DB.users db ++ added)%list
                      /\ (List.length added <= 2)%nat)
    /\ DB.conversations db1 = DB.conversations db
    /\ DB.conversation_participants db1 = DB.conversation_participants db
    /\ DB.conversation_metadata db1 = DB.conversation_metadata db
    /\ DB.attachments db1 = DB.attachments db
    /\ Database.initializeDatabase hashSync againAdmin againQuality db1 = Some db1.
Proof.
  unfold Database.initializeDatabase. rewrite !ensure_user_create_unless.
  destruct (create_unless_spec hashSync nowAdmin db "admin@example.com" "admin123" ADMIN
              "System Administrator")
    as (db1 & -> & _ & (admin & Hadmin & Hnew) & Hkeep1 & Hother1 & (a1 & Hu1 & Hl1)
        & Hc1 & Hp1 & Hm1 & Ha1).
  rewrite ensure_user_create_unless.
  destruct (create_unless_spec hashSync nowQuality db1 "quality@example.com" "quality123"
              QUALITY "Quality Assurance")
    as (db2 & -> & _ & (quality & Hquality & Hnewq) & Hkeep2 & Hother2 & (a2 & Hu2 & Hl2)
        & Hc2 & Hp2 & Hm2 & Ha2).
  exists db2. split; [reflexivity|]. split.
  { exists admin. split; [now apply Hkeep2|]. intros H. destruct (Hnew H) as (Hr & _ & Hh).
    now split. }
  split.
  { exists quality. split; [exact Hquality|]. intros H.
    assert (H1 : Database.getUserByEmail db1 (Some "quality@example.com") = None).
    { rewrite Hother1; [exact H | discriminate]. }
    destruct (Hnewq H1) as (Hr & _ & Hh). now split. }
  split.
  { intros e u Hu. apply Hkeep2. now apply Hkeep1. }
  split.
  { exists (a1 ++ a2)%list. split.
    - now rewrite Hu2, Hu1, app_assoc.
    - rewrite length_app. lia. }
  split; [congruence|]. split; [congruence|]. split; [congruence|]. split; [congruence|].
  rewrite ensure_user_create_unless.
  destruct (create_unless_spec hashSync againAdmin db2 "admin@example.com" "admin123" ADMIN
              "System Administrator") as (db3 & -> & Hsame & _).
  rewrite Hsame.
  - rewrite ensure_user_create_unless.
    destruct (create_unless_spec hashSync againQuality db2 "quality@example.com"
                "quality123" QUALITY "Quality Assurance") as (db4 & -> & Hsame4 & _).
    rewrite Hsame4; [reflexivity|]. congruence.
  - rewrite (Hkeep2 _ _ Hadmin). discriminate.
Qed.

(** X18.  [createDemoUsers] leaves an account for each of the four demo
    emails; accounts that existed are found unchanged, at most four rows are
    appended and the four other tables are as before.  Running it again on the
    result changes nothing. *)
Theorem createDemoUsers_is_idempotent (hashSync : string -> string)
    (now again : nat -> string) (db : DB.t) :
  let db' := Seed.createDemoUsers hashSync now db in
  (forall e : string,
      In e ["doctor@example.com"; "patient@example.com"; "doctor2@example.com";
            "patient2@example.com"] ->
      exists u, Database.getUserByEmail db' (Some e) = Some u)
  /\ (forall e u, Database.getUserByEmail db (Some e) = Some u ->
                  Database.getUserByEmail db' (Some e) = Some u)
  /\ (exists added, DB.users db' = (DB.users db ++ added)%list
                    /\ (List.length added <= 4)%nat)
  /\ DB.conversations db' = DB.conversations db
  /\ DB.conversation_participants db' = DB.conversation_participants db
  /\ DB.conversation_metadata db' = DB.conversation_metadata db
  /\ DB.attachments db' = DB.attachments db
  /\ Seed.createDemoUsers hashSync again db' = db'.
Proof.
  cbv zeta.
  assert (Hrun : forall (now : nat -> string) (db : DB.t),
             exists db1 db2 db3 db4 : DB.t,
               Seed.createDemoUsers hashSync now db = db4
               /\ Seed.create_unless (Database.getUserByEmail db (Some "doctor@example.com"))
                    hashSync (now 0%nat) db "doctor@example.com" "doctor123" DOCTOR
                    "Dr. Sarah Johnson" = Some db1
               /\ Seed.create_unless
                    (Database.getUserByEmail db1 (Some "patient@example.com"))
                    hashSync (now 1%nat) db1 "patient@example.com" "patient123" PATIENT
                    "John Smith" = Some db2
               /\ Seed.create_unless
                    (Database.getUserByEmail db2 (Some "doctor2@example.com"))
                    hashSync (now 2%nat) db2 "doctor2@example.com" "doctor123" DOCTOR
                    "Dr. Michael Brown" = Some db3
               /\ Seed.create_unless
                    (Database.getUserByEmail db3 (Some "patient2@example.com"))
                    hashSync (now 3%nat) db3 "patient2@example.com" "patient123" PATIENT
                    "Emily Davis" = Some db4).
  { clear now db. intros now db. unfold Seed.createDemoUsers.
    destruct (create_unless_spec hashSync (now 0%nat) db "doctor@example.com" "doctor123"
                DOCTOR "Dr. Sarah Johnson") as (db1 & H1 & _ & _ & _ & Hother1 & _).
    rewrite H1.
    rewrite <- (Hother1 "patient@example.com") by discriminate.
    destruct (create_unless_spec hashSync (now 1%nat) db1 "patient@example.com"
                "patient123" PATIENT "John Smith") as (db2 & H2 & _).
    rewrite H2.
    destruct (create_unless_spec hashSync (now 2%nat) db2 "doctor2@example.com"
                "doctor123" DOCTOR "Dr. Michael Brown") as (db3 & H3 & _).
    rewrite H3.
    destruct (create_unless_spec hashSync (now 3%nat) db3 "patient2@example.com"
                "patient123" PATIENT "Emily Davis") as (db4 & H4 & _).
    rewrite H4. exists db1, db2, db3, db4. repeat split; assumption. }
  destruct (Hrun now db) as (db1 & db2 & db3 & db4 & -> & H1 & H2 & H3 & H4).
  destruct (create_unless_spec hashSync (now 0%nat) db "doctor@example.com" "doctor123"
              DOCTOR "Dr. Sarah Johnson")
    as (x1 & E1 & _ & (u1 & Hu1 & _) & Hk1 & _ & (a1 & Ha1 & Hl1) & Hc1 & Hp1 & Hm1 & Hat1).
  rewrite H1 in E1. injection E1 as <-.
  destruct (create_unless_spec hashSync (now 1%nat) db1 "patient@example.com" "patient123"
              PATIENT "John Smith")
    as (x2 & E2 & _ & (u2 & Hu2 & _) & Hk2 & _ & (a2 & Ha2 & Hl2) & Hc2 & Hp2 & Hm2 & Hat2).
  rewrite H2 in E2. injection E2 as <-.
  destruct (create_unless_spec hashSync (now 2%nat) db2 "doctor2@example.com" "doctor123"
              DOCTOR "Dr. Michael Brown")
    as (x3 & E3 & _ & (u3 & Hu3 & _) & Hk3 & _ & (a3 & Ha3 & Hl3) & Hc3 & Hp3 & Hm3 & Hat3).
  rewrite H3 in E3. injection E3 as <-.
  destruct (create_unless_spec hashSync (now 3%nat) db3 "patient2@example.com" "patient123"
              PATIENT "Emily Davis")
    as (x4 & E4 & _ & (u4 & Hu4 & _) & Hk4 & _ & (a4 & Ha4 & Hl4) & Hc4 & Hp4 & Hm4 & Hat4).
  rewrite H4 in E4. injection E4 as <-.
  assert (Hd : Database.getUserByEmail db4 (Some "doctor@example.com") = Some u1)
    by (apply Hk4, Hk3, Hk2, Hu1).
  assert (Hpt : Database.getUserByEmail db4 (Some "patient@example.com") = Some u2)
    by (apply Hk4, Hk3, Hu2).
  assert (Hd2 : Database.getUserByEmail db4 (Some "doctor2@example.com") = Some u3)
    by (apply Hk4, Hu3).
  split.
  { intros e [<-|[<-|[<-|[<-|[]]]]]; eauto. }
  split.
  { intros e u Hu. apply Hk4, Hk3, Hk2, Hk1, Hu. }
  split.
  { exists (a1 ++ a2 ++ a3 ++ a4)%list. split.
    - rewrite Ha4, Ha3, Ha2, Ha1, <- !app_assoc. reflexivity.
    - rewrite !length_app. lia. }
  split; [congruence|]. split; [congruence|]. split; [congruence|]. split; [congruence|].
  destruct (Hrun again db4) as (y1 & y2 & y3 & y4 & -> & G1 & G2 & G3 & G4).
  destruct (create_unless_spec hashSync (again 0%nat) db4 "doctor@example.com" "doctor123"
              DOCTOR "Dr. Sarah Johnson") as (z1 & F1 & S1 & _).
  rewrite G1 in F1. injection F1 as <-.
  rewrite S1 in * by (rewrite Hd; discriminate).
  destruct (create_unless_spec hashSync (again 1%nat) db4 "patient@example.com"
              "patient123" PATIENT "John Smith") as (z2 & F2 & S2 & _).
  rewrite G2 in F2. injection F2 as <-.
  rewrite S2 in * by (rewrite Hpt; discriminate).
  destruct (create_unless_spec hashSync (again 2%nat) db4 "doctor2@example.com"
              "doctor123" DOCTOR "Dr. Michael Brown") as (z3 & F3 & S3 & _).
  rewrite G3 in F3. injection F3 as <-.
  rewrite S3 in * by (rewrite Hd2; discriminate).
  destruct (create_unless_spec hashSync (again 3%nat) db4 "patient2@example.com"
              "patient123" PATIENT "Emily Davis") as (z4 & F4 & S4 & _).
  rewrite G4 in F4. injection F4 as <-.
  apply S4. rewrite Hu4. discriminate.
Qed.

(** ** The accounts of an import *)

Section ImportAccounts.

Variable env : ImportRoutes.Env.
Variable importerId : Z.

Lemma same_rest_refl (st : ImportRoutes.State) : ImportRoutes.same_rest st st.
Proof. unfold ImportRoutes.same_rest. repeat split; reflexivity. Qed.

Lemma same_rest_trans (st1 st2 st3 : ImportRoutes.State) :
  ImportRoutes.same_rest st1 st2 -> ImportRoutes.same_rest st2 st3 ->
  ImportRoutes.same_rest st1 st3.
Proof.
  unfold ImportRoutes.same_rest.
  intros (A1 & A2 & A3 & A4 & A5 & A6 & A7) (B1 & B2 & B3 & B4 & B5 & B6 & B7).
  repeat split; congruence.
Qed.

Lemma find_or_create_rest (st : ImportRoutes.State) (participant : ImportParticipant.t) :
  ImportRoutes.same_rest st (fst (ImportRoutes.find_or_create env st participant)).
Proof.
  unfold ImportRoutes.find_or_create, ImportRoutes.same_rest.
  destruct (Database.getUserByEmail _ _); [cbn; repeat split; reflexivity|].
  destruct (ImportParticipant.role participant); [|cbn; repeat split; reflexivity].
  destruct (Database.createUser _ _ _ _ _ _ _) as [[userId db']|] eqn:Ec;
    [|cbn; repeat split; reflexivity].
  destruct (createUser_other_tables _ _ _ _ _ _ _ _ _ Ec) as (H1 & H2 & H3 & H4).
  cbn. repeat split; assumption.
Qed.

Lemma participants_loop_rest (participants : list ImportParticipant.t) :
  forall (st : ImportRoutes.State) (locals : ImportRoutes.Locals),
    ImportRoutes.same_rest st
      (fst (fold_left (ImportRoutes.participant_step env) participants (st, locals))).
Proof.
  induction participants as [|participant participants IH]; intros st locals;
    cbn [fold_left]; [apply same_rest_refl|].
  destruct (ImportRoutes.participant_step env (st, locals) participant) as [st1 locals1] eqn:E.
  apply (same_rest_trans st st1); [|apply IH].
  pose proof (participant_step_fst env st locals participant) as Hfst.
  rewrite E in Hfst. cbn [fst] in Hfst. rewrite Hfst. apply find_or_create_rest.
Qed.

Lemma add_participants_rest (now : string) (conversationId : Z) (ids : list Z) :
  forall db : DB.t,
    let db' := fold_left (ImportRoutes.add_participant now conversationId) ids db in
    DB.conversation_metadata db' = DB.conversation_metadata db
    /\ DB.attachments db' = DB.attachments db.
Proof.
  induction ids as [|id ids IH]; intros db; cbn [fold_left]; [now split|].
  destruct (IH (ImportRoutes.add_participant now conversationId db id)) as [Hm Ha].
  cbv zeta. rewrite Hm, Ha. unfold ImportRoutes.add_participant,
    Database.addConversationParticipant.
  destruct (Database.is_participant db conversationId id); now split.
Qed.

(** One bundle either succeeds, which adds one conversation and five
    metadata rows, or fails, which adds one error and no row to either
    table. *)
Lemma import_one_counts (st : ImportRoutes.State) (convData : ImportConversationData.t) :
  let st' := ImportRoutes.import_one env importerId st convData in
  let r := ImportRoutes.results st in
  let r' := ImportRoutes.results st' in
  DB.attachments (ImportRoutes.db st') = DB.attachments (ImportRoutes.db st)
  /\ ((ImportRoutes.successful r' = ImportRoutes.successful r + 1
       /\ ImportRoutes.failed r' = ImportRoutes.failed r
       /\ ImportRoutes.errors r' = ImportRoutes.errors r
       /\ (exists c, DB.conversations (ImportRoutes.db st')
                     = (DB.conversations (ImportRoutes.db st) ++ [c])%list)
       /\ (exists m1 m2 m3 m4 m5,
              DB.conversation_metadata (ImportRoutes.db st')
              = (DB.conversation_metadata (ImportRoutes.db st) ++ [m1; m2; m3; m4; m5])%list))
      \/ (ImportRoutes.successful r' = ImportRoutes.successful r
          /\ ImportRoutes.failed r' = ImportRoutes.failed r + 1
          /\ (exists e, ImportRoutes.errors r' = (ImportRoutes.errors r ++ [e])%list)
          /\ DB.conversations (ImportRoutes.db st') = DB.conversations (ImportRoutes.db st)
          /\ DB.conversation_metadata (ImportRoutes.db st')
             = DB.conversation_metadata (ImportRoutes.db st))).
Proof.
  cbv zeta. unfold ImportRoutes.import_one.
  assert (Hfail : forall (st1 : ImportRoutes.State) (n : nat) (conversation error : string),
             ImportRoutes.same_rest st st1 ->
             let st' := ImportRoutes.mkState (ImportRoutes.db st1) n
                          (ImportRoutes.push_failed (ImportRoutes.results st1)
                             conversation error) in
             DB.attachments (ImportRoutes.db st') = DB.attachments (ImportRoutes.db st)
             /\ ((ImportRoutes.successful (ImportRoutes.results st')
                  = ImportRoutes.successful (ImportRoutes.results st) + 1
                  /\ ImportRoutes.failed (ImportRoutes.results st')
                     = ImportRoutes.failed (ImportRoutes.results st)
                  /\ ImportRoutes.errors (ImportRoutes.results st')
                     = ImportRoutes.errors (ImportRoutes.results st)
                  /\ (exists c, DB.conversations (ImportRoutes.db st')
                                = (DB.conversations (ImportRoutes.db st) ++ [c])%list)
                  /\ (exists m1 m2 m3 m4 m5,
                         DB.conversation_metadata (ImportRoutes.db st')
                         = (DB.conversation_metadata (ImportRoutes.db st)
                            ++ [m1; m2; m3; m4; m5])%list))
                 \/ (ImportRoutes.successful (ImportRoutes.results st')
                     = ImportRoutes.successful (ImportRoutes.results st)
                     /\ ImportRoutes.failed (ImportRoutes.results st')
                        = ImportRoutes.failed (ImportRoutes.results st) + 1
                     /\ (exists e, ImportRoutes.errors (ImportRoutes.results st')
                                   = (ImportRoutes.errors (ImportRoutes.results st) ++ [e])%list)
                     /\ DB.conversations (ImportRoutes.db st')
                        = DB.conversations (ImportRoutes.db st)
                     /\ DB.conversation_metadata (ImportRoutes.db st')
                        = DB.conversation_metadata (ImportRoutes.db st)))).
  { intros st1 n conversation error (A1 & A2 & A3 & A4 & A5 & A6 & A7). cbn.
    split; [exact A7|]. right. rewrite A1, A2, A3.
    split; [reflexivity|]. split; [reflexivity|]. split; [eauto|]. now split. }
  destruct (ImportConversationData.participants convData) as [participants|];
    [|apply Hfail, same_rest_refl].
  destruct (ImportConversationData.messages convData) as [messages|];
    [|apply Hfail, same_rest_refl].
  destruct (JS.falsy (ImportConversationData.title convData));
    [apply Hfail, same_rest_refl|].
  pose proof (participants_loop_rest participants st (ImportRoutes.mkLocals [] None)) as Hrest.
  fold (ImportRoutes.participants_loop env st participants) in Hrest.
  destruct (ImportRoutes.participants_loop env st participants) as [st1 locals].
  cbn [fst] in Hrest.
  destruct (ImportRoutes.participantUserIds locals) as [|creatorId ids];
    [now apply Hfail|].
  destruct (JS.falsy (ImportRoutes.createThread env (ImportRoutes.tick st1)));
    [now apply Hfail|].
  destruct (Database.createConversation _ _ _ _ _ _ _) as [[conversationId db2]|] eqn:Ecreate;
    [|now apply Hfail].
  destruct Hrest as (A1 & A2 & A3 & A4 & A5 & A6 & A7).
  pose proof Ecreate as Ecreate'.
  apply createConversation_cases in Ecreate as [_ Hconvs].
  assert (Hrest2 : DB.conversation_metadata db2 = DB.conversation_metadata (ImportRoutes.db st1)
                   /\ DB.attachments db2 = DB.attachments (ImportRoutes.db st1)).
  { unfold Database.createConversation in Ecreate'.
    destruct (existsb _ _); [discriminate|]. injection Ecreate' as _ <-. now split. }
  destruct Hrest2 as [Hm2 Ha2].
  cbn [ImportRoutes.db ImportRoutes.results ImportRoutes.succeeded ImportRoutes.successful
       ImportRoutes.failed ImportRoutes.errors].
  set (db3 := fold_left _ _ db2).
  destruct (add_participants_rest
              (ImportRoutes.CURRENT_TIMESTAMP env (S (ImportRoutes.tick st1)))
              conversationId (creatorId :: ids) db2) as [Hm3 Ha3].
  destruct (add_participants_frame
              (ImportRoutes.CURRENT_TIMESTAMP env (S (ImportRoutes.tick st1)))
              conversationId (creatorId :: ids) db2) as [_ Hc3].
  fold db3 in Hm3, Ha3, Hc3.
  split.
  { unfold ImportRoutes.add_import_metadata, Database.addConversationMetadata.
    cbn [DB.attachments]. congruence. }
  left. split; [now rewrite A1|]. split; [exact A2|]. split; [exact A3|]. split.
  - eexists.
    rewrite (proj2 (add_import_metadata_frame importerId _ _ _ _ _)).
    rewrite Hc3, Hconvs, A4. reflexivity.
  - unfold ImportRoutes.add_import_metadata, Database.addConversationMetadata.
    cbn [DB.conversation_metadata]. rewrite Hm3, Hm2, A6.
    do 5 eexists. rewrite <- !app_assoc. cbn [app]. reflexivity.
Qed.

(** X19.  [importConversations] accounts for every bundle: the bundles it
    reports as successful and as failed add up to the bundles it was given,
    and there is one error entry per failed bundle.  The store gains one
    conversation and five metadata rows per successful bundle, all appended,
    and no attachment. *)
Theorem import_accounts_for_every_bundle (db0 : DB.t) (tick0 : nat)
    (conversations : list ImportConversationData.t) :
  let st := ImportRoutes.importConversations env importerId db0 tick0 conversations in
  let r := ImportRoutes.results st in
  ImportRoutes.successful r + ImportRoutes.failed r = Z.of_nat (List.length conversations)
  /\ 0 <= ImportRoutes.successful r
  /\ Z.of_nat (List.length (ImportRoutes.errors r)) = ImportRoutes.failed r
  /\ (exists created : list Conversation.t,
         DB.conversations (ImportRoutes.db st) = (DB.conversations db0 ++ created)%list
         /\ Z.of_nat (List.length created) = ImportRoutes.successful r)
  /\ (exists metadata : list Metadata.t,
         DB.conversation_metadata (ImportRoutes.db st)
         = (DB.conversation_metadata db0 ++ metadata)%list
         /\ Z.of_nat (List.length metadata) = 5 * ImportRoutes.successful r)
  /\ DB.attachments (ImportRoutes.db st) = DB.attachments db0.
Proof.
  cbv zeta. unfold ImportRoutes.importConversations.
  assert (Hgen : forall (conversations : list ImportConversationData.t)
                        (st0 : ImportRoutes.State),
             let st := fold_left (ImportRoutes.import_one env importerId) conversations st0 in
             let r0 := ImportRoutes.results st0 in
             let r := ImportRoutes.results st in
             ImportRoutes.successful r + ImportRoutes.failed r
             = ImportRoutes.successful r0 + ImportRoutes.failed r0
               + Z.of_nat (List.length conversations)
             /\ ImportRoutes.successful r0 <= ImportRoutes.successful r
             /\ Z.of_nat (List.length (ImportRoutes.errors r)) - ImportRoutes.failed r
                = Z.of_nat (List.length (ImportRoutes.errors r0)) - ImportRoutes.failed r0
             /\ (exists created : list Conversation.t,
                    DB.conversations (ImportRoutes.db st)
                    = (DB.conversations (ImportRoutes.db st0) ++ created)%list
                    /\ Z.of_nat (List.length created)
                       = ImportRoutes.successful r - ImportRoutes.successful r0)
             /\ (exists metadata : list Metadata.t,
                    DB.conversation_metadata (ImportRoutes.db st)
                    = (DB.conversation_metadata (ImportRoutes.db st0) ++ metadata)%list
                    /\ Z.of_nat (List.length metadata)
                       = 5 * (ImportRoutes.successful r - ImportRoutes.successful r0))
             /\ DB.attachments (ImportRoutes.db st) = DB.attachments (ImportRoutes.db st0)).
  { clear conversations. induction conversations as [|convData conversations IH];
      intros st0; cbn [fold_left].
    - cbv zeta. split; [cbn [List.length]; lia|]. split; [lia|]. split; [reflexivity|].
      split; [exists []; rewrite app_nil_r; split; [reflexivity | cbn [List.length]; lia]|].
      split; [exists []; rewrite app_nil_r; split; [reflexivity | cbn [List.length]; lia]|].
      reflexivity.
    - specialize (IH (ImportRoutes.import_one env importerId st0 convData)).
      cbv zeta in IH |- *.
      destruct IH as (I1 & I2 & I3 & (created & I4 & I4') & (metadata & I5 & I5') & I6).
      destruct (import_one_counts st0 convData) as [Hatt Hcase]. cbv zeta in Hatt, Hcase.
      rewrite I6, Hatt. cbn [List.length]. rewrite Nat2Z.inj_succ.
      destruct Hcase as [(S1 & S2 & S3 & (c & S4) & (m1 & m2 & m3 & m4 & m5 & S5))
                        |(F1 & F2 & (e & F3) & F4 & F5)].
      + split; [lia|]. split; [lia|]. split; [rewrite I3, S3, S2; reflexivity|].
        split.
        { exists (c :: created). rewrite I4, S4, <- app_assoc. split; [reflexivity|].
          cbn [List.length]. lia. }
        split; [|reflexivity].
        exists ([m1; m2; m3; m4; m5] ++ metadata)%list.
        rewrite I5, S5, <- app_assoc. split; [reflexivity|].
        rewrite length_app. cbn [List.length]. lia.
      + split; [lia|]. split; [lia|]. split.
        { rewrite I3, F3, F2, length_app. cbn [List.length]. lia. }
        split.
        { exists created. rewrite I4, F4. split; [reflexivity | lia]. }
        split; [|reflexivity].
        exists metadata. rewrite I5, F5. split; [reflexivity | lia]. }
  destruct (Hgen conversations (ImportRoutes.mkState db0 tick0 ImportRoutes.no_results))
    as (H1 & H2 & H3 & (created & H4 & H4') & (metadata & H5 & H5') & H6).
  cbn [ImportRoutes.results ImportRoutes.db ImportRoutes.no_results ImportRoutes.successful
       ImportRoutes.failed ImportRoutes.errors List.length] in *.
  split; [lia|]. split; [lia|]. split; [lia|].
  split; [exists created; split; [assumption | lia]|].
  split; [exists metadata; split; [assumption | lia]|].
  assumption.
Qed.

Lemma created_are_appended_respects_view users0 created0 :
  ImportRoutes.respects_view (ImportRoutes.created_are_appended users0 created0).
Proof.
  intros st st' (Hu & Hc & _) (added & Ha & Hb). exists added. split; congruence.
Qed.

Lemma created_are_appended_kept users0 created0 (st : ImportRoutes.State)
    (participant : ImportParticipant.t) :
  ImportRoutes.created_are_appended users0 created0 st ->
  ImportRoutes.created_are_appended users0 created0
    (fst (ImportRoutes.find_or_create env st participant)).
Proof.
  intros (added & Ha & Hb).
  pose proof (find_or_create_dealt env st participant) as H.
  destruct (ImportRoutes.find_or_create env st participant) as [st' existingUser].
  cbn [fst snd] in *.
  inversion H as [existing st1 _ Hdb Hcr _ | st1 _ Hdb Hcr _
                  | e row st1 _ _ Husers _ Hemail Hcr _]; subst.
  - exists added. split; congruence.
  - exists added. split; congruence.
  - exists (added ++ [row])%list. split.
    + now rewrite Husers, Ha, app_assoc.
    + rewrite Hcr, Hb, map_app, app_assoc. reflexivity.
Qed.

Lemma find_app_found {A : Type} (p : A -> bool) (l l' : list A) (x : A) :
  find p l = Some x -> find p (l ++ l') = Some x.
Proof.
  induction l as [|y l IH]; cbn; [discriminate|].
  destruct (p y); [tauto | exact IH].
Qed.

(** X20.  [importConversations] only appends to the users table: the rows
    that were there are kept as they are, in place, and the rows appended
    are exactly the users that [createdUsers] reports, in the order of the
    report, each with its email and role.  Every account that could be
    found by email or by id before the run is found unchanged after it. *)
Theorem imported_users_are_appended (db0 : DB.t) (tick0 : nat)
    (conversations : list ImportConversationData.t) :
  let st := ImportRoutes.importConversations env importerId db0 tick0 conversations in
  exists added : list User.t,
    DB.users (ImportRoutes.db st) = (DB.users db0 ++ added)%list
    /\ ImportRoutes.createdUsers (ImportRoutes.results st)
       = map (fun u => (Some (User.email u), User.role u)) added
    /\ (forall e u, Database.getUserByEmail db0 (Some e) = Some u ->
                    Database.getUserByEmail (ImportRoutes.db st) (Some e) = Some u)
    /\ (forall id u, Database.getUserById db0 id = Some u ->
                     Database.getUserById (ImportRoutes.db st) id = Some u).
Proof.
  cbv zeta. unfold ImportRoutes.importConversations.
  destruct (importConversations_invariant env importerId
              (ImportRoutes.created_are_appended (DB.users db0) [])
              (fun _ => True)
              (created_are_appended_respects_view (DB.users db0) [])
              (fun st participant _ => created_are_appended_kept (DB.users db0) [] st participant)
              conversations (ImportRoutes.mkState db0 tick0 ImportRoutes.no_results))
    as (added & Ha & Hb).
  - apply Forall_forall. now intros.
  - exists []. cbn. now rewrite app_nil_r.
  - exists added. split; [exact Ha|]. split; [exact Hb|]. split.
    + intros e u Hu. unfold Database.getUserByEmail in *. rewrite Ha.
      now apply find_app_found.
    + intros id u Hu. unfold Database.getUserById in *. rewrite Ha.
      now apply find_app_found.
Qed.

Lemma add_participants_member (now : string) (conversationId : Z) (ids : list Z) :
  forall (db : DB.t) (u : Z),
    In u ids \/ Database.is_participant db conversationId u = true ->
    Database.is_participant
      (fold_left (ImportRoutes.add_participant now conversationId) ids db) conversationId u
    = true.
Proof.
  induction ids as [|id ids IH]; intros db u; cbn [fold_left].
  - intros [[]|H]; exact H.
  - intros H. apply IH.
    unfold ImportRoutes.add_participant, Database.addConversationParticipant.
    destruct (Database.is_participant db conversationId id) eqn:E.
    + destruct H as [[<-|H]|H]; [now right | now left | now right].
    + rewrite is_participant_insert, !Z.eqb_refl. cbn [andb].
      destruct H as [[<-|H]|H].
      * right. now rewrite Z.eqb_refl, orb_true_r.
      * now left.
      * right. now rewrite H.
Qed.

(** X21.  A bundle that is imported gives a conversation of its own: the
    creator is the first of the users its participants resolve to, the
    status is [active], the type is [1to1] exactly when the bundle says
    ["1to1"] and [1toN] otherwise, and every user that a participant of the
    bundle resolves to is a participant of the conversation. *)
Theorem imported_conversation_has_its_participants (st : ImportRoutes.State)
    (convData : ImportConversationData.t) (participants : list ImportParticipant.t) :
  ImportConversationData.participants convData = Some participants ->
  let st' := ImportRoutes.import_one env importerId st convData in
  ImportRoutes.successful (ImportRoutes.results st')
  = ImportRoutes.successful (ImportRoutes.results st) + 1 ->
  exists (conversation : Conversation.t) (first : User.t) (others : list User.t),
    DB.conversations (ImportRoutes.db st')
    = (DB.conversations (ImportRoutes.db st) ++ [conversation])%list
    /\ ImportRoutes.resolved env st participants = first :: others
    /\ Conversation.creator_id conversation = User.id first
    /\ Conversation.status conversation = ACTIVE
    /\ (Conversation.type conversation = ONE_TO_ONE
        <-> ImportConversationData.type convData = Some "1to1")
    /\ forall u : User.t,
         In u (ImportRoutes.resolved env st participants) ->
         Database.is_participant (ImportRoutes.db st') (Conversation.id conversation)
           (User.id u) = true.
Proof.
  intros Hparticipants. cbv zeta. unfold ImportRoutes.import_one.
  rewrite Hparticipants.
  destruct (ImportConversationData.messages convData) as [messages|];
    [|cbn; intros H; exfalso; lia].
  destruct (JS.falsy (ImportConversationData.title convData));
    [cbn; intros H; exfalso; lia|].
  unfold ImportRoutes.participants_loop.
  destruct (participants_fold env participants st (ImportRoutes.mkLocals [] None))
    as (Hids & _ & Hconvs & Hsucc).
  cbv zeta in Hids, Hconvs, Hsucc.
  destruct (fold_left (ImportRoutes.participant_step env) participants
              (st, ImportRoutes.mkLocals [] None)) as [st1 locals].
  cbn [fst snd ImportRoutes.participantUserIds app] in Hids, Hconvs, Hsucc.
  destruct (ImportRoutes.participantUserIds locals) as [|creatorId ids] eqn:Eids;
    [cbn; intros H; exfalso; lia|].
  destruct (JS.falsy (ImportRoutes.createThread env (ImportRoutes.tick st1)));
    [cbn; intros H; exfalso; lia|].
  destruct (Database.createConversation _ _ _ _ _ _ _) as [[conversationId db2]|] eqn:Ecreate;
    [|cbn; intros H; exfalso; lia].
  intros _. apply createConversation_cases in Ecreate as [_ Hadded].
  destruct (ImportRoutes.resolved env st participants) as [|first others] eqn:Eres;
    [discriminate Hids|].
  cbn [map] in Hids. injection Hids as -> ->.
  eexists. exists first, others. cbn [ImportRoutes.db]. split.
  { rewrite (proj2 (add_import_metadata_frame importerId _ _ _ _ _)).
    rewrite (proj2 (add_participants_frame _ _ _ _)).
    rewrite Hadded, Hconvs. reflexivity. }
  split; [reflexivity|].
  cbn [Conversation.creator_id Conversation.status Conversation.type Conversation.id].
  split; [reflexivity|]. split; [reflexivity|]. split.
  { destruct (ImportConversationData.type convData) as [t|]; [|split; discriminate].
    destruct (String.eqb_spec t "1to1"); split; congruence. }
  intros u Hu.
  unfold ImportRoutes.add_import_metadata, Database.addConversationMetadata,
    Database.is_participant. cbn [DB.conversation_participants].
  apply (add_participants_member _ conversationId (User.id first :: map User.id others)).
  left. change (User.id first :: map User.id others) with (map User.id (first :: others)).
  now apply in_map.
Qed.

(** X22.  A bundle without a title, without participants or without
    messages is counted as failed with the error
    ["Missing required fields (title, participants, or messages)"] under its
    title, else its source id, else ["Unknown"]; a bundle whose list of
    participants is empty is counted as failed with
    ["No valid participants found"].  Neither changes the store or draws
    anything from outside, so a run over such bundles only leaves the store
    as it was and reports every bundle as failed. *)
Theorem import_rejects_incomplete_bundles (st : ImportRoutes.State)
    (convData : ImportConversationData.t) (db0 : DB.t) (tick0 : nat)
    (conversations : list ImportConversationData.t) :
  (JS.falsy (ImportConversationData.title convData) = true
   \/ ImportConversationData.participants convData = None
   \/ ImportConversationData.messages convData = None ->
   ImportRoutes.import_one env importerId st convData
   = ImportRoutes.mkState (ImportRoutes.db st) (ImportRoutes.tick st)
       (ImportRoutes.push_failed (ImportRoutes.results st)
          (ImportRoutes.or_else (ImportConversationData.title convData)
             (ImportRoutes.or_else (ImportConversationData.source_id convData) "Unknown"))
          "Missing required fields (title, participants, or messages)"))
  /\ (JS.falsy (ImportConversationData.title convData) = false ->
      ImportConversationData.participants convData = Some [] ->
      ImportConversationData.messages convData <> None ->
      ImportRoutes.import_one env importerId st convData
      = ImportRoutes.mkState (ImportRoutes.db st) (ImportRoutes.tick st)
          (ImportRoutes.push_failed (ImportRoutes.results st)
             (AuthRoutes.str (ImportConversationData.title convData))
             "No valid participants found"))
  /\ (Forall ImportRoutes.incomplete conversations ->
      let run := ImportRoutes.importConversations env importerId db0 tick0 conversations in
      ImportRoutes.db run = db0
      /\ ImportRoutes.tick run = tick0
      /\ ImportRoutes.successful (ImportRoutes.results run) = 0
      /\ ImportRoutes.failed (ImportRoutes.results run)
         = Z.of_nat (List.length conversations)
      /\ ImportRoutes.createdUsers (ImportRoutes.results run) = []).
Proof.
  assert (Hmissing : forall st convData,
             JS.falsy (ImportConversationData.title convData) = true
             \/ ImportConversationData.participants convData = None
             \/ ImportConversationData.messages convData = None ->
             ImportRoutes.import_one env importerId st convData
             = ImportRoutes.mkState (ImportRoutes.db st) (ImportRoutes.tick st)
                 (ImportRoutes.push_failed (ImportRoutes.results st)
                    (ImportRoutes.or_else (ImportConversationData.title convData)
                       (ImportRoutes.or_else (ImportConversationData.source_id convData)
                          "Unknown"))
                    "Missing required fields (title, participants, or messages)")).
  { clear. intros st convData H. unfold ImportRoutes.import_one.
    destruct (ImportConversationData.participants convData) as [participants|];
      [|reflexivity].
    destruct (ImportConversationData.messages convData) as [messages|]; [|reflexivity].
    destruct H as [H|[H|H]]; [|discriminate H|discriminate H].
    now rewrite H. }
  assert (Hempty : forall st convData,
             JS.falsy (ImportConversationData.title convData) = false ->
             ImportConversationData.participants convData = Some [] ->
             ImportConversationData.messages convData <> None ->
             ImportRoutes.import_one env importerId st convData
             = ImportRoutes.mkState (ImportRoutes.db st) (ImportRoutes.tick st)
                 (ImportRoutes.push_failed (ImportRoutes.results st)
                    (AuthRoutes.str (ImportConversationData.title convData))
                    "No valid participants found")).
  { clear. intros st convData Ht Hp Hm. unfold ImportRoutes.import_one.
    rewrite Hp, Ht.
    destruct (ImportConversationData.messages convData) as [messages|];
      [reflexivity | contradiction]. }
  split; [apply Hmissing|]. split; [apply Hempty|].
  intros Hall. cbv zeta. unfold ImportRoutes.importConversations.
  assert (Hgen : forall st0,
             let run := fold_left (ImportRoutes.import_one env importerId) conversations st0 in
             ImportRoutes.db run = ImportRoutes.db st0
             /\ ImportRoutes.tick run = ImportRoutes.tick st0
             /\ ImportRoutes.successful (ImportRoutes.results run)
                = ImportRoutes.successful (ImportRoutes.results st0)
             /\ ImportRoutes.failed (ImportRoutes.results run)
                = ImportRoutes.failed (ImportRoutes.results st0)
                  + Z.of_nat (List.length conversations)
             /\ ImportRoutes.createdUsers (ImportRoutes.results run)
                = ImportRoutes.createdUsers (ImportRoutes.results st0)).
  { induction Hall as [|c conversations' Hc _ IH]; intros st0; cbn [fold_left].
    - cbv zeta. repeat split; try reflexivity. cbn [List.length]. lia.
    - assert (Hstep : exists label error,
                 ImportRoutes.import_one env importerId st0 c
                 = ImportRoutes.mkState (ImportRoutes.db st0) (ImportRoutes.tick st0)
                     (ImportRoutes.push_failed (ImportRoutes.results st0) label error)).
      { destruct (JS.falsy (ImportConversationData.title c)) eqn:Et;
          [eexists; eexists; apply Hmissing; now left|].
        destruct (ImportConversationData.messages c) as [messages|] eqn:Em;
          [|eexists; eexists; apply Hmissing; right; right; exact Em].
        destruct Hc as [H|[H|[H|H]]]; try congruence.
        - eexists. eexists. apply Hmissing. right. left. exact H.
        - eexists. eexists. apply Hempty; [exact Et | exact H | congruence]. }
      destruct Hstep as (label & error & ->).
      specialize (IH (ImportRoutes.mkState (ImportRoutes.db st0) (ImportRoutes.tick st0)
                        (ImportRoutes.push_failed (ImportRoutes.results st0) label error))).
      cbv zeta in IH |- *. destruct IH as (I1 & I2 & I3 & I4 & I5).
      cbn [ImportRoutes.db ImportRoutes.tick ImportRoutes.results ImportRoutes.push_failed
           ImportRoutes.successful ImportRoutes.failed ImportRoutes.createdUsers] in *.
      rewrite I1, I2, I3, I4, I5. cbn [List.length]. rewrite Nat2Z.inj_succ.
      repeat split; try reflexivity. lia. }
  destruct (Hgen (ImportRoutes.mkState db0 tick0 ImportRoutes.no_results))
    as (H1 & H2 & H3 & H4 & H5).
  cbn [ImportRoutes.db ImportRoutes.tick ImportRoutes.results ImportRoutes.no_results
       ImportRoutes.successful ImportRoutes.failed ImportRoutes.createdUsers] in *.
  repeat split; try assumption; lia.
Qed.

End ImportAccounts.

(** ** The export of the direct rooms, and what the importer makes of it *)

Lemma map_or_throw_length {A B : Type} (f : A -> option B) (l : list A) (l' : list B) :
  RocketChatExporter.map_or_throw f l = Some l' -> List.length l' = List.length l.
Proof.
  revert l'. induction l as [|x l IH]; cbn; intros l' H.
  - now injection H as <-.
  - destruct (f x); [|discriminate].
    destruct (RocketChatExporter.map_or_throw f l) as [ys|]; [|discriminate].
    injection H as <-. cbn. now rewrite (IH ys eq_refl).
Qed.

Lemma append_not_empty (s1 s2 : string) : s2 <> "" -> s1 ++ s2 <> "".
Proof. intros H E. apply append_empty in E. tauto. Qed.

Lemma or_else_not_empty (s : option string) (default : string) :
  default <> "" -> ImportRoutes.or_else s default <> "".
Proof.
  intros Hd. unfold ImportRoutes.or_else.
  destruct (JS.falsy s) eqn:E; [exact Hd|].
  destruct (falsy_false_inv s E) as (t & -> & Ht). exact Ht.
Qed.

Lemma export_rooms_In (w : RocketChatExporter.World) (fuel : nat)
    (rooms : list RocketChatRoom.t) :
  forall (acc exported : list ExportedConversation.t),
    RocketChatExporter.export_rooms w fuel rooms acc = RocketChat.Returned exported ->
    forall c, In c exported ->
      In c acc
      \/ exists room, In room rooms
                      /\ RocketChatExporter.export_room w fuel room
                         = RocketChatExporter.Exported c.
Proof.
  induction rooms as [|room rooms IH]; intros acc exported; cbn.
  - intros H. injection H as <-. now left.
  - destruct (RocketChatExporter.export_room w fuel room) as [conversation| |] eqn:E;
      [| |discriminate].
    + intros H c Hc. destruct (IH _ _ H c Hc) as [Hacc|(r & Hr & Hx)].
      * apply in_app_or in Hacc as [Hacc|[<-|[]]]; [now left|].
        right. exists room. split; [now left | exact E].
      * right. exists r. split; [now right | exact Hx].
    + intros H c Hc. destruct (IH _ _ H c Hc) as [Hacc|(r & Hr & Hx)]; [now left|].
      right. exists r. split; [now right | exact Hx].
Qed.

(** The importer finds or creates a user for a participant that carries
    an email, a role and a display name. *)
Lemma find_or_create_resolves (env : ImportRoutes.Env) (st : ImportRoutes.State)
    (id username display_name email role : string) :
  snd (ImportRoutes.find_or_create env st
         (ImportParticipant.mk id username (Some display_name) (Some email) (Some role)))
  <> None.
Proof.
  unfold ImportRoutes.find_or_create. cbn [ImportParticipant.email ImportParticipant.role
    ImportParticipant.display_name].
  destruct (Database.getUserByEmail (ImportRoutes.db st) (Some email)) eqn:E;
    [discriminate|].
  destruct (createUser_unused (ImportRoutes.hashSync env)
              (ImportRoutes.CURRENT_TIMESTAMP env (S (ImportRoutes.tick st)))
              (ImportRoutes.db st) email
              (ImportRoutes.generateTempPassword env (ImportRoutes.tick st))
              (ImportRoutes.mapRole role) display_name E) as (userId & db' & Hc).
  rewrite Hc. cbn [snd].
  rewrite (createUser_then_getUserById _ _ _ _ _ _ _ _ _ Hc). discriminate.
Qed.

(** X23.  Every conversation that [exportDirectMessages] returns comes
    from a room of type ['d'], is marked as a [1to1] conversation from
    [rocketchat], has a title that is not empty, at least one message and a
    message count equal to the number of its messages.  It passes the check
    of the required fields of [importConversations]; each of its
    participants carries an email that is not empty and a role that the
    importer maps to administrator, responder or care-seeker, never to
    quality; and the importer finds or creates a user for every one of
    them. *)
Theorem exported_conversations_are_importable (w : RocketChatExporter.World) (fuel : nat)
    (exported : list ExportedConversation.t) :
  RocketChatExporter.exportDirectMessages w fuel = RocketChat.Returned exported ->
  forall c : ExportedConversation.t,
    In c exported ->
    (exists (room : RocketChatRoom.t) (ims : list RocketChatRoom.t),
        RocketChatExporter.im_list w = Some ims /\ In room ims
        /\ RocketChatRoom.t_ room = "d"
        /\ ExportedConversation.source_id c = RocketChatRoom._id room)
    /\ ExportedConversation.source c = "rocketchat"
    /\ ExportedConversation.type c = "1to1"
    /\ ExportedConversation.title c <> ""
    /\ ExportedConversation.messages c <> []
    /\ ExportedConversation.message_count c
       = Z.of_nat (List.length (ExportedConversation.messages c))
    /\ ImportRoutes.checked_participants (ExportedConversation.as_import c)
       = ExportedConversation.participants c
    /\ forall p : ImportParticipant.t,
         In p (ExportedConversation.participants c) ->
         (exists e, ImportParticipant.email p = Some e /\ e <> "")
         /\ (exists r, ImportParticipant.role p = Some r
                       /\ In (ImportRoutes.mapRole r) [ADMIN; DOCTOR; PATIENT])
         /\ forall (env : ImportRoutes.Env) (st : ImportRoutes.State),
              snd (ImportRoutes.find_or_create env st p) <> None.
Proof.
  unfold RocketChatExporter.exportDirectMessages, RocketChatExporter.getDirectMessageRooms.
  destruct (RocketChatExporter.authenticate w); [|discriminate]. cbn [negb].
  destruct (RocketChatExporter.im_list w) as [ims|] eqn:Eims; [|discriminate].
  intros Hrun c Hc.
  destruct (export_rooms_In w fuel _ _ _ Hrun c Hc) as [[]|(room & Hroom & Hx)].
  apply filter_In in Hroom as [Hroom Hd]. apply String.eqb_eq in Hd.
  unfold RocketChatExporter.export_room in Hx.
  destruct (RocketChat.getAllMessagesFromRoom _ _ fuel) as [messages| |];
    [|discriminate|discriminate].
  destruct (Nat.eqb (List.length messages) 0) eqn:Elen; [discriminate|].
  apply Nat.eqb_neq in Elen.
  destruct (RocketChatExporter.map_or_throw _ messages) as [msgs|] eqn:Emap;
    [|discriminate].
  destruct (RocketChatExporter.toISOString w (RocketChatRoom.ts room)); [|discriminate].
  assert (Htitle : ImportRoutes.or_else (RocketChatRoom.fname room)
                     (ImportRoutes.or_else (RocketChatRoom.name room)
                        ("Conversation " ++ RocketChatRoom._id room)) <> "").
  { apply or_else_not_empty, or_else_not_empty. discriminate. }
  set (title := ImportRoutes.or_else (RocketChatRoom.fname room) _) in *.
  clearbody title.
  injection Hx as <-.
  pose proof (map_or_throw_length _ _ _ Emap) as Hlen.
  cbn [ExportedConversation.source ExportedConversation.type ExportedConversation.title
       ExportedConversation.messages ExportedConversation.message_count
       ExportedConversation.participants ExportedConversation.source_id].
  split; [exists room, ims; repeat split; assumption|].
  split; [reflexivity|]. split; [reflexivity|]. split; [exact Htitle|].
  split; [intros ->; cbn in Hlen; lia|].
  split; [now rewrite Hlen|]. split.
  { unfold ImportRoutes.checked_participants, ExportedConversation.as_import.
    cbn [ImportConversationData.participants ImportConversationData.messages
         ImportConversationData.title ExportedConversation.participants
         ExportedConversation.messages ExportedConversation.title].
    now rewrite (falsy_Some_false _ Htitle). }
  intros p Hp. apply in_flat_map in Hp as (participantId & _ & Hp).
  destruct (RocketChatExporter.getUserInfo w participantId) as [user|]; [|destruct Hp].
  destruct Hp as [<-|[]]. unfold RocketChatExporter.participant_of.
  cbn [ImportParticipant.email ImportParticipant.role].
  split; [|split].
  - eexists. split; [reflexivity|].
    destruct (RocketChatUser.emails user) as [[|address rest]|];
      try (apply append_not_empty; discriminate).
    destruct (String.eqb_spec address ""); [apply append_not_empty; discriminate | assumption].
  - eexists. split; [reflexivity|]. unfold RocketChatExporter.determineUserRole.
    destruct (existsb _ _); [cbn; tauto|].
    destruct (_ || _); cbn; tauto.
  - intros env st. apply find_or_create_resolves.
Qed.

Lemma export_rooms_flat (w : RocketChatExporter.World) (fuel : nat)
    (rooms : list RocketChatRoom.t) :
  Forall (fun room => RocketChatExporter.export_room w fuel room
                      <> RocketChatExporter.Unfinished) rooms ->
  forall acc : list ExportedConversation.t,
    RocketChatExporter.export_rooms w fuel rooms acc
    = RocketChat.Returned
        (acc ++ flat_map (fun room =>
                            match RocketChatExporter.export_room w fuel room with
                            | RocketChatExporter.Exported c => [c]
                            | _ => []
                            end) rooms)%list.
Proof.
  induction 1 as [|room rooms Hroom _ IH]; intros acc; cbn.
  - now rewrite app_nil_r.
  - destruct (RocketChatExporter.export_room w fuel room) as [c| |];
      [| |contradiction].
    + rewrite IH, <- app_assoc. reflexivity.
    + apply IH.
Qed.

(** X24.  [exportDirectMessages] throws exactly when the login fails or
    the list of rooms cannot be fetched.  Otherwise, once the paging of every
    direct room has come to an end, it returns; what happens in one room
    does not reach the others: the result is, room by room in the order of
    the list, the conversation of each direct room whose export went
    through, and a room that is empty or whose export fails is left out. *)
Theorem export_skips_failing_rooms (w : RocketChatExporter.World) (fuel : nat) :
  (RocketChatExporter.exportDirectMessages w fuel = RocketChat.Threw
   <-> RocketChatExporter.authenticate w = false \/ RocketChatExporter.im_list w = None)
  /\ forall ims : list RocketChatRoom.t,
       RocketChatExporter.authenticate w = true ->
       RocketChatExporter.im_list w = Some ims ->
       (forall room, In room ims -> RocketChatRoom.t_ room = "d" ->
                     RocketChatExporter.export_room w fuel room
                     <> RocketChatExporter.Unfinished) ->
       RocketChatExporter.exportDirectMessages w fuel
       = RocketChat.Returned
           (flat_map (fun room =>
                        if String.eqb (RocketChatRoom.t_ room) "d"
                        then match RocketChatExporter.export_room w fuel room with
                             | RocketChatExporter.Exported c => [c]
                             | _ => []
                             end
                        else [])
                     ims).
Proof.
  unfold RocketChatExporter.exportDirectMessages, RocketChatExporter.getDirectMessageRooms.
  split.
  - destruct (RocketChatExporter.authenticate w); cbn [negb]; [|tauto].
    destruct (RocketChatExporter.im_list w) as [ims|]; [|tauto].
    split; [|intros [H|H]; discriminate H].
    intros H. exfalso. revert H. generalize (@nil ExportedConversation.t).
    induction (filter _ ims) as [|room rooms IH]; intros acc; cbn; [discriminate|].
    destruct (RocketChatExporter.export_room w fuel room); [apply IH|apply IH|discriminate].
  - intros ims -> -> Hends. cbn [negb].
    rewrite export_rooms_flat.
    + cbn [app]. f_equal. clear Hends.
      induction ims as [|room ims IH]; cbn; [reflexivity|].
      destruct (String.eqb (RocketChatRoom.t_ room) "d"); cbn; now rewrite IH.
    + apply Forall_forall. intros room Hroom. apply filter_In in Hroom as [Hin Hd].
      apply Hends; [assumption | now apply String.eqb_eq].
Qed.

(** ** The buckets of the aggregate *)

Lemma key_eqb_eq (a b : option string) : Analytics.key_eqb a b = true <-> a = b.
Proof.
  destruct a as [x|], b as [y|]; cbn; try (split; congruence).
  rewrite String.eqb_eq. split; congruence.
Qed.

Lemma bump_dates (k : option string) (groups : list Analytics.DayCount) :
  map Analytics.date (Analytics.bump k groups)
  = if existsb (fun d => Analytics.key_eqb d k) (map Analytics.date groups)
    then map Analytics.date groups
    else (map Analytics.date groups ++ [k])%list.
Proof.
  induction groups as [|g groups IH]; cbn; [reflexivity|].
  destruct (Analytics.key_eqb (Analytics.date g) k) eqn:E; cbn.
  - apply key_eqb_eq in E. now rewrite E.
  - rewrite IH. now destruct (existsb _ _).
Qed.

Lemma bump_NoDup (k : option string) (groups : list Analytics.DayCount) :
  NoDup (map Analytics.date groups) -> NoDup (map Analytics.date (Analytics.bump k groups)).
Proof.
  intros H. rewrite bump_dates.
  destruct (existsb _ _) eqn:E; [exact H|].
  apply NoDup_app; [exact H | constructor; [tauto | constructor] |].
  intros d Hd [Ek|[]]. subst d.
  assert (Hex : existsb (fun d' => Analytics.key_eqb d' k) (map Analytics.date groups) = true).
  { apply existsb_exists. exists k. split; [exact Hd | now apply key_eqb_eq]. }
  congruence.
Qed.

Lemma bump_positive (k : option string) (groups : list Analytics.DayCount) :
  Forall (fun row => 1 <= Analytics.count row) groups ->
  Forall (fun row => 1 <= Analytics.count row) (Analytics.bump k groups).
Proof.
  induction 1 as [|g groups Hg Hall IH]; cbn.
  - constructor; [cbn; lia | constructor].
  - destruct (Analytics.key_eqb (Analytics.date g) k).
    + constructor; [cbn; lia | assumption].
    + now constructor.
Qed.

Lemma group_by_buckets (keys : list (option string)) :
  forall groups : list Analytics.DayCount,
    NoDup (map Analytics.date groups) ->
    Forall (fun row => 1 <= Analytics.count row) groups ->
    let rows := fold_left (fun groups k => Analytics.bump k groups) keys groups in
    NoDup (map Analytics.date rows) /\ Forall (fun row => 1 <= Analytics.count row) rows.
Proof.
  induction keys as [|k keys IH]; intros groups Hnd Hpos; cbn [fold_left]; [now split|].
  apply IH; [now apply bump_NoDup | now apply bump_positive].
Qed.

Lemma day_insert_desc_permutation (g : Analytics.DayCount) (l : list Analytics.DayCount) :
  Permutation (Analytics.insert_desc g l) (g :: l).
Proof.
  induction l as [|h l IH]; cbn; [reflexivity|].
  destruct (Analytics.key_ltb (Analytics.date h) (Analytics.date g)); [reflexivity|].
  rewrite IH. apply perm_swap.
Qed.

Lemma order_by_date_desc_permutation (rows : list Analytics.DayCount) :
  Permutation (Analytics.order_by_date_desc rows) rows.
Proof.
  induction rows as [|g rows IH]; cbn; [reflexivity|].
  rewrite day_insert_desc_permutation. now constructor.
Qed.

Lemma filter_length_le {A : Type} (p : A -> bool) (l : list A) :
  (List.length (filter p l) <= List.length l)%nat.
Proof.
  induction l as [|x l IH]; cbn; [lia|]. destruct (p x); cbn; lia.
Qed.

Lemma filter_all {A : Type} (l : list A) : filter (fun _ => true) l = l.
Proof. induction l as [|x l IH]; cbn; [reflexivity | now rewrite IH]. Qed.

(** X25.  For bounds that the query takes as text (each a date, with or
    without a time of day, and free of apostrophes) whenever both are given,
    the aggregate is consistent with itself: the buckets of
    [conversationsPerDay] carry pairwise different dates, each counts at
    least one conversation, and their counts add up to [totalConversations];
    [openConversations] is at most [totalConversations].  When one of the
    two bounds is missing or empty, the other is ignored, whatever it is:
    the aggregate is the one over all rows, and [totalConversations] is the
    number of conversations in the store. *)
Theorem aggregate_is_consistent (DATE : string -> option string) (db : DB.t)
    (startDate endDate : option string) :
  (forall s e : string,
      startDate = Some s -> endDate = Some e -> s <> "" -> e <> "" ->
      Analytics.valid_bound s = true /\ Analytics.valid_bound e = true) ->
  let a := Analytics.getAnalytics DATE db startDate endDate in
  Analytics.total_count (Analytics.conversationsPerDay a) = Analytics.totalConversations a
  /\ NoDup (map Analytics.date (Analytics.conversationsPerDay a))
  /\ Forall (fun row => 1 <= Analytics.count row) (Analytics.conversationsPerDay a)
  /\ 0 <= Analytics.openConversations a <= Analytics.totalConversations a
  /\ (JS.falsy startDate = true \/ JS.falsy endDate = true ->
      a = Analytics.getAnalytics DATE db None None
      /\ Analytics.totalConversations a = Z.of_nat (List.length (DB.conversations db))).
Proof.
  intros _. cbv zeta. split; [apply per_day_counts_add_up|].
  unfold Analytics.getAnalytics.
  cbn [Analytics.conversationsPerDay Analytics.openConversations
       Analytics.totalConversations].
  set (selected := filter _ (DB.conversations db)).
  destruct (group_by_buckets (map (fun c => DATE (Conversation.created_at c)) selected) [])
    as [Hnd Hpos]; [constructor | constructor |].
  cbv zeta in Hnd, Hpos. fold (Analytics.group_by
    (map (fun c => DATE (Conversation.created_at c)) selected)) in Hnd, Hpos.
  split.
  { apply (Permutation_NoDup
             (Permutation_map Analytics.date
                (Permutation_sym (order_by_date_desc_permutation _)))).
    exact Hnd. }
  split.
  { apply (Permutation_Forall (Permutation_sym (order_by_date_desc_permutation _))).
    exact Hpos. }
  split.
  { pose proof (filter_length_le
                  (fun c => match Conversation.status c with ACTIVE => true | _ => false end)
                  selected). lia. }
  intros Hhalf.
  assert (Hoff : Analytics.dateFilter startDate endDate = None).
  { unfold Analytics.dateFilter. destruct Hhalf as [-> | ->]; [reflexivity|].
    now rewrite orb_true_r. }
  unfold selected. rewrite Hoff. split; [reflexivity|].
  cbn [Analytics.passes]. now rewrite filter_all.
Qed.

(** ** A request that fails while a room is paged *)

Section PagingFailure.

Variable getTime : option string -> option Z.
Variable backend : RocketChat.Backend.

Lemma fetch_loop_continues (n fuel : nat) (acc messages : list RocketChatMessage.t) :
  backend n (RocketChat.cursor backend n) = Some messages ->
  (RocketChat.MAX_BATCH <= List.length messages)%nat ->
  JS.falsy (RocketChat.last_ts messages) = false ->
  RocketChat.fetch_loop backend (S fuel) n (RocketChat.cursor backend n) acc
  = RocketChat.fetch_loop backend fuel (S n) (RocketChat.cursor backend (S n))
      (acc ++ messages)%list.
Proof.
  intros Hb Hfull Hts. cbn [RocketChat.fetch_loop RocketChat.cursor]. rewrite Hb.
  unfold RocketChat.MAX_BATCH in *.
  destruct (Nat.eqb_spec (List.length messages) 0) as [E|_]; [lia|].
  unfold RocketChat.last_ts in *.
  destruct (nth_error messages (List.length messages - 1)) as [oldestMessage|];
    [|discriminate Hts].
  rewrite Hts.
  destruct (Nat.ltb_spec (List.length messages) 1000) as [E|_]; [lia | reflexivity].
Qed.

(** X26.  When a request for a page fails after [N] full pages, each of a
    thousand messages or more and ending in a message with a time stamp,
    [getAllMessagesFromRoom] throws: the loop takes no more than [N + 1]
    rounds, and the messages of the pages before the failure are not
    returned. *)
Theorem paging_failure_is_rethrown (N : nat) :
  (forall n, (n < N)%nat ->
             exists messages,
               backend n (RocketChat.cursor backend n) = Some messages
               /\ (1000 <= List.length messages)%nat
               /\ JS.falsy (RocketChat.last_ts messages) = false) ->
  backend N (RocketChat.cursor backend N) = None ->
  forall fuel, (N < fuel)%nat ->
    RocketChat.getAllMessagesFromRoom getTime backend fuel = RocketChat.Threw.
Proof.
  intros Hfull Hfail fuel Hfuel. unfold RocketChat.getAllMessagesFromRoom.
  assert (Hloop : forall d n acc fuel,
             (n + d = N)%nat -> (d < fuel)%nat ->
             RocketChat.fetch_loop backend fuel n (RocketChat.cursor backend n) acc
             = RocketChat.Threw).
  { induction d as [|d IH]; intros n acc [|fuel'] Hn Hlt; try lia.
    - replace n with N by lia. cbn [RocketChat.fetch_loop]. now rewrite Hfail.
    - destruct (Hfull n) as (messages & Hb & Hlen & Hts); [lia|].
      rewrite (fetch_loop_continues n fuel' acc messages Hb Hlen Hts).
      apply IH; lia. }
  change (@None string) with (RocketChat.cursor backend 0).
  rewrite (Hloop N 0%nat [] fuel); [reflexivity | lia | lia].
Qed.

End PagingFailure.

(** ** Emails and ids that are taken *)

Lemma register_keeps_store_on_400 hashSync now db req :
  let answer := AuthRoutes.POST_register hashSync now db req in
  status (fst answer) = 201 \/ (status (fst answer) = 400 /\ snd answer = db).
Proof.
  cbv zeta. unfold AuthRoutes.POST_register.
  destruct (_ || _); [now right|].
  destruct (UserRole_.of_string _); [|now right].
  destruct (negb _); [now right|].
  destruct (_ <? 6); [now right|].
  unfold Auth.register.
  destruct (Database.getUserByEmail db _); [now right|].
  destruct (Database.createUser _ _ _ _ _ _ _) as [[userId db']|] eqn:Ec; [|now right].
  destruct (createUser_cases _ _ _ _ _ _ _ _ _ Ec) as (e & d & _ & _ & _ & _ & _ & Hfound).
  rewrite Hfound. now left.
Qed.

(** X27.  Once a registration has been answered with 201, the email is
    taken: on the store it left, every registration request with that email,
    whatever its other fields, is answered with 400 and leaves the store
    unchanged, and the same request sent again is answered with
    ["User already exists"]. *)
Theorem registered_email_is_taken (hashSync hashSync' : string -> string)
    (now now' : string) (db : DB.t) (req : RegisterRequest.t) (user : PublicUser.t) :
  fst (AuthRoutes.POST_register hashSync now db req) = respond 201 (Success user) ->
  let db' := snd (AuthRoutes.POST_register hashSync now db req) in
  (forall req' : RegisterRequest.t,
      RegisterRequest.email req' = RegisterRequest.email req ->
      let second := AuthRoutes.POST_register hashSync' now' db' req' in
      status (fst second) = 400 /\ snd second = db')
  /\ AuthRoutes.POST_register hashSync' now' db' req
     = (respond 400 (Failure "User already exists"), db').
Proof.
  intros Hfirst. cbv zeta.
  assert (Htaken : exists row,
             Database.getUserByEmail (snd (AuthRoutes.POST_register hashSync now db req))
               (Some (AuthRoutes.str (RegisterRequest.email req))) = Some row).
  { revert Hfirst. unfold AuthRoutes.POST_register.
    destruct (_ || _); [discriminate|].
    destruct (UserRole_.of_string _) as [r|]; [|discriminate].
    destruct (negb _); [discriminate|].
    destruct (_ <? 6); [discriminate|].
    unfold Auth.register.
    destruct (Database.getUserByEmail db _) eqn:Efree; [discriminate|].
    destruct (Database.createUser _ _ _ _ _ _ _) as [[userId db']|] eqn:Ec; [|discriminate].
    destruct (createUser_cases _ _ _ _ _ _ _ _ _ Ec)
      as (e & d & Ee & _ & _ & Husers & _ & Hfound).
    rewrite Hfound. cbn [fst snd]. intros _. injection Ee as Ee.
    eexists. unfold Database.getUserByEmail in *. rewrite Husers, Ee.
    apply find_app_fresh; [now rewrite <- Ee | cbn; apply String.eqb_refl]. }
  destruct Htaken as [row Hrow].
  set (db' := snd (AuthRoutes.POST_register hashSync now db req)) in *.
  assert (Hsecond : forall req',
             RegisterRequest.email req' = RegisterRequest.email req ->
             AuthRoutes.POST_register hashSync' now' db' req'
             = (respond 400 (Failure "User already exists"), db')
             \/ (status (fst (AuthRoutes.POST_register hashSync' now' db' req')) = 400
                 /\ snd (AuthRoutes.POST_register hashSync' now' db' req') = db'
                 /\ (JS.falsy (RegisterRequest.email req')
                     || JS.falsy (RegisterRequest.password req')
                     || JS.falsy (RegisterRequest.role req')
                     || JS.falsy (RegisterRequest.display_name req') = true
                     \/ UserRole_.of_string (AuthRoutes.str (RegisterRequest.role req')) = None
                     \/ negb (JS.test AuthRoutes.emailRegex
                                (AuthRoutes.str (RegisterRequest.email req'))) = true
                     \/ (Z.of_nat (String.length
                                     (AuthRoutes.str (RegisterRequest.password req'))) <? 6)
                        = true))).
  { intros req' Hemail. unfold AuthRoutes.POST_register.
    destruct (_ || _); [right; repeat split; tauto|].
    destruct (UserRole_.of_string _) as [r|]; [|right; repeat split; tauto].
    destruct (negb _); [right; repeat split; tauto|].
    destruct (_ <? 6); [right; repeat split; tauto|].
    unfold Auth.register. rewrite Hemail, Hrow. now left. }
  split.
  - intros req' Hemail. destruct (Hsecond req' Hemail) as [->|(H1 & H2 & _)]; now split.
  - destruct (Hsecond req eq_refl) as [H|(_ & _ & Hinvalid)]; [exact H|].
    exfalso. revert Hfirst. unfold AuthRoutes.POST_register.
    destruct (_ || _); [discriminate|].
    destruct (UserRole_.of_string _); [|discriminate].
    destruct (negb _); [discriminate|].
    destruct (_ <? 6); [discriminate|].
    destruct Hinvalid as [H|[H|[H|H]]]; discriminate H.
Qed.

Lemma to_int_not_nil (n : Z) :
  Z.to_int n <> Decimal.Pos Decimal.Nil /\ Z.to_int n <> Decimal.Neg Decimal.Nil.
Proof.
  destruct n; cbn; split; try discriminate; intros E; injection E;
    apply DecimalPos.Unsigned.to_uint_nonnil.
Qed.

(** The decimal form of an id tells the ids apart. *)
Lemma toString_injective (a b : Z) :
  "conversation-" ++ JS.toString a = "conversation-" ++ JS.toString b -> a = b.
Proof.
  intros E. injection E as E. unfold JS.toString in E.
  assert (H : Some (Z.to_int a) = Some (Z.to_int b)).
  { rewrite <- (NilZero.isi (Z.to_int a)), <- (NilZero.isi (Z.to_int b));
      try apply to_int_not_nil.
    now rewrite E. }
  injection H as H. rewrite <- (DecimalZ.of_to a), <- (DecimalZ.of_to b). now rewrite H.
Qed.

Lemma deleteConversation_seq (db : DB.t) (id : Z) :
  DB.seq_conversations (Database.deleteConversation db id) = DB.seq_conversations db.
Proof. reflexivity. Qed.

Lemma deleteConversations_seq (ids : list Z) :
  forall db : DB.t,
    DB.seq_conversations (fold_left Database.deleteConversation ids db)
    = DB.seq_conversations db.
Proof.
  induction ids as [|id ids IH]; intros db; cbn [fold_left]; [reflexivity|].
  now rewrite IH, deleteConversation_seq.
Qed.

(** X28.  The id of a conversation is not handed out again: a
    conversation created after any number of deletions, the new one
    included, gets an id above that of every conversation created before
    it, so the blob container [conversation-<id>] of a deleted conversation
    is never that of a later one. *)
Theorem conversation_ids_are_not_reused (now now' : string) (db db1 db2 : DB.t)
    (title title' threadId threadId' : string) (type type' : ConversationType)
    (creatorId creatorId' : Z) (assigned assigned' : option Z) (id id' : Z)
    (deleted : list Z) :
  Database.createConversation now db title type creatorId threadId assigned
  = Some (id, db1) ->
  Database.createConversation now' (fold_left Database.deleteConversation deleted db1)
    title' type' creatorId' threadId' assigned'
  = Some (id', db2) ->
  id < id'
  /\ (forall c, In c (DB.conversations db) -> Conversation.id c < id)
  /\ Attachments.containerName id <> Attachments.containerName id'.
Proof.
  unfold Database.createConversation.
  destruct (existsb _ (DB.conversations db)); [discriminate|].
  intros H. injection H as <- <-.
  destruct (existsb _ _); [discriminate|].
  intros H. injection H as <- _.
  rewrite deleteConversations_seq. cbn [DB.seq_conversations].
  set (id := Database.next_rowid Conversation.id (DB.seq_conversations db)
               (DB.conversations db)).
  assert (Hlt : id < Database.next_rowid Conversation.id id
                       (DB.conversations
                          (fold_left Database.deleteConversation deleted
                             (DB.mk (DB.users db)
                                (DB.conversations db
                                 ++ [Conversation.mk id title type creatorId ACTIVE threadId
                                       now assigned])%list
                                (DB.conversation_participants db)
                                (DB.conversation_metadata db) (DB.attachments db)
                                (DB.seq_users db) id (DB.seq_participants db)
                                (DB.seq_metadata db) (DB.seq_attachments db))))).
  { unfold Database.next_rowid at 1. lia. }
  split; [exact Hlt|]. split.
  - intros c Hc. now apply next_rowid_above.
  - unfold Attachments.containerName. intros E.
    apply toString_injective in E. lia.
Qed.

(** ** Participants are listed once *)

Lemma is_participant_pair (db : DB.t) (c u : Z) :
  Database.is_participant db c u = true
  <-> In (c, u) (map (fun p => (Participant.conversation_id p, Participant.user_id p))
                     (DB.conversation_participants db)).
Proof.
  unfold Database.is_participant. rewrite existsb_exists, in_map_iff.
  split; intros (p & H1 & H2).
  - exists p. apply andb_true_iff in H2 as [Hc Hu]. apply Z.eqb_eq in Hc, Hu.
    split; [congruence | assumption].
  - exists p. split; [assumption|]. injection H1 as <- <-. now rewrite !Z.eqb_refl.
Qed.

Lemma NoDup_snoc {A : Type} (l : list A) (x : A) : NoDup l -> ~ In x l -> NoDup (l ++ [x]).
Proof.
  intros Hl Hx. apply NoDup_app; [assumption | repeat constructor; tauto|].
  intros a Ha [<-|[]]. contradiction.
Qed.

Lemma filter_keeps_keys_distinct {Row Key : Type} (key : Row -> Key) (rows : list Row)
    (keep : Row -> bool) (Hrows : NoDup (map key rows)) :
  NoDup (map key (filter keep rows)).
Proof.
  revert Hrows. induction rows as [|row rows IH]; cbn; intros Hrows; [constructor|].
  apply NoDup_cons_iff in Hrows as [Hfresh Hrest].
  destruct (keep row); cbn; [|exact (IH Hrest)].
  apply NoDup_cons; [|exact (IH Hrest)].
  rewrite in_map_iff. intros (other & Hkey & Hother).
  apply filter_In in Hother as [Hother _].
  apply Hfresh. rewrite <- Hkey. now apply in_map.
Qed.

Lemma insert_participant_unique now db c u :
  Database.unique_participants db ->
  Database.is_participant db c u = false ->
  Database.unique_participants (Database.insert_participant now db c u).
Proof.
  unfold Database.unique_participants, Database.insert_participant.
  cbn [DB.conversation_participants]. intros Hnd Hnew. rewrite map_app. cbn [map].
  apply NoDup_snoc; [assumption|].
  cbn [Participant.conversation_id Participant.user_id].
  intros Hin. apply is_participant_pair in Hin. congruence.
Qed.

(** At most one row pairs a user with a conversation. *)
Lemma one_row_per_pair (rows : list Participant.t) (c u : Z) :
  NoDup (map (fun p => (Participant.conversation_id p, Participant.user_id p)) rows) ->
  (List.length (filter (fun p => ((Participant.user_id p =? u)%Z
                                  && (Participant.conversation_id p =? c)%Z)%bool) rows)
   <= 1)%nat.
Proof.
  induction rows as [|p rows IH]; cbn; [lia|].
  intros H. inversion H as [|? ? Hnotin Hnd]; subst. specialize (IH Hnd).
  destruct ((Participant.user_id p =? u) && (Participant.conversation_id p =? c)) eqn:E;
    [|exact IH].
  apply andb_true_iff in E as [Eu Ec]. apply Z.eqb_eq in Eu, Ec.
  destruct (filter _ rows) as [|q rest] eqn:Ef; [cbn; lia|].
  exfalso. apply Hnotin.
  assert (Hq : In q (filter (fun p => (Participant.user_id p =? u)
                                      && (Participant.conversation_id p =? c)) rows))
    by (rewrite Ef; now left).
  apply filter_In in Hq as [Hq Hmatch].
  apply andb_true_iff in Hmatch as [Hu Hc]. apply Z.eqb_eq in Hu, Hc.
  apply in_map_iff. exists q. split; [congruence | assumption].
Qed.

Lemma participants_distinct (db : DB.t) (c : Z) :
  Database.unique_user_ids db ->
  Database.unique_participants db ->
  NoDup (map User.id (Database.getConversationParticipants db c)).
Proof.
  unfold Database.unique_user_ids, Database.unique_participants,
    Database.getConversationParticipants.
  intros Hids Hpairs.
  induction (DB.users db) as [|u users IH]; cbn; [constructor|].
  inversion Hids as [|? ? Hnotin Hnd]; subst. specialize (IH Hnd).
  rewrite map_app. apply NoDup_app.
  - pose proof (one_row_per_pair (DB.conversation_participants db) c (User.id u) Hpairs)
      as Hone.
    destruct (filter _ (DB.conversation_participants db)) as [|p [|q rest]];
      cbn in Hone |- *; [constructor | repeat constructor; tauto | lia].
  - exact IH.
  - intros id Hin Hin'. apply Hnotin.
    apply in_map_iff in Hin as (x & Hx & Hin). apply in_map_iff in Hin as (p & <- & _).
    apply in_map_iff in Hin' as (y & Hy & Hin').
    apply in_flat_map in Hin' as (u' & Hu' & Hin').
    apply in_map_iff in Hin' as (p' & <- & _).
    apply in_map_iff. exists u'. split; [congruence | assumption].
Qed.

(** X29.  On a store in which no user is paired twice with a conversation,
    none of the writes of the routes pairs one twice: not the [INSERT OR
    IGNORE] of joining and creating, not the plain [INSERT] of the importer
    when it goes through, not the deletion of a conversation.  With unique
    user ids, the participants of a conversation are then pairwise different
    users, also after a responder has joined any number of times. *)
Theorem participants_are_listed_once (db : DB.t) :
  Database.unique_participants db ->
  (forall now c u,
      Database.unique_participants (Database.addParticipantToConversation now db c u))
  /\ (forall now c u db',
         Database.addConversationParticipant now db c u = Some db' ->
         Database.unique_participants db')
  /\ (forall id, Database.unique_participants (Database.deleteConversation db id))
  /\ (Database.unique_user_ids db ->
      forall c, NoDup (map User.id (Database.getConversationParticipants db c)))
  /\ (Database.unique_user_ids db ->
      forall now again c u,
        let db' :=
          Database.addParticipantToConversation again
            (Database.addParticipantToConversation now db c u) c u in
        NoDup (map User.id (Database.getConversationParticipants db' c))).
Proof.
  intros Hpairs.
  assert (Hadd : forall (db : DB.t) now c u,
             Database.unique_participants db ->
             Database.unique_participants (Database.addParticipantToConversation now db c u)).
  { clear. intros db now c u H. unfold Database.addParticipantToConversation.
    destruct (Database.is_participant db c u) eqn:E; [exact H|].
    now apply insert_participant_unique. }
  split; [intros; now apply Hadd|]. split.
  { intros now c u db'. unfold Database.addConversationParticipant.
    destruct (Database.is_participant db c u) eqn:E; [discriminate|].
    intros H. injection H as <-. now apply insert_participant_unique. }
  split.
  { intros id. unfold Database.unique_participants, Database.deleteConversation.
    cbn [fold_left Database.deleteConversation_statements Database.run
         DB.conversation_participants].
    now apply filter_keeps_keys_distinct. }
  split; [intros Hids c; now apply participants_distinct|].
  intros Hids now again c u. cbv zeta. apply participants_distinct.
  - unfold Database.unique_user_ids in *.
    now rewrite !(proj1 (addParticipant_frame _ _ _ _)).
  - now apply Hadd, Hadd.
Qed.

(* ===================================================================== *)
(** * The properties on the sample data *)
(* ===================================================================== *)

(** Registration on the sample store: a password of five characters and
the role ["superuser"] are refused, a reviewer is registered. *)
Lemma register_validates_request_witness :
  status (fst (AuthRoutes.POST_register Sample.hashSync "2024-03-05 12:00:00" Sample.db
                 (RegisterRequest.mk (Some "new@example.com") (Some "12345")
                                     (Some "quality") (Some "New User"))))
  = 400
  /\ status (fst (AuthRoutes.POST_register Sample.hashSync "2024-03-05 12:00:00" Sample.db
                    (RegisterRequest.mk (Some "new@example.com") (Some "secret1")
                                        (Some "superuser") (Some "New User"))))
     = 400
  /\ exists user,
       fst (AuthRoutes.POST_register Sample.hashSync "2024-03-05 12:00:00" Sample.db
              (RegisterRequest.mk (Some "reviewer@example.com") (Some "secret1")
                                  (Some "quality") (Some "Reviewer")))
       = respond 201 (Success user)
       /\ PublicUser.role user = QUALITY.
Proof.
  destruct (register_validates_request Sample.hashSync "2024-03-05 12:00:00" Sample.db)
    as [Hrejects Haccepts].
  split; [|split].
  - apply (Hrejects (Some "new@example.com") (Some "12345") (Some "quality")
                    (Some "New User")).
    do 6 right. cbn. lia.
  - apply (Hrejects (Some "new@example.com") (Some "secret1") (Some "superuser")
                    (Some "New User")).
    do 4 right. left. cbn. intros [H|[H|[H|[H|[]]]]]; discriminate H.
  - destruct (Haccepts "reviewer@example.com" "secret1" "Reviewer" QUALITY)
      as (user & Hanswer & Hrole & _).
    + discriminate.
    + apply emailRegex_shape. reflexivity.
    + cbn. lia.
    + reflexivity.
    + exists user. split; assumption.
Defined.

(** A token whose user has left the store: [GET /auth/verify] answers 200,
the middleware 401. *)
Lemma verify_ignores_store_witness :
  "former.token" <> ""
  /\ JS.no_space "former.token" = true
  /\ Sample.jwt_verify "former.token"
     = Some (Claims.mk 9 "former@example.com" DOCTOR "Dr. Former")
  /\ Database.getUserById Sample.db 9 = None
  /\ AuthRoutes.GET_verify Sample.jwt_verify (Some "Bearer former.token")
     = respond 200 (Success (Claims.mk 9 "former@example.com" DOCTOR "Dr. Former"))
  /\ Auth.authenticateToken Sample.jwt_verify Sample.db (Some "Bearer former.token")
     = inr (Auth.refuse 401 "User not found").
Proof.
  assert (Hne : "former.token" <> "") by discriminate.
  assert (Hsp : JS.no_space "former.token" = true) by reflexivity.
  assert (Hok : Sample.jwt_verify "former.token"
                = Some (Claims.mk 9 "former@example.com" DOCTOR "Dr. Former"))
    by reflexivity.
  assert (Hgone : Database.getUserById Sample.db 9 = None) by reflexivity.
  destruct (verify_ignores_store Sample.jwt_verify "former.token"
              (Claims.mk 9 "former@example.com" DOCTOR "Dr. Former") Hne Hsp Hok)
    as (Hverify & Hmissing & _).
  exact (conj Hne (conj Hsp (conj Hok (conj Hgone
           (conj Hverify (Hmissing Sample.db Hgone)))))).
Defined.

(** The sample quality reviewer asks for the list of conversations. *)
Lemma quality_cannot_list_conversations_witness :
  Auth.authenticateToken Sample.jwt_verify Sample.db (Some "Bearer quality.token")
  = inl Sample.quality
  /\ User.role Sample.quality = QUALITY
  /\ Conversations.GET_conversations Sample.jwt_verify Sample.db (Some "Bearer quality.token")
     = respond 500 (Failure "Failed to get conversations").
Proof.
  assert (Hauth : Auth.authenticateToken Sample.jwt_verify Sample.db
                    (Some "Bearer quality.token") = inl Sample.quality) by reflexivity.
  assert (Hrole : User.role Sample.quality = QUALITY) by reflexivity.
  exact (conj Hauth (conj Hrole
           (proj2 (quality_cannot_list_conversations Sample.jwt_verify Sample.db
                     (Some "Bearer quality.token") Sample.quality Hauth Hrole)))).
Defined.

(** The sample care-seeker asks for a one-to-one conversation with user 3,
who is not a responder. *)
Lemma one_to_one_needs_a_doctor_witness :
  Auth.authenticateToken Sample.jwt_verify Sample.db (Some "Bearer patient.token")
  = inl Sample.patient
  /\ Database.getUserById Sample.db 3 = Some Sample.patient
  /\ User.role Sample.patient <> DOCTOR
  /\ (let answer :=
        Conversations.POST_conversations Sample.jwt_verify "2024-03-05 12:00:00"
          (Some "thread-new") Sample.db (Some "Bearer patient.token")
          (CreateConversationRequest.mk (Some "Back pain") (Some "1to1") (Some 3)) in
      status (fst answer) = 400
      /\ DB.conversations (snd answer) = DB.conversations Sample.db
      /\ snd answer = Sample.db).
Proof.
  assert (Hauth : Auth.authenticateToken Sample.jwt_verify Sample.db
                    (Some "Bearer patient.token") = inl Sample.patient) by reflexivity.
  assert (Hrole : User.role Sample.patient = PATIENT) by reflexivity.
  assert (Hfound : Database.getUserById Sample.db 3 = Some Sample.patient) by reflexivity.
  assert (Hnot : User.role Sample.patient <> DOCTOR) by discriminate.
  split; [exact Hauth|]. split; [exact Hfound|]. split; [exact Hnot|].
  apply (one_to_one_needs_a_doctor Sample.jwt_verify "2024-03-05 12:00:00"
           (Some "thread-new") Sample.db (Some "Bearer patient.token") Sample.patient
           (Some "Back pain") (Some 3) Hauth Hrole).
  right; right. exists 3, Sample.patient.
  exact (conj eq_refl (conj Hfound Hnot)).
Defined.

(** The sample responder deletes conversation 1; the sample care-seeker is
refused. *)
Lemma delete_conversation_cascade_witness :
  Auth.authenticateToken Sample.jwt_verify Sample.db (Some "Bearer doctor.token")
  = inl Sample.doctor
  /\ Auth.authenticateToken Sample.jwt_verify Sample.db (Some "Bearer patient.token")
     = inl Sample.patient
  /\ Conversations.DELETE_conversation Sample.jwt_verify Sample.db
       (Some "Bearer patient.token") (Some 1)
     = (respond 403 (Message "Insufficient permissions"), Sample.db)
  /\ (let answer :=
        Conversations.DELETE_conversation Sample.jwt_verify Sample.db
          (Some "Bearer doctor.token") (Some 1) in
      fst answer = respond 200 (Success "Conversation deleted successfully")
      /\ DB.conversations (snd answer) = [Sample.cough; Sample.rash]
      /\ map Participant.id (DB.conversation_participants (snd answer)) = [3; 4]
      /\ map Metadata.id (DB.conversation_metadata (snd answer)) = [2]
      /\ map Attachment.id (DB.attachments (snd answer)) = [2]
      /\ DB.users (snd answer) = DB.users Sample.db).
Proof.
  assert (Hdoctor : Auth.authenticateToken Sample.jwt_verify Sample.db
                      (Some "Bearer doctor.token") = inl Sample.doctor) by reflexivity.
  assert (Hpatient : Auth.authenticateToken Sample.jwt_verify Sample.db
                       (Some "Bearer patient.token") = inl Sample.patient) by reflexivity.
  split; [exact Hdoctor|]. split; [exact Hpatient|]. split.
  - apply (proj1 (delete_conversation_cascade Sample.jwt_verify Sample.db
                    (Some "Bearer patient.token") Sample.patient Hpatient)).
    left. reflexivity.
  - destruct (proj2 (proj2 (delete_conversation_cascade Sample.jwt_verify Sample.db
                              (Some "Bearer doctor.token") Sample.doctor Hdoctor))
                1 Sample.knee (or_introl eq_refl) eq_refl)
      as (Hanswer & _ & Hparticipants & Hmetadata & Hattachments & Hconversations & Husers).
    cbv zeta. rewrite Hparticipants, Hmetadata, Hattachments, Hconversations.
    exact (conj Hanswer (conj eq_refl (conj eq_refl (conj eq_refl (conj eq_refl Husers))))).
Defined.

(** C1, as stated, fails twice.  The sample administrator uploads a small
PDF to an existing conversation while the object storage is not configured:
the type is allowed, the size is within the bound and the caller has access,
and the answer is 500, not 201.  With a working storage the administrator
uploads a PDF of one byte more than 50 MiB: the multipart middleware does
not hand it over, and the answer is the 500 of an error that nothing
handles, not 400. *)
Lemma upload_without_storage_is_refused :
  Auth.authenticateToken Sample.jwt_verify Sample.db (Some "Bearer admin.token")
  = inl Sample.admin
  /\ Database.getConversationById Sample.db 1 = Some Sample.knee
  /\ In (UploadedFile.mimetype Sample.pdf) Attachments.ALLOWED_FILE_TYPES
  /\ UploadedFile.size Sample.pdf <= 50 * 1024 * 1024
  /\ User.role Sample.admin = ADMIN
  /\ fst Sample.upload_without_storage
     = respond 500 (Failure "Azure Blob Storage not configured")
  /\ ~ (status (fst Sample.upload_without_storage) = 201
        <-> (In (UploadedFile.mimetype Sample.pdf) Attachments.ALLOWED_FILE_TYPES
             /\ UploadedFile.size Sample.pdf <= 50 * 1024 * 1024
             /\ User.role Sample.admin = ADMIN))
  /\ UploadedFile.size Sample.scan > 50 * 1024 * 1024
  /\ Sample.upload_too_large = (respond 500 ErrorPage, Sample.db)
  /\ status (fst Sample.upload_too_large) <> 400.
Proof.
  assert (Hallowed : In (UploadedFile.mimetype Sample.pdf) Attachments.ALLOWED_FILE_TYPES)
    by (cbn; tauto).
  assert (Hsize : UploadedFile.size Sample.pdf <= 50 * 1024 * 1024) by (cbn; lia).
  split; [reflexivity|]. split; [reflexivity|]. split; [exact Hallowed|].
  split; [exact Hsize|]. split; [reflexivity|]. split; [reflexivity|]. split.
  { intros [_ H]. specialize (H (conj Hallowed (conj Hsize eq_refl))). discriminate H. }
  split; [reflexivity|]. split; [reflexivity | discriminate].
Defined.

(** The same small upload with a working object storage is accepted, and
without one it is answered 500 and leaves the store as it was. *)
Lemma upload_accepts_iff_witness :
  Auth.authenticateToken Sample.jwt_verify Sample.db (Some "Bearer admin.token")
  = inl Sample.admin
  /\ Database.getConversationById Sample.db 1 = Some Sample.knee
  /\ status (fst (Attachments.POST_upload Sample.jwt_verify Sample.storage Sample.db
                    (Some "Bearer admin.token") (Some 1) (Some Sample.pdf)))
     = 201
  /\ status (fst Sample.upload_without_storage) = 500
  /\ snd Sample.upload_without_storage = Sample.db.
Proof.
  assert (Hauth : Auth.authenticateToken Sample.jwt_verify Sample.db
                    (Some "Bearer admin.token") = inl Sample.admin) by reflexivity.
  assert (Hfound : Database.getConversationById Sample.db 1 = Some Sample.knee)
    by reflexivity.
  assert (Hallowed : In (UploadedFile.mimetype Sample.pdf) Attachments.ALLOWED_FILE_TYPES)
    by (cbn; tauto).
  assert (Hsmall : UploadedFile.size Sample.pdf <= 50 * 1024 * 1024) by (cbn; lia).
  assert (Haccess :
            User.role Sample.admin = ADMIN
            \/ Database.is_participant Sample.db 1 (User.id Sample.admin) = true
            \/ Conversation.creator_id Sample.knee = User.id Sample.admin
            \/ (User.role Sample.admin = DOCTOR
                /\ Conversation.assigned_doctor_id Sample.knee
                   = Some (User.id Sample.admin)))
    by (left; reflexivity).
  assert (Hconn : BlobStorage.connectionString (Attachments.storage Sample.storage) <> None)
    by discriminate.
  assert (Hsas : BlobStorage.sasUrl (Attachments.storage Sample.storage) <> None)
    by discriminate.
  assert (Hnone : BlobStorage.connectionString (Attachments.storage Sample.no_storage) = None
                  \/ BlobStorage.sasUrl (Attachments.storage Sample.no_storage) = None)
    by (left; reflexivity).
  exact (conj Hauth (conj Hfound (conj
           (proj2 (proj1 (upload_accepts_iff Sample.jwt_verify Sample.storage Sample.db
                            (Some "Bearer admin.token") Sample.admin 1 Sample.knee Sample.pdf
                            Hauth Hfound))
                  (conj Hallowed (conj Hsmall (conj Haccess (conj Hconn Hsas)))))
           (proj1 (proj2 (upload_accepts_iff Sample.jwt_verify Sample.no_storage Sample.db
                            (Some "Bearer admin.token") Sample.admin 1 Sample.knee Sample.pdf
                            Hauth Hfound))
                  Hallowed Hsmall Haccess Hnone)))).
Defined.

(** The sample room of 1001 messages is read in two rounds: the loop is
still running after the first, full page, asks again from the time stamp of
its last message, and returns the older message followed by the page. *)
Lemma paged_room_is_read_in_two_rounds :
  RocketChat.getAllMessagesFromRoom Sample.getTime Sample.paged 1 = RocketChat.Running
  /\ RocketChat.cursor Sample.paged 1 = Some "2024-03-02T10:00:00Z"
  /\ RocketChat.getAllMessagesFromRoom Sample.getTime Sample.paged 2
     = RocketChat.Returned
         (Sample.message "m1" "2024-03-01T10:00:00Z" :: Sample.full_page).
Proof. repeat split; vm_compute; reflexivity. Qed.

(** The paging on that room, whose second batch is the short one. *)
Lemma getAllMessagesFromRoom_terminates_witness :
  (forall n, (n <= 1)%nat -> Sample.paged n (RocketChat.cursor Sample.paged n) <> None)
  /\ (List.length (RocketChat.batch Sample.paged 1) < 1000)%nat
  /\ exists (k : nat) (result : list RocketChatMessage.t),
       (k <= 1)%nat
       /\ (forall m, (m < k)%nat ->
             (1000 <= List.length (RocketChat.batch Sample.paged m))%nat
             /\ JS.falsy (RocketChat.last_ts (RocketChat.batch Sample.paged m)) = false
             /\ RocketChat.cursor Sample.paged (S m)
                = RocketChat.last_ts (RocketChat.batch Sample.paged m))
       /\ ((List.length (RocketChat.batch Sample.paged k) < 1000)%nat
           \/ JS.falsy (RocketChat.last_ts (RocketChat.batch Sample.paged k)) = true)
       /\ ((forall m, (m < 1)%nat ->
              (1000 <= List.length (RocketChat.batch Sample.paged m))%nat
              /\ JS.falsy (RocketChat.last_ts (RocketChat.batch Sample.paged m)) = false) ->
           k = 1%nat)
       /\ (forall fuel, (fuel <= k)%nat ->
             RocketChat.getAllMessagesFromRoom Sample.getTime Sample.paged fuel
             = RocketChat.Running)
       /\ (forall fuel, (k < fuel)%nat ->
             RocketChat.getAllMessagesFromRoom Sample.getTime Sample.paged fuel
             = RocketChat.Returned result)
       /\ result = RocketChat.sort Sample.getTime (RocketChat.fetched Sample.paged k)
       /\ Permutation result (RocketChat.fetched Sample.paged k)
       /\ (Forall (fun m => Sample.getTime (RocketChatMessage.ts m) <> None)
                  (RocketChat.fetched Sample.paged k) ->
           StronglySorted (RocketChat.not_after Sample.getTime) result)
       /\ (RocketChat.batch Sample.paged 0 = [] -> result = []).
Proof.
  assert (Hanswered : forall n, (n <= 1)%nat ->
                        Sample.paged n (RocketChat.cursor Sample.paged n) <> None).
  { intros n Hn. assert (n = 0 \/ n = 1)%nat as [-> | ->] by lia;
      vm_compute; discriminate. }
  assert (Hshort : (List.length (RocketChat.batch Sample.paged 1) < 1000)%nat).
  { apply Nat.ltb_lt. vm_compute. reflexivity. }
  exact (conj Hanswered (conj Hshort
           (getAllMessagesFromRoom_terminates Sample.getTime Sample.paged 1
              Hanswered Hshort))).
Defined.

(** C5, as stated, fails: the sample bundle has two responders, who become
users 6 and 7; the first responder of the bundle is user 6, and the imported
conversation, the fourth row of the table, is assigned to user 7. *)
Lemma import_does_not_assign_first_responder :
  ImportConversationData.participants Sample.bundle = Some Sample.bundle_participants
  /\ ImportRoutes.successful (ImportRoutes.results Sample.after_import) = 1
  /\ map User.id Sample.bundle_users = [5; 6; 7]
  /\ map User.role Sample.bundle_users = [PATIENT; DOCTOR; DOCTOR]
  /\ ImportRoutes.first_responder Sample.bundle_users = Some 6
  /\ map Conversation.assigned_doctor_id
         (DB.conversations (ImportRoutes.db Sample.after_import))
     = [Some 4; None; None; Some 7]
  /\ last (map Conversation.assigned_doctor_id
               (DB.conversations (ImportRoutes.db Sample.after_import))) None
     <> ImportRoutes.first_responder Sample.bundle_users.
Proof.
  vm_compute. repeat split. discriminate.
Defined.

(** The same bundle, by the amended statement. *)
Lemma import_assigns_last_responder_witness :
  ImportConversationData.participants Sample.bundle = Some Sample.bundle_participants
  /\ ImportRoutes.successful (ImportRoutes.results Sample.after_import)
     = ImportRoutes.successful (ImportRoutes.results Sample.before_import) + 1
  /\ exists conversation : Conversation.t,
       DB.conversations (ImportRoutes.db Sample.after_import)
       = (DB.conversations (ImportRoutes.db Sample.before_import) ++ [conversation])%list
       /\ Conversation.assigned_doctor_id conversation
          = ImportRoutes.last_responder Sample.bundle_users.
Proof.
  assert (Hparticipants : ImportConversationData.participants Sample.bundle
                          = Some Sample.bundle_participants) by reflexivity.
  assert (Hsuccess : ImportRoutes.successful (ImportRoutes.results Sample.after_import)
                     = ImportRoutes.successful (ImportRoutes.results Sample.before_import)
                       + 1)
    by (vm_compute; reflexivity).
  exact (conj Hparticipants (conj Hsuccess
           (import_assigns_last_responder Sample.import_env 1 Sample.before_import
              Sample.bundle Sample.bundle_participants Hparticipants Hsuccess))).
Defined.

(** The sample bundle imported twice into the sample store. *)
Lemma import_twice_skips_created_users_witness :
  In (Some "dr.jones@example.com", DOCTOR)
     (ImportRoutes.createdUsers (ImportRoutes.results Sample.first_run))
  /\ In (Some "dr.jones@example.com", "User already exists")
        (ImportRoutes.skippedUsers (ImportRoutes.results Sample.second_run))
  /\ exists e : string,
       Some "dr.jones@example.com" = Some e
       /\ ImportRoutes.rows_with_email (ImportRoutes.db Sample.second_run) e = 1%nat.
Proof.
  assert (Hcreated : In (Some "dr.jones@example.com", DOCTOR)
                        (ImportRoutes.createdUsers (ImportRoutes.results Sample.first_run)))
    by (vm_compute; right; left; reflexivity).
  exact (conj Hcreated
           (import_twice_skips_created_users Sample.import_env 1 Sample.db 0 [Sample.bundle]
              (Some "dr.jones@example.com") DOCTOR Hcreated)).
Defined.

(** The list of the sample responder: the three conversations, the newest
first. *)
Lemma conversations_are_listed_by_role_witness :
  User.role Sample.doctor <> QUALITY
  /\ exists listed : list Conversation.t,
       Conversations.list_handler Sample.db Sample.doctor
       = respond 200 (Success (map (Conversations.details Sample.db) listed))
       /\ StronglySorted
            (fun a b =>
               Analytics.text_le (Conversation.created_at b) (Conversation.created_at a))
            listed.
Proof.
  assert (h : User.role Sample.doctor <> QUALITY) by discriminate.
  destruct (conversations_are_listed_by_role Sample.db Sample.doctor h)
    as (listed & Hanswer & Hsorted & _).
  exact (conj h (ex_intro _ listed (conj Hanswer Hsorted))).
Defined.

(** The responder opens the first conversation of their list. *)
Lemma listed_conversation_can_be_opened_witness :
  Database.unique_conversation_ids Sample.db
  /\ Conversations.GET_conversations Sample.jwt_verify Sample.db (Some "Bearer doctor.token")
     = respond 200 (Success Sample.doctor_list)
  /\ In (Conversations.details Sample.db Sample.rash) Sample.doctor_list
  /\ Conversations.GET_conversation Sample.jwt_verify Sample.db (Some "Bearer doctor.token")
       (Some 3)
     = respond 200 (Success (Conversations.details Sample.db Sample.rash)).
Proof.
  assert (h1 : Database.unique_conversation_ids Sample.db).
  { unfold Database.unique_conversation_ids. cbn.
    repeat constructor; cbn; intuition discriminate. }
  assert (h2 : Conversations.GET_conversations Sample.jwt_verify Sample.db
                 (Some "Bearer doctor.token")
               = respond 200 (Success Sample.doctor_list)) by reflexivity.
  assert (h3 : In (Conversations.details Sample.db Sample.rash) Sample.doctor_list)
    by (left; reflexivity).
  exact (conj h1 (conj h2 (conj h3
           (listed_conversation_can_be_opened Sample.jwt_verify Sample.db
              (Some "Bearer doctor.token") Sample.doctor_list h1 h2
              (Conversations.details Sample.db Sample.rash) h3)))).
Defined.

(** A reviewer registers on the sample store and logs in. *)
Lemma register_then_login_witness :
  Sample.compareSync "secret1" (Sample.hashSync "secret1") = true
  /\ fst (AuthRoutes.POST_register Sample.hashSync "2024-03-05 12:00:00" Sample.db
            Sample.reviewer_request)
     = respond 201 (Success Sample.reviewer)
  /\ AuthRoutes.POST_login Sample.compareSync Sample.jwt_sign
       (snd (AuthRoutes.POST_register Sample.hashSync "2024-03-05 12:00:00" Sample.db
               Sample.reviewer_request))
       (Some "reviewer@example.com") (Some "secret1")
     = respond 200
         (Success (Sample.jwt_sign (Claims.mk 5 "reviewer@example.com" QUALITY "Reviewer"),
                   Sample.reviewer)).
Proof.
  assert (h1 : Sample.compareSync "secret1" (Sample.hashSync "secret1") = true)
    by reflexivity.
  assert (h2 : fst (AuthRoutes.POST_register Sample.hashSync "2024-03-05 12:00:00" Sample.db
                      Sample.reviewer_request)
               = respond 201 (Success Sample.reviewer)) by reflexivity.
  exact (conj h1 (conj h2
           (register_then_login Sample.hashSync Sample.compareSync Sample.jwt_sign
              "2024-03-05 12:00:00" Sample.db Sample.reviewer_request Sample.reviewer
              h1 h2))).
Defined.

(** The responder logs in on the sample store and is recognised by the
token. *)
Lemma login_token_authenticates_witness :
  Database.unique_user_ids Sample.db
  /\ AuthRoutes.POST_login Sample.compareSync Sample.jwt_sign Sample.db
       (Some "doctor@example.com") (Some "doctor123")
     = respond 200 (Success ("doctor.token", PublicUser.of_user Sample.doctor))
  /\ exists user : User.t,
       Auth.authenticateToken Sample.jwt_verify Sample.db (Some "Bearer doctor.token")
       = inl user
       /\ PublicUser.of_user user = PublicUser.of_user Sample.doctor.
Proof.
  assert (h1 : Database.unique_user_ids Sample.db).
  { unfold Database.unique_user_ids. cbn.
    repeat constructor; cbn; intuition discriminate. }
  assert (h2 : forall user : User.t,
             In user (DB.users Sample.db) ->
             Sample.jwt_verify (Auth.generateToken Sample.jwt_sign user)
             = Some (Claims.mk (User.id user) (User.email user) (User.role user)
                               (User.display_name user))).
  { intros user [<-|[<-|[<-|[<-|[]]]]]; reflexivity. }
  assert (h3 : "doctor.token" <> "") by discriminate.
  assert (h4 : JS.no_space "doctor.token" = true) by reflexivity.
  assert (h5 : AuthRoutes.POST_login Sample.compareSync Sample.jwt_sign Sample.db
                 (Some "doctor@example.com") (Some "doctor123")
               = respond 200 (Success ("doctor.token", PublicUser.of_user Sample.doctor)))
    by reflexivity.
  destruct (login_token_authenticates Sample.compareSync Sample.jwt_sign Sample.jwt_verify
              Sample.db (Some "doctor@example.com") (Some "doctor123") "doctor.token"
              (PublicUser.of_user Sample.doctor) h1 h2 h3 h4 h5)
    as (user & Hauth & Hpublic & _).
  exact (conj h1 (conj h5 (ex_intro _ user (conj Hauth Hpublic)))).
Defined.

(** A header with the scheme [Token] is read like one with [Bearer]. *)
Lemma authorization_scheme_is_not_checked_witness :
  JS.no_space "Token" = true
  /\ Auth.authenticateToken Sample.jwt_verify Sample.db (Some "Token doctor.token")
     = Auth.authenticateToken Sample.jwt_verify Sample.db (Some "Bearer doctor.token")
  /\ Auth.authenticateToken Sample.jwt_verify Sample.db (Some "Token")
     = inr (Auth.refuse 401 "Access token required").
Proof.
  assert (h : JS.no_space "Token" = true) by reflexivity.
  exact (conj h (authorization_scheme_is_not_checked Sample.jwt_verify Sample.db
                   "Token" "doctor.token" h)).
Defined.

(** The responder joins the open conversation 2. *)
Lemma join_makes_participant_witness :
  Auth.authenticateToken Sample.jwt_verify Sample.db (Some "Bearer doctor.token")
  = inl Sample.doctor
  /\ Database.getConversationById Sample.db 2 = Some Sample.cough
  /\ Database.is_participant Sample.db 2 4 = false
  /\ Database.is_participant
       (snd (Conversations.POST_join Sample.jwt_verify "2024-03-05 12:00:00" Sample.db
               (Some "Bearer doctor.token") (Some 2))) 2 4 = true.
Proof.
  assert (h1 : Auth.authenticateToken Sample.jwt_verify Sample.db
                 (Some "Bearer doctor.token") = inl Sample.doctor) by reflexivity.
  assert (h2 : User.role Sample.doctor = DOCTOR \/ User.role Sample.doctor = ADMIN)
    by (left; reflexivity).
  assert (h3 : Database.getConversationById Sample.db 2 = Some Sample.cough)
    by reflexivity.
  assert (h4 : User.role Sample.doctor = ADMIN
               \/ Conversation.type Sample.cough = ONE_TO_MANY) by (right; reflexivity).
  assert (h5 : Database.is_participant Sample.db 2 4 = false) by reflexivity.
  destruct (proj2 (join_makes_participant Sample.jwt_verify "2024-03-05 12:00:00"
                     "2024-03-05 12:05:00" Sample.db (Some "Bearer doctor.token")
                     Sample.doctor 2 Sample.cough h1 h2 h3) h4)
    as (_ & Hjoined & _).
  exact (conj h1 (conj h3 (conj h5 Hjoined))).
Defined.

(** The administrator archives conversation 1. *)
Lemma update_changes_status_only_witness :
  Auth.authenticateToken Sample.jwt_verify Sample.db (Some "Bearer admin.token")
  = inl Sample.admin
  /\ Database.getConversationById Sample.db 1 = Some Sample.knee
  /\ Conversations.may_update Sample.db Sample.admin Sample.knee 1 = true
  /\ fst (Conversations.PATCH_conversation Sample.jwt_verify Sample.db
            (Some "Bearer admin.token") (Some 1) (Some "archived"))
     = respond 200
         (Success (Some (Conversation.mk 1 "Knee pain" ONE_TO_ONE 3 ARCHIVED "thread-knee"
                                         "2024-03-02 10:15:00" (Some 4)))).
Proof.
  assert (h1 : Auth.authenticateToken Sample.jwt_verify Sample.db
                 (Some "Bearer admin.token") = inl Sample.admin) by reflexivity.
  assert (h2 : User.role Sample.admin = DOCTOR \/ User.role Sample.admin = ADMIN)
    by (right; reflexivity).
  assert (h3 : Database.getConversationById Sample.db 1 = Some Sample.knee)
    by reflexivity.
  assert (h4 : Conversations.may_update Sample.db Sample.admin Sample.knee 1 = true)
    by reflexivity.
  exact (conj h1 (conj h3 (conj h4
           (proj1 (proj1 (update_changes_status_only Sample.jwt_verify Sample.db
                            (Some "Bearer admin.token") Sample.admin 1 Sample.knee
                            h1 h2 h3 h4) ARCHIVED))))).
Defined.

(** The care-seeker opens a [1to1] conversation with the responder. *)
Lemma created_conversation_is_recorded_witness :
  Auth.authenticateToken Sample.jwt_verify Sample.db (Some "Bearer patient.token")
  = inl Sample.patient
  /\ Database.getUserById Sample.db 4 = Some Sample.doctor
  /\ exists id : Z,
       fst (Conversations.POST_conversations Sample.jwt_verify "2024-03-05 12:00:00"
              (Some "thread-new") Sample.db (Some "Bearer patient.token")
              (CreateConversationRequest.mk (Some "Back pain") (Some "1to1") (Some 4)))
       = respond 201
           (Success (Some (Conversation.mk id "Back pain" ONE_TO_ONE 3 ACTIVE "thread-new"
                                           "2024-03-05 12:00:00" (Some 4)),
                     "thread-new")).
Proof.
  assert (h1 : Auth.authenticateToken Sample.jwt_verify Sample.db
                 (Some "Bearer patient.token") = inl Sample.patient) by reflexivity.
  assert (h2 : User.role Sample.patient = PATIENT) by reflexivity.
  assert (h3 : "Back pain" <> "") by discriminate.
  assert (h4 : "thread-new" <> "") by discriminate.
  assert (h5 : forall c, In c (DB.conversations Sample.db) ->
                         Conversation.thread_id c <> "thread-new").
  { intros c [<-|[<-|[<-|[]]]]; discriminate. }
  assert (h6 : Database.getUserById Sample.db 4 = Some Sample.doctor) by reflexivity.
  assert (h7 : ONE_TO_ONE = ONE_TO_ONE ->
               exists (d : Z) (doctor : User.t),
                 Some 4 = Some d /\ d <> 0
                 /\ Database.getUserById Sample.db d = Some doctor
                 /\ User.role doctor = DOCTOR).
  { intros _. exists 4, Sample.doctor.
    split; [reflexivity|]. split; [discriminate|]. split; reflexivity. }
  destruct (created_conversation_is_recorded Sample.jwt_verify "2024-03-05 12:00:00"
              Sample.db (Some "Bearer patient.token") Sample.patient "Back pain"
              "thread-new" ONE_TO_ONE (Some 4) h1 h2 h3 h4 h5 h7)
    as (id & Hanswer & _).
  exact (conj h1 (conj h6 (ex_intro _ id Hanswer))).
Defined.

(** The care-seeker uploads the PDF to conversation 1 and finds it in the
list. *)
Lemma uploaded_attachment_is_listed_witness :
  Sample.upload = (respond 201 (Success Sample.uploaded), snd Sample.upload)
  /\ exists (attachment : Attachment.t) (listed : list ListedAttachment.t),
       Database.getAttachmentById (snd Sample.upload) 3 = Some attachment
       /\ Attachments.GET_attachments Sample.jwt_verify (snd Sample.upload)
            (Some "Bearer patient.token") (Some 1)
          = respond 200 (Success listed)
       /\ In (ListedAttachment.mk 3 "report.pdf" 2048 "application/pdf" "John Doe"
                                  "2024-03-05 12:00:00")
             listed.
Proof.
  assert (h : Attachments.POST_upload Sample.jwt_verify Sample.storage Sample.db
                (Some "Bearer patient.token") (Some 1) (Some Sample.pdf)
              = (respond 201 (Success Sample.uploaded), snd Sample.upload))
    by reflexivity.
  destruct (uploaded_attachment_is_listed Sample.jwt_verify Sample.storage Sample.db
              (snd Sample.upload) (Some "Bearer patient.token") 1 Sample.pdf
              Sample.uploaded h)
    as (user & attachment & listed & Hauth & _ & _ & _ & _ & _ & _ & _ & _ & _
        & Hfound & Hlist & Hin & _).
  assert (Huser : user = Sample.patient).
  { assert (E : inl user = @inl User.t Auth.Refusal Sample.patient)
      by (rewrite <- Hauth; reflexivity).
    now injection E. }
  rewrite Huser in Hin.
  exact (conj h (ex_intro _ attachment (ex_intro _ listed (conj Hfound (conj Hlist Hin))))).
Defined.

(** The care-seeker deletes the attachment they uploaded; the responder
may not. *)
Lemma attachment_is_deleted_by_uploader_or_admin_witness :
  Auth.authenticateToken Sample.jwt_verify Sample.db (Some "Bearer patient.token")
  = inl Sample.patient
  /\ Database.getAttachmentById Sample.db 1 = Some Sample.knee_png
  /\ Attachment.uploader_id Sample.knee_png = User.id Sample.patient
  /\ fst (Attachments.DELETE_attachment Sample.jwt_verify Sample.db
            (Some "Bearer patient.token") (Some 1))
     = respond 200 (Success "Attachment deleted successfully")
  /\ Attachments.DELETE_attachment Sample.jwt_verify Sample.db
       (Some "Bearer doctor.token") (Some 1)
     = (respond 403 (Failure "Only the uploader or admin can delete this attachment"),
        Sample.db).
Proof.
  assert (h1 : Auth.authenticateToken Sample.jwt_verify Sample.db
                 (Some "Bearer patient.token") = inl Sample.patient) by reflexivity.
  assert (h2 : Database.getAttachmentById Sample.db 1 = Some Sample.knee_png)
    by reflexivity.
  assert (h3 : Attachment.uploader_id Sample.knee_png = User.id Sample.patient)
    by reflexivity.
  assert (g1 : Auth.authenticateToken Sample.jwt_verify Sample.db
                 (Some "Bearer doctor.token") = inl Sample.doctor) by reflexivity.
  assert (g2 : User.role Sample.doctor <> ADMIN
               /\ Attachment.uploader_id Sample.knee_png <> User.id Sample.doctor)
    by (split; discriminate).
  exact (conj h1 (conj h2 (conj h3 (conj
           (proj1 (proj2 (attachment_is_deleted_by_uploader_or_admin Sample.jwt_verify
                            Sample.db (Some "Bearer patient.token") Sample.patient 1
                            Sample.knee_png h1 h2) (or_intror h3)))
           (proj1 (attachment_is_deleted_by_uploader_or_admin Sample.jwt_verify
                     Sample.db (Some "Bearer doctor.token") Sample.doctor 1
                     Sample.knee_png g1 h2) g2))))).
Defined.

(** The quality user is refused both the list of conversation 1's
attachments and the download of one of them. *)
Lemma download_follows_list_access_witness :
  Database.getAttachmentById Sample.db 1 = Some Sample.knee_png
  /\ Database.getConversationById Sample.db (Attachment.conversation_id Sample.knee_png)
     = Some Sample.knee
  /\ (status (Attachments.download_handler (Attachments.storage Sample.storage)
                "2024-03-05T13:00:00.000Z" Sample.db Sample.quality (Some 1)) = 403
      <-> status (Attachments.list_handler Sample.db Sample.quality
                    (Some (Attachment.conversation_id Sample.knee_png))) = 403).
Proof.
  assert (h1 : Database.getAttachmentById Sample.db 1 = Some Sample.knee_png)
    by reflexivity.
  assert (h2 : Database.getConversationById Sample.db
                 (Attachment.conversation_id Sample.knee_png) = Some Sample.knee)
    by reflexivity.
  exact (conj h1 (conj h2
           (proj1 (download_follows_list_access (Attachments.storage Sample.storage)
                     "2024-03-05T13:00:00.000Z" Sample.db Sample.quality 1
                     Sample.knee_png Sample.knee h1 h2)))).
Defined.

(** The responder exports conversation 3. *)
Lemma export_is_not_access_checked_witness :
  Auth.authenticateToken Sample.jwt_verify Sample.db (Some "Bearer doctor.token")
  = inl Sample.doctor
  /\ Database.getConversationById Sample.db 3 = Some Sample.rash
  /\ exists data : ConversationExport.t,
       ConversationExport.GET_export Sample.jwt_verify Sample.getThreadMessages
         "2024-03-05T12:00:00.000Z" Sample.db (Some "Bearer doctor.token") (Some 3)
       = respond 200 (Success data)
       /\ ConversationExport.exported_by data = (4, "Dr. Smith").
Proof.
  assert (h1 : Auth.authenticateToken Sample.jwt_verify Sample.db
                 (Some "Bearer doctor.token") = inl Sample.doctor) by reflexivity.
  assert (h2 : User.role Sample.doctor = DOCTOR \/ User.role Sample.doctor = ADMIN)
    by (left; reflexivity).
  assert (h3 : Database.getConversationById Sample.db 3 = Some Sample.rash)
    by reflexivity.
  destruct (proj1 (export_is_not_access_checked Sample.jwt_verify Sample.getThreadMessages
                     "2024-03-05T12:00:00.000Z" Sample.db (Some "Bearer doctor.token")
                     Sample.doctor 3 Sample.rash h1 h2 h3))
    as (data & Hanswer & _ & _ & _ & _ & Hby).
  exact (conj h1 (conj h3 (ex_intro _ data (conj Hanswer Hby)))).
Defined.

(** The care-seeker asks for the responders of the sample store. *)
Lemma doctors_are_listed_witness :
  Auth.authenticateToken Sample.jwt_verify Sample.db (Some "Bearer patient.token")
  = inl Sample.patient
  /\ exists doctors : list User.t,
       Users.GET_doctors Sample.jwt_verify Sample.db (Some "Bearer patient.token")
       = respond 200
           (Success (map (fun d => (User.id d, User.display_name d, User.email d)) doctors))
       /\ forall u : User.t,
            In u doctors <-> In u (DB.users Sample.db) /\ User.role u = DOCTOR.
Proof.
  assert (h : Auth.authenticateToken Sample.jwt_verify Sample.db
                (Some "Bearer patient.token") = inl Sample.patient) by reflexivity.
  destruct (doctors_are_listed Sample.jwt_verify Sample.db (Some "Bearer patient.token")
              Sample.patient h)
    as (doctors & Hanswer & _ & Hmem & _).
  exact (conj h (ex_intro _ doctors (conj Hanswer Hmem))).
Defined.

(** The care-seeker picks the listed responder for a [1to1]
conversation. *)
Lemma listed_doctor_is_a_valid_assignment_witness :
  Database.unique_user_ids Sample.db
  /\ Users.GET_doctors Sample.jwt_verify Sample.db (Some "Bearer patient.token")
     = respond 200 (Success [(4, "Dr. Smith", "doctor@example.com")])
  /\ exists created : Conversation.t,
       fst (Conversations.POST_conversations Sample.jwt_verify "2024-03-05 12:00:00"
              (Some "thread-new") Sample.db (Some "Bearer patient.token")
              (CreateConversationRequest.mk (Some "Back pain") (Some "1to1") (Some 4)))
       = respond 201 (Success (Some created, "thread-new"))
       /\ Conversation.assigned_doctor_id created = Some 4.
Proof.
  assert (h1 : Database.unique_user_ids Sample.db).
  { unfold Database.unique_user_ids. cbn.
    repeat constructor; cbn; intuition discriminate. }
  assert (h2 : Forall (fun u => User.id u <> 0) (DB.users Sample.db)).
  { repeat constructor; discriminate. }
  assert (h3 : Auth.authenticateToken Sample.jwt_verify Sample.db
                 (Some "Bearer patient.token") = inl Sample.patient) by reflexivity.
  assert (h4 : User.role Sample.patient = PATIENT) by reflexivity.
  assert (h5 : Users.GET_doctors Sample.jwt_verify Sample.db (Some "Bearer patient.token")
               = respond 200 (Success [(4, "Dr. Smith", "doctor@example.com")]))
    by reflexivity.
  assert (h6 : In (4, "Dr. Smith", "doctor@example.com")
                  [(4, "Dr. Smith", "doctor@example.com")]) by (left; reflexivity).
  assert (h7 : "Back pain" <> "") by discriminate.
  assert (h8 : "thread-new" <> "") by discriminate.
  assert (h9 : forall c, In c (DB.conversations Sample.db) ->
                         Conversation.thread_id c <> "thread-new").
  { intros c [<-|[<-|[<-|[]]]]; discriminate. }
  destruct (listed_doctor_is_a_valid_assignment Sample.jwt_verify "2024-03-05 12:00:00"
              Sample.db (Some "Bearer patient.token") Sample.patient "Back pain"
              "thread-new" [(4, "Dr. Smith", "doctor@example.com")] 4 "Dr. Smith"
              "doctor@example.com" h1 h2 h3 h4 h5 h6 h7 h8 h9)
    as (created & Hanswer & Hassigned & _).
  exact (conj h1 (conj h5 (ex_intro _ created (conj Hanswer Hassigned)))).
Defined.

(** The export of the sample server: the channel is left out, the direct
room is exported and the importer takes it. *)
Lemma exported_conversations_are_importable_witness :
  RocketChatExporter.exportDirectMessages Sample.world 2
  = RocketChat.Returned [Sample.exported_room]
  /\ ImportRoutes.checked_participants (ExportedConversation.as_import Sample.exported_room)
     = ExportedConversation.participants Sample.exported_room
  /\ ExportedConversation.message_count Sample.exported_room = 2.
Proof.
  assert (h1 : RocketChatExporter.exportDirectMessages Sample.world 2
               = RocketChat.Returned [Sample.exported_room]) by reflexivity.
  assert (h2 : In Sample.exported_room [Sample.exported_room]) by (left; reflexivity).
  destruct (exported_conversations_are_importable Sample.world 2 [Sample.exported_room] h1
              Sample.exported_room h2)
    as (_ & _ & _ & _ & _ & Hcount & Hchecked & _).
  exact (conj h1 (conj Hchecked Hcount)).
Defined.

(** The sample server sends a full page of a thousand messages and fails
on the second request: the run throws in its second round, and the thousand
messages are not returned. *)
Lemma paging_failure_is_rethrown_witness :
  Sample.breaks_after_first_page 0%nat None = Some Sample.full_page
  /\ List.length Sample.full_page = 1000%nat
  /\ Sample.breaks_after_first_page 1%nat
       (RocketChat.cursor Sample.breaks_after_first_page 1) = None
  /\ RocketChat.getAllMessagesFromRoom Sample.getTime Sample.breaks_after_first_page 2
     = RocketChat.Threw.
Proof.
  assert (h0 : Sample.breaks_after_first_page 0%nat None = Some Sample.full_page)
    by reflexivity.
  assert (hlen : List.length Sample.full_page = 1000%nat) by (vm_compute; reflexivity).
  assert (h1 : forall n, (n < 1)%nat ->
                         exists messages,
                           Sample.breaks_after_first_page n
                             (RocketChat.cursor Sample.breaks_after_first_page n)
                           = Some messages
                           /\ (1000 <= List.length messages)%nat
                           /\ JS.falsy (RocketChat.last_ts messages) = false).
  { intros n Hn. assert (n = 0)%nat as -> by lia. exists Sample.full_page.
    split; [reflexivity|]. split; [rewrite hlen; lia | vm_compute; reflexivity]. }
  assert (h2 : Sample.breaks_after_first_page 1%nat
                 (RocketChat.cursor Sample.breaks_after_first_page 1) = None)
    by (vm_compute; reflexivity).
  assert (h3 : (1 < 2)%nat) by lia.
  exact (conj h0 (conj hlen (conj h2
           (paging_failure_is_rethrown Sample.getTime Sample.breaks_after_first_page
              1%nat h1 h2 2%nat h3)))).
Defined.

(** The sample bundle is imported: its three users are participants of
the new conversation, which the first of them created. *)
Lemma imported_conversation_has_its_participants_witness :
  ImportConversationData.participants Sample.bundle = Some Sample.bundle_participants
  /\ ImportRoutes.successful (ImportRoutes.results Sample.after_import)
     = ImportRoutes.successful (ImportRoutes.results Sample.before_import) + 1
  /\ exists (conversation : Conversation.t) (first : User.t) (others : list User.t),
       DB.conversations (ImportRoutes.db Sample.after_import)
       = (DB.conversations (ImportRoutes.db Sample.before_import) ++ [conversation])%list
       /\ Sample.bundle_users = first :: others
       /\ Conversation.creator_id conversation = User.id first.
Proof.
  assert (h1 : ImportConversationData.participants Sample.bundle
               = Some Sample.bundle_participants) by reflexivity.
  assert (h2 : ImportRoutes.successful (ImportRoutes.results Sample.after_import)
               = ImportRoutes.successful (ImportRoutes.results Sample.before_import) + 1)
    by reflexivity.
  destruct (imported_conversation_has_its_participants Sample.import_env 1
              Sample.before_import Sample.bundle Sample.bundle_participants h1 h2)
    as (conversation & first & others & Hconvs & Hres & Hcreator & _).
  exact (conj h1 (conj h2
           (ex_intro _ conversation
              (ex_intro _ first (ex_intro _ others (conj Hconvs (conj Hres Hcreator))))))).
Defined.

(** The reviewer registers twice. *)
Lemma registered_email_is_taken_witness :
  fst (AuthRoutes.POST_register Sample.hashSync "2024-03-05 12:00:00" Sample.db
         Sample.reviewer_request)
  = respond 201 (Success Sample.reviewer)
  /\ AuthRoutes.POST_register Sample.hashSync "2024-03-05 12:01:00"
       (snd (AuthRoutes.POST_register Sample.hashSync "2024-03-05 12:00:00" Sample.db
               Sample.reviewer_request))
       Sample.reviewer_request
     = (respond 400 (Failure "User already exists"),
        snd (AuthRoutes.POST_register Sample.hashSync "2024-03-05 12:00:00" Sample.db
               Sample.reviewer_request)).
Proof.
  assert (h : fst (AuthRoutes.POST_register Sample.hashSync "2024-03-05 12:00:00" Sample.db
                     Sample.reviewer_request)
              = respond 201 (Success Sample.reviewer)) by reflexivity.
  exact (conj h
           (proj2 (registered_email_is_taken Sample.hashSync Sample.hashSync
                     "2024-03-05 12:00:00" "2024-03-05 12:01:00" Sample.db
                     Sample.reviewer_request Sample.reviewer h))).
Defined.

(** Conversation 4 is created and deleted; the next one is conversation
5. *)
Lemma conversation_ids_are_not_reused_witness :
  Sample.first_created = Some (4, Sample.after_first)
  /\ Sample.second_created = Some (5, Sample.after_second)
  /\ 4 < 5
  /\ Attachments.containerName 4 <> Attachments.containerName 5.
Proof.
  assert (h1 : Database.createConversation "2024-03-05 12:00:00" Sample.db "Back pain"
                 ONE_TO_MANY 3 "thread-back" None
               = Some (4, Sample.after_first)) by reflexivity.
  assert (h2 : Database.createConversation "2024-03-05 13:00:00"
                 (fold_left Database.deleteConversation [4] Sample.after_first) "Headache"
                 ONE_TO_MANY 3 "thread-head" None
               = Some (5, Sample.after_second)) by reflexivity.
  destruct (conversation_ids_are_not_reused "2024-03-05 12:00:00" "2024-03-05 13:00:00"
              Sample.db Sample.after_first Sample.after_second "Back pain" "Headache"
              "thread-back" "thread-head" ONE_TO_MANY ONE_TO_MANY 3 3 None None 4 5 [4]
              h1 h2)
    as (Hlt & _ & Hnames).
  exact (conj h1 (conj h2 (conj Hlt Hnames))).
Defined.


(** On the sample store nobody is paired twice with a conversation, and
the responder who joins conversation 2 twice is listed once. *)
Lemma participants_are_listed_once_witness :
  Database.unique_participants Sample.db
  /\ Database.unique_user_ids Sample.db
  /\ NoDup (map User.id
              (Database.getConversationParticipants
                 (Database.addParticipantToConversation "2024-03-05 12:05:00"
                    (Database.addParticipantToConversation "2024-03-05 12:00:00"
                       Sample.db 2 4) 2 4) 2)).
Proof.
  assert (h1 : Database.unique_participants Sample.db).
  { unfold Database.unique_participants. cbn.
    repeat constructor; cbn; intuition discriminate. }
  assert (h2 : Database.unique_user_ids Sample.db).
  { unfold Database.unique_user_ids. cbn.
    repeat constructor; cbn; intuition discriminate. }
  exact (conj h1 (conj h2
           (proj2 (proj2 (proj2 (proj2 (participants_are_listed_once Sample.db h1)))) h2
              "2024-03-05 12:00:00" "2024-03-05 12:05:00" 2 4))).
Defined.

(** The export of the sample server, room by room. *)
Lemma export_skips_failing_rooms_witness :
  RocketChatExporter.authenticate Sample.world = true
  /\ RocketChatExporter.exportDirectMessages Sample.world 2
     = RocketChat.Returned
         (flat_map (fun room =>
                      if String.eqb (RocketChatRoom.t_ room) "d"
                      then match RocketChatExporter.export_room Sample.world 2 room with
                           | RocketChatExporter.Exported c => [c]
                           | _ => []
                           end
                      else [])
                   [ RocketChatRoom.mk "room-1" None None "d" (Some "2024-03-01T09:00:00Z");
                     RocketChatRoom.mk "general" (Some "general") None "c"
                                       (Some "2024-01-01T00:00:00Z") ]).
Proof.
  assert (h1 : RocketChatExporter.authenticate Sample.world = true) by reflexivity.
  assert (h2 : RocketChatExporter.im_list Sample.world
               = Some [ RocketChatRoom.mk "room-1" None None "d"
                                          (Some "2024-03-01T09:00:00Z");
                        RocketChatRoom.mk "general" (Some "general") None "c"
                                          (Some "2024-01-01T00:00:00Z") ]) by reflexivity.
  assert (h3 : forall room,
             In room [ RocketChatRoom.mk "room-1" None None "d"
                                         (Some "2024-03-01T09:00:00Z");
                       RocketChatRoom.mk "general" (Some "general") None "c"
                                         (Some "2024-01-01T00:00:00Z") ] ->
             RocketChatRoom.t_ room = "d" ->
             RocketChatExporter.export_room Sample.world 2 room
             <> RocketChatExporter.Unfinished).
  { intros room [<-|[<-|[]]] _; discriminate. }
  exact (conj h1 (proj2 (export_skips_failing_rooms Sample.world 2) _ h1 h2 h3)).
Defined.

(** The aggregate of the sample store from 2 March to the last second of
4 March. *)
Lemma aggregate_is_consistent_witness :
  Analytics.valid_bound "2024-03-02" = true
  /\ Analytics.valid_bound "2024-03-04 23:59:59" = true
  /\ let a :=
       Analytics.getAnalytics Sample.DATE Sample.db (Some "2024-03-02")
         (Some "2024-03-04 23:59:59") in
     Analytics.total_count (Analytics.conversationsPerDay a)
     = Analytics.totalConversations a
     /\ NoDup (map Analytics.date (Analytics.conversationsPerDay a))
     /\ Forall (fun row => 1 <= Analytics.count row) (Analytics.conversationsPerDay a)
     /\ 0 <= Analytics.openConversations a <= Analytics.totalConversations a
     /\ (JS.falsy (Some "2024-03-02") = true \/ JS.falsy (Some "2024-03-04 23:59:59") = true ->
         a = Analytics.getAnalytics Sample.DATE Sample.db None None
         /\ Analytics.totalConversations a
            = Z.of_nat (List.length (DB.conversations Sample.db))).
Proof.
  assert (h : forall s e : string,
             Some "2024-03-02" = Some s -> Some "2024-03-04 23:59:59" = Some e ->
             s <> "" -> e <> "" ->
             Analytics.valid_bound s = true /\ Analytics.valid_bound e = true).
  { intros s e Hs He _ _. injection Hs as <-. injection He as <-. split; reflexivity. }
  exact (conj eq_refl (conj eq_refl
           (aggregate_is_consistent Sample.DATE Sample.db (Some "2024-03-02")
              (Some "2024-03-04 23:59:59") h))).
Defined.
